(* ===== verification/_CoqProject ===== *)
-Q . S2P
Prelude.v
Config.v
Cstring.v
Frame.v
Regs.v
Hw.v
Sim.v
Logic.v
Monitor.v
Setup.v
Runner.v
Sweep.v
Machine.v
FrameEq.v
Board.v
Cli.v
Numbers.v
Footprint.v
Protocol.v
Safety.v
Typing.v
Session.v
Reset.v
