(* ===== verification/Prelude.v ===== *)
(** * Verification of the Rockchip Ethernet loopback diagnostic (kosvik/u-boot)

    The program under verification is [src/test/rockchip/test-eth.c], the
    [rktest eth] command of a U-Boot board-support tree, together with the
    board header [src/include/configs/z28pro_rk3328.h].  The command drives
    an Ethernet PHY into loopback, patches a test frame with two sentinel
    bytes per (tx_delay, rx_delay) pair, sends it, polls the receive path
    and compares what came back.  Everything it touches besides its own
    frame buffer is a collaborator outside the repository excerpt: MAC and
    PHY registers, the network stack, the driver-model lookup, the command
    interpreter, the console and the busy-wait timer.

    ** Files, in dependency order

    - [Prelude] (this file): machine integers as [Z] with their wrap-around
      written out ([wrap], [swrap], [u32], [u16], [u64], [s32]), C's bit
      assignments [v |= m] and [v &= ~m] ([setb], [clrb]) with their
      [Z.testbit] specifications and range lemmas, the result type [res]
      ([Ok], [UB] for undefined behaviour, [OutOfFuel]) with its monad,
      byte memory as [list byte] with [load], [memset], [memcpy] and
      [overwrite], the tactics [wrap_solve], [bits_solve] and
      [res_simpl], and the hint databases [c_int] and [c_mem].
    - [Config]: the three constants of [z28pro_rk3328.h] (lines 7-18) as
      a record, and how the DRAM bank size evaluates at its type.
    - [Cstring]: C strings as [string] without NUL, and [strncmp],
      [strncat] and [strtoul] written from their documented behaviour.
    - [Frame]: [create_lbtest_frame], [alter_lbtest_frame] and
      [check_lbtest_frame] (lines 56-82), acting on a byte memory through
      an offset so that the payload pointer [tx_pkt = net_tx_packet + 14]
      aliases the packet that is sent and compared.
    - [Regs]: the MAC configuration bits and the loopback speeds (lines
      21-38), the BMCR bits, and the two register computations of
      [eth_setup_loopback_test] (lines 96-125) as the pure functions
      [mac_conf_for] and [bmcr_for].
    - [Hw]: the collaborator interface as the typeclass [Platform] over an
      abstract device state, the law classes [RegisterFile] and
      [RxBuffers], the event type [event] (one constructor per external
      call), the [world] record (device state, trace, the [net_tx_packet]
      buffer), the state-and-result monad [M] with the tactic [run], and
      the counted loop [for_u32] with its unfolding as a traversal of
      [seqZ] and its termination rule.
    - [Sim]: a simulated board, an [Instance] of [Platform] whose PHY
      loops frames back only inside a window of delay-line values; it
      discharges the law classes and provides the concrete inputs of the
      witnesses.
    - [Logic]: the counted loop as an inductive relation [loop_run]
      (exit, return from the body, next pass, undefined behaviour), its
      agreement with [for_u32], and partial-correctness triples for the
      monad whose loop rule is proved by induction on the relation.
    - [Monitor]: state machines that read the trace, oldest call first
      ([state_after]), and the judgement [obeys]: a computation makes only
      calls the machine allows and leaves it in a state of the
      postcondition.  Its rules follow the monad; the loop rule is the
      one of [Logic].
    - [Setup]: [get_current_phydev] (lines 43-54) and
      [eth_setup_loopback_test] (lines 84-126) in [M].
    - [Runner]: [eth_run_loopback_test] (lines 128-203: both loops, the
      early return of the single-shot mode, [ret] unassigned until a probe
      ends) split into [lb_transmit], [lb_classify] and [lb_release];
      [ethernet_init] (205-219) and [eth_loopback_test] (221-240); the
      single-shot theorems.
    - [Sweep]: the specification of a sweep (the log of probes that
      [probe_rows] computes, its trace, its verdict), the refinement
      theorem that [eth_run_loopback_test] implements it, and what follows
      from the specification.
    - [Machine]: [eth_run_loopback_test] once more, as the transition
      system over the configurations [Init], [Row], [PerPairTest],
      [Aggregate] and [Done]: the step relation [lb_step], the step
      function [lb_next] that decides it, the run [lb_exec] on fuel, the
      measure [steps_left] and the invariant [config_inv].  The
      continuation [resume] of the function at a configuration ties the
      machine to the nested loops of [Runner].
    - [FrameEq]: the equivalence of buffers that agree on the 1514 bytes
      of the frame, with [Proper] instances for tagging, sending and
      classifying, lifted to probes, rows and sweeps.
    - [Board]: the sweep on a simulated board whose link works for a
      window of delays: the outcome of every probe, known in advance.
    - [Cli]: [do_eth_help] and [board_eth_test] (lines 242-309) with the
      argument loop that fills [cmd_eth]; the specification of the dispatch
      [route_of] and its refinement theorem; the two test commands from
      the command line to the verdict.
    - [Numbers]: the decimal numerals of the command line: [strtoul]
      reads back what [%d] prints, and the speed of [rktest eth loopback]
      is the numeral truncated to an [int].
    - [Footprint]: the kinds of external call ([call]), the device
      properties no call of a kind can break ([stable]), and the
      judgement [confined]: a computation makes only calls of given
      kinds.  The footprint of every function, and of every command line
      by its route, with the transmit buffer it leaves no shorter; the
      law classes [QuietLookups] (no call changes the current device or
      bus) and [QuietRegisters] (only register writes change the
      registers), and what the registers hold when a test returns.
    - [Protocol]: the order in which the network driver may be called, as
      a monitor whose states are those of the link ([Unknown], [Halted],
      [Failed], [Started], [Sent], [Holding]): halt before set-current
      and init, halt after a failed init, send on a started device, one
      receive per send, free of the buffer handed out before the next
      send.  Every function from [lb_transmit] up to [board_eth_test] is
      proved to keep to it, on every platform.
    - [Safety]: when the command is defined.  The law class
      [KeepsBuffers] (the calls that change the device keep the receive
      buffers and the station address intact), the predicate
      [command_defined] on argument lists and worlds, and the proof that
      the command returns a value exactly there.
    - [Typing]: what the C types of the external calls and of the
      loop-carried variables allow ([event_wf], [lb_state_wf]), as a
      monitor without state that every function of the diagnostic obeys.
    - [Session]: command lines run one after another ([run_session]),
      each from the world the one before it left; the invariants of the
      single command carried over sessions, the registers after two
      tests in a row, and, with the law class [SteadyBuffers] (no call
      takes the buffers away), the sessions that are defined.
    - [Reset]: a second instance of [Platform], the simulated board
      behind a driver whose [eth_init] resets the MAC: a platform with
      every law but [QuietRegisters].

    ** Conventions

    - Integers keep the width the C code gives them: [u32] for [u32] and
      [unsigned int], [s32] for [int]; a conversion is written where C
      converts.  Pointers into the packet are offsets into one [list
      byte]; an access outside it is [UB], never a silent no-op.
    - Every loop is a [Fixpoint] on fuel, and the definition that calls it
      passes the fuel: the number of bytes plus one for the comparison
      loop, 33 for the scan of the 32 PHY addresses, 128 for each of the
      two delay loops (bound 0x7F), [argc - 1] for the argument loop.
      That this is enough is a theorem for each loop and for the whole
      command ([board_eth_test_terminates]), so [OutOfFuel] is proved
      unreachable rather than assumed.  The machine of [Machine] runs on
      [machine_fuel] = 3 + 129 * 127 = 16386 transitions: one for the
      null check and the preparation, 129 for a row (label, 127 probes,
      end of row), one to leave the loop and one for the verdict;
      [steps_left] decreases with every transition and is at most that
      number at [Init].
    - External calls append an [event] to the trace (newest first), so
      ordering and counting properties are statements about [w_trace].
    - Error codes are the negative errno values the code returns:
      [EINVAL = 22], [EBUSY = 16].

    ** What the theorems show

    - [Frame]: the byte-level contents produced by [create_lbtest_frame]
      for every size (odd sizes and the underflow below 2 included), that
      [alter_lbtest_frame] writes exactly two bytes and stays in bounds
      for every delay pair of the sweep, that the comparison is [memcmp]
      with the results 0 and 13 and never reads the received length, and
      that tags accumulate across iterations.
    - [Regs] and [Setup]: bit-exact characterisations of the MAC and BMCR
      values, the register accesses of the set-up in their order, what a
      read-back returns on a platform whose registers hold what is
      written, the stale speed bit left by a 100 Mbit/s run, and the
      paths without PHY or MDIO bus.
    - [Runner]: the single shot on every branch (pass, mismatch, no frame,
      receive error), the frame it sends, its timing, the order of
      initialisation, set-up and run, and the error paths of
      [eth_loopback_test].
    - [Sweep]: the sweep computes the log of its specification without
      undefined behaviour when the transmit buffer holds a frame and the
      receive buffers do; it programs each of the 127 x 127 pairs once,
      returns 0 exactly when a probe passed, and is never cut short.
    - [Logic]: the fuel of [for_u32] never decides a result: with fuel
      for one test more than the iterations left, the executable loop and
      the relation have the same outcomes.
    - [Machine]: the machine reaches [Done ret] exactly when the function
      returns [ret], with the same world, and its executable run is the
      function, undefined behaviour included; it has no infinite run; from
      a world whose transmit buffer holds a frame every reachable
      configuration satisfies [config_inv] (counters in range, one frame
      sent per pair, [ret] assigned after the first probe) and is [Done]
      or can step.
    - [FrameEq]: a sweep does not depend on what the transmit buffer
      held before it, nor on any byte beyond the frame.
    - [Board]: on a board with a window of working delays inside the
      swept range, the delay test marks exactly the window, prints the
      grid of those marks ([board_grid]) and returns 0.
    - [Cli]: the route taken for every argument list, the command the
      fall-back runs, the overflow of [cmd_eth] by long arguments,
      termination of the whole command, [delaytest] and [loopback] from
      the command line to the verdict, and the round trip of a delay
      value from a printed row label back through [delayline].
    - [Numbers]: every decimal numeral below 2^64 is read back by
      [strtoul], and the test runs at its low 32 bits as an [int]: each
      speed has other spellings, and large numerals give negative speeds.
    - [Footprint]: no command line makes a call outside its route: [help]
      only prints, [delayline] only programs the delay lines, the single
      shot never programs them, the runner never writes a register.  On a
      platform with [QuietRegisters] the registers hold, when the test
      returns, what the set-up wrote: the PHY is left in loopback.
    - [Protocol]: a run of the command that returns has called the driver
      in an allowed order and has given back every buffer it was handed;
      a test that returns 0 or more leaves the device started; the buffer
      is given back after an empty receive as well.
    - [Safety]: the command is undefined in exactly two cases, a test
      without a registered MDIO bus and a fall-back whose joined
      arguments do not fit [cmd_eth]; everywhere else it returns.
    - [Session]: a session of any command lines keeps the trace well
      typed and within the protocol and returns one [int] per line; after
      a test at 100 and a test at 10 the MAC is configured for 100 and
      the PHY for 10; a repeated test programs the same values again; a
      session is defined exactly when each of its commands is defined in
      the world it starts in.
    - [Reset]: [QuietRegisters] is needed for what [Footprint] says of
      the registers: behind a driver that resets the MAC on [eth_init]
      the test probes with the MAC configuration register at 0, since
      the set-up writes it before the bring-up and nothing checks it
      afterwards.
    - [Typing]: every value passed to or received from a collaborator
      fits its C type, every frame sent has 1514 bytes, every command run
      fits [cmd_eth], and every function returns an [int]; [ret] and
      [success] keep their types across the loop.

    ** Not modelled

    The bodies of the collaborators (PHY driver, MDIO bus, MAC driver,
    network stack, command interpreter) are not part of the excerpt; they
    appear as operations of [Platform] and, for [memset], [memcpy],
    [net_set_ether], the string functions and the errno values, as
    definitions written from their documented behaviour.  What a theorem
    assumes of them is a law class ([RegisterFile], [RxBuffers],
    [KeepsBuffers], [QuietLookups], [QuietRegisters], [SteadyBuffers]);
    the simulated board satisfies all six, the board of [Reset], whose
    [eth_init] resets the MAC, all but [QuietRegisters].  The shell that calls the command is the list of command
    lines of [run_session].  The text that
    [printf] formats is modelled for the messages of the runner, the
    set-up and the command; the console itself is an event.  Timing is
    the sum of the [udelay] arguments, not real time.  The registration
    of the command with the [rktest] framework is outside the two
    files. *)

From Stdlib Require Import ZArith Lia Strings.Byte.
From stdpp Require Import base option list.
From coqutil Require Import Z.bitblast.

#[local] Open Scope Z_scope.

(** ** Machine integers *)

Declare Scope c_scope.
Delimit Scope c_scope with C.

Definition wrap (w z : Z) : Z := z mod 2 ^ w.

Definition swrap (w z : Z) : Z := (z + 2 ^ (w - 1)) mod 2 ^ w - 2 ^ (w - 1).

Definition u8 (z : Z) : Z := wrap 8 z.
Definition u16 (z : Z) : Z := wrap 16 z.
Definition u32 (z : Z) : Z := wrap 32 z.
Definition u64 (z : Z) : Z := wrap 64 z.
Definition s32 (z : Z) : Z := swrap 32 z.

Definition in_u32 (z : Z) : Prop := 0 <= z < 2 ^ 32.
Definition in_s32 (z : Z) : Prop := - 2 ^ 31 <= z < 2 ^ 31.

(** C's [v |= m], [v &= ~m] and [v & m] on integers of any width. *)
Definition setb (v m : Z) : Z := Z.lor v m.
Definition clrb (v m : Z) : Z := Z.land v (Z.lnot m).
Definition BIT (n : Z) : Z := Z.shiftl 1 n.

Notation "v .| m" := (setb v m) (at level 50, left associativity) : c_scope.
Notation "v .&~ m" := (clrb v m) (at level 50, left associativity) : c_scope.

(** Unfolds the fixed-width wrappers, turns each division and remainder
    by a constant into its defining equations, and calls [lia]. *)
Ltac wrap_unfold :=
  unfold in_u32, in_s32, u8, u16, u32, u64, s32, wrap, swrap in *;
  change (2 ^ 8) with 256 in *; change (2 ^ 16) with 65536 in *;
  change (2 ^ 32) with 4294967296 in *; change (2 ^ 31) with 2147483648 in *;
  change (2 ^ 64) with 18446744073709551616 in *;
  change (2 ^ (8 - 1)) with 128 in *;
  change (2 ^ (32 - 1)) with 2147483648 in *.

Ltac wrap_solve := wrap_unfold; Z.div_mod_to_equations; lia.

Section Wrap.
Context (w : Z) (Hw : 0 < w).

Lemma wrap_range z : 0 <= wrap w z < 2 ^ w.
Proof. apply Z.mod_pos_bound, Z.pow_pos_nonneg; lia. Qed.

Lemma wrap_small z : 0 <= z < 2 ^ w -> wrap w z = z.
Proof. apply Z.mod_small. Qed.

Lemma wrap_idemp z : wrap w (wrap w z) = wrap w z.
Proof. apply wrap_small, wrap_range. Qed.

Lemma wrap_testbit z i : Z.testbit (wrap w z) i = (i <? w) && Z.testbit z i.
Proof. unfold wrap. apply Z.testbit_mod_pow2. lia. Qed.

Lemma pow2_half : 2 ^ w = 2 * 2 ^ (w - 1).
Proof. rewrite <- Z.pow_succ_r by lia. f_equal. lia. Qed.

Lemma swrap_range z : - 2 ^ (w - 1) <= swrap w z < 2 ^ (w - 1).
Proof.
  unfold swrap. pose proof (Z.mod_pos_bound (z + 2 ^ (w - 1)) (2 ^ w)).
  pose proof pow2_half. pose proof (Z.pow_pos_nonneg 2 (w - 1)). lia.
Qed.

Lemma swrap_small z : - 2 ^ (w - 1) <= z < 2 ^ (w - 1) -> swrap w z = z.
Proof.
  intros Hz. unfold swrap. pose proof pow2_half.
  rewrite Z.mod_small; lia.
Qed.

Lemma swrap_wrap z : swrap w (wrap w z) = swrap w z.
Proof.
  unfold swrap, wrap. by rewrite Zplus_mod_idemp_l.
Qed.

Lemma wrap_swrap z : wrap w (swrap w z) = wrap w z.
Proof.
  unfold swrap, wrap. rewrite Zminus_mod_idemp_l. f_equal. lia.
Qed.

End Wrap.

Lemma u32_range z : in_u32 (u32 z).
Proof. wrap_solve. Qed.

Lemma u32_small z : in_u32 z -> u32 z = z.
Proof. wrap_solve. Qed.

Lemma u16_range z : 0 <= u16 z < 2 ^ 16.
Proof. wrap_solve. Qed.

Lemma s32_range z : in_s32 (s32 z).
Proof. wrap_solve. Qed.

Lemma s32_small z : in_s32 z -> s32 z = z.
Proof. wrap_solve. Qed.

Lemma u32_s32 z : u32 (s32 z) = u32 z.
Proof. by apply wrap_swrap. Qed.

Lemma s32_u32 z : s32 (u32 z) = s32 z.
Proof. by apply swrap_wrap. Qed.

Create HintDb c_int discriminated.
Create Rewrite HintDb c_int.
#[export] Hint Resolve u32_range u16_range s32_range : c_int.
#[export] Hint Rewrite u32_small s32_small using (wrap_solve) : c_int.

(** ** Bit assignments *)

Lemma BIT_pow2 n : 0 <= n -> BIT n = 2 ^ n.
Proof. intros. unfold BIT. rewrite Z.shiftl_mul_pow2 by lia. lia. Qed.

Lemma testbit_BIT n i : 0 <= n -> Z.testbit (BIT n) i = (n =? i).
Proof. intros. rewrite BIT_pow2 by done. by apply Z.pow2_bits_eqb. Qed.

Lemma testbit_setb v m i : Z.testbit (setb v m) i = Z.testbit v i || Z.testbit m i.
Proof. apply Z.lor_spec. Qed.

Lemma testbit_clrb v m i :
  Z.testbit (clrb v m) i = Z.testbit v i && negb (Z.testbit m i).
Proof.
  unfold clrb. rewrite Z.land_spec.
  destruct (Z.ltb_spec i 0) as [Hi|Hi].
  - by rewrite !(Z.testbit_neg_r _ i Hi).
  - by rewrite Z.lnot_spec.
Qed.

Lemma testbit_land v m i : Z.testbit (Z.land v m) i = Z.testbit v i && Z.testbit m i.
Proof. apply Z.land_spec. Qed.

(** Bitwise goals: push [Z.testbit] through the operations, then decide
    the bits of the constants. *)
Create Rewrite HintDb c_bits.
#[export] Hint Rewrite testbit_setb testbit_clrb testbit_land : c_bits.
#[export] Hint Rewrite testbit_BIT wrap_testbit using lia : c_bits.

Ltac bits_simpl := unfold u8, u16, u32, u64; autorewrite with c_bits.

Ltac bits_solve :=
  bits_simpl;
  repeat match goal with
  | |- context [Z.testbit _ ?i] => progress (destruct (Z.testbit _ i))
  end; cbn; try done; try lia.

(** A value fits [k] bits exactly when all its bits from [k] on are
    clear; ranges of [setb] and [clrb] follow bit by bit. *)
Lemma setb_range k v m :
  0 <= k -> 0 <= v < 2 ^ k -> 0 <= m < 2 ^ k -> 0 <= setb v m < 2 ^ k.
Proof.
  intros Hk Hv Hm.
  pose proof (proj1 (Z.bounded_iff_bits_nonneg' k v Hk ltac:(lia)) Hv) as Bv.
  pose proof (proj1 (Z.bounded_iff_bits_nonneg' k m Hk ltac:(lia)) Hm) as Bm.
  assert (Hnn : 0 <= setb v m) by (apply Z.lor_nonneg; lia).
  apply Z.bounded_iff_bits_nonneg'; [done..|].
  intros l Hl. by rewrite testbit_setb, Bv, Bm.
Qed.

Lemma clrb_range k v m :
  0 <= k -> 0 <= v < 2 ^ k -> 0 <= clrb v m < 2 ^ k.
Proof.
  intros Hk Hv.
  pose proof (proj1 (Z.bounded_iff_bits_nonneg' k v Hk ltac:(lia)) Hv) as Bv.
  assert (Hnn : 0 <= clrb v m) by (apply Z.land_nonneg; lia).
  apply Z.bounded_iff_bits_nonneg'; [done..|].
  intros l Hl. by rewrite testbit_clrb, Bv.
Qed.

Lemma setb_range_signed k v m :
  0 <= k -> - 2 ^ k <= v < 2 ^ k -> 0 <= m < 2 ^ k -> - 2 ^ k <= setb v m < 2 ^ k.
Proof.
  intros Hk Hv Hm.
  pose proof (proj1 (Z.bounded_iff_bits k v Hk) Hv) as Bv.
  pose proof (proj1 (Z.bounded_iff_bits_nonneg' k m Hk ltac:(lia)) Hm) as Bm.
  apply Z.bounded_iff_bits; [done|]. intros l Hl.
  rewrite testbit_setb, Bv, Bm by done. rewrite orb_false_r.
  apply bool_decide_ext. unfold setb. rewrite Z.lor_neg. lia.
Qed.

Lemma clrb_range_signed k v m :
  0 <= k -> - 2 ^ k <= v < 2 ^ k -> 0 <= m < 2 ^ k -> - 2 ^ k <= clrb v m < 2 ^ k.
Proof.
  intros Hk Hv Hm.
  pose proof (proj1 (Z.bounded_iff_bits k v Hk) Hv) as Bv.
  pose proof (proj1 (Z.bounded_iff_bits_nonneg' k m Hk ltac:(lia)) Hm) as Bm.
  apply Z.bounded_iff_bits; [done|]. intros l Hl.
  rewrite testbit_clrb, Bv, Bm by done. rewrite andb_true_r.
  apply bool_decide_ext. unfold clrb. rewrite Z.land_neg, Z.lnot_neg. lia.
Qed.

Lemma setb_idemp v m : setb (setb v m) m = setb v m.
Proof. unfold setb. Z.bitblast. Qed.

Lemma clrb_idemp v m : clrb (clrb v m) m = clrb v m.
Proof. unfold clrb. Z.bitblast. Qed.

Lemma clrb_setb_same v m : clrb (setb v m) m = clrb v m.
Proof. unfold clrb, setb. Z.bitblast. Qed.

Lemma setb_clrb_same v m : setb (clrb v m) m = setb v m.
Proof. unfold clrb, setb. Z.bitblast. Qed.

(** [x & ~1] clears the lowest bit: it rounds an unsigned down to even. *)
Lemma testbit_1 i : Z.testbit 1 i = (0 =? i).
Proof. apply (Z.pow2_bits_eqb 0 i). lia. Qed.

Lemma clrb_1_even z : clrb z 1 = 2 * (z / 2).
Proof.
  unfold clrb. replace (2 * (z / 2)) with (Z.shiftl (Z.shiftr z 1) 1).
  - Z.bitblast; rewrite testbit_1; destruct (Z.eqb_spec 0 l); cbn;
      rewrite ?andb_false_r, ?andb_true_r; (done || lia).
  - rewrite Z.shiftl_mul_pow2, Z.shiftr_div_pow2 by lia. change (2 ^ 1) with 2. lia.
Qed.

(** ** Results: a value, undefined behaviour, or a loop out of fuel *)

Inductive res (A : Type) : Type :=
| Ok (a : A)
| UB
| OutOfFuel.

Arguments Ok {A} a.
Arguments UB {A}.
Arguments OutOfFuel {A}.

#[export] Instance res_ret : MRet res := @Ok.

#[export] Instance res_bind : MBind res := fun A B f m =>
  match m with
  | Ok a => f a
  | UB => UB
  | OutOfFuel => OutOfFuel
  end.

#[export] Instance res_fmap : FMap res := fun A B f m =>
  match m with
  | Ok a => Ok (f a)
  | UB => UB
  | OutOfFuel => OutOfFuel
  end.

Definition of_option {A} (o : option A) : res A :=
  match o with
  | Some a => Ok a
  | None => UB
  end.

Definition is_Ok {A} (m : res A) : Prop := exists a, m = Ok a.

(** [terminates m]: the computation did not stop for lack of fuel. *)
Definition terminates {A} (m : res A) : Prop :=
  match m with
  | OutOfFuel => False
  | _ => True
  end.

#[export] Instance res_eq_dec `{EqDecision A} : EqDecision (res A).
Proof. solve_decision. Defined.

#[export] Instance is_Ok_dec {A} (m : res A) : Decision (is_Ok m).
Proof.
  refine (match m with Ok a => left _ | _ => right _ end);
    unfold is_Ok; [eauto | intros [? ?]; discriminate..].
Defined.

#[export] Instance terminates_dec {A} (m : res A) : Decision (terminates m).
Proof. destruct m; cbn; apply _. Defined.

Lemma terminates_iff {A} (m : res A) : terminates m <-> m <> OutOfFuel.
Proof. by destruct m. Qed.

Lemma terminates_bind {A B} (f : A -> res B) (m : res A) :
  terminates m -> (forall a, m = Ok a -> terminates (f a)) -> terminates (m ≫= f).
Proof. destruct m; cbn; auto. Qed.

Lemma res_bind_Ok {A B} (f : A -> res B) (m : res A) b :
  m ≫= f = Ok b <-> exists a, m = Ok a /\ f a = Ok b.
Proof.
  destruct m as [a| |]; cbn; split; try (intros (? & ? & ?)); try done.
  - eauto.
  - by simplify_eq.
Qed.

Lemma res_bind_UB {A B} (f : A -> res B) (m : res A) :
  m ≫= f = UB <-> m = UB \/ exists a, m = Ok a /\ f a = UB.
Proof.
  destruct m as [a| |]; cbn; split; try (intros [?|(? & ? & ?)]); try done.
  - eauto.
  - by simplify_eq.
  - eauto.
Qed.

Lemma res_bind_OutOfFuel {A B} (f : A -> res B) (m : res A) :
  m ≫= f = OutOfFuel <-> m = OutOfFuel \/ exists a, m = Ok a /\ f a = OutOfFuel.
Proof.
  destruct m as [a| |]; cbn; split; try (intros [?|(? & ? & ?)]); try done.
  - eauto.
  - by simplify_eq.
  - eauto.
Qed.

Lemma res_bind_assoc {A B C} (f : A -> res B) (g : B -> res C) (m : res A) :
  (m ≫= f) ≫= g = m ≫= (fun a => f a ≫= g).
Proof. by destruct m. Qed.

Lemma res_bind_ret_l {A B} (f : A -> res B) a : mret a ≫= f = f a.
Proof. done. Qed.

Lemma res_bind_ret_r {A} (m : res A) : m ≫= mret = m.
Proof. by destruct m. Qed.

Lemma of_option_Ok {A} (o : option A) a : of_option o = Ok a <-> o = Some a.
Proof. destruct o; cbn; split; intros; by simplify_eq. Qed.

Lemma of_option_UB {A} (o : option A) : of_option o = UB <-> o = None.
Proof. destruct o; cbn; split; intros; by simplify_eq. Qed.

Lemma of_option_not_OutOfFuel {A} (o : option A) : of_option o <> OutOfFuel.
Proof. by destruct o. Qed.

(** Splits every [res]-bind hypothesis that equals [Ok _] into its steps. *)
Ltac res_simpl :=
  repeat match goal with
  | H : _ ≫= _ = Ok _ |- _ => apply res_bind_Ok in H; destruct H as (? & ? & ?)
  | H : mret _ = Ok _ |- _ => injection H as H
  | H : Ok _ = Ok _ |- _ => injection H as H
  | H : of_option _ = Ok _ |- _ => apply of_option_Ok in H
  | H : UB = Ok _ |- _ => discriminate H
  | H : OutOfFuel = Ok _ |- _ => discriminate H
  | H : Ok _ = UB |- _ => discriminate H
  | H : Ok _ = OutOfFuel |- _ => discriminate H
  end; simplify_eq.

(** ** Byte memory

    A buffer is a [list byte]; a pointer into it is an offset.  The C
    library's [memset] has no bounds check: writing outside the object is
    undefined behaviour, which the model reports as [UB]. *)

#[export] Instance byte_eq_dec : EqDecision byte := Byte.byte_eq_dec.

Definition uchar_of_Z (z : Z) : byte :=
  default x00 (Byte.of_N (Z.to_N (u8 z))).

Definition uchar_to_Z (b : byte) : Z := Z.of_N (Byte.to_N b).

Definition in_bounds (mem : list byte) (p n : Z) : Prop :=
  0 <= p /\ 0 <= n /\ p + n <= Z.of_nat (length mem).

#[export] Instance in_bounds_dec mem p n : Decision (in_bounds mem p n).
Proof. unfold in_bounds. apply _. Defined.

Definition load (mem : list byte) (p : Z) : res byte :=
  if decide (0 <= p) then of_option (mem !! Z.to_nat p) else UB.

(** [overwrite mem s bs]: the bytes [bs] stored at offset [s]. *)
Definition overwrite (mem : list byte) (s : nat) (bs : list byte) : list byte :=
  take s mem ++ bs ++ drop (s + length bs) mem.

Definition memset (mem : list byte) (s c n : Z) : res (list byte) :=
  if decide (in_bounds mem s n)
  then Ok (overwrite mem (Z.to_nat s) (replicate (Z.to_nat n) (uchar_of_Z c)))
  else UB.

Definition memcpy (mem : list byte) (s : Z) (src : list byte) : res (list byte) :=
  if decide (in_bounds mem s (Z.of_nat (length src)))
  then Ok (overwrite mem (Z.to_nat s) src)
  else UB.

Lemma uchar_to_Z_range b : 0 <= uchar_to_Z b < 256.
Proof.
  unfold uchar_to_Z. pose proof (Byte.to_N_bounded b). lia.
Qed.

Lemma uchar_of_to_Z b : uchar_of_Z (uchar_to_Z b) = b.
Proof.
  unfold uchar_of_Z. pose proof (uchar_to_Z_range b).
  replace (u8 (uchar_to_Z b)) with (uchar_to_Z b) by wrap_solve.
  unfold uchar_to_Z. by rewrite N2Z.id, Byte.of_to_N.
Qed.

Lemma uchar_to_of_Z z : uchar_to_Z (uchar_of_Z z) = u8 z.
Proof.
  unfold uchar_of_Z, uchar_to_Z.
  assert (Hr : 0 <= u8 z < 256) by wrap_solve.
  destruct (Byte.of_N (Z.to_N (u8 z))) as [b|] eqn:E; cbn.
  - apply Byte.to_of_N in E. rewrite E. lia.
  - apply Byte.of_N_None_iff in E. lia.
Qed.

Section Overwrite.
Implicit Types (mem bs : list byte) (s i : nat).

Lemma overwrite_length mem s bs :
  (s + length bs <= length mem)%nat -> length (overwrite mem s bs) = length mem.
Proof.
  intros. unfold overwrite.
  rewrite !length_app, length_take, length_drop. lia.
Qed.

(** The byte at index [i] after a store: from [bs] inside the stored
    range, the old byte outside. *)
Lemma overwrite_lookup mem s bs i :
  (s + length bs <= length mem)%nat ->
  overwrite mem s bs !! i =
    if decide (s <= i < s + length bs)%nat then bs !! (i - s)%nat else mem !! i.
Proof.
  intros Hlen. unfold overwrite. case_decide as Hi.
  - rewrite lookup_app_r by (rewrite length_take; lia).
    rewrite lookup_app_l by (rewrite length_take; lia).
    f_equal. rewrite length_take. lia.
  - destruct (decide (i < s)%nat).
    + rewrite lookup_app_l by (rewrite length_take; lia).
      apply lookup_take_lt. lia.
    + rewrite lookup_app_r by (rewrite length_take; lia).
      rewrite lookup_app_r by (rewrite length_take; lia).
      rewrite lookup_drop, length_take. f_equal. lia.
Qed.

(** A store right behind a known prefix. *)
Lemma overwrite_app mem1 mem2 s bs :
  s = length mem1 ->
  overwrite (mem1 ++ mem2) s bs = mem1 ++ bs ++ drop (length bs) mem2.
Proof.
  intros ->. unfold overwrite. by rewrite take_app_length, drop_app_add.
Qed.

Lemma overwrite_nil mem s : (s <= length mem)%nat -> overwrite mem s [] = mem.
Proof. intros. unfold overwrite. cbn. by rewrite Nat.add_0_r, take_drop. Qed.

Lemma overwrite_singleton mem s b :
  (s < length mem)%nat -> overwrite mem s [b] = <[s := b]> mem.
Proof.
  intros. apply list_eq. intros i.
  rewrite overwrite_lookup by (cbn; lia). cbn. case_decide.
  - replace i with s by lia. rewrite Nat.sub_diag.
    symmetry. by apply list_lookup_insert_eq.
  - symmetry. apply list_lookup_insert_ne. lia.
Qed.

(** Two adjacent or overlapping stores compose into one when the second
    lies inside what the first wrote. *)
Lemma overwrite_overwrite_inside mem s bs k cs :
  (s + length bs <= length mem)%nat -> (k + length cs <= length bs)%nat ->
  overwrite (overwrite mem s bs) (s + k) cs = overwrite mem s (overwrite bs k cs).
Proof.
  intros H1 H2. apply list_eq. intros i.
  rewrite !overwrite_lookup; rewrite ?overwrite_length; try lia.
  repeat case_decide; try lia; try done.
  f_equal. lia.
Qed.

End Overwrite.

Lemma memset_Ok mem s c n :
  in_bounds mem s n ->
  memset mem s c n =
    Ok (overwrite mem (Z.to_nat s) (replicate (Z.to_nat n) (uchar_of_Z c))).
Proof. intros. unfold memset. by rewrite decide_True. Qed.

Lemma memset_UB mem s c n : ~ in_bounds mem s n -> memset mem s c n = UB.
Proof. intros. unfold memset. by rewrite decide_False. Qed.

Lemma memset_is_Ok mem s c n : is_Ok (memset mem s c n) <-> in_bounds mem s n.
Proof.
  unfold memset. case_decide; split; try done.
  - by eexists.
  - by intros [? ?].
Qed.

Lemma memset_inv mem s c n mem' :
  memset mem s c n = Ok mem' ->
  in_bounds mem s n /\
  mem' = overwrite mem (Z.to_nat s) (replicate (Z.to_nat n) (uchar_of_Z c)).
Proof. unfold memset. case_decide; intros; by simplify_eq. Qed.

Lemma memset_not_OutOfFuel mem s c n : memset mem s c n <> OutOfFuel.
Proof. unfold memset. by case_decide. Qed.

Lemma memset_length mem s c n mem' :
  memset mem s c n = Ok mem' -> length mem' = length mem.
Proof.
  intros (Hb & ->)%memset_inv. destruct Hb as (? & ? & ?).
  apply overwrite_length. rewrite length_replicate. lia.
Qed.

Lemma memset_lookup mem s c n mem' (i : nat) :
  memset mem s c n = Ok mem' ->
  mem' !! i =
    if decide (s <= Z.of_nat i < s + n) then Some (uchar_of_Z c) else mem !! i.
Proof.
  intros (Hb & ->)%memset_inv. destruct Hb as (Hs & Hn & Hlen).
  rewrite overwrite_lookup by (rewrite length_replicate; lia).
  rewrite length_replicate. repeat case_decide; try lia; try done.
  apply lookup_replicate_2. lia.
Qed.

Lemma memset_lookup_in mem s c n mem' (i : nat) :
  memset mem s c n = Ok mem' -> s <= Z.of_nat i < s + n ->
  mem' !! i = Some (uchar_of_Z c).
Proof. intros H Hi. rewrite (memset_lookup _ _ _ _ _ _ H). by rewrite decide_True. Qed.

Lemma memset_lookup_out mem s c n mem' (i : nat) :
  memset mem s c n = Ok mem' -> ~ (s <= Z.of_nat i < s + n) ->
  mem' !! i = mem !! i.
Proof. intros H Hi. rewrite (memset_lookup _ _ _ _ _ _ H). by rewrite decide_False. Qed.

(** A one-byte [memset] is an in-range list update. *)
Lemma memset_1 mem s c :
  in_bounds mem s 1 ->
  memset mem s c 1 = Ok (<[Z.to_nat s := uchar_of_Z c]> mem).
Proof.
  intros Hb. pose proof Hb as (Hs & _ & Hlen).
  rewrite memset_Ok by done. f_equal.
  change (Z.to_nat 1) with 1%nat. cbn. apply overwrite_singleton. lia.
Qed.

Lemma memset_0 mem s c : in_bounds mem s 0 -> memset mem s c 0 = Ok mem.
Proof.
  intros Hb. pose proof Hb as (Hs & _ & Hlen).
  rewrite memset_Ok by done. f_equal. apply overwrite_nil. lia.
Qed.

Lemma memcpy_inv mem s src mem' :
  memcpy mem s src = Ok mem' ->
  in_bounds mem s (Z.of_nat (length src)) /\ mem' = overwrite mem (Z.to_nat s) src.
Proof. unfold memcpy. case_decide; intros; by simplify_eq. Qed.

Lemma memcpy_length mem s src mem' :
  memcpy mem s src = Ok mem' -> length mem' = length mem.
Proof.
  intros (Hb & ->)%memcpy_inv. destruct Hb as (? & ? & ?). apply overwrite_length. lia.
Qed.

Lemma memcpy_Ok mem s src :
  in_bounds mem s (Z.of_nat (length src)) ->
  memcpy mem s src = Ok (overwrite mem (Z.to_nat s) src).
Proof. intros. unfold memcpy. by rewrite decide_True. Qed.

Lemma memcpy_not_OutOfFuel mem s src : memcpy mem s src <> OutOfFuel.
Proof. unfold memcpy. by case_decide. Qed.

Lemma load_Ok mem p b :
  load mem p = Ok b <-> 0 <= p /\ mem !! Z.to_nat p = Some b.
Proof.
  unfold load. case_decide; rewrite ?of_option_Ok; split; intros; try done;
    by destruct_and?.
Qed.

Lemma load_is_Ok mem p : is_Ok (load mem p) <-> in_bounds mem p 1.
Proof.
  unfold load, in_bounds, is_Ok. case_decide.
  - destruct (mem !! Z.to_nat p) as [b|] eqn:E; cbn.
    + apply lookup_lt_Some in E. split; [lia | eauto].
    + apply lookup_ge_None in E. split; [by intros [? ?] | lia].
  - split; [by intros [? ?] | lia].
Qed.

Lemma load_not_OutOfFuel mem p : load mem p <> OutOfFuel.
Proof. unfold load. case_decide; [apply of_option_not_OutOfFuel | done]. Qed.

Create HintDb c_mem discriminated.
#[export] Hint Resolve memset_not_OutOfFuel memcpy_not_OutOfFuel load_not_OutOfFuel
  of_option_not_OutOfFuel : c_mem.
