(* ===== verification/Config.v ===== *)
(** * The board configuration
      ([src/include/configs/z28pro_rk3328.h])

    The header adds three compile-time constants to the common RK3328
    configuration.  They are values, not behaviour; what can be said of
    them is how the C constant expressions evaluate at their types.
    [unsigned long] is 64 bits wide on this AArch64 target. *)

From Stdlib Require Import ZArith Lia.
From stdpp Require Import base tactics.
From S2P Require Import Prelude.

#[local] Open Scope Z_scope.

Definition CONFIG_SYS_MMC_ENV_DEV : Z := 1.

(** [(2UL << 30)]: a shift in [unsigned long]. *)
Definition SDRAM_BANK_SIZE : Z := u64 (Z.shiftl 2 30).

Definition CONFIG_CONSOLE_SCROLL_LINES : Z := 10.

(** The configuration the header defines, as one value. *)
Record board_config := {
  cfg_mmc_env_dev : Z;
  cfg_sdram_bank_size : Z;
  cfg_console_scroll_lines : Z;
}.

Definition z28pro_rk3328 : board_config := {|
  cfg_mmc_env_dev := CONFIG_SYS_MMC_ENV_DEV;
  cfg_sdram_bank_size := SDRAM_BANK_SIZE;
  cfg_console_scroll_lines := CONFIG_CONSOLE_SCROLL_LINES;
|}.

(** The same shift without the [UL] suffix: [2 << 30] in [int]. *)
Definition sdram_bank_size_int : res Z :=
  if decide (in_s32 (Z.shiftl 2 30)) then Ok (Z.shiftl 2 30) else UB.

(** The bank size is 2 GiB; the value does not fit an [int], so the
    suffix [UL] of the header is what makes the expression defined. *)
Theorem sdram_bank_size_value :
  cfg_sdram_bank_size z28pro_rk3328 = 2 * 1024 ^ 3 /\
  ~ in_s32 (cfg_sdram_bank_size z28pro_rk3328) /\
  sdram_bank_size_int = UB.
Proof.
  change (cfg_sdram_bank_size z28pro_rk3328) with 2147483648.
  split; [done|]. split; [unfold in_s32; lia | by vm_compute].
Qed.
