(* ===== verification/Cstring.v ===== *)
(** * C strings, and the three library functions the command uses

    [board_eth_test] compares its arguments with [strncmp], converts them
    with [strtoul] and joins them with [strncat]
    ([src/test/rockchip/test-eth.c], lines 265-297).  A C string is the
    run of characters before the terminating NUL; it is a [string] here,
    which stands for a C string when it holds no NUL ([cstring]).  The
    functions are written from their documented behaviour: [strncmp] and
    [strncat] as in the C library, [strtoul] as U-Boot's [simple_strtoul]
    with base 0.  A [strncat] that writes past the destination array is
    [UB]. *)

From Stdlib Require Import ZArith Lia Strings.Ascii Strings.String.
From stdpp Require Import base option list strings.
From S2P Require Import Prelude.

#[local] Open Scope Z_scope.

Definition char_code (c : ascii) : Z := Z.of_nat (nat_of_ascii c).

Definition NUL : ascii := ascii_of_nat 0.

(** No NUL inside. *)
Fixpoint cstring (s : string) : Prop :=
  match s with
  | EmptyString => True
  | String c s => c ≠ NUL /\ cstring s
  end.

#[export] Instance cstring_dec s : Decision (cstring s).
Proof. induction s; cbn; apply _. Defined.

(** [sizeof("literal")]: the characters and the terminator. *)
Definition sizeof (s : string) : Z := Z.of_nat (String.length s) + 1.

(** [strncmp(s1, s2, n)]: the difference of the first characters that
    differ among the first [n], the terminator included. *)
Fixpoint strncmp_nat (s1 s2 : string) (n : nat) : Z :=
  match n with
  | O => 0
  | S n =>
      match s1, s2 with
      | EmptyString, EmptyString => 0
      | EmptyString, String c2 _ => 0 - char_code c2
      | String c1 _, EmptyString => char_code c1
      | String c1 s1, String c2 s2 =>
          if decide (c1 = c2) then strncmp_nat s1 s2 n
          else char_code c1 - char_code c2
      end
  end.

Definition strncmp (s1 s2 : string) (n : Z) : Z := strncmp_nat s1 s2 (Z.to_nat n).

(** [strncat(dest, src, n)] into an array of [size] characters: at most
    [n] characters of [src] and a terminator are appended. *)
Definition strncat (size : Z) (dest src : string) (n : Z) : res string :=
  let appended := substring 0 (Z.to_nat n) src in
  if decide (Z.of_nat (String.length dest) + Z.of_nat (String.length appended) + 1 <= size)
  then Ok (dest +:+ appended)
  else UB.

(** The value of a digit in any base up to 16. *)
Definition digit_value (c : ascii) : option Z :=
  let n := char_code c in
  if decide (48 <= n <= 57) then Some (n - 48)
  else if decide (97 <= n <= 102) then Some (n - 87)
  else if decide (65 <= n <= 70) then Some (n - 55)
  else None.

(** The digits of [s] in [base], accumulated in an [unsigned long]. *)
Fixpoint strtoul_digits (base : Z) (s : string) (acc : Z) : Z :=
  match s with
  | EmptyString => acc
  | String c s =>
      match digit_value c with
      | Some v =>
          if decide (v < base) then strtoul_digits base s (u64 (acc * base + v))
          else acc
      | None => acc
      end
  end.

(** [strtoul(s, NULL, 0)]: a leading [0x] followed by a hex digit selects
    base 16, another leading [0] base 8, anything else base 10. *)
Definition strtoul (s : string) : Z :=
  match s with
  | String c0 (String c1 (String c2 rest)) =>
      if decide (char_code c0 = 48) then
        if decide ((char_code c1 = 120 \/ char_code c1 = 88) /\ is_Some (digit_value c2))
        then strtoul_digits 16 (String c2 rest) 0
        else strtoul_digits 8 s 0
      else strtoul_digits 10 s 0
  | String c0 _ =>
      if decide (char_code c0 = 48) then strtoul_digits 8 s 0
      else strtoul_digits 10 s 0
  | EmptyString => 0
  end.

(** The arguments joined by single spaces. *)
Definition unwords (l : list string) : string := String.concat " " l.

(** ** Strings *)

Lemma append_cons c s1 s2 : String c s1 +:+ s2 = String c (s1 +:+ s2).
Proof. reflexivity. Qed.

Lemma append_nil_r s : s +:+ EmptyString = s.
Proof. induction s as [|c s IH]; [done|]. by rewrite append_cons, IH. Qed.

Lemma append_assoc s1 s2 s3 : (s1 +:+ s2) +:+ s3 = s1 +:+ (s2 +:+ s3).
Proof. induction s1 as [|c s1 IH]; [done|]. by rewrite !append_cons, IH. Qed.

Lemma length_append s1 s2 :
  String.length (s1 +:+ s2) = (String.length s1 + String.length s2)%nat.
Proof. induction s1 as [|c s1 IH]; [done|]. rewrite append_cons. cbn. by rewrite IH. Qed.

Lemma substring_0_all n s : (String.length s <= n)%nat -> substring 0 n s = s.
Proof.
  revert n. induction s as [|c s IH]; intros [|n] Hn; cbn in *; try done; try lia.
  f_equal. apply IH. lia.
Qed.

Lemma length_substring_0 n s :
  String.length (substring 0 n s) = (n `min` String.length s)%nat.
Proof.
  revert n. induction s as [|c s IH]; intros [|n]; cbn; try done.
  by rewrite IH.
Qed.

(** ** [strncmp] *)

Lemma char_code_NUL c : char_code c = 0 <-> c = NUL.
Proof.
  unfold char_code, NUL. split; [|by intros ->].
  intros Hc. rewrite <- (ascii_nat_embedding c). f_equal. lia.
Qed.

Lemma strncmp_nat_refl s n : strncmp_nat s s n = 0.
Proof.
  revert s. induction n as [|n IH]; intros [|c s]; cbn; try done.
  by rewrite decide_True.
Qed.

(** Compared over the size of a literal, terminator included, a C string
    equals the literal exactly when [strncmp] returns 0. *)
Lemma strncmp_sizeof s lit :
  cstring s -> cstring lit -> strncmp s lit (sizeof lit) = 0 <-> s = lit.
Proof.
  unfold strncmp, sizeof. rewrite Z2Nat.inj_add, Nat2Z.id by lia.
  change (Z.to_nat 1) with 1%nat. rewrite Nat.add_1_r.
  revert lit. induction s as [|c s IH]; intros [|d lit] Hs Hl; cbn in *.
  - done.
  - split; [|done]. intros Hz. exfalso. destruct Hl as [Hd _].
    apply Hd, char_code_NUL. lia.
  - split; [|done]. intros Hz. exfalso. destruct Hs as [Hc _].
    by apply Hc, char_code_NUL.
  - case_decide as Hcd.
    + subst d. rewrite IH by tauto. split; congruence.
    + split; [|congruence]. intros Hz. exfalso. apply Hcd.
      rewrite <- (ascii_nat_embedding c), <- (ascii_nat_embedding d).
      f_equal. unfold char_code in Hz. lia.
Qed.

(** ** [strncat] *)

Lemma strncat_Ok size dest src n :
  Z.of_nat (String.length src) <= n ->
  Z.of_nat (String.length dest) + Z.of_nat (String.length src) + 1 <= size ->
  strncat size dest src n = Ok (dest +:+ src).
Proof.
  intros Hn Hsize. unfold strncat. rewrite substring_0_all by lia.
  by rewrite decide_True.
Qed.

Lemma strncat_UB size dest src n :
  Z.of_nat (String.length src) <= n ->
  size < Z.of_nat (String.length dest) + Z.of_nat (String.length src) + 1 ->
  strncat size dest src n = UB.
Proof.
  intros Hn Hsize. unfold strncat. rewrite substring_0_all by lia.
  by rewrite decide_False by lia.
Qed.

(** A source longer than the bound is cut, and [size] characters never
    fit an array of [size]. *)
Lemma strncat_long size dest src :
  size < Z.of_nat (String.length src) -> 0 <= size ->
  strncat size dest src size = UB.
Proof.
  intros Hlong Hsize. unfold strncat. rewrite decide_False; [done|].
  rewrite length_substring_0. lia.
Qed.

Lemma strncat_terminates size dest src n : terminates (strncat size dest src n).
Proof. unfold strncat. by case_decide. Qed.

(** ** [unwords] *)

Lemma unwords_cons a l :
  unwords (a :: l) = match l with [] => a | _ => a +:+ " " +:+ unwords l end.
Proof. by destruct l. Qed.
