(* ===== verification/Frame.v ===== *)
(** * The loopback test frame ([src/test/rockchip/test-eth.c], lines 21-82)

    [create_lbtest_frame], [alter_lbtest_frame] and [check_lbtest_frame]
    on a byte memory.  The payload pointer of the C code is an offset
    [data] into the packet buffer, so what these functions write is seen
    by whoever reads the packet.  Sizes are [unsigned int]: the rounding
    [frame_size &= ~1], the subtraction [frame_size / 2 - 1] and the sum
    [frame_size / 2 + tx] wrap at 32 bits as they do in C. *)

From Stdlib Require Import ZArith Lia Strings.Byte.
From stdpp Require Import base option list.
From S2P Require Import Prelude.

#[local] Open Scope Z_scope.
#[local] Open Scope c_scope.

(** ** Constants *)

Definition LOOPBACK_TEST_HDR_SIZE : Z := 14.
Definition LOOPBACK_TEST_DATA_SIZE : Z := 1500.
Definition LOOPBACK_TEST_FRAME_SIZE : Z := 14 + 1500.

Definition MAX_TX_DELAY_LINE : Z := 0x7F.
Definition MAX_RX_DELAY_LINE : Z := 0x7F.

Definition INT_MAX : Z := 2 ^ 31 - 1.

(** ** Operations *)

Definition create_lbtest_frame (mem : list byte) (data frame_size : Z)
  : res (list byte) :=
  mem ← memset mem data 0xFF frame_size;
  let frame_size := u32 (frame_size .&~ 1) in
  memset mem (data + frame_size / 2) 0xAA (u32 (frame_size / 2 - 1)).

Definition alter_lbtest_frame (mem : list byte) (data frame_size tx rx : Z)
  : res (list byte) :=
  let frame_size := u32 (frame_size .&~ 1) in
  mem ← memset mem (data + u32 (frame_size / 2 + tx)) 0xBE 1;
  memset mem (data + u32 (frame_size / 2 + rx)) 0xAF 1.

(** The comparison loop.  [i] is an [int]: it is converted to unsigned for
    the test against [frame_size], and incrementing it past [INT_MAX]
    would be a signed overflow. *)
Fixpoint check_lbtest_frame_from (fuel : nat) (tx_data rx_data : list byte)
    (frame_size i : Z) : res Z :=
  match fuel with
  | O => OutOfFuel
  | S fuel =>
      if decide (u32 i < frame_size) then
        a ← load tx_data i;
        b ← load rx_data i;
        if decide (a ≠ b) then Ok 13
        else if decide (i + 1 <= INT_MAX)
             then check_lbtest_frame_from fuel tx_data rx_data frame_size (i + 1)
             else UB
      else Ok 0
  end.

Definition check_lbtest_frame (tx_data rx_data : list byte) (frame_size : Z)
  : res Z :=
  check_lbtest_frame_from (S (Z.to_nat frame_size)) tx_data rx_data frame_size 0.

(** ** Reference definitions *)

(** The payload pattern: [frame_size / 2] bytes 0xFF, one byte fewer of
    0xAA, and 0xFF up to the end (one byte for an even size, two for an
    odd one). *)
Definition lbtest_pattern (frame_size : Z) : list byte :=
  let h := Z.to_nat (frame_size / 2) in
  replicate h xff ++ replicate (h - 1) xaa
    ++ replicate (Z.to_nat frame_size - (2 * h - 1)) xff.

(** Where [alter_lbtest_frame] puts the sentinel of delay value [d]. *)
Definition tag_pos (data frame_size d : Z) : Z :=
  data + u32 (u32 (frame_size .&~ 1) / 2 + d).

(** A buffer holding a whole frame after [alter_lbtest_frame] for the pair
    [(tx, rx)] of the test: the payload starts at offset 14 and has 1500
    bytes, so the sentinels are at [764 + tx] and [764 + rx]. *)
Definition tagged (buf : list byte) (tx rx : Z) : list byte :=
  <[Z.to_nat (764 + rx) := xaf]> (<[Z.to_nat (764 + tx) := xbe]> buf).

(** The canonical payload of the test: [create_lbtest_frame] on 1500 bytes. *)
Definition canonical_payload : list byte := lbtest_pattern LOOPBACK_TEST_DATA_SIZE.

(** The comparison as a structural recursion on the two buffers: the
    first [n] bytes are compared in order, and running off the end of
    either buffer before a difference is found is undefined behaviour. *)
Fixpoint cmp_prefix (n : nat) (tx_data rx_data : list byte) : res Z :=
  match n with
  | O => Ok 0
  | S n =>
      match tx_data, rx_data with
      | a :: tx_data, b :: rx_data =>
          if decide (a ≠ b) then Ok 13 else cmp_prefix n tx_data rx_data
      | _, _ => UB
      end
  end.

(** ** Arithmetic of the size rounding *)

Lemma round_even fs : in_u32 fs -> u32 (fs .&~ 1) = 2 * (fs / 2).
Proof. intros. rewrite clrb_1_even. wrap_solve. Qed.

Lemma round_even_half fs : in_u32 fs -> u32 (fs .&~ 1) / 2 = fs / 2.
Proof. intros. rewrite round_even by done. wrap_solve. Qed.

Lemma tag_pos_small data fs d :
  in_u32 fs -> 0 <= d -> fs / 2 + d < 2 ^ 32 -> tag_pos data fs d = data + fs / 2 + d.
Proof.
  intros. unfold tag_pos. rewrite round_even_half by done.
  rewrite u32_small; [lia | wrap_solve].
Qed.

Lemma lbtest_pattern_length fs : 2 <= fs -> length (lbtest_pattern fs) = Z.to_nat fs.
Proof.
  intros. unfold lbtest_pattern. cbn zeta.
  rewrite !length_app, !length_replicate.
  assert (2 * (fs / 2) <= fs) by (Z.div_mod_to_equations; lia).
  assert (1 <= fs / 2) by (Z.div_mod_to_equations; lia). lia.
Qed.

(** ** [create_lbtest_frame] *)

Lemma pattern_as_overwrite fs :
  2 <= fs ->
  overwrite (replicate (Z.to_nat fs) xff) (Z.to_nat (fs / 2))
    (replicate (Z.to_nat (fs / 2 - 1)) xaa) = lbtest_pattern fs.
Proof.
  intros. unfold overwrite, lbtest_pattern. cbn zeta.
  assert (2 * (fs / 2) <= fs) by (Z.div_mod_to_equations; lia).
  assert (1 <= fs / 2) by (Z.div_mod_to_equations; lia).
  rewrite take_replicate, drop_replicate, length_replicate.
  repeat f_equal; lia.
Qed.

Lemma create_lbtest_frame_eq mem data fs :
  in_u32 fs -> 2 <= fs -> in_bounds mem data fs ->
  create_lbtest_frame mem data fs =
    Ok (overwrite mem (Z.to_nat data) (lbtest_pattern fs)).
Proof.
  intros Hfs H2 Hb. pose proof Hb as (Hd & _ & Hlen).
  assert (2 * (fs / 2) <= fs) by (Z.div_mod_to_equations; lia).
  assert (1 <= fs / 2) by (Z.div_mod_to_equations; lia).
  unfold create_lbtest_frame. rewrite memset_Ok by done. cbn.
  rewrite round_even_half by done.
  rewrite (u32_small (fs / 2 - 1)) by wrap_solve.
  rewrite memset_Ok.
  2:{ unfold in_bounds. rewrite overwrite_length; rewrite ?length_replicate; lia. }
  f_equal. replace (Z.to_nat (data + fs / 2))
    with (Z.to_nat data + Z.to_nat (fs / 2))%nat by lia.
  rewrite overwrite_overwrite_inside; rewrite ?length_replicate; try lia.
  f_equal. by apply pattern_as_overwrite.
Qed.

Lemma lbtest_pattern_lookup fs (k : nat) :
  2 <= fs -> Z.of_nat k < fs ->
  lbtest_pattern fs !! k =
    Some (if decide (fs / 2 <= Z.of_nat k < 2 * (fs / 2) - 1) then xaa else xff).
Proof.
  intros H2 Hk. unfold lbtest_pattern. cbn zeta.
  assert (2 * (fs / 2) <= fs) by (Z.div_mod_to_equations; lia).
  assert (1 <= fs / 2) by (Z.div_mod_to_equations; lia).
  case_decide as Hc.
  - rewrite lookup_app_r by (rewrite length_replicate; lia).
    rewrite lookup_app_l by (rewrite !length_replicate; lia).
    apply lookup_replicate_2. rewrite length_replicate. lia.
  - destruct (decide (Z.of_nat k < fs / 2)).
    + rewrite lookup_app_l by (rewrite length_replicate; lia).
      apply lookup_replicate_2. lia.
    + rewrite lookup_app_r by (rewrite length_replicate; lia).
      rewrite lookup_app_r by (rewrite !length_replicate; lia).
      apply lookup_replicate_2. rewrite !length_replicate. lia.
Qed.

(** C5. [create_lbtest_frame] on a buffer that holds [frame_size >= 2]
    bytes at [data] succeeds, keeps the buffer's length, and leaves in
    the payload [frame_size / 2] bytes 0xFF, then 0xAA up to (excluding)
    offset [2 * (frame_size / 2) - 1], then 0xFF again to the end of the
    payload (one byte when the size is even, two when it is odd); every
    byte outside the payload is untouched. *)
Theorem create_lbtest_frame_bytes mem data fs :
  in_u32 fs -> 2 <= fs -> in_bounds mem data fs ->
  exists mem',
    create_lbtest_frame mem data fs = Ok mem' /\
    length mem' = length mem /\
    forall i : nat,
      mem' !! i =
        if decide (data <= Z.of_nat i < data + fs)
        then Some (if decide (data + fs / 2 <= Z.of_nat i < data + 2 * (fs / 2) - 1)
                   then xaa else xff)
        else mem !! i.
Proof.
  intros Hfs H2 Hb. pose proof Hb as (Hd & _ & Hlen).
  pose proof (lbtest_pattern_length fs H2) as Hpl.
  eexists. split; [by apply create_lbtest_frame_eq|]. split.
  - apply overwrite_length. lia.
  - intros i. rewrite overwrite_lookup by lia. rewrite Hpl.
    repeat case_decide; try lia; try done;
      rewrite lbtest_pattern_lookup by lia; by rewrite ?decide_True, ?decide_False by lia.
Qed.

Lemma create_lbtest_frame_bytes_witness :
  exists mem',
    create_lbtest_frame (replicate 1514 x00) 14 1500 = Ok mem' /\
    length mem' = length (replicate 1514 x00) /\
    forall i : nat,
      mem' !! i =
        if decide (14 <= Z.of_nat i < 14 + 1500)
        then Some (if decide (14 + 1500 / 2 <= Z.of_nat i < 14 + 2 * (1500 / 2) - 1)
                   then xaa else xff)
        else replicate 1514 x00 !! i.
Proof.
  apply create_lbtest_frame_bytes;
    [wrap_solve | lia | unfold in_bounds; rewrite length_replicate; lia].
Defined.

(** ** [alter_lbtest_frame] *)

Lemma alter_lbtest_frame_eq mem data fs tx rx :
  in_bounds mem (tag_pos data fs tx) 1 -> in_bounds mem (tag_pos data fs rx) 1 ->
  alter_lbtest_frame mem data fs tx rx =
    Ok (<[Z.to_nat (tag_pos data fs rx) := xaf]>
          (<[Z.to_nat (tag_pos data fs tx) := xbe]> mem)).
Proof.
  intros Ht Hr. unfold alter_lbtest_frame. fold (tag_pos data fs tx).
  fold (tag_pos data fs rx). rewrite memset_1 by done. cbn.
  rewrite memset_1; [done|].
  unfold in_bounds in *. rewrite length_insert. lia.
Qed.

(** Both functions write in place. *)
Lemma create_lbtest_frame_length mem data fs mem' :
  create_lbtest_frame mem data fs = Ok mem' -> length mem' = length mem.
Proof.
  unfold create_lbtest_frame. intros (mem1 & H1 & H2)%res_bind_Ok.
  by rewrite (memset_length _ _ _ _ _ H2), (memset_length _ _ _ _ _ H1).
Qed.

Lemma alter_lbtest_frame_length mem data fs tx rx mem' :
  alter_lbtest_frame mem data fs tx rx = Ok mem' -> length mem' = length mem.
Proof.
  unfold alter_lbtest_frame. intros (mem1 & H1 & H2)%res_bind_Ok.
  by rewrite (memset_length _ _ _ _ _ H2), (memset_length _ _ _ _ _ H1).
Qed.

Lemma alter_lbtest_frame_is_Ok mem data fs tx rx :
  is_Ok (alter_lbtest_frame mem data fs tx rx) <->
  in_bounds mem (tag_pos data fs tx) 1 /\ in_bounds mem (tag_pos data fs rx) 1.
Proof.
  split.
  - intros [mem' H]. unfold alter_lbtest_frame in H.
    fold (tag_pos data fs tx) in H. fold (tag_pos data fs rx) in H.
    apply res_bind_Ok in H as (m1 & H1 & H2).
    pose proof (memset_length _ _ _ _ _ H1) as Hl.
    apply memset_inv in H1 as [Hb1 _]. apply memset_inv in H2 as [Hb2 _].
    split; [done|]. unfold in_bounds in *. lia.
  - intros [Ht Hr]. rewrite alter_lbtest_frame_eq by done. by eexists.
Qed.

Lemma alter_lbtest_frame_not_OutOfFuel mem data fs tx rx :
  alter_lbtest_frame mem data fs tx rx <> OutOfFuel.
Proof.
  unfold alter_lbtest_frame. intros [?|(? & ? & ?)]%res_bind_OutOfFuel;
    by eapply memset_not_OutOfFuel.
Qed.

Lemma create_lbtest_frame_not_OutOfFuel mem data fs :
  create_lbtest_frame mem data fs <> OutOfFuel.
Proof.
  unfold create_lbtest_frame. intros [?|(? & ? & ?)]%res_bind_OutOfFuel;
    by eapply memset_not_OutOfFuel.
Qed.

#[export] Hint Resolve alter_lbtest_frame_not_OutOfFuel
  create_lbtest_frame_not_OutOfFuel : c_mem.

(** ** [check_lbtest_frame] *)

Lemma load_drop mem (i : nat) : load mem (Z.of_nat i) = of_option (head (drop i mem)).
Proof.
  unfold load. rewrite decide_True by lia. rewrite Nat2Z.id.
  by rewrite head_lookup, lookup_drop, Nat.add_0_r.
Qed.

Lemma drop_head_tail {A} (l : list A) i :
  drop i l = match head (drop i l) with
             | Some a => a :: drop (S i) l
             | None => []
             end.
Proof.
  destruct (drop i l) as [|a t] eqn:E; [done|]. cbn. f_equal.
  by rewrite <- (Nat.add_1_r i), <- drop_drop, E.
Qed.

(** The indexed loop from [i] agrees with the structural comparison of
    what remains of the two buffers. *)
Lemma check_lbtest_frame_from_cmp fuel tx rx fs (i : nat) :
  Z.of_nat i <= fs <= INT_MAX -> (Z.to_nat fs - i < fuel)%nat ->
  check_lbtest_frame_from fuel tx rx fs (Z.of_nat i) =
    cmp_prefix (Z.to_nat fs - i) (drop i tx) (drop i rx).
Proof.
  unfold INT_MAX. revert i. induction fuel as [|fuel IH]; intros i Hi Hf; [lia|].
  cbn [check_lbtest_frame_from]. rewrite u32_small by wrap_solve.
  case_decide as Hlt.
  2:{ by replace (Z.to_nat fs - i)%nat with 0%nat by lia. }
  replace (Z.to_nat fs - i)%nat with (S (Z.to_nat fs - S i)) by lia.
  rewrite !load_drop, (drop_head_tail tx i), (drop_head_tail rx i).
  destruct (head (drop i tx)) as [a|]; [|done].
  destruct (head (drop i rx)) as [b|]; [|done]. cbn.
  case_decide; [done|]. rewrite decide_True by (unfold INT_MAX; lia).
  replace (Z.of_nat i + 1) with (Z.of_nat (S i)) by lia.
  apply IH; lia.
Qed.

Lemma cmp_prefix_take n tx rx :
  (n <= length tx)%nat -> (n <= length rx)%nat ->
  cmp_prefix n tx rx = Ok (if decide (take n tx = take n rx) then 0 else 13).
Proof.
  revert tx rx. induction n as [|n IH]; intros [|a tx] [|b rx] Ht Hr;
    cbn in *; try lia; [done..|].
  destruct (decide (a = b)) as [->|Hne].
  - rewrite decide_False by (by intros ?). rewrite IH by lia.
    repeat case_decide; congruence.
  - rewrite decide_True by done. rewrite decide_False; [done | congruence].
Qed.

Lemma cmp_prefix_not_OutOfFuel n tx rx : cmp_prefix n tx rx <> OutOfFuel.
Proof.
  revert tx rx. induction n as [|n IH]; intros [|a tx] [|b rx]; cbn; try done.
  by case_decide.
Qed.

Lemma cmp_prefix_values n tx rx r : cmp_prefix n tx rx = Ok r -> r = 0 \/ r = 13.
Proof.
  revert tx rx. induction n as [|n IH]; intros [|a tx] [|b rx]; cbn;
    intros; simplify_eq; eauto.
  case_decide; simplify_eq; eauto.
Qed.

Lemma check_lbtest_frame_take tx rx fs :
  0 <= fs <= INT_MAX ->
  fs <= Z.of_nat (length tx) -> fs <= Z.of_nat (length rx) ->
  check_lbtest_frame tx rx fs =
    Ok (if decide (take (Z.to_nat fs) tx = take (Z.to_nat fs) rx) then 0 else 13).
Proof.
  intros. unfold check_lbtest_frame.
  rewrite (check_lbtest_frame_from_cmp _ tx rx fs 0), Nat.sub_0_r by lia.
  apply cmp_prefix_take; lia.
Qed.

Lemma cmp_prefix_zero n tx rx :
  cmp_prefix n tx rx = Ok 0 <->
  (n <= length tx)%nat /\ (n <= length rx)%nat /\ take n tx = take n rx.
Proof.
  revert tx rx. induction n as [|n IH]; intros [|a tx] [|b rx]; cbn;
    try (split; [done | lia]); [split; intros; repeat split; (done || lia)..|].
  case_decide as Hab.
  - split; [done|]. intros (_ & _ & ?). by simplify_eq.
  - rewrite IH. subst b.
    split; intros (? & ? & ?); repeat split; try lia; congruence.
Qed.

Lemma cmp_prefix_UB_short n tx rx :
  (length rx < n)%nat -> rx = take (length rx) tx -> cmp_prefix n tx rx = UB.
Proof.
  revert tx rx. induction n as [|n IH]; intros tx [|b rx] Hlen Hpre; [cbn in *; lia..| |].
  - by destruct tx.
  - destruct tx as [|a tx]; [done|]. cbn in *. simplify_eq.
    rewrite decide_False by (by intros ?). apply IH; [lia | done].
Qed.

Lemma check_from_not_OutOfFuel fuel tx rx fs i :
  0 <= i <= INT_MAX -> Z.max 0 (fs - i) < Z.of_nat fuel ->
  check_lbtest_frame_from fuel tx rx fs i <> OutOfFuel.
Proof.
  unfold INT_MAX. revert i. induction fuel as [|fuel IH]; intros i Hi Hf; [lia|].
  cbn [check_lbtest_frame_from]. rewrite u32_small by wrap_solve.
  case_decide; [|done].
  intros [?|(a & _ & [?|(b & _ & Hr)]%res_bind_OutOfFuel)]%res_bind_OutOfFuel;
    try by eapply load_not_OutOfFuel.
  repeat case_decide; try done. revert Hr. apply IH; unfold INT_MAX in *; lia.
Qed.

(** C36. [create_lbtest_frame] on a size below 2: [frame_size / 2 - 1]
    underflows to 4294967295 in unsigned arithmetic, and the second
    [memset] runs far past any buffer shorter than that. *)
Theorem create_lbtest_frame_underflow mem data fs :
  0 <= fs < 2 -> Z.of_nat (length mem) < 2 ^ 32 - 1 ->
  create_lbtest_frame mem data fs = UB.
Proof.
  intros Hfs Hlen. unfold create_lbtest_frame.
  destruct (memset mem data 255 fs) as [m1| |] eqn:E1; cbn; try done.
  - pose proof (memset_length _ _ _ _ _ E1) as Hl.
    apply memset_inv in E1 as [(Hd & _ & _) _].
    rewrite round_even_half by wrap_solve.
    replace (fs / 2) with 0 by (Z.div_mod_to_equations; lia).
    apply memset_UB. unfold in_bounds. rewrite Hl.
    change (u32 (0 - 1)) with (2 ^ 32 - 1). lia.
  - by apply memset_not_OutOfFuel in E1.
Qed.

Lemma create_lbtest_frame_underflow_witness :
  create_lbtest_frame (replicate 1514 x00) 14 1 = UB.
Proof.
  apply create_lbtest_frame_underflow; [lia | rewrite length_replicate; lia].
Defined.

(** C27. [alter_lbtest_frame] writes exactly two bytes: 0xBE at the
    position of [tx] and then 0xAF at the position of [rx] (so 0xAF wins
    when both positions coincide); the length and every other byte are
    unchanged. *)
Theorem alter_lbtest_frame_two_bytes mem data fs tx rx :
  in_bounds mem (tag_pos data fs tx) 1 -> in_bounds mem (tag_pos data fs rx) 1 ->
  exists mem',
    alter_lbtest_frame mem data fs tx rx = Ok mem' /\
    length mem' = length mem /\
    forall i : nat,
      mem' !! i =
        if decide (Z.of_nat i = tag_pos data fs rx) then Some xaf
        else if decide (Z.of_nat i = tag_pos data fs tx) then Some xbe
        else mem !! i.
Proof.
  intros Ht Hr. eexists. split; [by apply alter_lbtest_frame_eq|].
  rewrite !length_insert. split; [done|]. intros i.
  destruct Ht as (? & _ & ?), Hr as (? & _ & ?).
  repeat case_decide.
  - assert (i = Z.to_nat (tag_pos data fs rx)) as -> by lia.
    rewrite list_lookup_insert_eq; [done | rewrite length_insert; lia].
  - assert (i = Z.to_nat (tag_pos data fs tx)) as -> by lia.
    rewrite list_lookup_insert_ne by lia.
    rewrite list_lookup_insert_eq; [done | lia].
  - by rewrite !list_lookup_insert_ne by lia.
Qed.

Lemma alter_lbtest_frame_two_bytes_witness :
  exists mem',
    alter_lbtest_frame (replicate 1514 xaa) 14 1500 3 5 = Ok mem' /\
    length mem' = length (replicate 1514 xaa) /\
    forall i : nat,
      mem' !! i =
        if decide (Z.of_nat i = tag_pos 14 1500 5) then Some xaf
        else if decide (Z.of_nat i = tag_pos 14 1500 3) then Some xbe
        else replicate 1514 xaa !! i.
Proof. apply alter_lbtest_frame_two_bytes; vm_compute; intuition discriminate. Defined.

Lemma tag_pos_test d :
  0 <= d < 2 ^ 31 ->
  tag_pos LOOPBACK_TEST_HDR_SIZE LOOPBACK_TEST_DATA_SIZE d = 764 + d.
Proof.
  intros. unfold LOOPBACK_TEST_HDR_SIZE, LOOPBACK_TEST_DATA_SIZE.
  rewrite tag_pos_small by wrap_solve. change (1500 / 2) with 750. lia.
Qed.

Lemma tagged_length buf tx rx : length (tagged buf tx rx) = length buf.
Proof. unfold tagged. by rewrite !length_insert. Qed.

Lemma alter_lbtest_frame_tagged buf tx rx :
  0 <= tx < MAX_TX_DELAY_LINE -> 0 <= rx < MAX_RX_DELAY_LINE ->
  LOOPBACK_TEST_FRAME_SIZE <= Z.of_nat (length buf) ->
  alter_lbtest_frame buf LOOPBACK_TEST_HDR_SIZE LOOPBACK_TEST_DATA_SIZE tx rx =
    Ok (tagged buf tx rx).
Proof.
  unfold MAX_TX_DELAY_LINE, MAX_RX_DELAY_LINE, LOOPBACK_TEST_FRAME_SIZE.
  intros Htx Hrx Hlen.
  rewrite alter_lbtest_frame_eq; rewrite ?tag_pos_test by lia;
    [done | unfold in_bounds; lia..].
Qed.

(** For every delay pair of the sweep ([0 <= tx, rx < 0x7F]) and a
    packet buffer of at least 1514 bytes, both sentinel writes stay
    inside the buffer, and indeed inside the 0xAA half of the payload:
    neither the Ethernet header nor the 0xFF half is ever touched. *)
Theorem alter_lbtest_frame_sweep_bounds mem tx rx :
  0 <= tx < MAX_TX_DELAY_LINE -> 0 <= rx < MAX_RX_DELAY_LINE ->
  LOOPBACK_TEST_FRAME_SIZE <= Z.of_nat (length mem) ->
  is_Ok (alter_lbtest_frame mem LOOPBACK_TEST_HDR_SIZE LOOPBACK_TEST_DATA_SIZE tx rx) /\
  (forall d, d = tx \/ d = rx ->
     LOOPBACK_TEST_HDR_SIZE + LOOPBACK_TEST_DATA_SIZE / 2
       <= tag_pos LOOPBACK_TEST_HDR_SIZE LOOPBACK_TEST_DATA_SIZE d
       < LOOPBACK_TEST_HDR_SIZE + 2 * (LOOPBACK_TEST_DATA_SIZE / 2) - 1).
Proof.
  unfold MAX_TX_DELAY_LINE, MAX_RX_DELAY_LINE, LOOPBACK_TEST_FRAME_SIZE.
  intros Ht Hr Hlen. split.
  - apply alter_lbtest_frame_is_Ok. unfold in_bounds.
    rewrite !tag_pos_test by lia. lia.
  - intros d [-> | ->]; rewrite tag_pos_test by lia;
      unfold LOOPBACK_TEST_HDR_SIZE, LOOPBACK_TEST_DATA_SIZE;
      change (1500 / 2) with 750; lia.
Qed.

Lemma alter_lbtest_frame_sweep_bounds_witness :
  is_Ok (alter_lbtest_frame (replicate 1514 x00) LOOPBACK_TEST_HDR_SIZE
           LOOPBACK_TEST_DATA_SIZE 126 126) /\
  (forall d, d = 126 \/ d = 126 ->
     LOOPBACK_TEST_HDR_SIZE + LOOPBACK_TEST_DATA_SIZE / 2
       <= tag_pos LOOPBACK_TEST_HDR_SIZE LOOPBACK_TEST_DATA_SIZE d
       < LOOPBACK_TEST_HDR_SIZE + 2 * (LOOPBACK_TEST_DATA_SIZE / 2) - 1).
Proof.
  apply alter_lbtest_frame_sweep_bounds; vm_compute; intuition discriminate.
Defined.

Lemma tagged_lookup (mem : list byte) (p q i : nat) :
  (p < length mem)%nat -> (q < length mem)%nat ->
  <[q := xaf]> (<[p := xbe]> mem) !! i =
    if decide (i = q) then Some xaf
    else if decide (i = p) then Some xbe else mem !! i.
Proof.
  intros. repeat case_decide; subst.
  - rewrite list_lookup_insert_eq; [done | by rewrite length_insert].
  - rewrite list_lookup_insert_ne by done. by rewrite list_lookup_insert_eq.
  - by rewrite !list_lookup_insert_ne.
Qed.

Lemma tagged_inj (mem : list byte) (p q p' q' : nat) :
  Forall (fun b => b <> xbe /\ b <> xaf) mem ->
  (p < length mem)%nat -> (q < length mem)%nat ->
  (p' < length mem)%nat -> (q' < length mem)%nat ->
  <[q := xaf]> (<[p := xbe]> mem) = <[q' := xaf]> (<[p' := xbe]> mem) ->
  p = p' /\ q = q'.
Proof.
  intros Hclean Hp Hq Hp' Hq' Heq.
  assert (Hat : forall i b, mem !! i = Some b -> b <> xbe /\ b <> xaf)
    by (intros i b; apply (Forall_lookup_1 _ _ _ _ Hclean)).
  assert (E : forall i, (if decide (i = q) then Some xaf
                         else if decide (i = p) then Some xbe else mem !! i)
                      = (if decide (i = q') then Some xaf
                         else if decide (i = p') then Some xbe else mem !! i)).
  { intros i. rewrite <- !tagged_lookup by done. by rewrite Heq. }
  assert (Hbe : forall i, mem !! i <> Some xbe)
    by (intros i Hi; by destruct (Hat _ _ Hi)).
  assert (Haf : forall i, mem !! i <> Some xaf)
    by (intros i Hi; by destruct (Hat _ _ Hi)).
  assert (q = q') as <-.
  { specialize (E q). rewrite decide_True in E by done.
    repeat case_decide; try done; try discriminate. by destruct (Haf q). }
  split; [|done]. destruct (decide (p = q)) as [->|Hpq].
  - specialize (E p'). repeat case_decide; try done; try discriminate.
    by destruct (Hbe p').
  - specialize (E p). rewrite decide_False, decide_True in E by done.
    repeat case_decide; try done; try discriminate. by destruct (Hbe p).
Qed.

(** Tagging is injective on a frame that holds neither sentinel (the
    canonical frame is one): two delay pairs of the sweep that produce
    the same tagged frame are the same pair, also when [tx = rx] and the
    0xBE is overwritten. *)
Theorem alter_lbtest_frame_tag_injective mem tx rx tx' rx' :
  Forall (fun b => b <> xbe /\ b <> xaf) mem ->
  LOOPBACK_TEST_FRAME_SIZE <= Z.of_nat (length mem) ->
  0 <= tx < MAX_TX_DELAY_LINE -> 0 <= rx < MAX_RX_DELAY_LINE ->
  0 <= tx' < MAX_TX_DELAY_LINE -> 0 <= rx' < MAX_RX_DELAY_LINE ->
  alter_lbtest_frame mem LOOPBACK_TEST_HDR_SIZE LOOPBACK_TEST_DATA_SIZE tx rx =
  alter_lbtest_frame mem LOOPBACK_TEST_HDR_SIZE LOOPBACK_TEST_DATA_SIZE tx' rx' ->
  tx = tx' /\ rx = rx'.
Proof.
  unfold MAX_TX_DELAY_LINE, MAX_RX_DELAY_LINE, LOOPBACK_TEST_FRAME_SIZE.
  intros Hclean Hlen Ht Hr Ht' Hr'.
  rewrite !alter_lbtest_frame_eq by (unfold in_bounds; rewrite !tag_pos_test by lia; lia).
  rewrite !tag_pos_test by lia. intros [= Heq].
  apply tagged_inj in Heq; [lia | done | lia..].
Qed.

Lemma alter_lbtest_frame_tag_injective_witness : 3 = 3 /\ 5 = 5.
Proof.
  apply (alter_lbtest_frame_tag_injective (replicate 1514 xaa) 3 5 3 5);
    [apply Forall_replicate; by split | by vm_compute..].
Defined.

(** Tags accumulate: the frame is not rebuilt between iterations, so
    after the [alter_lbtest_frame] of a second delay pair the 0xBE of the
    first pair is still in the frame, unless one of the later writes hit
    its position. *)
Theorem alter_lbtest_frame_accumulates mem tx1 rx1 tx2 rx2 :
  LOOPBACK_TEST_FRAME_SIZE <= Z.of_nat (length mem) ->
  0 <= tx1 < MAX_TX_DELAY_LINE -> 0 <= rx1 < MAX_RX_DELAY_LINE ->
  0 <= tx2 < MAX_TX_DELAY_LINE -> 0 <= rx2 < MAX_RX_DELAY_LINE ->
  tx1 <> rx1 -> tx1 <> tx2 -> tx1 <> rx2 ->
  exists m1 m2,
    alter_lbtest_frame mem LOOPBACK_TEST_HDR_SIZE LOOPBACK_TEST_DATA_SIZE tx1 rx1 = Ok m1 /\
    alter_lbtest_frame m1 LOOPBACK_TEST_HDR_SIZE LOOPBACK_TEST_DATA_SIZE tx2 rx2 = Ok m2 /\
    m2 !! Z.to_nat (tag_pos LOOPBACK_TEST_HDR_SIZE LOOPBACK_TEST_DATA_SIZE tx1) = Some xbe.
Proof.
  unfold MAX_TX_DELAY_LINE, MAX_RX_DELAY_LINE, LOOPBACK_TEST_FRAME_SIZE.
  intros Hlen ? ? ? ? N1 N2 N3.
  pose proof (tag_pos_test tx1 ltac:(lia)) as P1.
  pose proof (tag_pos_test rx1 ltac:(lia)) as Q1.
  pose proof (tag_pos_test tx2 ltac:(lia)) as P2.
  pose proof (tag_pos_test rx2 ltac:(lia)) as Q2.
  do 2 eexists. split; [|split].
  - apply alter_lbtest_frame_eq; unfold in_bounds; lia.
  - apply alter_lbtest_frame_eq; unfold in_bounds; rewrite !length_insert; lia.
  - rewrite !tagged_lookup by (rewrite ?length_insert; lia).
    rewrite decide_False, decide_False, decide_False, decide_True by lia. done.
Qed.

Lemma alter_lbtest_frame_accumulates_witness :
  exists m1 m2,
    alter_lbtest_frame (replicate 1514 xaa) LOOPBACK_TEST_HDR_SIZE
      LOOPBACK_TEST_DATA_SIZE 7 4 = Ok m1 /\
    alter_lbtest_frame m1 LOOPBACK_TEST_HDR_SIZE LOOPBACK_TEST_DATA_SIZE 0 1 = Ok m2 /\
    m2 !! Z.to_nat (tag_pos LOOPBACK_TEST_HDR_SIZE LOOPBACK_TEST_DATA_SIZE 7) = Some xbe.
Proof. apply alter_lbtest_frame_accumulates; by vm_compute. Defined.

(** Rewrites a [check_lbtest_frame] into the structural comparison; the
    side condition [0 <= fs <= INT_MAX] is left to [lia]. *)
Ltac check_to_cmp :=
  unfold check_lbtest_frame;
  rewrite (check_lbtest_frame_from_cmp _ _ _ _ 0), Nat.sub_0_r
    by (unfold INT_MAX, LOOPBACK_TEST_FRAME_SIZE in *; lia);
  rewrite ?drop_0.

(** The indexed comparison loop of [check_lbtest_frame] computes
    exactly the structural comparison [cmp_prefix] of the first
    [frame_size] bytes, on every branch: 0 on equal prefixes, 13 at the
    first difference, undefined behaviour when a buffer ends first. *)
Theorem check_lbtest_frame_refines_cmp tx rx fs :
  0 <= fs <= INT_MAX ->
  check_lbtest_frame tx rx fs = cmp_prefix (Z.to_nat fs) tx rx.
Proof. intros. by check_to_cmp. Qed.

Lemma check_lbtest_frame_refines_cmp_witness :
  check_lbtest_frame (replicate 1514 xaa) (replicate 1514 xaa) 1514 =
  cmp_prefix (Z.to_nat 1514) (replicate 1514 xaa) (replicate 1514 xaa).
Proof. apply check_lbtest_frame_refines_cmp. by vm_compute. Defined.

(** The comparison loop terminates within the fuel
    [frame_size + 1] that [check_lbtest_frame] passes, for all buffers
    and all sizes. *)
Theorem check_lbtest_frame_terminates tx rx fs :
  terminates (check_lbtest_frame tx rx fs).
Proof.
  apply terminates_iff, check_from_not_OutOfFuel; unfold INT_MAX; lia.
Qed.

(** C6. [check_lbtest_frame] returns 0 exactly when both buffers hold at
    least [frame_size] bytes and agree on them. *)
Theorem check_lbtest_frame_zero_iff tx rx fs :
  0 <= fs <= INT_MAX ->
  check_lbtest_frame tx rx fs = Ok 0 <->
  fs <= Z.of_nat (length tx) /\ fs <= Z.of_nat (length rx) /\
  take (Z.to_nat fs) tx = take (Z.to_nat fs) rx.
Proof.
  intros. check_to_cmp. rewrite cmp_prefix_zero.
  split; intros (? & ? & ?); repeat split; (done || lia).
Qed.

Lemma check_lbtest_frame_zero_iff_witness :
  check_lbtest_frame (replicate 1514 xaa) (replicate 1514 xaa) 1514 = Ok 0 <->
  1514 <= Z.of_nat (length (replicate 1514 xaa)) /\
  1514 <= Z.of_nat (length (replicate 1514 xaa)) /\
  take (Z.to_nat 1514) (replicate 1514 xaa) = take (Z.to_nat 1514) (replicate 1514 xaa).
Proof. apply check_lbtest_frame_zero_iff. by vm_compute. Defined.

(** One flipped byte inside the compared range is detected: the
    comparison returns 13. *)
Theorem check_lbtest_frame_detects_flip tx fs (k : nat) a b :
  0 <= fs <= INT_MAX -> fs <= Z.of_nat (length tx) ->
  Z.of_nat k < fs -> tx !! k = Some a -> a <> b ->
  check_lbtest_frame tx (<[k := b]> tx) fs = Ok 13.
Proof.
  intros Hfs Hlen Hk Ha Hab. unfold check_lbtest_frame.
  rewrite (check_lbtest_frame_from_cmp _ _ _ _ 0), Nat.sub_0_r, !drop_0 by lia.
  rewrite cmp_prefix_take by (rewrite ?length_insert; lia).
  rewrite decide_False; [done|]. intros Heq.
  apply (f_equal (.!! k)) in Heq. rewrite !lookup_take_lt in Heq by lia.
  rewrite list_lookup_insert_eq in Heq by lia. congruence.
Qed.

Lemma check_lbtest_frame_detects_flip_witness :
  check_lbtest_frame (replicate 1514 xaa) (<[800%nat := xab]> (replicate 1514 xaa)) 1514
    = Ok 13.
Proof.
  apply (check_lbtest_frame_detects_flip _ _ _ xaa); by vm_compute.
Defined.

(** C40. The length returned by the driver is not used by the
    comparison: a received buffer that is shorter than [frame_size] and
    agrees with the transmitted one as far as it goes makes the loop read
    past its end. *)
Theorem check_lbtest_frame_short_rx tx rx fs :
  0 <= fs <= INT_MAX -> Z.of_nat (length rx) < fs ->
  rx = take (length rx) tx ->
  check_lbtest_frame tx rx fs = UB.
Proof.
  intros. check_to_cmp. apply cmp_prefix_UB_short; [lia | done].
Qed.

Lemma check_lbtest_frame_short_rx_witness :
  check_lbtest_frame (replicate 1514 xaa) (replicate 60 xaa) 1514 = UB.
Proof. apply check_lbtest_frame_short_rx; by vm_compute. Defined.

(** Tagging a frame and comparing it with itself, for any delay
    pair of the sweep, finds no mismatch. *)
Theorem tagged_frame_matches_itself mem tx rx :
  0 <= tx < MAX_TX_DELAY_LINE -> 0 <= rx < MAX_RX_DELAY_LINE ->
  LOOPBACK_TEST_FRAME_SIZE <= Z.of_nat (length mem) ->
  exists mem',
    alter_lbtest_frame mem LOOPBACK_TEST_HDR_SIZE LOOPBACK_TEST_DATA_SIZE tx rx = Ok mem' /\
    check_lbtest_frame mem' mem' LOOPBACK_TEST_FRAME_SIZE = Ok 0.
Proof.
  unfold MAX_TX_DELAY_LINE, MAX_RX_DELAY_LINE. intros Ht Hr Hlen.
  pose proof (tag_pos_test tx ltac:(lia)). pose proof (tag_pos_test rx ltac:(lia)).
  eexists. split.
  - apply alter_lbtest_frame_eq; unfold in_bounds, LOOPBACK_TEST_FRAME_SIZE in *; lia.
  - check_to_cmp. apply cmp_prefix_zero. rewrite !length_insert.
    unfold LOOPBACK_TEST_FRAME_SIZE in *. repeat split; (done || lia).
Qed.

Lemma tagged_frame_matches_itself_witness :
  exists mem',
    alter_lbtest_frame (replicate 1514 xaa) LOOPBACK_TEST_HDR_SIZE
      LOOPBACK_TEST_DATA_SIZE 0 0 = Ok mem' /\
    check_lbtest_frame mem' mem' LOOPBACK_TEST_FRAME_SIZE = Ok 0.
Proof. apply tagged_frame_matches_itself; by vm_compute. Defined.
