(* ===== verification/Regs.v ===== *)
(** * Register values of the loopback set-up
      ([src/test/rockchip/test-eth.c], lines 28-39 and 96-125)

    The MAC configuration bits and the loopback speeds are those of the
    source.  The BMCR bits are the IEEE 802.3 clause 22 basic control
    register as [linux/mii.h] names them.  [mac_conf_for] and [bmcr_for]
    are the two read-modify-write computations of
    [eth_setup_loopback_test], without the register accesses around them:
    [conf] is a [u32], [val] an [int]. *)

From Stdlib Require Import ZArith Lia.
From stdpp Require Import base option list.
From coqutil Require Import Z.bitblast.
From S2P Require Import Prelude.

#[local] Open Scope Z_scope.
#[local] Open Scope c_scope.

(** ** MAC configuration register bits *)

Definition FRAMEBURSTENABLE : Z := BIT 21.
Definition MII_PORTSELECT : Z := BIT 15.
Definition FES_100 : Z := BIT 14.
Definition DISABLERXOWN : Z := BIT 13.
Definition FULLDPLXMODE : Z := BIT 11.

(** ** [enum loopback_speed] *)

Definition LOOPBACK_SPEED_10 : Z := 10.
Definition LOOPBACK_SPEED_100 : Z := 100.
Definition LOOPBACK_SPEED_1000 : Z := 1000.

(** ** PHY basic mode control register *)

Definition MII_BMCR : Z := 0x00.
Definition MDIO_DEVAD_NONE : Z := -1.

Definition BMCR_SPEED1000 : Z := 0x0040.
Definition BMCR_FULLDPLX : Z := 0x0100.
Definition BMCR_ISOLATE : Z := 0x0400.
Definition BMCR_PDOWN : Z := 0x0800.
Definition BMCR_ANENABLE : Z := 0x1000.
Definition BMCR_SPEED100 : Z := 0x2000.
Definition BMCR_LOOPBACK : Z := 0x4000.
Definition BMCR_RESET : Z := 0x8000.

(** ** The two register computations *)

Definition mac_conf_for (speed duplex conf : Z) : Z :=
  let conf :=
    if decide (speed ≠ LOOPBACK_SPEED_1000)
    then u32 (conf .| MII_PORTSELECT)
    else u32 (conf .&~ MII_PORTSELECT) in
  let conf :=
    if decide (speed = LOOPBACK_SPEED_100) then u32 (conf .| FES_100) else conf in
  let conf :=
    if decide (duplex ≠ 0) then u32 (conf .| FULLDPLXMODE) else conf in
  conf.

Definition bmcr_for (speed val : Z) : Z :=
  let val := val .&~ (BMCR_ANENABLE .| BMCR_PDOWN) in
  let val := val .| BMCR_LOOPBACK in
  let val :=
    if decide (speed = LOOPBACK_SPEED_1000)
    then (val .| BMCR_SPEED1000) .&~ BMCR_SPEED100
    else if decide (speed = LOOPBACK_SPEED_100)
    then (val .&~ BMCR_SPEED1000) .| BMCR_SPEED100
    else if decide (speed = LOOPBACK_SPEED_10)
    then (val .&~ BMCR_SPEED1000) .&~ BMCR_SPEED100
    else val in
  val .| BMCR_FULLDPLX.

(** ** Reference definitions *)

(** The speed a BMCR value selects with auto-negotiation off (clause 22:
    bit 6 is the high speed bit, bit 13 the low one; both set is
    reserved). *)
Definition bmcr_speed (val : Z) : option Z :=
  match Z.testbit val 6, Z.testbit val 13 with
  | false, false => Some LOOPBACK_SPEED_10
  | false, true => Some LOOPBACK_SPEED_100
  | true, false => Some LOOPBACK_SPEED_1000
  | true, true => None
  end.

(** The speed the MAC is configured for: the port-select bit chooses
    between the GMII (1000) and MII (10/100) ports, [FES_100] between 100
    and 10 on the MII port. *)
Definition mac_speed (conf : Z) : Z :=
  if Z.testbit conf 15
  then (if Z.testbit conf 14 then LOOPBACK_SPEED_100 else LOOPBACK_SPEED_10)
  else LOOPBACK_SPEED_1000.

Definition known_speed (speed : Z) : Prop :=
  speed = LOOPBACK_SPEED_10 \/ speed = LOOPBACK_SPEED_100 \/ speed = LOOPBACK_SPEED_1000.

#[export] Instance known_speed_dec speed : Decision (known_speed speed).
Proof. unfold known_speed. apply _. Defined.

(** ** Bit positions of the constants *)

Lemma BMCR_bits :
  BMCR_SPEED1000 = BIT 6 /\ BMCR_FULLDPLX = BIT 8 /\ BMCR_ISOLATE = BIT 10 /\
  BMCR_PDOWN = BIT 11 /\ BMCR_ANENABLE = BIT 12 /\ BMCR_SPEED100 = BIT 13 /\
  BMCR_LOOPBACK = BIT 14 /\ BMCR_RESET = BIT 15.
Proof. by repeat split. Qed.

(** Unfolds the register constants to [BIT n], pushes [Z.testbit]
    through the operations and decides the comparisons of bit indices. *)
Ltac reg_unfold :=
  unfold FRAMEBURSTENABLE, MII_PORTSELECT, FES_100, DISABLERXOWN, FULLDPLXMODE in *;
  change BMCR_SPEED1000 with (BIT 6) in *; change BMCR_FULLDPLX with (BIT 8) in *;
  change BMCR_ISOLATE with (BIT 10) in *; change BMCR_PDOWN with (BIT 11) in *;
  change BMCR_ANENABLE with (BIT 12) in *; change BMCR_SPEED100 with (BIT 13) in *;
  change BMCR_LOOPBACK with (BIT 14) in *; change BMCR_RESET with (BIT 15) in *;
  unfold LOOPBACK_SPEED_10, LOOPBACK_SPEED_100, LOOPBACK_SPEED_1000 in *.

Ltac bit_cases :=
  repeat match goal with
  | |- context [Z.eqb ?n ?i] => destruct (Z.eqb_spec n i); try lia
  | |- context [Z.ltb ?n ?i] => destruct (Z.ltb_spec n i); try lia
  end.

Ltac reg_bits :=
  reg_unfold; bits_simpl; bit_cases;
  cbn [andb orb negb];
  rewrite ?andb_true_r, ?andb_false_r, ?orb_true_r, ?orb_false_r,
    ?andb_true_l, ?orb_false_l;
  try done.

(** ** The MAC configuration value *)

Lemma mac_conf_for_testbit speed duplex conf i :
  Z.testbit (mac_conf_for speed duplex conf) i =
    (i <? 32) &&
    (if decide (i = 15) then bool_decide (speed ≠ LOOPBACK_SPEED_1000)
     else if decide (i = 14)
          then Z.testbit conf 14 || bool_decide (speed = LOOPBACK_SPEED_100)
     else if decide (i = 11)
          then Z.testbit conf 11 || bool_decide (duplex ≠ 0)
     else Z.testbit conf i).
Proof.
  unfold mac_conf_for.
  destruct (decide (speed ≠ LOOPBACK_SPEED_1000));
    destruct (decide (speed = LOOPBACK_SPEED_100));
    destruct (decide (duplex ≠ 0)); cbn zeta;
    rewrite ?bool_decide_eq_true_2, ?bool_decide_eq_false_2 by done;
    repeat case_decide; subst; reg_bits.
Qed.

Lemma mac_conf_for_range speed duplex conf : in_u32 (mac_conf_for speed duplex conf).
Proof. unfold mac_conf_for. repeat case_decide; apply u32_range. Qed.

(** ** The BMCR value *)

Lemma bmcr_for_testbit speed val i :
  Z.testbit (bmcr_for speed val) i =
    if decide (i = 12 \/ i = 11) then false
    else if decide (i = 14 \/ i = 8) then true
    else if decide (i = 6)
         then (if decide (known_speed speed)
               then bool_decide (speed = LOOPBACK_SPEED_1000) else Z.testbit val 6)
    else if decide (i = 13)
         then (if decide (known_speed speed)
               then bool_decide (speed = LOOPBACK_SPEED_100) else Z.testbit val 13)
    else Z.testbit val i.
Proof.
  unfold bmcr_for, known_speed.
  destruct (decide (speed = LOOPBACK_SPEED_1000));
    [|destruct (decide (speed = LOOPBACK_SPEED_100));
      [|destruct (decide (speed = LOOPBACK_SPEED_10))]]; cbn zeta;
    repeat case_decide; subst;
    rewrite ?bool_decide_eq_true_2, ?bool_decide_eq_false_2 by done;
    try (reg_unfold; lia); reg_bits; try (reg_unfold; lia).
Qed.

Lemma BIT_range n k : 0 <= n < k -> 0 <= BIT n < 2 ^ k.
Proof.
  intros. rewrite BIT_pow2 by lia. split; [apply Z.pow_nonneg; lia|].
  apply Z.pow_lt_mono_r; lia.
Qed.

Lemma bmcr_for_range_u16 speed val :
  0 <= val < 2 ^ 16 -> 0 <= bmcr_for speed val < 2 ^ 16.
Proof.
  intros Hv. unfold bmcr_for. reg_unfold.
  repeat case_decide;
    repeat first [apply setb_range | apply clrb_range | apply BIT_range
                 | assumption | lia].
Qed.

Lemma bmcr_for_range_s32 speed val : in_s32 val -> in_s32 (bmcr_for speed val).
Proof.
  unfold in_s32. intros Hv. unfold bmcr_for. reg_unfold.
  repeat case_decide;
    repeat first [apply setb_range_signed | apply clrb_range_signed
                 | apply setb_range | apply BIT_range | assumption | lia].
Qed.

Lemma bmcr_speed_bmcr_for speed val :
  bmcr_speed (bmcr_for speed val) =
    if decide (known_speed speed) then Some speed else bmcr_speed val.
Proof.
  unfold bmcr_speed. rewrite !bmcr_for_testbit.
  repeat case_decide; try lia;
    match goal with H : known_speed _ |- _ => destruct H as [->| [->| ->]] | _ => idtac end;
    done.
Qed.

Lemma mac_speed_mac_conf_for speed duplex conf :
  mac_speed (mac_conf_for speed duplex conf) =
    if decide (speed = LOOPBACK_SPEED_1000) then LOOPBACK_SPEED_1000
    else if decide (speed = LOOPBACK_SPEED_100) then LOOPBACK_SPEED_100
    else if Z.testbit conf 14 then LOOPBACK_SPEED_100 else LOOPBACK_SPEED_10.
Proof.
  unfold mac_speed. rewrite !mac_conf_for_testbit. cbn.
  repeat case_decide; subst; try done;
    rewrite ?bool_decide_eq_true_2, ?bool_decide_eq_false_2 by done;
    cbn; rewrite ?orb_true_r, ?orb_false_r; done.
Qed.

(** ** Properties *)

(** C8. The MAC configuration value written by the set-up: it fits 32
    bits; the port-select bit (15) is set exactly for speeds other than
    1000; the 100 Mbit/s bit (14) and the full-duplex bit (11) are set
    when requested and otherwise keep their old value (they are never
    cleared); every other bit is the one read. *)
Theorem mac_conf_for_spec speed duplex conf :
  in_u32 (mac_conf_for speed duplex conf) /\
  forall i,
    Z.testbit (mac_conf_for speed duplex conf) i =
      (i <? 32) &&
      (if decide (i = 15) then bool_decide (speed ≠ LOOPBACK_SPEED_1000)
       else if decide (i = 14)
            then Z.testbit conf 14 || bool_decide (speed = LOOPBACK_SPEED_100)
       else if decide (i = 11)
            then Z.testbit conf 11 || bool_decide (duplex ≠ 0)
       else Z.testbit conf i).
Proof. split; [apply mac_conf_for_range | apply mac_conf_for_testbit]. Qed.

(** C7. The BMCR value written by the set-up, bit by bit:
    auto-negotiation (12) and power-down (11) are cleared, loopback (14)
    and full duplex (8) are set, the speed bits (6, 13) encode a known
    speed and are left as read for any other speed; every other bit is
    the one read. *)
Theorem bmcr_for_spec speed val i :
  Z.testbit (bmcr_for speed val) i =
    if decide (i = 12 \/ i = 11) then false
    else if decide (i = 14 \/ i = 8) then true
    else if decide (i = 6)
         then (if decide (known_speed speed)
               then bool_decide (speed = LOOPBACK_SPEED_1000) else Z.testbit val 6)
    else if decide (i = 13)
         then (if decide (known_speed speed)
               then bool_decide (speed = LOOPBACK_SPEED_100) else Z.testbit val 13)
    else Z.testbit val i.
Proof. apply bmcr_for_testbit. Qed.

(** For a known speed and a MAC whose 100 Mbit/s bit was clear, MAC
    and PHY are configured consistently: the BMCR speed bits decode to
    the requested speed and so does the MAC configuration. *)
Theorem setup_speed_consistent speed duplex conf val :
  known_speed speed -> Z.testbit conf 14 = false ->
  bmcr_speed (bmcr_for speed val) = Some speed /\
  mac_speed (mac_conf_for speed duplex conf) = speed.
Proof.
  intros Hk Hc. rewrite bmcr_speed_bmcr_for, mac_speed_mac_conf_for, Hc.
  rewrite decide_True by done. split; [done|].
  destruct Hk as [->| [->| ->]]; by repeat case_decide.
Qed.

Lemma setup_speed_consistent_witness :
  bmcr_speed (bmcr_for LOOPBACK_SPEED_10 0x1140) = Some LOOPBACK_SPEED_10 /\
  mac_speed (mac_conf_for LOOPBACK_SPEED_10 1 0) = LOOPBACK_SPEED_10.
Proof. apply setup_speed_consistent; [by left | done]. Defined.

(** The 100 Mbit/s bit of the MAC is never cleared: after a run at
    100 a run at 10 leaves the MAC configured for 100 while the PHY is
    set to 10. *)
Theorem mac_conf_for_stale_100 duplex conf val :
  mac_speed (mac_conf_for LOOPBACK_SPEED_10 duplex
               (mac_conf_for LOOPBACK_SPEED_100 duplex conf)) = LOOPBACK_SPEED_100 /\
  bmcr_speed (bmcr_for LOOPBACK_SPEED_10 (bmcr_for LOOPBACK_SPEED_100 val))
    = Some LOOPBACK_SPEED_10.
Proof.
  rewrite !bmcr_speed_bmcr_for, !mac_speed_mac_conf_for, mac_conf_for_testbit.
  split; [|by rewrite decide_True by (by left)].
  repeat case_decide; try done.
  by rewrite bool_decide_eq_true_2, orb_true_r by done.
Qed.

(** A BMCR value read without error (16 bits) stays within 16 bits,
    so the conversion to the [u16] argument of [phy_write] loses
    nothing. *)
Theorem bmcr_for_fits_u16 speed val :
  0 <= val < 2 ^ 16 ->
  0 <= bmcr_for speed val < 2 ^ 16 /\ u16 (bmcr_for speed val) = bmcr_for speed val.
Proof.
  intros Hv. pose proof (bmcr_for_range_u16 speed val Hv).
  split; [done|]. unfold u16. by apply wrap_small.
Qed.

Lemma bmcr_for_fits_u16_witness :
  0 <= bmcr_for LOOPBACK_SPEED_1000 0x1140 < 2 ^ 16 /\
  u16 (bmcr_for LOOPBACK_SPEED_1000 0x1140) = bmcr_for LOOPBACK_SPEED_1000 0x1140.
Proof. apply bmcr_for_fits_u16. lia. Defined.



(** Both register computations are idempotent: running the set-up
    twice at the same speed writes the same values the second time. *)
Theorem setup_values_idempotent speed duplex conf val :
  mac_conf_for speed duplex (mac_conf_for speed duplex conf)
    = mac_conf_for speed duplex conf /\
  bmcr_for speed (bmcr_for speed val) = bmcr_for speed val.
Proof.
  split; apply Z.bits_inj'; intros i Hi.
  - rewrite !mac_conf_for_testbit.
    repeat case_decide; try lia; destruct (i <? 32); cbn;
      rewrite ?orb_false_r, <- ?orb_assoc, ?orb_diag; done.
  - rewrite !bmcr_for_testbit. repeat case_decide; subst; try lia; try done.
Qed.

(** The speed is not validated: for a value outside 10, 100 and
    1000 the PHY speed bits are left as they were read, while the MAC is
    switched to its MII port as for 10 or 100. *)
Theorem setup_unknown_speed speed duplex conf val :
  ~ known_speed speed ->
  bmcr_speed (bmcr_for speed val) = bmcr_speed val /\
  Z.testbit (mac_conf_for speed duplex conf) 15 = true.
Proof.
  intros Hk. rewrite bmcr_speed_bmcr_for, mac_conf_for_testbit.
  rewrite decide_False by done. split; [done|]. cbn.
  apply bool_decide_eq_true_2. intros ->. apply Hk. by right; right.
Qed.

Lemma setup_unknown_speed_witness :
  bmcr_speed (bmcr_for 50 0x1140) = bmcr_speed 0x1140 /\
  Z.testbit (mac_conf_for 50 1 0) 15 = true.
Proof. apply setup_unknown_speed. by vm_compute; intuition discriminate. Defined.
