(* ===== verification/Hw.v ===== *)
(** * The collaborators of the diagnostic, and the monad it runs in

    [test-eth.c] calls into the driver model, the MDIO bus, the MAC, the
    network stack, the console and the timer (the headers it includes at
    lines 7-19 and the [extern] of line 41).  None of that code is part of
    the excerpt: here it is the typeclass [Platform] over an abstract
    device state [D].  Each external call is a primitive of the monad [M]
    that applies the platform's operation to the device state and logs an
    [event]; the newest event is the head of the trace.

    The one piece of memory the diagnostic shares with the network stack
    is the transmit buffer [net_tx_packet]; it is a field of the [world],
    [None] while the pointer is NULL.

    What a theorem needs of the collaborators beyond their signatures is
    a law class: [RegisterFile] for registers that hold what is written,
    [RxBuffers] for receive buffers that hold a full frame. *)

From Stdlib Require Import ZArith Lia Strings.Byte.
From stdpp Require Import base option list strings.
From S2P Require Import Prelude.

#[local] Open Scope Z_scope.

(** ** Driver-model objects *)

(** [struct udevice]: the fields the diagnostic reads. *)
Record udevice := {
  dev_seq : Z;
  dev_flags : Z;
  pdata_iobase : Z;
}.

(** [struct phy_device]: its bus address and its [duplex] field. *)
Record phy_device := {
  phy_addr : Z;
  phy_duplex : Z;
}.

(** [struct mii_dev]: the PHY address map, [PHY_MAX_ADDR] entries. *)
Record mii_dev := {
  phymap : list (option phy_device);
}.

Definition PHY_MAX_ADDR : Z := 32.

(** The first populated entry of a PHY map. *)
Definition first_phy (map : list (option phy_device)) : option phy_device :=
  head (omap id map).
Definition DM_FLAG_ACTIVATED : Z := BIT 0.
Definition ETH_RECV_CHECK_DEVICE : Z := BIT 0.

Definition EINVAL : Z := 22.
Definition EBUSY : Z := 16.

#[export] Instance udevice_eq_dec : EqDecision udevice.
Proof. solve_decision. Defined.

#[export] Instance phy_device_eq_dec : EqDecision phy_device.
Proof. solve_decision. Defined.

(** [device_active(dev)]: the activated flag of the device. *)
Definition device_active (dev : udevice) : bool :=
  bool_decide (Z.land (dev_flags dev) DM_FLAG_ACTIVATED ≠ 0).

(** ** Events *)

Inductive event :=
| EvPrintf (s : string)
| EvUdelay (usec : Z)
| EvReadl (addr val : Z)
| EvWritel (val addr : Z)
| EvPhyRead (addr devad regnum val : Z)
| EvPhyWrite (addr devad regnum val : Z)
| EvSetRgmii (tx_delay rx_delay : Z)
| EvSend (pkt : list byte)
| EvRecv (length : Z)
| EvFreePkt (length : Z)
| EvNetInit
| EvEthHalt
| EvEthSetCurrent
| EvEthInit (ret : Z)
| EvRunCommand (cmd : string) (ret : Z).

#[export] Instance event_eq_dec : EqDecision event.
Proof. solve_decision. Defined.

Definition is_send (e : event) : bool :=
  match e with EvSend _ => true | _ => false end.

Definition is_recv (e : event) : bool :=
  match e with EvRecv _ => true | _ => false end.

Definition is_free (e : event) : bool :=
  match e with EvFreePkt _ => true | _ => false end.

Definition is_reg_write (e : event) : bool :=
  match e with EvWritel _ _ | EvPhyWrite _ _ _ _ | EvSetRgmii _ _ => true | _ => false end.

(** ** The platform *)

Class Platform (D : Type) : Type := {
  (** [eth_get_dev()]: the current Ethernet device, or NULL. *)
  plat_eth_get_dev : D -> option udevice;
  (** [mdio_get_current_dev()]: the current MDIO bus, or NULL. *)
  plat_mdio_get_current_dev : D -> option mii_dev;
  (** [readl(addr)] and [writel(val, addr)] on the MAC. *)
  plat_readl : Z -> D -> Z;
  plat_writel : Z -> Z -> D -> D;
  (** [phy_read(phydev, devad, regnum)], an [int] (negative on error),
      and [phy_write(phydev, devad, regnum, val)] with [val] a [u16]. *)
  plat_phy_read : phy_device -> Z -> Z -> D -> Z;
  plat_phy_write : phy_device -> Z -> Z -> Z -> D -> D;
  (** [gmac_set_rgmii(dev, tx_delay, rx_delay)]. *)
  plat_gmac_set_rgmii : udevice -> Z -> Z -> D -> D;
  (** [net_send_packet(pkt, len)] with the [len] bytes of the packet. *)
  plat_send : list byte -> D -> D;
  (** [eth_get_ops(dev)->recv(dev, flags, &packet)]: the length and the
      bytes that [packet] points to afterwards. *)
  plat_recv : udevice -> Z -> D -> Z * list byte * D;
  (** [eth_get_ops(dev)->free_pkt], NULL for a driver without one. *)
  plat_free_pkt : option (udevice -> list byte -> Z -> D -> D);
  (** [net_init()], and the buffer [net_tx_packet] points to after its
      first call. *)
  plat_net_init : D -> D;
  plat_net_pkt_buf : D -> list byte;
  (** [net_ethaddr], the station address (6 bytes). *)
  plat_net_ethaddr : D -> list byte;
  plat_eth_halt : D -> D;
  plat_eth_set_current : D -> D;
  (** [eth_init()], an [int]. *)
  plat_eth_init : D -> Z * D;
  plat_udelay : Z -> D -> D;
  (** [cli_simple_run_command(cmd, flag)], an [int]. *)
  plat_run_command : string -> Z -> D -> Z * D;
}.

(** ** The world and the monad *)

Section Monad.
Context {D : Type} `{!Platform D}.

Record world := World {
  w_dev : D;
  w_trace : list event;
  w_net_tx_packet : option (list byte);
}.

Definition M (A : Type) : Type := world -> res (A * world).

#[export] Instance M_ret : MRet M := fun A a w => Ok (a, w).

#[export] Instance M_bind : MBind M := fun A B f m w =>
  match m w with
  | Ok (a, w') => f a w'
  | UB => UB
  | OutOfFuel => OutOfFuel
  end.

Definition lift_res {A} (r : res A) : M A := fun w =>
  match r with
  | Ok a => Ok (a, w)
  | UB => UB
  | OutOfFuel => OutOfFuel
  end.

Definition get_dev : M D := fun w => Ok (w_dev w, w).

Definition emit (e : event) (f : D -> D) : M unit := fun w =>
  Ok (tt, World (f (w_dev w)) (e :: w_trace w) (w_net_tx_packet w)).

Definition get_net_tx_packet : M (option (list byte)) := fun w =>
  Ok (w_net_tx_packet w, w).

Definition set_net_tx_packet (buf : list byte) : M unit := fun w =>
  Ok (tt, World (w_dev w) (w_trace w) (Some buf)).

(** ** The external calls *)

Definition printf (s : string) : M unit := emit (EvPrintf s) id.

Definition udelay (usec : Z) : M unit := emit (EvUdelay usec) (plat_udelay usec).

Definition eth_get_dev : M (option udevice) :=
  d ← get_dev; mret (plat_eth_get_dev d).

Definition mdio_get_current_dev : M (option mii_dev) :=
  d ← get_dev; mret (plat_mdio_get_current_dev d).

Definition readl (addr : Z) : M Z :=
  d ← get_dev;
  let val := u32 (plat_readl addr d) in
  emit (EvReadl addr val) id;; mret val.

Definition writel (val addr : Z) : M unit :=
  emit (EvWritel (u32 val) addr) (plat_writel (u32 val) addr).

Definition phy_read (phydev : phy_device) (devad regnum : Z) : M Z :=
  d ← get_dev;
  let val := s32 (plat_phy_read phydev devad regnum d) in
  emit (EvPhyRead (phy_addr phydev) devad regnum val) id;; mret val.

Definition phy_write (phydev : phy_device) (devad regnum val : Z) : M unit :=
  emit (EvPhyWrite (phy_addr phydev) devad regnum (u16 val))
       (plat_phy_write phydev devad regnum (u16 val)).

Definition gmac_set_rgmii (dev : udevice) (tx_delay rx_delay : Z) : M unit :=
  emit (EvSetRgmii (u32 tx_delay) (u32 rx_delay))
       (plat_gmac_set_rgmii dev (u32 tx_delay) (u32 rx_delay)).

(** [net_send_packet(net_tx_packet, len)]: the driver reads [len] bytes
    of the transmit buffer; a shorter buffer is read past its end. *)
Definition net_send_packet (len : Z) : M unit :=
  p ← get_net_tx_packet;
  match p with
  | Some buf =>
      if decide (in_bounds buf 0 len)
      then let pkt := take (Z.to_nat len) buf in emit (EvSend pkt) (plat_send pkt)
      else lift_res UB
  | None => lift_res UB
  end.

Definition eth_recv (dev : udevice) (flags : Z) : M (Z * list byte) :=
  d ← get_dev;
  let r := plat_recv dev flags d in
  emit (EvRecv (s32 r.1.1)) (fun _ => r.2);; mret (s32 r.1.1, r.1.2).

Definition eth_free_pkt (free : udevice -> list byte -> Z -> D -> D)
    (dev : udevice) (rx_packet : list byte) (len : Z) : M unit :=
  emit (EvFreePkt len) (free dev rx_packet len).

(** [net_init()]: on its first call [net_tx_packet] is pointed at the
    stack's packet buffer; later calls leave it where it is. *)
Definition net_init : M unit := fun w =>
  let d := plat_net_init (w_dev w) in
  Ok (tt, World d (EvNetInit :: w_trace w)
            (Some (default (plat_net_pkt_buf d) (w_net_tx_packet w)))).

Definition eth_halt : M unit := emit EvEthHalt plat_eth_halt.

Definition eth_set_current : M unit := emit EvEthSetCurrent plat_eth_set_current.

Definition eth_init : M Z :=
  d ← get_dev;
  let r := plat_eth_init d in
  emit (EvEthInit (s32 r.1)) (fun _ => r.2);; mret (s32 r.1).

Definition cli_simple_run_command (cmd : string) (flag : Z) : M Z :=
  d ← get_dev;
  let r := plat_run_command cmd flag d in
  emit (EvRunCommand cmd (s32 r.1)) (fun _ => r.2);; mret (s32 r.1).

(** ** Counted loops

    [for (i = i0; i < bound; i++) body] with [i] a [u32].  The body
    returns [inl s] to go on with loop-carried state [s], or [inr r] when
    it executes [return r]. *)
Fixpoint for_u32 {St R} (fuel : nat) (bound : Z) (body : Z -> St -> M (St + R))
    (i : Z) (s : St) : M (St + R) :=
  match fuel with
  | O => lift_res OutOfFuel
  | S fuel =>
      if decide (i < bound) then
        r ← body i s;
        match r with
        | inl s' => for_u32 fuel bound body (u32 (i + 1)) s'
        | inr r => mret (inr r)
        end
      else mret (inl s)
  end.

(** The same iteration as a structural recursion over the list of
    indices. *)
Fixpoint for_each {St R} (body : Z -> St -> M (St + R)) (l : list Z) (s : St)
  : M (St + R) :=
  match l with
  | [] => mret (inl s)
  | i :: l =>
      r ← body i s;
      match r with
      | inl s' => for_each body l s'
      | inr r => mret (inr r)
      end
  end.

(** ** Observations of a trace, oldest event first *)

Definition console (tr : list event) : string :=
  foldr (fun e acc => match e with EvPrintf s => acc +:+ s | _ => acc end)
    EmptyString tr.

Definition elapsed (tr : list event) : Z :=
  foldr (fun e acc => match e with EvUdelay n => acc + n | _ => acc end) 0 tr.

Definition count_events (p : event -> bool) (tr : list event) : nat :=
  length (filter (fun e => p e = true) tr).

Definition sent_packets (tr : list event) : list (list byte) :=
  foldr (fun e acc => match e with EvSend pkt => acc ++ [pkt] | _ => acc end) [] tr.

Definition delay_settings (tr : list event) : list (Z * Z) :=
  foldr (fun e acc => match e with EvSetRgmii tx rx => acc ++ [(tx, rx)] | _ => acc end)
    [] tr.

(** [post m w Q]: from [w] the computation [m] returns a value and a world
    that satisfy [Q]; it neither runs into undefined behaviour nor out of
    fuel. *)
Definition post {A} (m : M A) (w : world) (Q : A -> world -> Prop) : Prop :=
  match m w with
  | Ok (a, w') => Q a w'
  | UB => False
  | OutOfFuel => False
  end.

(** ** Running the monad *)

Lemma run_bind {A B} (m : M A) (f : A -> M B) w :
  (m ≫= f) w =
    match m w with
    | Ok (a, w') => f a w'
    | UB => UB
    | OutOfFuel => OutOfFuel
    end.
Proof. done. Qed.

Lemma run_ret {A} (a : A) w : (mret a : M A) w = Ok (a, w).
Proof. done. Qed.

Lemma run_bind_Ok {A B} (m : M A) (f : A -> M B) w b w'' :
  (m ≫= f) w = Ok (b, w'') <-> exists a w', m w = Ok (a, w') /\ f a w' = Ok (b, w'').
Proof.
  rewrite run_bind. destruct (m w) as [[a w']| |]; split;
    try (intros (? & ? & ? & ?)); try done; [eauto | by simplify_eq].
Qed.

Lemma run_bind_terminates {A B} (m : M A) (f : A -> M B) w :
  terminates (m w) -> (forall a w', m w = Ok (a, w') -> terminates (f a w')) ->
  terminates ((m ≫= f) w).
Proof. rewrite run_bind. destruct (m w) as [[a w']| |]; cbn; auto. Qed.

Lemma M_bind_assoc {A B C} (m : M A) (f : A -> M B) (g : B -> M C) w :
  ((m ≫= f) ≫= g) w = (m ≫= (fun a => f a ≫= g)) w.
Proof. rewrite !run_bind. by destruct (m w) as [[a w']| |]. Qed.

(** The external calls that are defined with a bind. *)
Lemma run_eth_get_dev w : eth_get_dev w = Ok (plat_eth_get_dev (w_dev w), w).
Proof. done. Qed.

Lemma run_mdio_get_current_dev w :
  mdio_get_current_dev w = Ok (plat_mdio_get_current_dev (w_dev w), w).
Proof. done. Qed.

Lemma run_readl addr w :
  readl addr w =
    Ok (u32 (plat_readl addr (w_dev w)),
        World (w_dev w) (EvReadl addr (u32 (plat_readl addr (w_dev w))) :: w_trace w)
          (w_net_tx_packet w)).
Proof. done. Qed.

Lemma run_phy_read phydev devad regnum w :
  phy_read phydev devad regnum w =
    Ok (s32 (plat_phy_read phydev devad regnum (w_dev w)),
        World (w_dev w)
          (EvPhyRead (phy_addr phydev) devad regnum
             (s32 (plat_phy_read phydev devad regnum (w_dev w))) :: w_trace w)
          (w_net_tx_packet w)).
Proof. done. Qed.

Lemma run_eth_recv dev flags w :
  eth_recv dev flags w =
    Ok ((s32 (plat_recv dev flags (w_dev w)).1.1, (plat_recv dev flags (w_dev w)).1.2),
        World (plat_recv dev flags (w_dev w)).2
          (EvRecv (s32 (plat_recv dev flags (w_dev w)).1.1) :: w_trace w)
          (w_net_tx_packet w)).
Proof. done. Qed.

Lemma run_eth_init w :
  eth_init w =
    Ok (s32 (plat_eth_init (w_dev w)).1,
        World (plat_eth_init (w_dev w)).2
          (EvEthInit (s32 (plat_eth_init (w_dev w)).1) :: w_trace w)
          (w_net_tx_packet w)).
Proof. done. Qed.

Lemma run_cli_simple_run_command cmd flag w :
  cli_simple_run_command cmd flag w =
    Ok (s32 (plat_run_command cmd flag (w_dev w)).1,
        World (plat_run_command cmd flag (w_dev w)).2
          (EvRunCommand cmd (s32 (plat_run_command cmd flag (w_dev w)).1) :: w_trace w)
          (w_net_tx_packet w)).
Proof. done. Qed.

(** ** Rules for [post] *)

Lemma post_ret {A} (a : A) w (Q : A -> world -> Prop) : Q a w -> post (mret a) w Q.
Proof. done. Qed.

Lemma post_bind {A B} (m : M A) (f : A -> M B) w (Q : B -> world -> Prop) :
  post m w (fun a w' => post (f a) w' Q) -> post (m ≫= f) w Q.
Proof. unfold post. rewrite run_bind. by destruct (m w) as [[a w']| |]. Qed.

Lemma post_mono {A} (m : M A) w (Q Q' : A -> world -> Prop) :
  post m w Q -> (forall a w', Q a w' -> Q' a w') -> post m w Q'.
Proof. unfold post. destruct (m w) as [[a w']| |]; auto. Qed.

Lemma post_Ok {A} (m : M A) w (Q : A -> world -> Prop) :
  post m w Q <-> exists a w', m w = Ok (a, w') /\ Q a w'.
Proof.
  unfold post. destruct (m w) as [[a w']| |]; split;
    try (intros (? & ? & ? & ?)); try done; [eauto | by simplify_eq].
Qed.

Lemma post_emit e f w (Q : unit -> world -> Prop) :
  Q tt (World (f (w_dev w)) (e :: w_trace w) (w_net_tx_packet w)) ->
  post (emit e f) w Q.
Proof. done. Qed.

(** ** Counted loops *)

(** With a bound that fits a [u32] and fuel for one test more than the
    number of iterations, the fuel-indexed loop is the iteration over
    the indices [i, i+1, ..., bound-1]. *)
Lemma for_u32_for_each {St R} fuel bound (body : Z -> St -> M (St + R)) i s w :
  0 <= i -> bound < 2 ^ 32 -> (Z.to_nat (bound - i) < fuel)%nat ->
  for_u32 fuel bound body i s w = for_each body (seqZ i (bound - i)) s w.
Proof.
  revert i s w. induction fuel as [|fuel IH]; intros i s w Hi Hb Hf; [lia|].
  cbn [for_u32]. case_decide as Hlt.
  - rewrite (seqZ_cons i (bound - i)) by lia. cbn [for_each].
    rewrite !run_bind. destruct (body i s w) as [[[s'|r] w']| |]; try done.
    rewrite u32_small by wrap_solve.
    rewrite IH by lia. do 2 f_equal. lia.
  - by rewrite seqZ_nil by lia.
Qed.

Lemma for_each_app {St R} (body : Z -> St -> M (St + R)) l1 l2 s w :
  for_each body (l1 ++ l2) s w =
    (r ← for_each body l1 s;
     match r with
     | inl s' => for_each body l2 s'
     | inr r => mret (inr r)
     end) w.
Proof.
  revert s w. induction l1 as [|i l1 IH]; intros s w; [done|].
  cbn [for_each app]. rewrite !run_bind.
  by destruct (body i s w) as [[[s'|r] w']| |].
Qed.

(** The invariant rule: [Inv pre s w] holds of the indices [pre]
    already processed; a [return] inside the body establishes [Qr]. *)
Lemma post_for_each {St R} (body : Z -> St -> M (St + R))
    (Inv : list Z -> St -> world -> Prop) (Qr : R -> world -> Prop) l pre s w :
  Inv pre s w ->
  (forall pre i s w, i ∈ l -> Inv pre s w ->
     post (body i s) w (fun r w' =>
       match r with
       | inl s' => Inv (pre ++ [i]) s' w'
       | inr r => Qr r w'
       end)) ->
  post (for_each body l s) w (fun r w' =>
    match r with
    | inl s' => Inv (pre ++ l) s' w'
    | inr r => Qr r w'
    end).
Proof.
  revert pre s w. induction l as [|i l IH]; intros pre s w HI Hbody.
  - apply post_ret. by rewrite app_nil_r.
  - cbn [for_each]. apply post_bind.
    eapply post_mono; [apply (Hbody pre i s w); [left | done]|].
    intros [s'|r] w' Hr; [|by apply post_ret].
    rewrite (cons_middle i pre l), app_assoc. apply IH; [done|].
    intros pre' j s0 w0 Hj. apply Hbody. by right.
Qed.

(** A loop whose body terminates, terminates within the fuel. *)
Lemma for_each_terminates {St R} (body : Z -> St -> M (St + R)) l s w :
  (forall i s w, i ∈ l -> terminates (body i s w)) ->
  terminates (for_each body l s w).
Proof.
  revert s w. induction l as [|i l IH]; intros s w Hbody; [done|].
  cbn [for_each]. apply run_bind_terminates; [apply Hbody; left|].
  intros [s'|r] w' _; [|done]. apply IH. intros j s0 w0 Hj. apply Hbody. by right.
Qed.

Lemma for_u32_terminates {St R} fuel bound (body : Z -> St -> M (St + R)) i s w :
  0 <= i -> bound < 2 ^ 32 -> (Z.to_nat (bound - i) < fuel)%nat ->
  (forall i s w, terminates (body i s w)) ->
  terminates (for_u32 fuel bound body i s w).
Proof.
  intros Hi Hb Hf Hbody. rewrite for_u32_for_each by done.
  apply for_each_terminates. auto.
Qed.

Lemma lift_res_terminates {A} (r : res A) w : terminates r -> terminates (lift_res r w).
Proof. by destruct r. Qed.

(** ** Observations of a trace that grows at its head *)

Lemma count_events_cons p e tr :
  count_events p (e :: tr) = ((if p e then 1 else 0) + count_events p tr)%nat.
Proof. unfold count_events. rewrite filter_cons. by destruct (p e). Qed.

Lemma count_events_app p tr1 tr2 :
  count_events p (tr1 ++ tr2) = (count_events p tr1 + count_events p tr2)%nat.
Proof. unfold count_events. by rewrite filter_app, length_app. Qed.

Lemma elapsed_app tr1 tr2 : elapsed (tr1 ++ tr2) = elapsed tr1 + elapsed tr2.
Proof.
  induction tr1 as [|e tr1 IH]; [done|]. cbn [app]. unfold elapsed in *. cbn [foldr].
  destruct e; rewrite IH; lia.
Qed.

Lemma sent_packets_app tr1 tr2 :
  sent_packets (tr1 ++ tr2) = sent_packets tr2 ++ sent_packets tr1.
Proof.
  induction tr1 as [|e tr1 IH]; [by rewrite app_nil_r|]. cbn [app].
  unfold sent_packets in *. cbn [foldr]. destruct e; rewrite IH; try done.
  by rewrite app_assoc.
Qed.

Lemma delay_settings_app tr1 tr2 :
  delay_settings (tr1 ++ tr2) = delay_settings tr2 ++ delay_settings tr1.
Proof.
  induction tr1 as [|e tr1 IH]; [by rewrite app_nil_r|]. cbn [app].
  unfold delay_settings in *. cbn [foldr]. destruct e; rewrite IH; try done.
  by rewrite app_assoc.
Qed.

End Monad.

(** ** Laws a platform may satisfy

    [RegisterFile]: the MAC configuration register and the PHY registers
    are plain storage, independent of each other.  [RxBuffers]: a
    receive that reports a frame leaves [packet] pointing at a buffer of
    the driver that holds at least a full test frame. *)

Class RegisterFile (D : Type) `{!Platform D} : Prop := {
  readl_writel v a d : plat_readl a (plat_writel v a d) = v;
  phy_read_phy_write p devad r v d :
    plat_phy_read p devad r (plat_phy_write p devad r v d) = v;
  readl_phy_write p devad r v a d :
    plat_readl a (plat_phy_write p devad r v d) = plat_readl a d;
  phy_read_writel p devad r v a d :
    plat_phy_read p devad r (plat_writel v a d) = plat_phy_read p devad r d;
}.

Class RxBuffers (D : Type) `{!Platform D} : Prop := {
  recv_buffer dev flags d :
    0 < s32 (plat_recv dev flags d).1.1 ->
    (1514 <= length (plat_recv dev flags d).1.2)%nat;
}.

(** Evaluation of the monad's plumbing and of the external calls, leaving
    arithmetic and the platform's operations folded. *)
Ltac run :=
  repeat first
    [ rewrite run_bind
    | rewrite run_eth_get_dev
    | rewrite run_mdio_get_current_dev
    | rewrite run_readl
    | rewrite run_phy_read
    | rewrite run_eth_recv
    | rewrite run_eth_init
    | rewrite run_cli_simple_run_command
    | progress cbn [mret M_ret lift_res get_dev emit get_net_tx_packet
        set_net_tx_packet printf udelay writel phy_write gmac_set_rgmii
        eth_free_pkt net_init eth_halt eth_set_current
        w_dev w_trace w_net_tx_packet fst snd id default of_option post] ].

Arguments world : clear implicits.
Arguments World {D} _ _ _.
Arguments M : clear implicits.
