(* ===== verification/Sim.v ===== *)
(** * A simulated board

    An [Instance] of [Platform] that behaves like a GMAC with a PHY in
    internal loopback: registers are finite maps, a frame sent while the
    BMCR loopback bit is set comes back on the next receive when the
    RGMII delay lines are inside a window, comes back with its first byte
    damaged when only the receive delay is outside, and is lost
    otherwise.  It discharges the interface laws and is the concrete
    input of the witnesses. *)

From Stdlib Require Import ZArith Lia Strings.Byte.
From stdpp Require Import base option list strings gmap.
From S2P Require Import Prelude Regs Hw.

#[local] Open Scope Z_scope.

Record sim := Sim {
  sim_dev : option udevice;
  sim_bus : option mii_dev;
  sim_mac : gmap Z Z;
  sim_phy : gmap (Z * Z) Z;
  sim_tx_delay : Z;
  sim_rx_delay : Z;
  (** The delay values for which the link works: [lo <= d <= hi]. *)
  sim_window : Z * Z;
  sim_rx_ring : list (list byte);
  (** A negative value makes every receive fail with it. *)
  sim_recv_error : Z;
  sim_init_ret : Z;
  sim_clock : Z;
  sim_ethaddr : list byte;
  sim_pkt_buf : list byte;
  sim_commands : list string;
}.

(** The size of one receive buffer of the driver. *)
Definition RX_BUFFER_SIZE : nat := 1536.

Definition in_window (d : sim) (x : Z) : bool :=
  bool_decide (fst (sim_window d) <= x <= snd (sim_window d)).

Definition sim_bmcr (d : sim) : Z :=
  match sim_bus d ≫= (fun b => first_phy (phymap b)) with
  | Some p => default 0 (sim_phy d !! (phy_addr p, MII_BMCR))
  | None => 0
  end.

Definition sim_send (pkt : list byte) (d : sim) : sim :=
  let arrives :=
    if negb (Z.testbit (sim_bmcr d) 14) then None
    else if in_window d (sim_tx_delay d) && in_window d (sim_rx_delay d)
    then Some pkt
    else if in_window d (sim_tx_delay d) then Some (<[0%nat := x00]> pkt)
    else None in
  match arrives with
  | Some f =>
      Sim (sim_dev d) (sim_bus d) (sim_mac d) (sim_phy d) (sim_tx_delay d)
        (sim_rx_delay d) (sim_window d) (sim_rx_ring d ++ [f]) (sim_recv_error d)
        (sim_init_ret d) (sim_clock d) (sim_ethaddr d) (sim_pkt_buf d)
        (sim_commands d)
  | None => d
  end.

Definition sim_recv (d : sim) : Z * list byte * sim :=
  if decide (sim_recv_error d < 0) then (Z.max (- 2 ^ 31) (sim_recv_error d), [], d)
  else
    match sim_rx_ring d with
    | [] => (0, [], d)
    | f :: ring =>
        (Z.of_nat (length f), f ++ replicate (RX_BUFFER_SIZE - length f) x00,
         Sim (sim_dev d) (sim_bus d) (sim_mac d) (sim_phy d) (sim_tx_delay d)
           (sim_rx_delay d) (sim_window d) ring (sim_recv_error d)
           (sim_init_ret d) (sim_clock d) (sim_ethaddr d) (sim_pkt_buf d)
           (sim_commands d))
    end.

#[export] Instance sim_platform : Platform sim := {|
  plat_eth_get_dev := sim_dev;
  plat_mdio_get_current_dev := sim_bus;
  plat_readl a d := default 0 (sim_mac d !! a);
  plat_writel v a d :=
    Sim (sim_dev d) (sim_bus d) (<[a := v]> (sim_mac d)) (sim_phy d)
      (sim_tx_delay d) (sim_rx_delay d) (sim_window d) (sim_rx_ring d)
      (sim_recv_error d) (sim_init_ret d) (sim_clock d) (sim_ethaddr d)
      (sim_pkt_buf d) (sim_commands d);
  plat_phy_read p devad r d := default 0 (sim_phy d !! (phy_addr p, r));
  plat_phy_write p devad r v d :=
    Sim (sim_dev d) (sim_bus d) (sim_mac d) (<[(phy_addr p, r) := v]> (sim_phy d))
      (sim_tx_delay d) (sim_rx_delay d) (sim_window d) (sim_rx_ring d)
      (sim_recv_error d) (sim_init_ret d) (sim_clock d) (sim_ethaddr d)
      (sim_pkt_buf d) (sim_commands d);
  plat_gmac_set_rgmii dev tx rx d :=
    Sim (sim_dev d) (sim_bus d) (sim_mac d) (sim_phy d) tx rx (sim_window d)
      (sim_rx_ring d) (sim_recv_error d) (sim_init_ret d) (sim_clock d)
      (sim_ethaddr d) (sim_pkt_buf d) (sim_commands d);
  plat_send := sim_send;
  plat_recv dev flags := sim_recv;
  plat_free_pkt := Some (fun dev pkt len d => d);
  plat_net_init d := d;
  plat_net_pkt_buf := sim_pkt_buf;
  plat_net_ethaddr := sim_ethaddr;
  plat_eth_halt d :=
    Sim (sim_dev d) (sim_bus d) (sim_mac d) (sim_phy d) (sim_tx_delay d)
      (sim_rx_delay d) (sim_window d) [] (sim_recv_error d) (sim_init_ret d)
      (sim_clock d) (sim_ethaddr d) (sim_pkt_buf d) (sim_commands d);
  plat_eth_set_current d := d;
  plat_eth_init d := (sim_init_ret d, d);
  plat_udelay n d :=
    Sim (sim_dev d) (sim_bus d) (sim_mac d) (sim_phy d) (sim_tx_delay d)
      (sim_rx_delay d) (sim_window d) (sim_rx_ring d) (sim_recv_error d)
      (sim_init_ret d) (sim_clock d + n) (sim_ethaddr d) (sim_pkt_buf d)
      (sim_commands d);
  plat_run_command cmd flag d :=
    (0, Sim (sim_dev d) (sim_bus d) (sim_mac d) (sim_phy d) (sim_tx_delay d)
          (sim_rx_delay d) (sim_window d) (sim_rx_ring d) (sim_recv_error d)
          (sim_init_ret d) (sim_clock d) (sim_ethaddr d) (sim_pkt_buf d)
          (sim_commands d ++ [cmd]));
|}.

(** ** A board: one active device, one PHY at address 1, a link that
    works for delays 0x20..0x30 *)

Definition board_dev : udevice :=
  {| dev_seq := 0; dev_flags := 1; pdata_iobase := 0xff540000 |}.

Definition board_phy : phy_device := {| phy_addr := 1; phy_duplex := 1 |}.

Definition board_bus : mii_dev :=
  {| phymap := None :: Some board_phy :: replicate 30 None |}.

Definition mk_board (dev : option udevice) (bus : option mii_dev)
    (bmcr rx_delay init_ret recv_error : Z) : sim := {|
  sim_dev := dev;
  sim_bus := bus;
  sim_mac := {[ 0xff540000 := 0x0000880c ]};
  sim_phy := {[ (1, MII_BMCR) := bmcr ]};
  sim_tx_delay := 0x26;
  sim_rx_delay := rx_delay;
  sim_window := (0x20, 0x30);
  sim_rx_ring := [];
  sim_recv_error := recv_error;
  sim_init_ret := init_ret;
  sim_clock := 0;
  sim_ethaddr := [x02; x00; x00; x00; x00; x01];
  sim_pkt_buf := replicate 1536 x00;
  sim_commands := [];
|}.

(** The receive delay of [board] is outside the window, that of
    [board_tuned] inside. *)
Definition board : sim := mk_board (Some board_dev) (Some board_bus) 0x1140 0x11 0 0.
Definition board_tuned : sim := mk_board (Some board_dev) (Some board_bus) 0x1140 0x28 0 0.

(** The same boards with the PHY already in loopback. *)
Definition board_looped : sim := mk_board (Some board_dev) (Some board_bus) 0x4140 0x28 0 0.
Definition board_detuned : sim := mk_board (Some board_dev) (Some board_bus) 0x4140 0x11 0 0.

(** Boards with a defect. *)
Definition board_no_dev : sim := mk_board None (Some board_bus) 0x1140 0x28 0 0.
Definition board_inactive : sim :=
  mk_board (Some {| dev_seq := 0; dev_flags := 0; pdata_iobase := 0xff540000 |})
    (Some board_bus) 0x1140 0x28 0 0.
Definition board_no_bus : sim := mk_board (Some board_dev) None 0x1140 0x28 0 0.
Definition board_no_phy : sim :=
  mk_board (Some board_dev) (Some {| phymap := replicate 32 None |}) 0x1140 0x28 0 0.
Definition board_init_fail : sim :=
  mk_board (Some board_dev) (Some board_bus) 0x1140 0x28 (-5) 0.
Definition board_recv_fail : sim :=
  mk_board (Some board_dev) (Some board_bus) 0x1140 0x28 0 (-110).

Definition board_world : world sim := World board [] None.

(** A world after [net_init]: the transmit buffer exists. *)
Definition ready_world (d : sim) : world sim := World d [] (Some (sim_pkt_buf d)).

(** ** The simulated board satisfies the register-file laws *)

#[export] Instance sim_register_file : RegisterFile sim.
Proof.
  split; intros; cbn.
  - by rewrite lookup_insert_eq.
  - by rewrite lookup_insert_eq.
  - done.
  - done.
Qed.

(** ** Its receive buffers hold a full frame *)

#[export] Instance sim_rx_buffers : RxBuffers sim.
Proof.
  split. intros dev flags d. cbn. unfold sim_recv.
  case_decide as He; [cbn; rewrite s32_small by (unfold in_s32; lia); lia|].
  destruct (sim_rx_ring d) as [|f ring]; cbn; [done|].
  intros _. rewrite length_app, length_replicate. unfold RX_BUFFER_SIZE. lia.
Qed.
