(* ===== verification/Monitor.v ===== *)
(** * Monitors on the trace

    A monitor is a state machine that reads the external calls of the
    diagnostic in the order they were made: [mon_step s e] is the state
    after the call [e] in state [s], or [None] when the call is not
    allowed there.  The trace of a world keeps its newest event first, so
    the state after a trace is computed from its tail.

    [obeys s m Q] says that the computation [m], started in a world whose
    trace has brought the monitor to [s], makes only allowed calls, and
    that the value it returns and the state it leaves the monitor in
    satisfy [Q].  The rules follow the structure of the monad, with the
    loop rule on top of the triples of [Logic]; they are what the
    protocol of the network driver ([Protocol]) is proved with, for every
    platform. *)

From Stdlib Require Import ZArith Lia.
From stdpp Require Import base option list strings.
From S2P Require Import Prelude Hw Logic.

#[local] Open Scope Z_scope.

Section Monitor.
Context {D : Type} `{!Platform D} {S : Type}.
Variable mon_step : S -> event -> option S.
Variable s0 : S.
Implicit Types (s : S) (w : world D) (tr : list event).

(** The state of the monitor after the events of [tr], oldest first,
    from [s]. *)
Definition state_after s tr : option S :=
  foldr (fun e os => os ≫= fun s => mon_step s e) (Some s) tr.

(** The trace of [w] is allowed from [s0] and leaves the monitor in [s]. *)
Definition tracks s w : Prop := state_after s0 (w_trace w) = Some s.

Definition obeys {A} s (m : M D A) (Q : A -> S -> Prop) : Prop :=
  triple (tracks s) m (fun a w' => exists s', tracks s' w' /\ Q a s').

(** ** The state after a trace *)

Lemma state_after_cons s e tr :
  state_after s (e :: tr) = state_after s tr ≫= fun s => mon_step s e.
Proof. done. Qed.

Lemma state_after_app s tr1 tr2 :
  state_after s (tr1 ++ tr2) = state_after s tr2 ≫= fun s => state_after s tr1.
Proof.
  induction tr1 as [|e tr1 IH]; cbn [app].
  - by destruct (state_after s tr2).
  - rewrite !state_after_cons, IH. by destruct (state_after s tr2).
Qed.

(** A monitor that accepts a trace accepts every earlier part of it. *)
Lemma state_after_prefix s tr1 tr2 :
  is_Some (state_after s (tr1 ++ tr2)) -> is_Some (state_after s tr2).
Proof. rewrite state_after_app. destruct (state_after s tr2); [by eexists|by intros []]. Qed.

(** ** Rules *)

Lemma obeys_ret {A} s (a : A) (Q : A -> S -> Prop) : Q a s -> obeys s (mret a) Q.
Proof. intros HQ. apply triple_ret. intros w Hw. by exists s. Qed.

Lemma obeys_bind {A B} s (m : M D A) (f : A -> M D B) (Qm : A -> S -> Prop)
    (Q : B -> S -> Prop) :
  obeys s m Qm -> (forall a s1, Qm a s1 -> obeys s1 (f a) Q) -> obeys s (m ≫= f) Q.
Proof.
  intros Hm Hf. eapply triple_bind; [exact Hm|].
  intros a w b w' (s1 & Hw & Ha). by apply (Hf a s1 Ha).
Qed.

Lemma obeys_mono {A} s (m : M D A) (Q Q' : A -> S -> Prop) :
  obeys s m Q -> (forall a s', Q a s' -> Q' a s') -> obeys s m Q'.
Proof.
  intros Hm HQ. eapply triple_conseq; [exact Hm|done|].
  intros a w (s' & Hw & Ha). exists s'. auto.
Qed.

Lemma obeys_lift_res {A} s (r : res A) (Q : A -> S -> Prop) :
  (forall a, r = Ok a -> Q a s) -> obeys s (lift_res r) Q.
Proof. intros HQ. apply triple_lift_res. intros a w Hr Hw. exists s. auto. Qed.

Lemma obeys_if {A} s (C : Prop) `{!Decision C} (m1 m2 : M D A) (Q : A -> S -> Prop) :
  (C -> obeys s m1 Q) -> (~ C -> obeys s m2 Q) -> obeys s (if decide C then m1 else m2) Q.
Proof. apply triple_if. Qed.

(** A computation that leaves the trace as it is. *)
Lemma obeys_silent {A} s (m : M D A) (Q : A -> S -> Prop) :
  (forall w a w', m w = Ok (a, w') -> w_trace w' = w_trace w /\ Q a s) -> obeys s m Q.
Proof.
  intros Hm w a w' Hw Hrun. destruct (Hm w a w' Hrun) as [Htr Ha].
  exists s. unfold tracks in *. by rewrite Htr.
Qed.

(** A computation that makes one call. *)
Lemma obeys_call {A} s (m : M D A) (Q : A -> S -> Prop) :
  (forall w a w', m w = Ok (a, w') ->
     exists e s', w_trace w' = e :: w_trace w /\ mon_step s e = Some s' /\ Q a s') ->
  obeys s m Q.
Proof.
  intros Hm w a w' Hw Hrun. destruct (Hm w a w' Hrun) as (e & s' & Htr & He & Ha).
  exists s'. unfold tracks in *. by rewrite Htr, state_after_cons, Hw.
Qed.

Lemma obeys_emit s s' e f (Q : unit -> S -> Prop) :
  mon_step s e = Some s' -> Q tt s' -> obeys s (emit e f) Q.
Proof. intros He HQ. apply obeys_call. intros w [] w' [= <-]. by exists e, s'. Qed.

(** The loop rule: an invariant of the loop-carried state and the
    monitor state. *)
Lemma obeys_for_u32 {St R} (Inv : St -> S -> Prop) (Qr : R -> S -> Prop) fuel bound
    (body : Z -> St -> M D (St + R)) i st s :
  (forall i st s, Inv st s ->
     obeys s (body i st)
       (fun x s' => match x with inl st' => Inv st' s' | inr r => Qr r s' end)) ->
  Inv st s ->
  obeys s (for_u32 fuel bound body i st)
    (fun x s' => match x with inl st' => Inv st' s' | inr r => Qr r s' end).
Proof.
  intros Hbody HI.
  pose proof (triple_for_u32 (fun st w => exists s, tracks s w /\ Inv st s)
                (fun r w => exists s, tracks s w /\ Qr r s) fuel bound body i st) as Hloop.
  eapply triple_conseq; [apply Hloop| |].
  - intros i1 st1 w x w' (s1 & Hw & Hs) Hb.
    destruct (Hbody i1 st1 s1 Hs w x w' Hw Hb) as (s' & Hw' & Hx).
    destruct x; by exists s'.
  - intros w Hw. by exists s.
  - by intros [st'|r] w.
Qed.

End Monitor.
