(* ===== verification/Setup.v ===== *)
(** * PHY look-up and loopback set-up
      ([src/test/rockchip/test-eth.c], lines 43-54 and 84-126)

    [get_current_phydev] scans the PHY address map of the current MDIO
    bus; [eth_setup_loopback_test] programs the MAC configuration register
    and the PHY's BMCR through the platform's register accesses, with the
    values computed in [Regs]. *)

From Stdlib Require Import ZArith Lia Strings.Byte.
From stdpp Require Import base option list strings.
From S2P Require Import Prelude Regs Hw Sim.

#[local] Open Scope Z_scope.

Definition LF : string := String (Ascii.ascii_of_nat 10) EmptyString.

Definition msg_no_phydev : string :=
  "eth_setup_loopback_test, can't get phydev" +:+ LF.

(** The scan of [bus->phymap]: the array has [PHY_MAX_ADDR] entries, so
    an index beyond the list is an access outside the array. *)
Fixpoint get_current_phydev_from (fuel : nat) (bus : mii_dev) (i : Z)
  : res (option phy_device) :=
  match fuel with
  | O => OutOfFuel
  | S fuel =>
      if decide (i < PHY_MAX_ADDR) then
        e ← (if decide (0 <= i) then of_option (phymap bus !! Z.to_nat i) else UB);
        match e with
        | Some phydev => Ok (Some phydev)
        | None => get_current_phydev_from fuel bus (i + 1)
        end
      else Ok None
  end.

Section Setup.
Context {D : Type} `{!Platform D}.

Definition get_current_phydev : M D (option phy_device) :=
  bus ← mdio_get_current_dev;
  match bus with
  | None => lift_res UB
  | Some bus =>
      lift_res (get_current_phydev_from (S (Z.to_nat PHY_MAX_ADDR)) bus 0)
  end.

Definition eth_setup_loopback_test (current : udevice) (speed : Z) : M D unit :=
  phydev ← get_current_phydev;
  let iobase := pdata_iobase current in
  match phydev with
  | None => printf msg_no_phydev
  | Some phydev =>
      conf ← readl iobase;
      let conf := mac_conf_for speed (phy_duplex phydev) conf in
      writel conf iobase;;
      val ← phy_read phydev MDIO_DEVAD_NONE MII_BMCR;
      let val := bmcr_for speed val in
      phy_write phydev MDIO_DEVAD_NONE MII_BMCR val
  end.

End Setup.

(** ** The scan of the PHY map *)

(** A bus as the driver model builds it: [phymap] has [PHY_MAX_ADDR]
    entries. *)
Definition bus_wf (bus : mii_dev) : Prop :=
  Z.of_nat (length (phymap bus)) = PHY_MAX_ADDR.

#[export] Instance bus_wf_dec bus : Decision (bus_wf bus).
Proof. unfold bus_wf. apply _. Defined.

Lemma first_phy_cons e map :
  first_phy (e :: map) = match e with Some p => Some p | None => first_phy map end.
Proof. unfold first_phy. by destruct e. Qed.

Lemma first_phy_None map : first_phy map = None <-> Forall (fun e => e = None) map.
Proof.
  induction map as [|[p|] map IH]; rewrite ?first_phy_cons.
  - by split.
  - split; [done|]. by inversion 1.
  - rewrite IH. split; [by constructor|]. by inversion 1.
Qed.

Lemma first_phy_Some map p :
  first_phy map = Some p ->
  exists i, map !! i = Some (Some p) /\ forall j, (j < i)%nat -> map !! j = Some None.
Proof.
  induction map as [|[q|] map IH]; rewrite ?first_phy_cons; [done| |].
  - intros [= ->]. exists 0%nat. split; [done|]. lia.
  - intros (i & Hi & Hlt)%IH. exists (S i). split; [done|].
    intros [|j] Hj; [done|]. apply Hlt. lia.
Qed.

Lemma get_current_phydev_from_first fuel bus i :
  bus_wf bus -> 0 <= i -> (Z.to_nat (PHY_MAX_ADDR - i) < fuel)%nat ->
  get_current_phydev_from fuel bus i = Ok (first_phy (drop (Z.to_nat i) (phymap bus))).
Proof.
  unfold bus_wf, PHY_MAX_ADDR. intros Hwf. revert i.
  induction fuel as [|fuel IH]; intros i Hi Hf; [lia|]. cbn [get_current_phydev_from].
  unfold PHY_MAX_ADDR. case_decide as Hlt.
  - rewrite decide_True by done.
    destruct (lookup_lt_is_Some_2 (phymap bus) (Z.to_nat i)) as [e He]; [lia|].
    rewrite (drop_S _ _ _ He), first_phy_cons, He. cbn. destruct e as [p|]; [done|].
    rewrite IH by lia. by replace (Z.to_nat (i + 1)) with (S (Z.to_nat i)) by lia.
  - by rewrite drop_ge by lia.
Qed.

Lemma get_current_phydev_from_terminates fuel bus i :
  (Z.to_nat (PHY_MAX_ADDR - i) < fuel)%nat ->
  terminates (get_current_phydev_from fuel bus i).
Proof.
  unfold PHY_MAX_ADDR. revert i. induction fuel as [|fuel IH]; intros i Hf; [lia|].
  cbn [get_current_phydev_from]. unfold PHY_MAX_ADDR.
  case_decide as Hlt; [|done]. case_decide; [|done].
  destruct (phymap bus !! Z.to_nat i) as [[p|]|]; cbn; [done| |done].
  apply IH. lia.
Qed.

Section SetupFacts.
Context {D : Type} `{!Platform D}.
Implicit Types (w : world D) (current : udevice) (p : phy_device).

Lemma get_current_phydev_eq w :
  get_current_phydev w =
    match plat_mdio_get_current_dev (w_dev w) with
    | Some bus => lift_res (get_current_phydev_from 33 bus 0) w
    | None => UB
    end.
Proof.
  unfold get_current_phydev. rewrite run_bind.
  change (mdio_get_current_dev w) with (Ok (plat_mdio_get_current_dev (w_dev w), w)).
  by destruct (plat_mdio_get_current_dev (w_dev w)).
Qed.

Lemma get_current_phydev_run w bus :
  plat_mdio_get_current_dev (w_dev w) = Some bus -> bus_wf bus ->
  get_current_phydev w = Ok (first_phy (phymap bus), w).
Proof.
  intros Hbus Hwf. rewrite get_current_phydev_eq, Hbus. unfold lift_res.
  by rewrite get_current_phydev_from_first by (done || (unfold PHY_MAX_ADDR; lia)).
Qed.

(** The device state and the trace after the four register accesses of
    the set-up, for the PHY [p]. *)
Definition setup_conf current speed p (d : D) : Z :=
  mac_conf_for speed (phy_duplex p) (u32 (plat_readl (pdata_iobase current) d)).

Definition setup_dev_mac current speed p (d : D) : D :=
  plat_writel (u32 (setup_conf current speed p d)) (pdata_iobase current) d.

Definition setup_bmcr_read current speed p (d : D) : Z :=
  s32 (plat_phy_read p MDIO_DEVAD_NONE MII_BMCR (setup_dev_mac current speed p d)).

Definition setup_bmcr current speed p (d : D) : Z :=
  u16 (bmcr_for speed (setup_bmcr_read current speed p d)).

Definition setup_dev current speed p (d : D) : D :=
  plat_phy_write p MDIO_DEVAD_NONE MII_BMCR (setup_bmcr current speed p d)
    (setup_dev_mac current speed p d).

Definition setup_events current speed p (d : D) : list event :=
  [EvPhyWrite (phy_addr p) MDIO_DEVAD_NONE MII_BMCR (setup_bmcr current speed p d);
   EvPhyRead (phy_addr p) MDIO_DEVAD_NONE MII_BMCR (setup_bmcr_read current speed p d);
   EvWritel (u32 (setup_conf current speed p d)) (pdata_iobase current);
   EvReadl (pdata_iobase current) (u32 (plat_readl (pdata_iobase current) d))].

Lemma eth_setup_loopback_test_run w bus current speed :
  plat_mdio_get_current_dev (w_dev w) = Some bus -> bus_wf bus ->
  eth_setup_loopback_test current speed w =
    match first_phy (phymap bus) with
    | Some p =>
        Ok (tt, World (setup_dev current speed p (w_dev w))
                  (setup_events current speed p (w_dev w) ++ w_trace w)
                  (w_net_tx_packet w))
    | None =>
        Ok (tt, World (w_dev w) (EvPrintf msg_no_phydev :: w_trace w)
                  (w_net_tx_packet w))
    end.
Proof.
  intros Hbus Hwf. unfold eth_setup_loopback_test.
  rewrite run_bind, (get_current_phydev_run w bus) by done.
  by destruct (first_phy (phymap bus)) as [p|].
Qed.

Lemma eth_setup_loopback_test_net_tx_packet w current speed w' :
  eth_setup_loopback_test current speed w = Ok (tt, w') ->
  w_net_tx_packet w' = w_net_tx_packet w.
Proof.
  unfold eth_setup_loopback_test. rewrite run_bind, get_current_phydev_eq.
  destruct (plat_mdio_get_current_dev (w_dev w)) as [bus|]; [|done].
  unfold lift_res.
  destruct (get_current_phydev_from _ bus 0) as [[p|]| |]; try done;
    by intros [= <-].
Qed.

(** On a well-formed bus [get_current_phydev] returns the first
    populated entry of the PHY map, or NULL when there is none, within its
    fuel and without any register access. *)
Theorem get_current_phydev_first_populated w bus :
  plat_mdio_get_current_dev (w_dev w) = Some bus -> bus_wf bus ->
  get_current_phydev w = Ok (first_phy (phymap bus), w).
Proof. apply get_current_phydev_run. Qed.

(** With no current MDIO bus the scan dereferences a NULL pointer:
    [get_current_phydev], and with it the set-up, is undefined. *)
Theorem get_current_phydev_null_bus w current speed :
  plat_mdio_get_current_dev (w_dev w) = None ->
  get_current_phydev w = UB /\ eth_setup_loopback_test current speed w = UB.
Proof.
  intros Hbus. unfold eth_setup_loopback_test.
  by rewrite run_bind, get_current_phydev_eq, Hbus.
Qed.

(** C9. With a PHY on the bus the set-up performs exactly four register
    accesses, in the order MAC read, MAC write, BMCR read, BMCR write,
    with the values of [mac_conf_for] and [bmcr_for]; the BMCR read sees
    the MAC write; the transmit buffer is untouched. *)
Theorem eth_setup_loopback_test_accesses w bus p current speed :
  plat_mdio_get_current_dev (w_dev w) = Some bus -> bus_wf bus ->
  first_phy (phymap bus) = Some p ->
  eth_setup_loopback_test current speed w =
    Ok (tt, World (setup_dev current speed p (w_dev w))
              (setup_events current speed p (w_dev w) ++ w_trace w)
              (w_net_tx_packet w)).
Proof.
  intros Hbus Hwf Hp. by rewrite (eth_setup_loopback_test_run w bus), Hp.
Qed.

(** With no PHY on the bus the set-up prints its message and returns:
    no register is read or written, and the caller is not told. *)
Theorem eth_setup_loopback_test_no_phy w bus current speed :
  plat_mdio_get_current_dev (w_dev w) = Some bus -> bus_wf bus ->
  first_phy (phymap bus) = None ->
  eth_setup_loopback_test current speed w =
    Ok (tt, World (w_dev w) (EvPrintf msg_no_phydev :: w_trace w) (w_net_tx_packet w)).
Proof.
  intros Hbus Hwf Hp. by rewrite (eth_setup_loopback_test_run w bus), Hp.
Qed.

(** The set-up never runs out of the fuel of its PHY scan, on any
    platform, bus and world. *)
Lemma eth_setup_loopback_test_terminates w current speed :
  terminates (eth_setup_loopback_test current speed w).
Proof.
  unfold eth_setup_loopback_test. rewrite run_bind, get_current_phydev_eq.
  destruct (plat_mdio_get_current_dev (w_dev w)) as [bus|]; [|done].
  pose proof (get_current_phydev_from_terminates 33 bus 0) as Ht.
  unfold lift_res. destruct (get_current_phydev_from 33 bus 0) as [[p|]| |]; try done.
  apply Ht. unfold PHY_MAX_ADDR. lia.
Qed.

Section Readback.
Context `{!RegisterFile D}.

(** What the two registers hold after the writes of the set-up. *)
Lemma setup_dev_readback current speed p (d : D) :
  plat_phy_read p MDIO_DEVAD_NONE MII_BMCR (setup_dev current speed p d) =
    setup_bmcr current speed p d /\
  plat_readl (pdata_iobase current) (setup_dev current speed p d) =
    setup_conf current speed p d.
Proof.
  unfold setup_dev. rewrite phy_read_phy_write, readl_phy_write. split; [done|].
  unfold setup_dev_mac. rewrite readl_writel. apply u32_small, mac_conf_for_range.
Qed.

Lemma setup_bmcr_testbit current speed p (d : D) :
  Z.testbit (setup_bmcr current speed p d) 14 = true /\
  Z.testbit (setup_bmcr current speed p d) 8 = true /\
  Z.testbit (setup_bmcr current speed p d) 12 = false /\
  Z.testbit (setup_bmcr current speed p d) 11 = false.
Proof. unfold setup_bmcr, u16. by rewrite !wrap_testbit, !bmcr_for_testbit by lia. Qed.

(** On a platform whose registers are plain storage, after the set-up
    the BMCR reads back with the loopback and full-duplex bits set and
    auto-negotiation and power-down clear, and the MAC configuration
    register reads back as [mac_conf_for] of its old value. *)
Theorem eth_setup_loopback_test_readback w bus p current speed :
  plat_mdio_get_current_dev (w_dev w) = Some bus -> bus_wf bus ->
  first_phy (phymap bus) = Some p ->
  post (eth_setup_loopback_test current speed) w (fun _ w' =>
    let bmcr := plat_phy_read p MDIO_DEVAD_NONE MII_BMCR (w_dev w') in
    Z.testbit bmcr 14 = true /\ Z.testbit bmcr 8 = true /\
    Z.testbit bmcr 12 = false /\ Z.testbit bmcr 11 = false /\
    plat_readl (pdata_iobase current) (w_dev w') =
      mac_conf_for speed (phy_duplex p) (u32 (plat_readl (pdata_iobase current) (w_dev w)))).
Proof.
  intros Hbus Hwf Hp. unfold post.
  rewrite (eth_setup_loopback_test_run w bus), Hp by done. cbn [w_dev].
  destruct (setup_dev_readback current speed p (w_dev w)) as [-> ->].
  by destruct (setup_bmcr_testbit current speed p (w_dev w)) as (? & ? & ? & ?).
Qed.

End Readback.
End SetupFacts.

(** ** On the simulated board *)

Lemma get_current_phydev_first_populated_witness :
  get_current_phydev Sim.board_world = Ok (Some board_phy, Sim.board_world).
Proof. by apply (get_current_phydev_first_populated board_world board_bus). Defined.

Lemma get_current_phydev_null_bus_witness :
  get_current_phydev (World board_no_bus [] None) = UB /\
  eth_setup_loopback_test board_dev 1000 (World board_no_bus [] None) = UB.
Proof. by apply (get_current_phydev_null_bus (World board_no_bus [] None)). Defined.

Lemma eth_setup_loopback_test_accesses_witness :
  (w' ← eth_setup_loopback_test board_dev 1000 board_world; Ok (rev (w_trace w'.2))) =
    Ok [EvReadl 0xff540000 0x880c; EvWritel 0x080c 0xff540000;
        EvPhyRead 1 (-1) 0 0x1140; EvPhyWrite 1 (-1) 0 0x4140].
Proof.
  by rewrite (eth_setup_loopback_test_accesses board_world board_bus board_phy).
Defined.

Lemma eth_setup_loopback_test_no_phy_witness :
  eth_setup_loopback_test board_dev 1000 (World board_no_phy [] None) =
    Ok (tt, World board_no_phy [EvPrintf msg_no_phydev] None).
Proof.
  by apply (eth_setup_loopback_test_no_phy (World board_no_phy [] None)
              {| phymap := replicate 32 None |}).
Defined.

Lemma eth_setup_loopback_test_readback_witness :
  post (eth_setup_loopback_test board_dev 1000) board_world (fun _ w' =>
    let bmcr := plat_phy_read board_phy MDIO_DEVAD_NONE MII_BMCR (w_dev w') in
    Z.testbit bmcr 14 = true /\ Z.testbit bmcr 8 = true /\
    Z.testbit bmcr 12 = false /\ Z.testbit bmcr 11 = false /\
    plat_readl (pdata_iobase board_dev) (w_dev w') =
      mac_conf_for 1000 (phy_duplex board_phy)
        (u32 (plat_readl (pdata_iobase board_dev) (w_dev board_world)))).
Proof.
  by apply (eth_setup_loopback_test_readback board_world board_bus board_phy).
Defined.
