(* ===== verification/Runner.v ===== *)
(** * The loopback test runner
      ([src/test/rockchip/test-eth.c], lines 128-240)

    [eth_run_loopback_test] with its two counted loops, the early return
    of the single-shot mode and the variable [ret] that is only assigned
    inside the loop; [ethernet_init]; [eth_loopback_test].  The payload
    pointer [tx_pkt] is [net_tx_packet + LOOPBACK_TEST_HDR_SIZE], so the
    frame operations act on the world's transmit buffer at that offset.
    [assert] is the no-op of a build without [DEBUG]. *)

From Stdlib Require Import ZArith Lia Strings.Byte Strings.Ascii.
From stdpp Require Import base option list strings pretty.
From S2P Require Import Prelude Frame Regs Hw Sim Setup.

#[local] Open Scope Z_scope.

(** ** Formatting *)

Definition hex_digit (n : Z) : Ascii.ascii :=
  default "?"%char (String.get (Z.to_nat n) "0123456789abcdef").

Fixpoint hex_digits (fuel : nat) (z : Z) (acc : string) : string :=
  match fuel with
  | O => acc
  | S fuel =>
      let acc := String (hex_digit (z mod 16)) acc in
      if decide (z / 16 = 0) then acc else hex_digits fuel (z / 16) acc
  end.

(** [%02x] of an [unsigned int]. *)
Definition fmt_02x (z : Z) : string :=
  let s := hex_digits 8 (u32 z) EmptyString in
  if decide (String.length s < 2)%nat then "0" +:+ s else s.

(** [%d] of an [int]. *)
Definition fmt_d (z : Z) : string := pretty z.

Definition msg_row (i : Z) : string := "[0x" +:+ fmt_02x i +:+ "]:".

Definition msg_init_error (ret : Z) : string :=
  "eth_loopback_test, ethernet_init error: " +:+ fmt_d ret +:+ LF.

(** ** Network-stack data *)

Definition net_bcast_ethaddr : list byte := replicate 6 xff.
Definition ETHER_HDR_SIZE : Z := 14.

(** The wait after each transmission, in microseconds. *)
Definition settle_delay (speed : Z) : Z :=
  if decide (speed = LOOPBACK_SPEED_10) then 2000
  else if decide (speed = LOOPBACK_SPEED_100) then 2000
  else 200.

(** The loop-carried variables of [eth_run_loopback_test]: [ret] is
    [None] until its first assignment. *)
Record lb_state := LbState {
  lb_ret : option Z;
  lb_success : Z;
}.

#[export] Instance lb_state_eq_dec : EqDecision lb_state.
Proof. solve_decision. Defined.

(** ** Reference definitions *)

(** What one probe of the link can find. *)
Inductive outcome :=
| Pass
| Mismatch
| NoFrame
| RecvError (length : Z).

#[export] Instance outcome_eq_dec : EqDecision outcome.
Proof. solve_decision. Defined.

(** The outcome for a receive that returned [length] and left [rx] in the
    receive buffer, when [tx] is the transmit buffer. *)
Definition classify (length : Z) (tx rx : list byte) : outcome :=
  if decide (length > 0) then
    if decide (take (Z.to_nat LOOPBACK_TEST_FRAME_SIZE) tx =
               take (Z.to_nat LOOPBACK_TEST_FRAME_SIZE) rx)
    then Pass else Mismatch
  else if decide (length = 0) then NoFrame
  else RecvError length.

(** The value an outcome assigns to [ret], and the mark it prints. *)
Definition outcome_code (o : outcome) : Z :=
  match o with
  | Pass => 0
  | Mismatch => - EINVAL
  | NoFrame => - EBUSY
  | RecvError length => length
  end.

Definition outcome_mark (o : outcome) : string :=
  match o with
  | Pass => "*"
  | Mismatch => "x"
  | NoFrame => "?"
  | RecvError _ => " "
  end.

Definition outcome_state (o : outcome) (st : lb_state) : lb_state :=
  LbState (Some (outcome_code o))
    (match o with Pass => lb_success st + 1 | _ => lb_success st end).

(** The transmit buffer with the Ethernet header of [net_set_ether], and
    with the header and the test payload. *)
Definition with_header (buf dest src : list byte) (prot : Z) : list byte :=
  overwrite (overwrite (overwrite buf 0 dest) 6 src) 12
    [uchar_of_Z (u16 prot / 256); uchar_of_Z (u16 prot)].

Definition prepared (buf src : list byte) : list byte :=
  overwrite (with_header buf net_bcast_ethaddr src LOOPBACK_TEST_DATA_SIZE)
    (Z.to_nat LOOPBACK_TEST_HDR_SIZE) canonical_payload.

(** The frame that goes out for the delay pair [(i, j)]. *)
Definition sent_frame (buf : list byte) (i j : Z) : list byte :=
  take (Z.to_nat LOOPBACK_TEST_FRAME_SIZE) (tagged buf i j).

Section Runner.
Context {D : Type} `{!Platform D}.

(** An update of the transmit buffer through a pointer into it. *)
Definition with_tx_packet (f : list byte -> res (list byte)) : M D unit :=
  p ← get_net_tx_packet;
  match p with
  | None => lift_res UB
  | Some buf => buf' ← lift_res (f buf); set_net_tx_packet buf'
  end.

(** [net_set_ether(net_tx_packet, dest, prot)] without VLAN: destination,
    source [net_ethaddr], and [htons(prot)]. *)
Definition net_set_ether (dest : list byte) (prot : Z) : M D Z :=
  d ← get_dev;
  with_tx_packet (fun buf =>
    buf ← memcpy buf 0 dest;
    buf ← memcpy buf 6 (plat_net_ethaddr d);
    memcpy buf 12 [uchar_of_Z (u16 prot / 256); uchar_of_Z (u16 prot)]);;
  mret ETHER_HDR_SIZE.

(** Lines 149-165: program the delay lines (in the sweep only), tag the
    frame, send it and wait. *)
Definition lb_transmit (current : udevice) (speed delay_test i j : Z) : M D unit :=
  (if decide (delay_test ≠ 0) then gmac_set_rgmii current i j else mret tt);;
  with_tx_packet (fun buf =>
    alter_lbtest_frame buf LOOPBACK_TEST_HDR_SIZE LOOPBACK_TEST_DATA_SIZE i j);;
  net_send_packet LOOPBACK_TEST_FRAME_SIZE;;
  udelay (settle_delay speed).

(** Lines 168-184: classify the receive, print its mark, assign [ret]. *)
Definition lb_classify (length : Z) (rx_packet : list byte) (st : lb_state)
  : M D lb_state :=
  if decide (length > 0) then
    p ← get_net_tx_packet;
    tx ← lift_res (of_option p);
    c ← lift_res (check_lbtest_frame tx rx_packet LOOPBACK_TEST_FRAME_SIZE);
    if decide (c = 0) then
      printf "*";;
      (if decide (lb_success st + 1 <= INT_MAX)
       then mret (LbState (Some 0) (lb_success st + 1))
       else lift_res UB)
    else
      printf "x";; mret (LbState (Some (- EINVAL)) (lb_success st))
  else if decide (length = 0) then
    printf "?";; mret (LbState (Some (- EBUSY)) (lb_success st))
  else
    printf " ";; mret (LbState (Some length) (lb_success st)).

(** Lines 186-188: hand the receive buffer back to the driver. *)
Definition lb_release (current : udevice) (rx_packet : list byte) (length : Z)
  : M D unit :=
  if decide (length >= 0) then
    match plat_free_pkt with
    | Some free => eth_free_pkt free current rx_packet length
    | None => mret tt
    end
  else mret tt.

(** One pass of the inner loop body, for the delay pair [(i, j)]. *)
Definition lb_iteration (current : udevice) (speed delay_test i j : Z)
    (st : lb_state) : M D (lb_state + Z) :=
  lb_transmit current speed delay_test i j;;
  '(length, rx_packet) ← eth_recv current ETH_RECV_CHECK_DEVICE;
  st ← lb_classify length rx_packet st;
  lb_release current rx_packet length;;
  if decide (delay_test = 0) then
    printf LF;; ret ← lift_res (of_option (lb_ret st)); mret (inr ret)
  else mret (inl st).

(** One pass of the outer loop body: the row of transmit delay [i]. *)
Definition lb_row (current : udevice) (speed delay_test i : Z) (st : lb_state)
  : M D (lb_state + Z) :=
  (if decide (delay_test ≠ 0) then printf (msg_row i) else mret tt);;
  r ← for_u32 (S (Z.to_nat MAX_RX_DELAY_LINE)) MAX_RX_DELAY_LINE
        (lb_iteration current speed delay_test i) 0 st;
  match r with
  | inr ret => mret (inr ret)
  | inl st => printf LF;; mret (inl st)
  end.

Definition eth_run_loopback_test (current : udevice) (speed delay_test : Z)
  : M D Z :=
  p ← get_net_tx_packet;
  match p with
  | None => mret (- EINVAL)
  | Some _ =>
      net_set_ether net_bcast_ethaddr LOOPBACK_TEST_DATA_SIZE;;
      with_tx_packet (fun buf =>
        create_lbtest_frame buf LOOPBACK_TEST_HDR_SIZE LOOPBACK_TEST_DATA_SIZE);;
      udelay 50000;;
      r ← for_u32 (S (Z.to_nat MAX_TX_DELAY_LINE)) MAX_TX_DELAY_LINE
            (lb_row current speed delay_test) 0 (LbState None 0);
      match r with
      | inr ret => mret ret
      | inl st =>
          let ret :=
            if decide (delay_test ≠ 0 /\ lb_success st > 0)
            then Some 0 else lb_ret st in
          lift_res (of_option ret)
      end
  end.

Definition ethernet_init : M D Z :=
  net_init;;
  eth_halt;;
  eth_set_current;;
  ret ← eth_init;
  if decide (ret < 0) then eth_halt;; mret ret else mret ret.

Definition eth_loopback_test (speed delay_test : Z) : M D Z :=
  current ← eth_get_dev;
  match current with
  | None => mret (- EINVAL)
  | Some current =>
      if negb (device_active current) then mret (- EINVAL)
      else
        eth_setup_loopback_test current speed;;
        ret ← ethernet_init;
        if decide (ret ≠ 0) then printf (msg_init_error ret);; mret ret
        else eth_run_loopback_test current speed delay_test
  end.

(** ** What one probe does to the device and to the trace *)

Definition rgmii_dev (current : udevice) (delay_test i j : Z) (d : D) : D :=
  if decide (delay_test ≠ 0) then plat_gmac_set_rgmii current (u32 i) (u32 j) d else d.

Definition rgmii_events (delay_test i j : Z) : list event :=
  if decide (delay_test ≠ 0) then [EvSetRgmii (u32 i) (u32 j)] else [].

Definition probe_recv (current : udevice) (speed delay_test i j : Z)
    (buf : list byte) (d : D) : Z * list byte * D :=
  plat_recv current ETH_RECV_CHECK_DEVICE
    (plat_udelay (settle_delay speed)
       (plat_send (sent_frame buf i j) (rgmii_dev current delay_test i j d))).

Definition probe_length current speed delay_test i j buf (d : D) : Z :=
  s32 (probe_recv current speed delay_test i j buf d).1.1.

Definition probe_outcome current speed delay_test i j buf (d : D) : outcome :=
  classify (probe_length current speed delay_test i j buf d) (tagged buf i j)
    (probe_recv current speed delay_test i j buf d).1.2.

Definition release_dev (current : udevice) (rx_packet : list byte) (length : Z)
    (d : D) : D :=
  if decide (length >= 0) then
    match plat_free_pkt with
    | Some free => free current rx_packet length d
    | None => d
    end
  else d.

Definition release_events (length : Z) : list event :=
  if decide (length >= 0) then
    match plat_free_pkt with
    | Some _ => [EvFreePkt length]
    | None => []
    end
  else [].

Definition probe_events current speed delay_test i j buf (d : D) : list event :=
  release_events (probe_length current speed delay_test i j buf d) ++
  [EvPrintf (outcome_mark (probe_outcome current speed delay_test i j buf d));
   EvRecv (probe_length current speed delay_test i j buf d);
   EvUdelay (settle_delay speed);
   EvSend (sent_frame buf i j)] ++
  rgmii_events delay_test i j.

(** The world after the probe for [(i, j)] from a world whose transmit
    buffer is [buf]. *)
Definition probe_world current speed delay_test i j buf (w : world D) : world D :=
  World
    (release_dev current (probe_recv current speed delay_test i j buf (w_dev w)).1.2
       (probe_length current speed delay_test i j buf (w_dev w))
       (probe_recv current speed delay_test i j buf (w_dev w)).2)
    (probe_events current speed delay_test i j buf (w_dev w) ++ w_trace w)
    (Some (tagged buf i j)).

(** A world in which the test can run: the transmit buffer exists and
    holds a full frame, and the station address has its six bytes. *)
Definition eth_ready (w : world D) (buf : list byte) : Prop :=
  w_net_tx_packet w = Some buf /\
  LOOPBACK_TEST_FRAME_SIZE <= Z.of_nat (length buf) /\
  length (plat_net_ethaddr (w_dev w)) = 6%nat.

End Runner.

(** ** The prepared buffer *)

Lemma canonical_payload_length : length canonical_payload = 1500%nat.
Proof. unfold canonical_payload. by rewrite lbtest_pattern_length. Qed.

Lemma with_header_eq buf dest src prot :
  length dest = 6%nat -> length src = 6%nat ->
  with_header buf dest src prot =
    dest ++ src ++ [uchar_of_Z (u16 prot / 256); uchar_of_Z (u16 prot)] ++ drop 14 buf.
Proof.
  intros Hd Hs. unfold with_header.
  change (overwrite buf 0 dest) with (dest ++ drop (length dest) buf).
  rewrite overwrite_app by done.
  rewrite (app_assoc dest src), overwrite_app by (rewrite length_app; lia).
  rewrite <- app_assoc, !drop_drop, Hd, Hs. done.
Qed.

Lemma prepared_eq buf src :
  length src = 6%nat ->
  prepared buf src =
    net_bcast_ethaddr ++ src ++ [x05; xdc] ++ canonical_payload ++ drop 1514 buf.
Proof.
  intros Hs. unfold prepared. rewrite with_header_eq by done.
  rewrite !app_assoc, overwrite_app by (rewrite !length_app, Hs; done).
  by rewrite canonical_payload_length, drop_drop, <- !app_assoc.
Qed.

Lemma prepared_length buf src :
  length src = 6%nat -> (1514 <= length buf)%nat ->
  length (prepared buf src) = length buf.
Proof.
  intros Hs Hb. rewrite prepared_eq by done.
  rewrite !length_app, canonical_payload_length, length_drop, Hs. cbn. lia.
Qed.

Section RunnerFacts.
Context {D : Type} `{!Platform D}.
Implicit Types (w : world D) (current : udevice) (buf : list byte) (st : lb_state).

Lemma with_tx_packet_run f w buf buf' :
  w_net_tx_packet w = Some buf -> f buf = Ok buf' ->
  with_tx_packet f w = Ok (tt, World (w_dev w) (w_trace w) (Some buf')).
Proof. intros Hb Hf. unfold with_tx_packet. run. rewrite Hb, Hf. done. Qed.

Lemma net_set_ether_run w buf :
  eth_ready w buf ->
  net_set_ether net_bcast_ethaddr LOOPBACK_TEST_DATA_SIZE w =
    Ok (ETHER_HDR_SIZE,
        World (w_dev w) (w_trace w)
          (Some (with_header buf net_bcast_ethaddr (plat_net_ethaddr (w_dev w))
                   LOOPBACK_TEST_DATA_SIZE))).
Proof.
  unfold eth_ready, LOOPBACK_TEST_FRAME_SIZE. intros (Hb & Hlen & Hs).
  unfold net_set_ether. run.
  erewrite with_tx_packet_run; [done..|].
  rewrite memcpy_Ok by (unfold in_bounds; cbn; lia). cbn [mbind res_bind].
  rewrite memcpy_Ok
    by (unfold in_bounds; rewrite overwrite_length by (cbn; lia); lia).
  cbn [mbind res_bind]. rewrite memcpy_Ok; [done|].
  unfold in_bounds. rewrite !overwrite_length; cbn; try lia.
  rewrite overwrite_length; cbn; lia.
Qed.

Lemma create_frame_run w buf src :
  w_net_tx_packet w =
    Some (with_header buf net_bcast_ethaddr src LOOPBACK_TEST_DATA_SIZE) ->
  LOOPBACK_TEST_FRAME_SIZE <= Z.of_nat (length buf) -> length src = 6%nat ->
  with_tx_packet (fun buf =>
    create_lbtest_frame buf LOOPBACK_TEST_HDR_SIZE LOOPBACK_TEST_DATA_SIZE) w =
    Ok (tt, World (w_dev w) (w_trace w) (Some (prepared buf src))).
Proof.
  unfold LOOPBACK_TEST_FRAME_SIZE. intros Hb Hlen Hs.
  erewrite with_tx_packet_run; [done..|].
  rewrite create_lbtest_frame_eq; [done|by vm_compute..|].
  unfold in_bounds, LOOPBACK_TEST_HDR_SIZE, LOOPBACK_TEST_DATA_SIZE.
  rewrite with_header_eq by done. rewrite !length_app, length_drop, Hs. cbn. lia.
Qed.

(** ** One probe *)

Lemma lb_transmit_run current speed delay_test i j w buf :
  w_net_tx_packet w = Some buf ->
  LOOPBACK_TEST_FRAME_SIZE <= Z.of_nat (length buf) ->
  0 <= i < MAX_TX_DELAY_LINE -> 0 <= j < MAX_RX_DELAY_LINE ->
  lb_transmit current speed delay_test i j w =
    Ok (tt, World
              (plat_udelay (settle_delay speed)
                 (plat_send (sent_frame buf i j)
                    (rgmii_dev current delay_test i j (w_dev w))))
              (EvUdelay (settle_delay speed) :: EvSend (sent_frame buf i j)
                 :: rgmii_events delay_test i j ++ w_trace w)
              (Some (tagged buf i j))).
Proof.
  intros Hb Hlen Hi Hj. unfold lb_transmit, rgmii_dev, rgmii_events.
  assert (in_bounds (tagged buf i j) 0 LOOPBACK_TEST_FRAME_SIZE) as Hin.
  { unfold in_bounds. rewrite tagged_length.
    unfold LOOPBACK_TEST_FRAME_SIZE in *. lia. }
  case_decide; run;
    (erewrite with_tx_packet_run;
      [|done|by apply alter_lbtest_frame_tagged]);
    unfold net_send_packet; run; by rewrite decide_True.
Qed.

Lemma lb_classify_run length rx st w buf :
  w_net_tx_packet w = Some buf ->
  (length > 0 ->
     LOOPBACK_TEST_FRAME_SIZE <= Z.of_nat (List.length buf) /\
     LOOPBACK_TEST_FRAME_SIZE <= Z.of_nat (List.length rx)) ->
  lb_success st < INT_MAX ->
  lb_classify length rx st w =
    Ok (outcome_state (classify length buf rx) st,
        World (w_dev w) (EvPrintf (outcome_mark (classify length buf rx)) :: w_trace w)
          (Some buf)).
Proof.
  intros Hb Hlen Hs. unfold lb_classify, classify, outcome_state.
  destruct w as [d tr p]. cbn in Hb. subst p.
  case_decide as Hpos.
  - destruct (Hlen Hpos) as [Ht Hr]. run.
    rewrite check_lbtest_frame_take by (done || by vm_compute). run.
    destruct (decide (take _ buf = take _ rx)) as [Heq|Hne].
    + rewrite decide_True by done. run. by rewrite decide_True by lia.
    + rewrite decide_False by done. by run.
  - case_decide; by run.
Qed.

Lemma lb_release_run current rx length w :
  lb_release current rx length w =
    Ok (tt, World (release_dev current rx length (w_dev w))
              (release_events length ++ w_trace w) (w_net_tx_packet w)).
Proof.
  unfold lb_release, release_dev, release_events. destruct w as [d tr p].
  case_decide; [|done]. by destruct plat_free_pkt.
Qed.

Section Probe.
Context `{!RxBuffers D}.

Lemma lb_iteration_run current speed delay_test i j st w buf :
  w_net_tx_packet w = Some buf ->
  LOOPBACK_TEST_FRAME_SIZE <= Z.of_nat (length buf) ->
  0 <= i < MAX_TX_DELAY_LINE -> 0 <= j < MAX_RX_DELAY_LINE ->
  lb_success st < INT_MAX ->
  lb_iteration current speed delay_test i j st w =
    let o := probe_outcome current speed delay_test i j buf (w_dev w) in
    let w' := probe_world current speed delay_test i j buf w in
    if decide (delay_test = 0)
    then Ok (inr (outcome_code o),
             World (w_dev w') (EvPrintf LF :: w_trace w') (w_net_tx_packet w'))
    else Ok (inl (outcome_state o st), w').
Proof.
  intros Hb Hlen Hi Hj Hs. unfold lb_iteration. run.
  rewrite (lb_transmit_run _ _ _ _ _ _ buf) by done. run.
  erewrite lb_classify_run; [|done| |done].
  - run. rewrite lb_release_run. run. unfold probe_world, probe_events.
    case_decide; run; by rewrite <- ?app_assoc.
  - intros Hpos. rewrite tagged_length. split; [done|].
    apply Z.gt_lt, recv_buffer in Hpos. unfold LOOPBACK_TEST_FRAME_SIZE. lia.
Qed.

(** The single-shot run from a ready world: the frame is prepared, the
    pair [(0, 0)] is probed once, and the code of its outcome is returned
    from inside the loops. *)
Lemma eth_run_loopback_test_single_run current speed w buf :
  eth_ready w buf ->
  eth_run_loopback_test current speed 0 w =
    let buf0 := prepared buf (plat_net_ethaddr (w_dev w)) in
    let w0 := World (plat_udelay 50000 (w_dev w)) (EvUdelay 50000 :: w_trace w)
                (Some buf0) in
    let w1 := probe_world current speed 0 0 0 buf0 w0 in
    Ok (outcome_code (probe_outcome current speed 0 0 0 buf0 (w_dev w0)),
        World (w_dev w1) (EvPrintf LF :: w_trace w1) (w_net_tx_packet w1)).
Proof.
  intros Hr. pose proof Hr as (Hb & Hlen & Hs).
  unfold eth_run_loopback_test. run. rewrite Hb.
  run. rewrite (net_set_ether_run w buf) by done. run.
  erewrite create_frame_run; [|done..]. run.
  cbn [for_u32]. rewrite decide_True by done. unfold lb_row. run.
  rewrite decide_False by (by intros ?). run.
  cbn [for_u32]. rewrite decide_True by done. run.
  erewrite lb_iteration_run; [|done| |done..].
  - by rewrite decide_True by done.
  - rewrite prepared_length; [done..|]. unfold LOOPBACK_TEST_FRAME_SIZE in Hlen. lia.
Qed.

End Probe.

(** ** Bring-up *)

Lemma ethernet_init_run w :
  ethernet_init w =
    let d := plat_eth_set_current (plat_eth_halt (plat_net_init (w_dev w))) in
    let ret := s32 (plat_eth_init d).1 in
    let tr := EvEthInit ret :: EvEthSetCurrent :: EvEthHalt :: EvNetInit :: w_trace w in
    let buf := Some (default (plat_net_pkt_buf (plat_net_init (w_dev w)))
                       (w_net_tx_packet w)) in
    if decide (ret < 0)
    then Ok (ret, World (plat_eth_halt (plat_eth_init d).2) (EvEthHalt :: tr) buf)
    else Ok (ret, World (plat_eth_init d).2 tr buf).
Proof. unfold ethernet_init. run. case_decide; by run. Qed.

Lemma eth_loopback_test_eq speed delay_test w current :
  plat_eth_get_dev (w_dev w) = Some current -> device_active current = true ->
  eth_loopback_test speed delay_test w =
    (eth_setup_loopback_test current speed;;
     ret ← ethernet_init;
     if decide (ret ≠ 0) then printf (msg_init_error ret);; mret ret
     else eth_run_loopback_test current speed delay_test) w.
Proof.
  intros Hd Ha. unfold eth_loopback_test. rewrite run_bind.
  change (eth_get_dev w) with (Ok (plat_eth_get_dev (w_dev w), w)).
  by rewrite Hd, Ha.
Qed.

(** After a set-up and a bring-up that returned 0, the test is the
    runner on the world they left. *)
Lemma eth_loopback_test_up speed delay_test w current w1 w2 :
  plat_eth_get_dev (w_dev w) = Some current -> device_active current = true ->
  eth_setup_loopback_test current speed w = Ok (tt, w1) ->
  ethernet_init w1 = Ok (0, w2) ->
  eth_loopback_test speed delay_test w = eth_run_loopback_test current speed delay_test w2.
Proof.
  intros Hd Ha Hs Hi. rewrite (eth_loopback_test_eq _ _ _ current) by done.
  by rewrite run_bind, Hs, run_bind, Hi.
Qed.

End RunnerFacts.

(** ** Termination *)

Section Termination.
Context {D : Type} `{!Platform D}.
Implicit Types (w : world D) (current : udevice).

Lemma with_tx_packet_terminates f w :
  (forall buf, terminates (f buf)) -> terminates (with_tx_packet f w).
Proof.
  intros Hf. unfold with_tx_packet. run.
  destruct (w_net_tx_packet w) as [buf|]; [|done]. run.
  specialize (Hf buf). by destruct (f buf).
Qed.

Lemma net_send_packet_terminates len w : terminates (net_send_packet len w).
Proof.
  unfold net_send_packet. run. destruct (w_net_tx_packet w); [|done].
  by case_decide.
Qed.

Lemma check_lbtest_frame_not_OutOfFuel tx rx fs :
  check_lbtest_frame tx rx fs <> OutOfFuel.
Proof. apply check_from_not_OutOfFuel; unfold INT_MAX; lia. Qed.

Lemma lb_transmit_terminates current speed delay_test i j w :
  terminates (lb_transmit current speed delay_test i j w).
Proof.
  unfold lb_transmit.
  apply run_bind_terminates; [by case_decide|]. intros _ w1 _.
  apply run_bind_terminates.
  { apply with_tx_packet_terminates. intros buf.
    apply terminates_iff, alter_lbtest_frame_not_OutOfFuel. }
  intros _ w2 _. apply run_bind_terminates; [apply net_send_packet_terminates|done].
Qed.

Lemma lb_classify_terminates length rx st w :
  terminates (lb_classify length rx st w).
Proof.
  unfold lb_classify. case_decide; [|by case_decide]. run.
  destruct (w_net_tx_packet w) as [tx|]; [|done]. run.
  pose proof (check_lbtest_frame_not_OutOfFuel tx rx LOOPBACK_TEST_FRAME_SIZE).
  destruct (check_lbtest_frame tx rx _) as [c| |]; try done. run.
  repeat case_decide; by run.
Qed.

Lemma lb_release_terminates current rx length w :
  terminates (lb_release current rx length w).
Proof. by rewrite lb_release_run. Qed.

Lemma lb_iteration_terminates current speed delay_test i j st w :
  terminates (lb_iteration current speed delay_test i j st w).
Proof.
  unfold lb_iteration.
  apply run_bind_terminates; [apply lb_transmit_terminates|]. intros _ w1 _.
  apply run_bind_terminates; [done|]. intros [length rx] w2 _.
  apply run_bind_terminates; [apply lb_classify_terminates|]. intros st' w3 _.
  apply run_bind_terminates; [apply lb_release_terminates|]. intros _ w4 _.
  case_decide; [|done]. run. by destruct (lb_ret st').
Qed.

Lemma lb_row_terminates current speed delay_test i st w :
  terminates (lb_row current speed delay_test i st w).
Proof.
  unfold lb_row.
  apply run_bind_terminates; [by case_decide|]. intros _ w1 _.
  apply run_bind_terminates.
  { apply for_u32_terminates; [done|done|unfold MAX_RX_DELAY_LINE; lia|].
    apply lb_iteration_terminates. }
  by intros [st'|ret] w2 _.
Qed.

Lemma eth_run_loopback_test_not_OutOfFuel current speed delay_test w :
  terminates (eth_run_loopback_test current speed delay_test w).
Proof.
  unfold eth_run_loopback_test. run.
  destruct (w_net_tx_packet w) as [buf|]; [|done].
  apply run_bind_terminates.
  { unfold net_set_ether. run. apply run_bind_terminates; [|done].
    apply with_tx_packet_terminates. intros b.
    repeat (apply terminates_bind; [|intros ? _]);
      apply terminates_iff, memcpy_not_OutOfFuel. }
  intros _ w1 _. apply run_bind_terminates.
  { apply with_tx_packet_terminates. intros b.
    apply terminates_iff, create_lbtest_frame_not_OutOfFuel. }
  intros _ w2 _. apply run_bind_terminates; [done|]. intros _ w3 _.
  apply run_bind_terminates.
  { apply for_u32_terminates; [done|done|unfold MAX_TX_DELAY_LINE; lia|].
    apply lb_row_terminates. }
  intros [st|ret] w4 _; [|done]. apply lift_res_terminates.
  by case_decide; [|destruct (lb_ret st)].
Qed.

End Termination.

(** ** The single-shot test *)

(** The frame on the wire in single-shot mode, for the station address
    [src]: both sentinels fall on the first 0xAA byte of the payload, and
    the second store wins. *)
Definition single_shot_frame (src : list byte) : list byte :=
  net_bcast_ethaddr ++ src ++ [x05; xdc] ++
  replicate 750 xff ++ [xaf] ++ replicate 748 xaa ++ [xff].

Lemma sent_frame_single buf src :
  length src = 6%nat -> (1514 <= length buf)%nat ->
  sent_frame (prepared buf src) 0 0 = single_shot_frame src.
Proof.
  intros Hs Hb. unfold sent_frame, tagged. rewrite prepared_eq by done.
  do 6 (destruct src as [|? src]; [done|]). destruct src; [|done].
  rewrite !app_assoc.
  rewrite !insert_app_l
    by (rewrite ?length_insert, !length_app, canonical_payload_length; cbn; lia).
  rewrite take_app_length'
    by (rewrite !length_insert, !length_app, canonical_payload_length; by vm_compute).
  by vm_compute.
Qed.

Section RunnerClaims.
Context {D : Type} `{!Platform D}.
Implicit Types (w : world D) (current : udevice) (buf : list byte).

Lemma probe_events_count p current speed i j buf (d : D) :
  p (EvPrintf (outcome_mark (probe_outcome current speed 0 i j buf d))) = false ->
  p (EvUdelay (settle_delay speed)) = false ->
  p (EvFreePkt (probe_length current speed 0 i j buf d)) = false ->
  count_events p (probe_events current speed 0 i j buf d) =
    ((if p (EvRecv (probe_length current speed 0 i j buf d)) then 1 else 0) +
     (if p (EvSend (sent_frame buf i j)) then 1 else 0))%nat.
Proof.
  intros Hp Hu Hf. unfold probe_events, release_events, rgmii_events.
  rewrite (decide_False (P := 0 ≠ 0)) by (by intros ?).
  rewrite !count_events_app, !count_events_cons, Hp, Hu.
  case_decide; [destruct plat_free_pkt|]; rewrite ?count_events_cons, ?Hf; cbn; lia.
Qed.

Lemma probe_events_elapsed current speed delay_test i j buf (d : D) :
  elapsed (probe_events current speed delay_test i j buf d) = settle_delay speed.
Proof.
  unfold probe_events, release_events, rgmii_events. rewrite !elapsed_app.
  repeat case_decide; try destruct plat_free_pkt; cbn; lia.
Qed.

Lemma probe_events_sent current speed delay_test i j buf (d : D) :
  sent_packets (probe_events current speed delay_test i j buf d) = [sent_frame buf i j].
Proof.
  unfold probe_events, release_events, rgmii_events. rewrite !sent_packets_app.
  by repeat case_decide; try destruct plat_free_pkt.
Qed.

(** Without a transmit buffer the runner returns [-EINVAL] at once:
    nothing is sent, printed or waited for. *)
Theorem eth_run_loopback_test_null_buffer current speed delay_test w :
  w_net_tx_packet w = None ->
  eth_run_loopback_test current speed delay_test w = Ok (- EINVAL, w).
Proof. intros Hb. unfold eth_run_loopback_test. run. by rewrite Hb. Qed.

(** The runner, the bring-up and the whole test never run out of the
    fuel of their loops, on any platform and from any world: the two
    counted loops stop after at most 127 passes each. *)
Lemma eth_loopback_test_terminates speed delay_test w :
  terminates (eth_loopback_test speed delay_test w).
Proof.
  unfold eth_loopback_test. run.
  destruct (plat_eth_get_dev (w_dev w)) as [current|]; [|done].
  destruct (device_active current); [|done]. cbn [negb].
  apply run_bind_terminates; [apply eth_setup_loopback_test_terminates|].
  intros _ w1 _. rewrite run_bind, ethernet_init_run. cbn zeta.
  repeat case_decide; run; try done; apply eth_run_loopback_test_not_OutOfFuel.
Qed.

(** The bring-up calls [net_init], [eth_halt], [eth_set_current] and
    [eth_init] in this order, halts the device again exactly when
    [eth_init] returned a negative value, returns that value, and leaves
    a transmit buffer behind. *)
Theorem ethernet_init_sequence w :
  let ret := s32 (plat_eth_init (plat_eth_set_current
                    (plat_eth_halt (plat_net_init (w_dev w))))).1 in
  exists w',
    ethernet_init w = Ok (ret, w') /\
    w_trace w' =
      (if decide (ret < 0) then [EvEthHalt] else []) ++
      [EvEthInit ret; EvEthSetCurrent; EvEthHalt; EvNetInit] ++ w_trace w /\
    is_Some (w_net_tx_packet w').
Proof.
  intros ret. rewrite ethernet_init_run. cbn zeta. fold ret.
  case_decide; eexists; (split; [done|]); split; done || by eexists.
Qed.

(** No current device, or a device that is not active: the test
    returns [-EINVAL] before it touches anything. *)
Theorem eth_loopback_test_no_device speed delay_test w :
  match plat_eth_get_dev (w_dev w) with
  | Some current => device_active current = false
  | None => True
  end ->
  eth_loopback_test speed delay_test w = Ok (- EINVAL, w).
Proof.
  intros Hd. unfold eth_loopback_test. run.
  destruct (plat_eth_get_dev (w_dev w)) as [current|]; [|done]. by rewrite Hd.
Qed.

(** C10. The test is the set-up, then the bring-up, then the runner, on
    the world each leaves to the next; a bring-up that returns a value
    other than 0 ends the test with that value and a message, and no
    frame is sent. *)
Theorem eth_loopback_test_sequence speed delay_test w current w1 :
  plat_eth_get_dev (w_dev w) = Some current -> device_active current = true ->
  eth_setup_loopback_test current speed w = Ok (tt, w1) ->
  exists ret w2,
    ethernet_init w1 = Ok (ret, w2) /\
    eth_loopback_test speed delay_test w =
      if decide (ret ≠ 0)
      then Ok (ret, World (w_dev w2) (EvPrintf (msg_init_error ret) :: w_trace w2)
                      (w_net_tx_packet w2))
      else eth_run_loopback_test current speed delay_test w2.
Proof.
  intros Hd Ha Hs. rewrite (eth_loopback_test_eq _ _ _ current) by done.
  rewrite run_bind, Hs, run_bind.
  destruct (ethernet_init w1) as [[ret w2]| |] eqn:Hi.
  - exists ret, w2. split; [done|]. case_decide; by run.
  - by rewrite ethernet_init_run in Hi; cbn zeta in Hi; case_decide.
  - by rewrite ethernet_init_run in Hi; cbn zeta in Hi; case_decide.
Qed.

(** C35. A missing PHY does not stop the test: after the message of the
    set-up it goes on with the bring-up and the runner on a device whose
    registers were never programmed. *)
Theorem eth_loopback_test_missing_phy speed delay_test w current bus :
  plat_eth_get_dev (w_dev w) = Some current -> device_active current = true ->
  plat_mdio_get_current_dev (w_dev w) = Some bus -> bus_wf bus ->
  first_phy (phymap bus) = None ->
  eth_loopback_test speed delay_test w =
    (ret ← ethernet_init;
     if decide (ret ≠ 0) then printf (msg_init_error ret);; mret ret
     else eth_run_loopback_test current speed delay_test)
      (World (w_dev w) (EvPrintf msg_no_phydev :: w_trace w) (w_net_tx_packet w)).
Proof.
  intros Hd Ha Hbus Hwf Hp. rewrite (eth_loopback_test_eq _ _ _ current) by done.
  by rewrite run_bind, (eth_setup_loopback_test_run w bus), Hp.
Qed.

Section SingleShot.
Context `{!RxBuffers D}.

(** C2. The single-shot run returns the code of the one probe it makes:
    0 when a frame came back whose first 1514 bytes equal the transmit
    buffer, [-EINVAL] when they differ, [-EBUSY] when nothing came back,
    and a negative receive length as it is. *)
Theorem single_shot_verdict current speed w buf :
  eth_ready w buf ->
  let tx := tagged (prepared buf (plat_net_ethaddr (w_dev w))) 0 0 in
  let r := plat_recv current ETH_RECV_CHECK_DEVICE
             (plat_udelay (settle_delay speed)
                (plat_send (take 1514 tx) (plat_udelay 50000 (w_dev w)))) in
  exists w',
    eth_run_loopback_test current speed 0 w =
      Ok ((if decide (s32 r.1.1 > 0) then
             if decide (take 1514 tx = take 1514 r.1.2) then 0 else - EINVAL
           else if decide (s32 r.1.1 = 0) then - EBUSY else s32 r.1.1), w').
Proof.
  intros Hr tx r. rewrite (eth_run_loopback_test_single_run _ _ _ buf) by done.
  cbn zeta. eexists. do 2 f_equal.
  unfold probe_outcome, classify, probe_length, probe_recv, rgmii_dev, sent_frame.
  rewrite (decide_False (P := 0 ≠ 0)) by (by intros ?). cbn [w_dev]. fold tx. fold r.
  change (Z.to_nat LOOPBACK_TEST_FRAME_SIZE) with 1514%nat.
  by repeat case_decide.
Qed.

(** The single-shot run sends exactly one frame and receives exactly
    once, and writes no register: the delay lines stay as they are. *)
Theorem single_shot_one_probe current speed w buf :
  eth_ready w buf ->
  post (eth_run_loopback_test current speed 0) w (fun _ w' =>
    count_events is_send (w_trace w') = S (count_events is_send (w_trace w)) /\
    count_events is_recv (w_trace w') = S (count_events is_recv (w_trace w)) /\
    count_events is_reg_write (w_trace w') = count_events is_reg_write (w_trace w)).
Proof.
  intros Hr. unfold post.
  rewrite (eth_run_loopback_test_single_run _ _ _ buf) by done.
  cbn zeta. unfold probe_world. cbn [w_trace].
  by rewrite !count_events_cons, !count_events_app, !probe_events_count,
    !count_events_cons by (done || by destruct (probe_outcome _ _ _ _ _ _ _)).
Qed.

(** The one frame of the single-shot run is a broadcast from the
    station address with the length 1500 in the type field, 750 bytes
    0xFF, the sentinel 0xAF, 748 bytes 0xAA and a final 0xFF: 1514 bytes. *)
Theorem single_shot_frame_layout current speed w buf :
  eth_ready w buf ->
  post (eth_run_loopback_test current speed 0) w (fun _ w' =>
    sent_packets (w_trace w') =
      sent_packets (w_trace w) ++ [single_shot_frame (plat_net_ethaddr (w_dev w))] /\
    length (single_shot_frame (plat_net_ethaddr (w_dev w))) = 1514%nat).
Proof.
  intros Hr. pose proof Hr as (Hb & Hlen & Hs). unfold post.
  unfold LOOPBACK_TEST_FRAME_SIZE in Hlen.
  rewrite (eth_run_loopback_test_single_run _ _ _ buf) by done.
  cbn zeta. unfold probe_world. cbn [w_trace].
  change (EvPrintf LF :: ?l) with ([EvPrintf LF] ++ l).
  rewrite !sent_packets_app, probe_events_sent, sent_frame_single by (done || lia).
  change (sent_packets (EvUdelay 50000 :: w_trace w)) with (sent_packets (w_trace w)).
  change (sent_packets [EvPrintf LF]) with (@nil (list byte)).
  split; [by rewrite app_nil_r|]. unfold single_shot_frame. rewrite !length_app, Hs. done.
Qed.

(** The single-shot run waits 50 ms before the probe and the settle
    time of the speed after the transmission: 2 ms at 10 and 100 Mbit/s,
    200 us at any other speed. *)
Theorem single_shot_timing current speed w buf :
  eth_ready w buf ->
  post (eth_run_loopback_test current speed 0) w (fun _ w' =>
    elapsed (w_trace w') = elapsed (w_trace w) + 50000 + settle_delay speed /\
    settle_delay speed =
      if decide (speed = 10 \/ speed = 100) then 2000 else 200).
Proof.
  intros Hr. unfold post.
  rewrite (eth_run_loopback_test_single_run _ _ _ buf) by done.
  cbn zeta. unfold probe_world. cbn [w_trace].
  change (EvPrintf LF :: ?l) with ([EvPrintf LF] ++ l).
  change (EvUdelay 50000 :: ?l) with ([EvUdelay 50000] ++ l).
  rewrite !elapsed_app, probe_events_elapsed. split; [cbn; lia|].
  unfold settle_delay, LOOPBACK_SPEED_10, LOOPBACK_SPEED_100.
  repeat case_decide; (done || lia).
Qed.

End SingleShot.
End RunnerClaims.

(** ** On the simulated board *)

Lemma board_looped_ready :
  eth_ready (ready_world board_looped) (sim_pkt_buf board_looped).
Proof. repeat split; by vm_compute. Qed.

(** The world the set-up leaves on a board. *)
Definition after_setup (d : sim) : world sim :=
  match eth_setup_loopback_test board_dev 1000 (World d [] None) with
  | Ok (_, w) => w
  | _ => World d [] None
  end.

Lemma eth_run_loopback_test_null_buffer_witness :
  eth_run_loopback_test board_dev 1000 0 board_world = Ok (- EINVAL, board_world).
Proof. by apply eth_run_loopback_test_null_buffer. Defined.

Lemma eth_loopback_test_no_device_witness :
  eth_loopback_test 1000 0 (World board_inactive [] None) =
    Ok (- EINVAL, World board_inactive [] None).
Proof. by apply (eth_loopback_test_no_device 1000 0 (World board_inactive [] None)). Defined.

Lemma eth_loopback_test_sequence_witness :
  exists ret w2,
    ethernet_init (after_setup board_init_fail) = Ok (ret, w2) /\
    eth_loopback_test 1000 0 (World board_init_fail [] None) =
      if decide (ret ≠ 0)
      then Ok (ret, World (w_dev w2) (EvPrintf (msg_init_error ret) :: w_trace w2)
                      (w_net_tx_packet w2))
      else eth_run_loopback_test board_dev 1000 0 w2.
Proof.
  by apply (eth_loopback_test_sequence 1000 0 (World board_init_fail [] None) board_dev).
Defined.

Lemma eth_loopback_test_missing_phy_witness :
  eth_loopback_test 1000 0 (World board_no_phy [] None) =
    (ret ← ethernet_init;
     if decide (ret ≠ 0) then printf (msg_init_error ret);; mret ret
     else eth_run_loopback_test board_dev 1000 0)
      (World board_no_phy [EvPrintf msg_no_phydev] None).
Proof.
  by apply (eth_loopback_test_missing_phy 1000 0 (World board_no_phy [] None) board_dev
              {| phymap := replicate 32 None |}).
Defined.

Lemma single_shot_verdict_witness :
  exists w', eth_run_loopback_test board_dev 1000 0 (ready_world board_looped) = Ok (0, w').
Proof.
  destruct (single_shot_verdict board_dev 1000 _ _ board_looped_ready) as [w' Hw].
  exists w'. rewrite Hw. by vm_compute.
Defined.

Lemma single_shot_one_probe_witness :
  post (eth_run_loopback_test board_dev 1000 0) (ready_world board_looped) (fun _ w' =>
    count_events is_send (w_trace w') = 1%nat /\
    count_events is_recv (w_trace w') = 1%nat /\
    count_events is_reg_write (w_trace w') = 0%nat).
Proof. apply (single_shot_one_probe board_dev 1000 _ _ board_looped_ready). Defined.

Lemma single_shot_frame_layout_witness :
  post (eth_run_loopback_test board_dev 1000 0) (ready_world board_looped) (fun _ w' =>
    sent_packets (w_trace w') = [single_shot_frame [x02; x00; x00; x00; x00; x01]] /\
    length (single_shot_frame [x02; x00; x00; x00; x00; x01]) = 1514%nat).
Proof. apply (single_shot_frame_layout board_dev 1000 _ _ board_looped_ready). Defined.

Lemma single_shot_timing_witness :
  post (eth_run_loopback_test board_dev 1000 0) (ready_world board_looped) (fun _ w' =>
    elapsed (w_trace w') = 0 + 50000 + settle_delay 1000 /\
    settle_delay 1000 = if decide (1000 = 10 \/ 1000 = 100) then 2000 else 200).
Proof. apply (single_shot_timing board_dev 1000 _ _ board_looped_ready). Defined.
