(* ===== verification/Sweep.v ===== *)
(** * The delay-line sweep
      ([src/test/rockchip/test-eth.c], lines 145-202, with [delay_test] set)

    The specification of the sweep is a structural recursion over the
    delay values: every pair is probed once, in row-major order, on the
    device and with the transmit buffer the previous probe left.  It
    yields the log of the probes; the trace, the loop-carried variables
    and the verdict are functions of the log.  The refinement theorem
    states that [eth_run_loopback_test], with its fuel, its [u32]
    counters, its early exits and its conditions for undefined behaviour,
    computes exactly that. *)

From Stdlib Require Import ZArith Lia Strings.Byte.
From stdpp Require Import base option list strings.
From S2P Require Import Prelude Cstring Frame Regs Hw Sim Setup Runner.

#[local] Open Scope Z_scope.

(** ** The log *)

(** One line of the log: the delay pair, the frame that went out, the
    length the receive returned and the outcome. *)
Record probe := Probe {
  pr_tx : Z;
  pr_rx : Z;
  pr_frame : list byte;
  pr_length : Z;
  pr_outcome : outcome;
}.

(** The delay pairs of the sweep, in the order of the two loops. *)
Definition pairs_of (txs rxs : list Z) : list (Z * Z) :=
  i ← txs; (fun j => (i, j)) <$> rxs.

Definition pairs : list (Z * Z) :=
  pairs_of (seqZ 0 MAX_TX_DELAY_LINE) (seqZ 0 MAX_RX_DELAY_LINE).

Definition passed (p : probe) : Prop := pr_outcome p = Pass.

#[export] Instance passed_dec p : Decision (passed p).
Proof. unfold passed. apply _. Defined.

(** The verdict of a log: 0 when some probe passed, else the code of the
    last probe; an empty log has none. *)
Definition sweep_verdict (log : list probe) : option Z :=
  if decide (Exists passed log) then Some 0
  else (fun p => outcome_code (pr_outcome p)) <$> last log.

(** The loop-carried variables after a log. *)
Definition st_after (log : list probe) (st : lb_state) : lb_state :=
  foldl (fun st p => outcome_state (pr_outcome p) st) st log.

(** An outcome as [classify] produces it: an error length is negative. *)
Definition outcome_wf (o : outcome) : Prop :=
  match o with
  | RecvError length => length < 0
  | _ => True
  end.

Section Spec.
Context {D : Type} `{!Platform D}.
Implicit Types (current : udevice) (s : D * list byte) (log : list probe).

(** The probe of [(i, j)] on the device and buffer [s], and what it
    leaves. *)
Definition probe_of current (speed delay_test i j : Z) s : probe :=
  Probe i j (sent_frame s.2 i j)
    (probe_length current speed delay_test i j s.2 s.1)
    (probe_outcome current speed delay_test i j s.2 s.1).

Definition probe_next current (speed delay_test i j : Z) s : D * list byte :=
  (release_dev current (probe_recv current speed delay_test i j s.2 s.1).1.2
     (probe_length current speed delay_test i j s.2 s.1)
     (probe_recv current speed delay_test i j s.2 s.1).2,
   tagged s.2 i j).

Fixpoint probe_row current (speed delay_test i : Z) (js : list Z) s
  : list probe * (D * list byte) :=
  match js with
  | [] => ([], s)
  | j :: js =>
      let r := probe_row current speed delay_test i js
                 (probe_next current speed delay_test i j s) in
      (probe_of current speed delay_test i j s :: r.1, r.2)
  end.

Fixpoint probe_rows current (speed delay_test : Z) (txs rxs : list Z) s
  : list (Z * list probe) * (D * list byte) :=
  match txs with
  | [] => ([], s)
  | i :: txs =>
      let r := probe_row current speed delay_test i rxs s in
      let r' := probe_rows current speed delay_test txs rxs r.2 in
      ((i, r.1) :: r'.1, r'.2)
  end.

(** The events of one probe, newest first, and the trace after a log,
    a row and a list of rows. *)
Definition probe_ev (speed : Z) (p : probe) : list event :=
  release_events (pr_length p) ++
  [EvPrintf (outcome_mark (pr_outcome p)); EvRecv (pr_length p);
   EvUdelay (settle_delay speed); EvSend (pr_frame p);
   EvSetRgmii (u32 (pr_tx p)) (u32 (pr_rx p))].

Definition trace_after (speed : Z) log (tr : list event) : list event :=
  foldl (fun tr p => probe_ev speed p ++ tr) tr log.

Definition row_trace (speed : Z) (tr : list event) (row : Z * list probe)
  : list event :=
  EvPrintf LF :: trace_after speed row.2 (EvPrintf (msg_row row.1) :: tr).

Definition rows_trace (speed : Z) (rows : list (Z * list probe))
    (tr : list event) : list event :=
  foldl (row_trace speed) tr rows.

(** The log of a list of rows. *)
Definition flat (rows : list (Z * list probe)) : list probe :=
  concat (snd <$> rows).

End Spec.

(** What the sweep prints: for each row the label of its transmit delay,
    the marks of its probes and a newline. *)
Definition marks (log : list probe) : string :=
  foldr (fun p acc => outcome_mark (pr_outcome p) +:+ acc) EmptyString log.

Definition row_text (row : Z * list probe) : string :=
  msg_row row.1 +:+ marks row.2 +:+ LF.

Definition grid (rows : list (Z * list probe)) : string :=
  foldr (fun row acc => row_text row +:+ acc) EmptyString rows.

(** ** The loop-carried variables and the verdict *)

Lemma st_after_app log1 log2 st :
  st_after (log1 ++ log2) st = st_after log2 (st_after log1 st).
Proof. apply foldl_app. Qed.

Lemma outcome_state_success o st :
  lb_success st <= lb_success (outcome_state o st) <= lb_success st + 1.
Proof. destruct o; cbn; lia. Qed.

Lemma st_after_success log st :
  lb_success st <= lb_success (st_after log st) <= lb_success st + Z.of_nat (length log).
Proof.
  revert st. induction log as [|p log IH]; intros st; [cbn; lia|].
  cbn [st_after foldl length]. fold (st_after log (outcome_state (pr_outcome p) st)).
  pose proof (IH (outcome_state (pr_outcome p) st)).
  pose proof (outcome_state_success (pr_outcome p) st). lia.
Qed.

(** [success] is positive exactly when a probe passed. *)
Lemma st_after_passed log st :
  0 <= lb_success st ->
  lb_success (st_after log st) > 0 <-> lb_success st > 0 \/ Exists passed log.
Proof.
  revert st. induction log as [|p log IH]; intros st Hs.
  - cbn. rewrite Exists_nil. tauto.
  - cbn [st_after foldl]. fold (st_after log (outcome_state (pr_outcome p) st)).
    pose proof (outcome_state_success (pr_outcome p) st).
    rewrite IH, Exists_cons by lia. unfold passed.
    destruct (pr_outcome p) eqn:Ho; cbn; split; intros; destruct_or?;
      auto; try lia; congruence.
Qed.

(** [ret] holds the code of the last probe. *)
Lemma st_after_ret log st :
  lb_ret (st_after log st) =
    match last log with
    | Some p => Some (outcome_code (pr_outcome p))
    | None => lb_ret st
    end.
Proof.
  revert st. induction log as [|p log IH]; intros st; [done|].
  cbn [st_after foldl]. fold (st_after log (outcome_state (pr_outcome p) st)).
  rewrite IH. destruct log as [|q log]; [done|].
  change (last (p :: q :: log)) with (last (q :: log)).
  destruct (last (q :: log)) eqn:E; [done|]. by apply last_None in E.
Qed.

(** What the code returns after the loops is the verdict of the log. *)
Lemma verdict_st_after log (delay_test : Z) :
  delay_test ≠ 0 ->
  (if decide (delay_test ≠ 0 /\ lb_success (st_after log (LbState None 0)) > 0)
   then Some 0 else lb_ret (st_after log (LbState None 0))) = sweep_verdict log.
Proof.
  intros Hd. unfold sweep_verdict. rewrite st_after_ret.
  pose proof (st_after_passed log (LbState None 0)) as Hp.
  cbn [lb_success lb_ret] in Hp. specialize (Hp ltac:(lia)).
  destruct (decide (Exists passed log)) as [He|He].
  - rewrite decide_True; [done|]. split; [done|]. apply Hp. by right.
  - rewrite decide_False; [by destruct (last log)|].
    intros [_ Hs]. apply Hp in Hs. destruct Hs; [lia|done].
Qed.

(** ** The specification's own facts *)

Section SpecFacts.
Context {D : Type} `{!Platform D}.
Implicit Types (current : udevice) (s : D * list byte) (log : list probe)
  (w : world D) (st : lb_state).

Lemma probe_row_length current speed delay_test i js s :
  length (probe_row current speed delay_test i js s).1 = length js /\
  length (probe_row current speed delay_test i js s).2.2 = length s.2.
Proof.
  revert s. induction js as [|j js IH]; intros s; [done|]. cbn [probe_row fst snd length].
  destruct (IH (probe_next current speed delay_test i j s)) as [-> ->].
  unfold probe_next. cbn [snd]. by rewrite tagged_length.
Qed.

Lemma probe_row_pairs current speed delay_test i js s :
  (fun p => (pr_tx p, pr_rx p)) <$> (probe_row current speed delay_test i js s).1 =
    (fun j => (i, j)) <$> js.
Proof.
  revert s. induction js as [|j js IH]; intros s; [done|].
  cbn [probe_row fst fmap list_fmap]. f_equal. apply IH.
Qed.

Lemma flat_cons i log rows : flat ((i, log) :: rows) = log ++ flat rows.
Proof. done. Qed.

Lemma rows_trace_cons speed row rows tr :
  rows_trace speed (row :: rows) tr = rows_trace speed rows (row_trace speed tr row).
Proof. done. Qed.

Lemma probe_rows_cons current speed delay_test i txs rxs s :
  probe_rows current speed delay_test (i :: txs) rxs s =
    ((i, (probe_row current speed delay_test i rxs s).1)
       :: (probe_rows current speed delay_test txs rxs
             (probe_row current speed delay_test i rxs s).2).1,
     (probe_rows current speed delay_test txs rxs
        (probe_row current speed delay_test i rxs s).2).2).
Proof. done. Qed.

Lemma probe_events_sweep current speed delay_test i j buf (d : D) :
  delay_test ≠ 0 ->
  probe_events current speed delay_test i j buf d =
    probe_ev speed (probe_of current speed delay_test i j (d, buf)).
Proof.
  intros Hd. unfold probe_events, probe_ev, probe_of, rgmii_events.
  by rewrite decide_True.
Qed.

End SpecFacts.

(** ** The loops implement the specification *)

Section Refinement.
Context {D : Type} `{!Platform D} `{!RxBuffers D}.
Implicit Types (current : udevice) (w : world D) (st : lb_state) (buf : list byte).

Lemma for_each_row current speed delay_test i js st w buf :
  delay_test ≠ 0 ->
  w_net_tx_packet w = Some buf ->
  LOOPBACK_TEST_FRAME_SIZE <= Z.of_nat (length buf) ->
  0 <= i < MAX_TX_DELAY_LINE ->
  Forall (fun j => 0 <= j < MAX_RX_DELAY_LINE) js ->
  lb_success st + Z.of_nat (length js) <= INT_MAX ->
  for_each (lb_iteration current speed delay_test i) js st w =
    let r := probe_row current speed delay_test i js (w_dev w, buf) in
    Ok (inl (st_after r.1 st),
        World r.2.1 (trace_after speed r.1 (w_trace w)) (Some r.2.2)).
Proof.
  intros Hd Hb Hlen Hi Hjs. revert st w buf Hb Hlen.
  induction Hjs as [|j js Hj Hjs IH]; intros st w buf Hb Hlen Hs.
  - destruct w as [d tr p]. cbn in Hb. by subst p.
  - cbn [for_each length] in *. rewrite run_bind.
    rewrite (lb_iteration_run _ _ _ _ _ _ _ buf) by (done || lia). cbn zeta.
    rewrite decide_False by done.
    pose proof (outcome_state_success
      (probe_outcome current speed delay_test i j buf (w_dev w)) st).
    rewrite (IH _ _ (tagged buf i j)); [|done|by rewrite tagged_length|lia].
    unfold probe_world. cbn [w_dev w_trace].
    by rewrite probe_events_sweep.
Qed.

Lemma lb_row_run current speed delay_test i st w buf :
  delay_test ≠ 0 ->
  w_net_tx_packet w = Some buf ->
  LOOPBACK_TEST_FRAME_SIZE <= Z.of_nat (length buf) ->
  0 <= i < MAX_TX_DELAY_LINE ->
  lb_success st + MAX_RX_DELAY_LINE <= INT_MAX ->
  lb_row current speed delay_test i st w =
    let r := probe_row current speed delay_test i (seqZ 0 MAX_RX_DELAY_LINE)
               (w_dev w, buf) in
    Ok (inl (st_after r.1 st),
        World r.2.1 (row_trace speed (w_trace w) (i, r.1)) (Some r.2.2)).
Proof.
  intros Hd Hb Hlen Hi Hs. unfold lb_row. rewrite decide_True by done. run.
  rewrite for_u32_for_each by (done || (unfold MAX_RX_DELAY_LINE; lia)).
  rewrite Z.sub_0_r.
  rewrite (for_each_row _ _ _ _ _ _ _ buf); try done.
  apply Forall_forall. intros j Hj%elem_of_seqZ. lia.
Qed.

Lemma for_each_rows current speed delay_test txs st w buf :
  delay_test ≠ 0 ->
  w_net_tx_packet w = Some buf ->
  LOOPBACK_TEST_FRAME_SIZE <= Z.of_nat (length buf) ->
  Forall (fun i => 0 <= i < MAX_TX_DELAY_LINE) txs ->
  lb_success st + MAX_RX_DELAY_LINE * Z.of_nat (length txs) <= INT_MAX ->
  for_each (lb_row current speed delay_test) txs st w =
    let r := probe_rows current speed delay_test txs (seqZ 0 MAX_RX_DELAY_LINE)
               (w_dev w, buf) in
    Ok (inl (st_after (flat r.1) st),
        World r.2.1 (rows_trace speed r.1 (w_trace w)) (Some r.2.2)).
Proof.
  intros Hd Hb Hlen Htxs. revert st w buf Hb Hlen.
  induction Htxs as [|i txs Hi Htxs IH]; intros st w buf Hb Hlen Hs.
  - destruct w as [d tr p]. cbn in Hb. by subst p.
  - cbn [for_each length] in *. rewrite run_bind.
    rewrite (lb_row_run _ _ _ _ _ _ buf) by (done || unfold MAX_RX_DELAY_LINE in *; lia).
    cbn zeta.
    destruct (probe_row_length current speed delay_test i
                (seqZ 0 MAX_RX_DELAY_LINE) (w_dev w, buf)) as [Hl Hbuf].
    pose proof (st_after_success
      (probe_row current speed delay_test i (seqZ 0 MAX_RX_DELAY_LINE) (w_dev w, buf)).1 st).
    rewrite Hl, length_seqZ in *.
    erewrite IH; [|done|cbn [w_net_tx_packet]; by rewrite Hbuf
                  |unfold MAX_RX_DELAY_LINE in *; lia].
    cbn [w_dev w_trace]. rewrite <- surjective_pairing, probe_rows_cons.
    cbn [fst snd]. by rewrite flat_cons, st_after_app, rows_trace_cons.
Qed.

(** The sweep from a ready world. *)
Lemma eth_run_loopback_test_sweep_run current speed delay_test w buf :
  eth_ready w buf -> delay_test ≠ 0 ->
  eth_run_loopback_test current speed delay_test w =
    let r := probe_rows current speed delay_test (seqZ 0 MAX_TX_DELAY_LINE)
               (seqZ 0 MAX_RX_DELAY_LINE)
               (plat_udelay 50000 (w_dev w),
                prepared buf (plat_net_ethaddr (w_dev w))) in
    lift_res (of_option (sweep_verdict (flat r.1)))
      (World r.2.1 (rows_trace speed r.1 (EvUdelay 50000 :: w_trace w)) (Some r.2.2)).
Proof.
  intros Hr Hd. pose proof Hr as (Hb & Hlen & Hs).
  unfold eth_run_loopback_test. run. rewrite Hb.
  run. rewrite (net_set_ether_run w buf) by done. run.
  erewrite create_frame_run; [|done..]. run.
  rewrite for_u32_for_each by (done || (unfold MAX_TX_DELAY_LINE; lia)).
  rewrite Z.sub_0_r.
  erewrite for_each_rows; [|done|done| | |].
  - cbn zeta. run. by rewrite verdict_st_after.
  - rewrite prepared_length; [done..|]. unfold LOOPBACK_TEST_FRAME_SIZE in Hlen. lia.
  - apply Forall_forall. intros i Hi%elem_of_seqZ. lia.
  - rewrite length_seqZ. by vm_compute.
Qed.

End Refinement.

(** ** What the log says about the trace *)

Section LogFacts.
Context {D : Type} `{!Platform D}.
Implicit Types (current : udevice) (s : D * list byte) (log : list probe).

Lemma probe_rows_pairs current speed delay_test txs rxs s :
  (fun p => (pr_tx p, pr_rx p)) <$> flat (probe_rows current speed delay_test txs rxs s).1 =
    pairs_of txs rxs.
Proof.
  revert s. induction txs as [|i txs IH]; intros s; [done|].
  rewrite probe_rows_cons. cbn [fst]. rewrite flat_cons, fmap_app, probe_row_pairs, IH.
  done.
Qed.

Lemma probe_rows_outcome_wf current speed delay_test txs rxs s :
  Forall (fun p => outcome_wf (pr_outcome p))
    (flat (probe_rows current speed delay_test txs rxs s).1).
Proof.
  revert s. induction txs as [|i txs IH]; intros s; [constructor|].
  rewrite probe_rows_cons. cbn [fst]. rewrite flat_cons. apply Forall_app. split; [|apply IH].
  clear IH. revert s. induction rxs as [|j rxs IH]; intros s; [constructor|].
  cbn [probe_row fst]. constructor; [|apply IH].
  cbn [probe_of pr_outcome]. unfold probe_outcome, classify, outcome_wf.
  repeat case_decide; (done || lia).
Qed.

Lemma trace_after_app speed log tr :
  trace_after speed log tr = trace_after speed log [] ++ tr.
Proof.
  revert tr. induction log as [|p log IH]; intros tr; [done|].
  cbn [trace_after foldl]. fold (trace_after speed log (probe_ev speed p ++ tr)).
  fold (trace_after speed log (probe_ev speed p ++ [])).
  by rewrite IH, (IH (_ ++ [])), app_nil_r, app_assoc.
Qed.

Lemma trace_after_cons speed p log tr :
  trace_after speed (p :: log) tr = trace_after speed log [] ++ probe_ev speed p ++ tr.
Proof. cbn [trace_after foldl]. apply trace_after_app. Qed.

Lemma rows_trace_app speed rows tr :
  rows_trace speed rows tr = rows_trace speed rows [] ++ tr.
Proof.
  revert tr. induction rows as [|row rows IH]; intros tr; [done|].
  rewrite !rows_trace_cons, IH, (IH (row_trace _ _ _)). unfold row_trace.
  rewrite (trace_after_app _ _ (_ :: tr)), (trace_after_app _ _ [_]).
  by rewrite <- !app_assoc, <- app_comm_cons, <- app_assoc.
Qed.

(** An observation [obs] of traces that is additive, [obs (tr1 ++ tr2) =
    op (obs tr2) (obs tr1)], only has to be known on the events of one
    probe and on the two prints of a row. *)
Lemma probe_ev_sent speed p : sent_packets (probe_ev speed p) = [pr_frame p].
Proof.
  unfold probe_ev, release_events. rewrite sent_packets_app.
  by repeat case_decide; try destruct plat_free_pkt.
Qed.

Lemma probe_ev_delay speed p :
  delay_settings (probe_ev speed p) = [(u32 (pr_tx p), u32 (pr_rx p))].
Proof.
  unfold probe_ev, release_events. rewrite delay_settings_app.
  by repeat case_decide; try destruct plat_free_pkt.
Qed.

Lemma probe_ev_elapsed speed p : elapsed (probe_ev speed p) = settle_delay speed.
Proof.
  unfold probe_ev, release_events. rewrite elapsed_app.
  repeat case_decide; try destruct plat_free_pkt; cbn; lia.
Qed.

Lemma probe_ev_count q speed p :
  (forall msg, q (EvPrintf msg) = false) -> (forall n, q (EvUdelay n) = false) ->
  (forall n, q (EvFreePkt n) = false) ->
  count_events q (probe_ev speed p) =
    ((if q (EvRecv (pr_length p)) then 1 else 0) +
     (if q (EvSend (pr_frame p)) then 1 else 0) +
     (if q (EvSetRgmii (u32 (pr_tx p)) (u32 (pr_rx p))) then 1 else 0))%nat.
Proof.
  intros Hp Hu Hf. unfold probe_ev, release_events.
  rewrite count_events_app, !count_events_cons, Hp, Hu.
  case_decide; [destruct plat_free_pkt|]; rewrite ?count_events_cons, ?Hf; cbn; lia.
Qed.

Lemma trace_after_delay speed log :
  delay_settings (trace_after speed log []) =
    (fun p => (u32 (pr_tx p), u32 (pr_rx p))) <$> log.
Proof.
  induction log as [|p log IH]; [done|].
  by rewrite trace_after_cons, !delay_settings_app, probe_ev_delay, IH.
Qed.

Lemma rows_trace_delay speed rows :
  delay_settings (rows_trace speed rows []) =
    (fun p => (u32 (pr_tx p), u32 (pr_rx p))) <$> flat rows.
Proof.
  induction rows as [|[i log] rows IH]; [done|].
  rewrite rows_trace_cons, rows_trace_app, delay_settings_app, IH, flat_cons, fmap_app.
  unfold row_trace. cbn [fst snd].
  change (EvPrintf LF :: ?l) with ([EvPrintf LF] ++ l).
  rewrite trace_after_app, !delay_settings_app, trace_after_delay.
  change (delay_settings [EvPrintf LF]) with (@nil (Z * Z)).
  change (delay_settings [EvPrintf (msg_row i)]) with (@nil (Z * Z)).
  by rewrite app_nil_r.
Qed.

Lemma trace_after_elapsed speed log :
  elapsed (trace_after speed log []) = Z.of_nat (length log) * settle_delay speed.
Proof.
  induction log as [|p log IH]; [done|].
  rewrite trace_after_cons, !elapsed_app, probe_ev_elapsed, IH. cbn [length elapsed foldr].
  lia.
Qed.

Lemma rows_trace_elapsed speed rows :
  elapsed (rows_trace speed rows []) = Z.of_nat (length (flat rows)) * settle_delay speed.
Proof.
  induction rows as [|[i log] rows IH]; [done|].
  rewrite rows_trace_cons, rows_trace_app, elapsed_app, IH, flat_cons, length_app.
  unfold row_trace. cbn [fst snd].
  change (EvPrintf LF :: ?l) with ([EvPrintf LF] ++ l).
  rewrite trace_after_app, !elapsed_app, trace_after_elapsed. cbn [elapsed foldr]. lia.
Qed.

Lemma trace_after_count q speed log k :
  (forall p, count_events q (probe_ev speed p) = k) ->
  count_events q (trace_after speed log []) = (k * length log)%nat.
Proof.
  intros Hk. induction log as [|p log IH]; [cbn; lia|].
  rewrite trace_after_cons, !count_events_app, Hk, IH. cbn [length]. cbn. lia.
Qed.

Lemma rows_trace_count q speed rows k :
  (forall msg, q (EvPrintf msg) = false) ->
  (forall p, count_events q (probe_ev speed p) = k) ->
  count_events q (rows_trace speed rows []) = (k * length (flat rows))%nat.
Proof.
  intros Hp Hk. induction rows as [|[i log] rows IH]; [cbn; lia|].
  rewrite rows_trace_cons, rows_trace_app, count_events_app, IH, flat_cons, length_app.
  unfold row_trace. cbn [fst snd].
  rewrite count_events_cons, trace_after_app, count_events_app, count_events_cons,
    (trace_after_count _ _ _ k), !Hp by done. cbn. lia.
Qed.

End LogFacts.

(** ** The pairs and the verdict *)

Lemma pairs_of_length txs rxs :
  length (pairs_of txs rxs) = (length txs * length rxs)%nat.
Proof.
  unfold pairs_of. induction txs as [|i txs IH]; [done|].
  rewrite bind_cons, length_app, length_fmap, IH. cbn [length]. lia.
Qed.

Lemma elem_of_pairs_of txs rxs i j :
  (i, j) ∈ pairs_of txs rxs <-> i ∈ txs /\ j ∈ rxs.
Proof.
  unfold pairs_of. rewrite list_elem_of_bind. split.
  - intros (i' & [j' [[= -> ->] Hj]]%list_elem_of_fmap & Hi). done.
  - intros [Hi Hj]. exists i. split; [|done]. apply list_elem_of_fmap. by exists j.
Qed.

Lemma pairs_length : Z.of_nat (length pairs) = 16129.
Proof. unfold pairs. rewrite pairs_of_length, !length_seqZ. by vm_compute. Qed.

Lemma elem_of_pairs i j :
  (i, j) ∈ pairs <-> 0 <= i < MAX_TX_DELAY_LINE /\ 0 <= j < MAX_RX_DELAY_LINE.
Proof. unfold pairs. rewrite elem_of_pairs_of, !elem_of_seqZ. lia. Qed.

Lemma pairs_last : last pairs = Some (126, 126).
Proof. by vm_compute. Qed.

Lemma pairs_u32 : (fun ij : Z * Z => (u32 ij.1, u32 ij.2)) <$> pairs = pairs.
Proof.
  rewrite <- (list_fmap_id pairs) at 2. apply list_fmap_ext.
  intros k [i j] Hk%list_elem_of_lookup_2%elem_of_pairs.
  unfold MAX_TX_DELAY_LINE, MAX_RX_DELAY_LINE in Hk. cbn [fst snd id].
  by rewrite !u32_small by (unfold in_u32; lia).
Qed.

Lemma sweep_verdict_Some log : log ≠ [] -> is_Some (sweep_verdict log).
Proof.
  intros Hl. unfold sweep_verdict. case_decide; [by eexists|].
  destruct (last log) eqn:E; [by eexists|]. by apply last_None in E.
Qed.

(** With outcomes as [classify] gives them, the verdict is 0 exactly when
    a probe passed; otherwise it is the code of the last probe. *)
Lemma sweep_verdict_zero log ret :
  Forall (fun p => outcome_wf (pr_outcome p)) log ->
  sweep_verdict log = Some ret ->
  (ret = 0 <-> Exists passed log) /\
  (~ Exists passed log ->
   exists p, last log = Some p /\ ret = outcome_code (pr_outcome p)).
Proof.
  intros Hwf. unfold sweep_verdict. case_decide as He; [by intros [= <-]|].
  destruct (last log) as [p|] eqn:El; [|done]. intros [= <-].
  split; [|by eauto]. split; [|done]. intros Hc. exfalso. apply He.
  apply last_Some in El as [log' ->]. apply Exists_app. right. apply Exists_cons. left.
  apply Forall_app in Hwf as [_ [Hp _]%Forall_cons]. unfold passed.
  destruct (pr_outcome p); cbn in *; unfold EINVAL, EBUSY in *; (done || lia).
Qed.

Lemma sweep_verdict_last_pair log ret :
  Forall (fun p => outcome_wf (pr_outcome p)) log ->
  (fun p => (pr_tx p, pr_rx p)) <$> log = pairs ->
  sweep_verdict log = Some ret ->
  (ret = 0 <-> Exists passed log) /\
  (~ Exists passed log ->
   exists p, last log = Some p /\ (pr_tx p, pr_rx p) = (0x7E, 0x7E) /\
     ret = outcome_code (pr_outcome p)).
Proof.
  intros Hwf Hpairs [Hz Hl]%sweep_verdict_zero; [|done].
  split; [done|]. intros (p & Hp & Hc)%Hl. exists p. split; [done|]. split; [|done].
  apply (f_equal last) in Hpairs. rewrite fmap_last, Hp, pairs_last in Hpairs.
  cbn in Hpairs. congruence.
Qed.

(** ** The console *)

Lemma console_app tr1 tr2 : console (tr1 ++ tr2) = console tr2 +:+ console tr1.
Proof.
  induction tr1 as [|e tr1 IH]; [by rewrite append_nil_r|].
  destruct e; cbn [app console foldr]; fold (console (tr1 ++ tr2)); fold (console tr1);
    rewrite IH; by rewrite ?append_assoc.
Qed.

Section Console.
Context {D : Type} `{!Platform D}.

Lemma console_probe_ev speed p :
  console (probe_ev (D := D) speed p) = outcome_mark (pr_outcome p).
Proof.
  unfold probe_ev. rewrite console_app. unfold release_events.
  case_decide; [destruct plat_free_pkt|]; cbn; by rewrite ?append_nil_r.
Qed.

Lemma console_trace_after speed log tr :
  console (trace_after (D := D) speed log tr) = console tr +:+ marks log.
Proof.
  revert tr. induction log as [|p log IH]; intros tr; [by rewrite append_nil_r|].
  change (console (trace_after speed log (probe_ev speed p ++ tr)) =
          console tr +:+ (outcome_mark (pr_outcome p) +:+ marks log)).
  by rewrite IH, console_app, console_probe_ev, append_assoc.
Qed.

Lemma console_rows_trace speed rows tr :
  console (rows_trace (D := D) speed rows tr) = console tr +:+ grid rows.
Proof.
  revert tr. induction rows as [|row rows IH]; intros tr; [by rewrite append_nil_r|].
  rewrite rows_trace_cons, IH.
  change (console (row_trace speed tr row)) with
    (console (trace_after speed row.2 (EvPrintf (msg_row row.1) :: tr)) +:+ LF).
  rewrite console_trace_after.
  change (console (EvPrintf (msg_row row.1) :: tr)) with (console tr +:+ msg_row row.1).
  change (grid (row :: rows)) with (row_text row +:+ grid rows).
  unfold row_text. by rewrite !append_assoc.
Qed.

Lemma probe_rows_shape current speed delay_test txs rxs (s : D * list byte) :
  fst <$> (probe_rows current speed delay_test txs rxs s).1 = txs /\
  Forall (fun row => length row.2 = length rxs)
    (probe_rows current speed delay_test txs rxs s).1.
Proof.
  revert s. induction txs as [|i txs IH]; intros s; [by split; [|constructor]|].
  rewrite probe_rows_cons. cbn [fst fmap list_fmap].
  destruct (IH (probe_row current speed delay_test i rxs s).2) as [-> Hl].
  split; [done|]. constructor; [|done]. apply probe_row_length.
Qed.

End Console.

(** ** The sweep *)

Section SweepClaims.
Context {D : Type} `{!Platform D} `{!RxBuffers D}.
Implicit Types (current : udevice) (w : world D) (buf : list byte).

(** The device and the buffer at the first probe, and the rows of the
    log of the sweep from there. *)
Definition sweep_start w buf : D * list byte :=
  (plat_udelay 50000 (w_dev w), prepared buf (plat_net_ethaddr (w_dev w))).

Definition sweep_rows current (speed delay_test : Z) w buf
  : list (Z * list probe) * (D * list byte) :=
  probe_rows current speed delay_test (seqZ 0 MAX_TX_DELAY_LINE)
    (seqZ 0 MAX_RX_DELAY_LINE) (sweep_start w buf).

Lemma sweep_log_pairs current speed delay_test w buf :
  (fun p => (pr_tx p, pr_rx p)) <$> flat (sweep_rows current speed delay_test w buf).1 =
    pairs.
Proof. apply probe_rows_pairs. Qed.

Lemma sweep_log_length current speed delay_test w buf :
  Z.of_nat (length (flat (sweep_rows current speed delay_test w buf).1)) = 16129.
Proof.
  rewrite <- pairs_length, <- (sweep_log_pairs current speed delay_test w buf).
  by rewrite length_fmap.
Qed.

(** The run as its verdict and its final world. *)
Lemma sweep_run current speed delay_test w buf :
  eth_ready w buf -> delay_test ≠ 0 ->
  exists ret,
    sweep_verdict (flat (sweep_rows current speed delay_test w buf).1) = Some ret /\
    eth_run_loopback_test current speed delay_test w =
      Ok (ret,
          World (sweep_rows current speed delay_test w buf).2.1
            (rows_trace speed (sweep_rows current speed delay_test w buf).1 []
               ++ EvUdelay 50000 :: w_trace w)
            (Some (sweep_rows current speed delay_test w buf).2.2)).
Proof.
  intros Hr Hd.
  destruct (sweep_verdict_Some (flat (sweep_rows current speed delay_test w buf).1))
    as [ret Hret].
  { intros Hnil. pose proof (sweep_log_length current speed delay_test w buf) as Hl.
    by rewrite Hnil in Hl. }
  exists ret. split; [done|].
  rewrite (eth_run_loopback_test_sweep_run _ _ _ _ buf) by done. cbn zeta.
  fold (sweep_start w buf). fold (sweep_rows current speed delay_test w buf).
  by rewrite Hret, rows_trace_app.
Qed.

(** C1. Refinement: from a ready world the sweep computes the
    specification.  It returns the verdict of the log of [probe_rows]
    over the delay values 0..0x7E in both directions, and leaves the
    device, the trace and the transmit buffer of that log; it neither
    runs out of fuel nor into undefined behaviour. *)
Theorem sweep_refines_spec current speed delay_test w buf :
  eth_ready w buf -> delay_test ≠ 0 ->
  let r := probe_rows current speed delay_test (seqZ 0 MAX_TX_DELAY_LINE)
             (seqZ 0 MAX_RX_DELAY_LINE)
             (plat_udelay 50000 (w_dev w), prepared buf (plat_net_ethaddr (w_dev w))) in
  exists ret,
    sweep_verdict (flat r.1) = Some ret /\
    eth_run_loopback_test current speed delay_test w =
      Ok (ret, World r.2.1 (rows_trace speed r.1 (EvUdelay 50000 :: w_trace w))
                 (Some r.2.2)).
Proof.
  intros Hr Hd r. destruct (sweep_run current speed delay_test w buf Hr Hd)
    as (ret & Hret & Hrun).
  unfold sweep_rows, sweep_start in Hret, Hrun. fold r in Hret, Hrun.
  clearbody r. exists ret. split; [exact Hret|].
  by rewrite Hrun, (rows_trace_app speed r.1 (EvUdelay 50000 :: w_trace w)).
Qed.

(** C29. The sweep programs the delay lines with every pair [(i, j)],
    [0 <= i, j < 0x7F], once and in row-major order: 16129 settings, and
    the value 0x7F is never tried. *)
Theorem sweep_programs_every_pair current speed delay_test w buf :
  eth_ready w buf -> delay_test ≠ 0 ->
  post (eth_run_loopback_test current speed delay_test) w (fun _ w' =>
    delay_settings (w_trace w') = delay_settings (w_trace w) ++ pairs) /\
  Z.of_nat (length pairs) = 16129 /\
  forall i j, (i, j) ∈ pairs <-> 0 <= i < 0x7F /\ 0 <= j < 0x7F.
Proof.
  intros Hr Hd. split; [|split; [apply pairs_length|apply elem_of_pairs]].
  destruct (sweep_run current speed delay_test w buf Hr Hd) as (ret & _ & Hrun).
  unfold post. rewrite Hrun. cbn [w_trace].
  rewrite delay_settings_app, rows_trace_delay.
  change (delay_settings (EvUdelay 50000 :: w_trace w)) with (delay_settings (w_trace w)).
  apply (f_equal (app (delay_settings (w_trace w)))).
  by rewrite <- pairs_u32, <- (sweep_log_pairs current speed delay_test w buf),
    <- list_fmap_compose.
Qed.

(** C11. The verdict of the sweep is 0 exactly when at least one probe
    of the log passed; when none passed it is the code of the last
    probe, the one for the pair (0x7E, 0x7E). *)
Theorem sweep_verdict_any_pass current speed delay_test w buf :
  eth_ready w buf -> delay_test ≠ 0 ->
  post (eth_run_loopback_test current speed delay_test) w (fun ret _ =>
    let log := flat (sweep_rows current speed delay_test w buf).1 in
    (ret = 0 <-> Exists passed log) /\
    (~ Exists passed log ->
     exists p, last log = Some p /\ (pr_tx p, pr_rx p) = (0x7E, 0x7E) /\
       ret = outcome_code (pr_outcome p))).
Proof.
  intros Hr Hd.
  destruct (sweep_run current speed delay_test w buf Hr Hd) as (ret & Hret & Hrun).
  unfold post. rewrite Hrun. cbn zeta.
  apply sweep_verdict_last_pair;
    [apply probe_rows_outcome_wf | apply sweep_log_pairs | exact Hret].
Qed.

(** C30. Whatever the probes find, the sweep sends 16129 frames and
    polls the receive path 16129 times, and it waits 50 ms plus 16129
    settle times: no outcome ends it early. *)
Theorem sweep_counts current speed delay_test w buf :
  eth_ready w buf -> delay_test ≠ 0 ->
  post (eth_run_loopback_test current speed delay_test) w (fun _ w' =>
    Z.of_nat (count_events is_send (w_trace w')) =
      16129 + Z.of_nat (count_events is_send (w_trace w)) /\
    Z.of_nat (count_events is_recv (w_trace w')) =
      16129 + Z.of_nat (count_events is_recv (w_trace w)) /\
    elapsed (w_trace w') = elapsed (w_trace w) + 50000 + 16129 * settle_delay speed).
Proof.
  intros Hr Hd.
  destruct (sweep_run current speed delay_test w buf Hr Hd) as (ret & _ & Hrun).
  unfold post. rewrite Hrun. cbn [w_trace].
  rewrite !count_events_app, !count_events_cons, elapsed_app, rows_trace_elapsed.
  rewrite !(rows_trace_count _ _ _ 1) by (done || intros; by rewrite probe_ev_count).
  pose proof (sweep_log_length current speed delay_test w buf) as Hl.
  cbn [is_send is_recv elapsed foldr]. fold (elapsed (w_trace w)).
  repeat split; lia.
Qed.

(** What the sweep prints: one line per transmit delay, from 0x00
    to 0x7e, each made of the label [[0x..]:], one mark for each of the
    127 receive delays and a newline, after whatever the console showed
    before. *)
Theorem sweep_console current speed delay_test w buf :
  eth_ready w buf -> delay_test ≠ 0 ->
  post (eth_run_loopback_test current speed delay_test) w (fun _ w' =>
    let rows := (sweep_rows current speed delay_test w buf).1 in
    console (w_trace w') = console (w_trace w) +:+ grid rows /\
    fst <$> rows = seqZ 0 0x7F /\
    Forall (fun row => Z.of_nat (length row.2) = 0x7F) rows).
Proof.
  intros Hr Hd.
  destruct (sweep_run current speed delay_test w buf Hr Hd) as (ret & _ & Hrun).
  unfold post. rewrite Hrun. cbn zeta. cbn [w_trace].
  destruct (probe_rows_shape current speed delay_test (seqZ 0 MAX_TX_DELAY_LINE)
              (seqZ 0 MAX_RX_DELAY_LINE) (sweep_start w buf)) as [Hfst Hlen].
  split; [|split; [exact Hfst|]].
  - by rewrite console_app, console_rows_trace.
  - eapply Forall_impl; [exact Hlen|]. intros row ->. by rewrite length_seqZ.
Qed.

End SweepClaims.

(** ** On the simulated board *)

Lemma sweep_refines_spec_witness :
  let r := probe_rows board_dev 1000 1 (seqZ 0 MAX_TX_DELAY_LINE)
             (seqZ 0 MAX_RX_DELAY_LINE)
             (plat_udelay 50000 board_looped,
              prepared (sim_pkt_buf board_looped) (plat_net_ethaddr board_looped)) in
  exists ret,
    sweep_verdict (flat r.1) = Some ret /\
    eth_run_loopback_test board_dev 1000 1 (ready_world board_looped) =
      Ok (ret, World r.2.1 (rows_trace 1000 r.1 [EvUdelay 50000]) (Some r.2.2)).
Proof.
  apply (sweep_refines_spec board_dev 1000 1 _ _ board_looped_ready). done.
Defined.

Lemma sweep_programs_every_pair_witness :
  post (eth_run_loopback_test board_dev 1000 1) (ready_world board_looped) (fun _ w' =>
    delay_settings (w_trace w') = [] ++ pairs) /\
  Z.of_nat (length pairs) = 16129 /\
  forall i j, (i, j) ∈ pairs <-> 0 <= i < 0x7F /\ 0 <= j < 0x7F.
Proof.
  apply (sweep_programs_every_pair board_dev 1000 1 _ _ board_looped_ready). done.
Defined.

Lemma sweep_verdict_any_pass_witness :
  post (eth_run_loopback_test board_dev 1000 1) (ready_world board_looped) (fun ret _ =>
    let log := flat (sweep_rows board_dev 1000 1 (ready_world board_looped)
                       (sim_pkt_buf board_looped)).1 in
    (ret = 0 <-> Exists passed log) /\
    (~ Exists passed log ->
     exists p, last log = Some p /\ (pr_tx p, pr_rx p) = (0x7E, 0x7E) /\
       ret = outcome_code (pr_outcome p))).
Proof.
  apply (sweep_verdict_any_pass board_dev 1000 1 _ _ board_looped_ready). done.
Defined.

Lemma sweep_counts_witness :
  post (eth_run_loopback_test board_dev 1000 1) (ready_world board_looped) (fun _ w' =>
    Z.of_nat (count_events is_send (w_trace w')) = 16129 + Z.of_nat 0 /\
    Z.of_nat (count_events is_recv (w_trace w')) = 16129 + Z.of_nat 0 /\
    elapsed (w_trace w') = 0 + 50000 + 16129 * settle_delay 1000).
Proof.
  apply (sweep_counts board_dev 1000 1 _ _ board_looped_ready). done.
Defined.

Lemma sweep_console_witness :
  post (eth_run_loopback_test board_dev 1000 1) (ready_world board_looped) (fun _ w' =>
    let rows := (sweep_rows board_dev 1000 1 (ready_world board_looped)
                   (sim_pkt_buf board_looped)).1 in
    console (w_trace w') = console [] +:+ grid rows /\
    fst <$> rows = seqZ 0 0x7F /\
    Forall (fun row => Z.of_nat (length row.2) = 0x7F) rows).
Proof.
  apply (sweep_console board_dev 1000 1 _ _ board_looped_ready). done.
Defined.
