(* ===== verification/Machine.v ===== *)
(** * The runner as a state machine
      ([src/test/rockchip/test-eth.c], lines 128-203)

    [eth_run_loopback_test] is two nested counted loops with a [return]
    inside the inner one.  The same control flow is given here as a
    transition system over its program points, with the names the design
    notes use: [Init] (line 136, before the frame is built), [Row i] (the
    test of the outer loop, line 145), [PerPairTest i j] (the test of the
    inner loop, line 148), [Aggregate] (line 199) and [Done ret].  Each
    configuration carries the variables that are live at its point.

    The machine is an inductive step relation [lb_step] and, for
    evaluation, the function [lb_next]; they agree.  The file proves that
    the machine and the nested loops are the same program: [lb_exec]
    returns what [eth_run_loopback_test] returns, undefined behaviour
    included, and [Done ret] is reachable exactly when the function
    returns [ret].  On the machine the facts about intermediate states are
    invariants by induction over the reachable configurations: the
    counters stay in range, [success] never exceeds the number of probes
    made, [ret] is assigned before it is read, and no configuration but
    [Done] is stuck. *)

From Stdlib Require Import ZArith Lia Strings.Byte.
From stdpp Require Import base option list strings relations.
From S2P Require Import Prelude Frame Regs Hw Sim Logic Setup Runner Sweep.

#[local] Open Scope Z_scope.

(** Arithmetic on the loop counters. *)
Ltac counters :=
  unfold MAX_TX_DELAY_LINE, MAX_RX_DELAY_LINE, in_u32 in *;
  rewrite ?u32_small by wrap_solve; lia.

Section Machine.
Context {D : Type} `{!Platform D}.
Variables (current : udevice) (speed delay_test : Z).
Implicit Types (w : world D) (st : lb_state) (i j ret : Z).

(** The program points, each with its live variables. *)
Inductive config :=
| Init (w : world D)
| Row (i : Z) (st : lb_state) (w : world D)
| PerPairTest (i j : Z) (st : lb_state) (w : world D)
| Aggregate (st : lb_state) (w : world D)
| Done (ret : Z) (w : world D).

Definition final (c : config) : Prop :=
  match c with Done _ _ => True | _ => False end.

#[export] Instance final_dec c : Decision (final c).
Proof. destruct c; cbn; apply _. Defined.

Definition config_world (c : config) : world D :=
  match c with
  | Init w | Row _ _ w | PerPairTest _ _ _ w | Aggregate _ w | Done _ w => w
  end.

(** Lines 140-143: the header, the payload and the first wait. *)
Definition lb_prepare : M D unit :=
  net_set_ether net_bcast_ethaddr LOOPBACK_TEST_DATA_SIZE;;
  with_tx_packet (fun buf =>
    create_lbtest_frame buf LOOPBACK_TEST_HDR_SIZE LOOPBACK_TEST_DATA_SIZE);;
  udelay 50000.

(** Lines 146-147: the label of a row, in the sweep only. *)
Definition lb_label i : M D unit :=
  if decide (delay_test ≠ 0) then printf (msg_row i) else mret tt.

(** Lines 199-202: the value returned after the loops; [ret] is read
    unless the sweep had a success. *)
Definition lb_verdict st : res Z :=
  of_option (if decide (delay_test ≠ 0 /\ lb_success st > 0) then Some 0 else lb_ret st).

(** ** The step relation *)

Inductive lb_step : relation config :=
| step_null w :
    w_net_tx_packet w = None -> lb_step (Init w) (Done (- EINVAL) w)
| step_prepare w w' :
    is_Some (w_net_tx_packet w) -> lb_prepare w = Ok (tt, w') ->
    lb_step (Init w) (Row 0 (LbState None 0) w')
| step_row i st w w' :
    i < MAX_TX_DELAY_LINE -> lb_label i w = Ok (tt, w') ->
    lb_step (Row i st w) (PerPairTest i 0 st w')
| step_rows_done i st w :
    ~ i < MAX_TX_DELAY_LINE -> lb_step (Row i st w) (Aggregate st w)
| step_pair i j st w st' w' :
    j < MAX_RX_DELAY_LINE ->
    lb_iteration current speed delay_test i j st w = Ok (inl st', w') ->
    lb_step (PerPairTest i j st w) (PerPairTest i (u32 (j + 1)) st' w')
| step_return i j st w ret w' :
    j < MAX_RX_DELAY_LINE ->
    lb_iteration current speed delay_test i j st w = Ok (inr ret, w') ->
    lb_step (PerPairTest i j st w) (Done ret w')
| step_row_end i j st w w' :
    ~ j < MAX_RX_DELAY_LINE -> printf LF w = Ok (tt, w') ->
    lb_step (PerPairTest i j st w) (Row (u32 (i + 1)) st w')
| step_aggregate st w ret :
    lb_verdict st = Ok ret -> lb_step (Aggregate st w) (Done ret w).

(** ** The step function *)

(** One transition; [UB] where the machine is stuck.  [Done] is the
    halting configuration. *)
Definition lb_next (c : config) : res config :=
  match c with
  | Init w =>
      match w_net_tx_packet w with
      | None => Ok (Done (- EINVAL) w)
      | Some _ => r ← lb_prepare w; Ok (Row 0 (LbState None 0) r.2)
      end
  | Row i st w =>
      if decide (i < MAX_TX_DELAY_LINE)
      then r ← lb_label i w; Ok (PerPairTest i 0 st r.2)
      else Ok (Aggregate st w)
  | PerPairTest i j st w =>
      if decide (j < MAX_RX_DELAY_LINE) then
        r ← lb_iteration current speed delay_test i j st w;
        Ok (match r.1 with
            | inl st' => PerPairTest i (u32 (j + 1)) st' r.2
            | inr ret => Done ret r.2
            end)
      else r ← printf LF w; Ok (Row (u32 (i + 1)) st r.2)
  | Aggregate st w => ret ← lb_verdict st; Ok (Done ret w)
  | Done ret w => Ok (Done ret w)
  end.

(** The machine run until it halts. *)
Fixpoint lb_exec (fuel : nat) (c : config) : res (Z * world D) :=
  match c, fuel with
  | Done ret w, _ => Ok (ret, w)
  | _, O => OutOfFuel
  | _, S fuel => c' ← lb_next c; lb_exec fuel c'
  end.

(** The transitions that are left at most: one per test of a loop
    condition, one to aggregate. *)
Definition steps_left (c : config) : Z :=
  match c with
  | Init _ => 3 + 129 * MAX_TX_DELAY_LINE
  | Row i _ _ => 2 + 129 * Z.max 0 (MAX_TX_DELAY_LINE - i)
  | PerPairTest i j _ _ =>
      3 + 129 * Z.max 0 (MAX_TX_DELAY_LINE - 1 - i) + Z.max 0 (MAX_RX_DELAY_LINE - j)
  | Aggregate _ _ => 1
  | Done _ _ => 0
  end.

(** Fuel for every run: the transitions left at [Init]. *)
Definition machine_fuel : nat := Z.to_nat (3 + 129 * MAX_TX_DELAY_LINE).

(** The counters are where the loops can have left them. *)
Definition config_wf (c : config) : Prop :=
  match c with
  | Row i _ _ => 0 <= i <= MAX_TX_DELAY_LINE
  | PerPairTest i j _ _ => 0 <= i < MAX_TX_DELAY_LINE /\ 0 <= j <= MAX_RX_DELAY_LINE
  | _ => True
  end.

#[export] Instance config_wf_dec c : Decision (config_wf c).
Proof. destruct c; cbn; apply _. Defined.

(** ** The invariant of the reachable configurations *)

(** A world in which the runner is defined: a transmit buffer, when
    there is one, holds a whole frame, and the station address has its
    six bytes. *)
Definition world_ok w : Prop :=
  match w_net_tx_packet w with
  | Some buf => LOOPBACK_TEST_FRAME_SIZE <= Z.of_nat (length buf)
  | None => True
  end /\ length (plat_net_ethaddr (w_dev w)) = 6%nat.

Definition tx_ready w : Prop :=
  exists buf, w_net_tx_packet w = Some buf /\
    LOOPBACK_TEST_FRAME_SIZE <= Z.of_nat (length buf).

(** The frames sent so far. *)
Definition frames w : Z := Z.of_nat (length (sent_packets (w_trace w))).

(** The loop-carried variables after [n] probes: [success] counts some
    of them, and [ret] has been assigned once a probe was made. *)
Definition st_inv (n : Z) st : Prop :=
  0 <= lb_success st <= n /\ (0 < n -> is_Some (lb_ret st)).

(** At each program point: the counters are in range, the single-shot
    run never leaves the first pair, the transmit buffer holds a frame,
    and one frame went out for each pair before [(i, j)]. *)
Definition config_inv (sent0 : Z) (c : config) : Prop :=
  match c with
  | Init w => world_ok w /\ frames w = sent0
  | Row i st w =>
      0 <= i <= MAX_TX_DELAY_LINE /\ (delay_test = 0 -> i = 0) /\ tx_ready w /\
      frames w = sent0 + MAX_RX_DELAY_LINE * i /\ st_inv (MAX_RX_DELAY_LINE * i) st
  | PerPairTest i j st w =>
      0 <= i < MAX_TX_DELAY_LINE /\ 0 <= j <= MAX_RX_DELAY_LINE /\
      (delay_test = 0 -> i = 0 /\ j = 0) /\ tx_ready w /\
      frames w = sent0 + MAX_RX_DELAY_LINE * i + j /\
      st_inv (MAX_RX_DELAY_LINE * i + j) st
  | Aggregate st w =>
      delay_test ≠ 0 /\ frames w = sent0 + MAX_RX_DELAY_LINE * MAX_TX_DELAY_LINE /\
      st_inv (MAX_RX_DELAY_LINE * MAX_TX_DELAY_LINE) st
  | Done ret w =>
      (w_net_tx_packet w = None /\ frames w = sent0) \/
      (delay_test = 0 /\ frames w = sent0 + 1) \/
      (delay_test ≠ 0 /\ frames w = sent0 + MAX_RX_DELAY_LINE * MAX_TX_DELAY_LINE)
  end.

(** ** What is left of the function at a configuration

    The nested loops from a program point on, as the function runs them:
    the rest of a row, the rows from [i] on, and the value returned. *)

Definition finish (r : lb_state + Z) : M D Z :=
  match r with
  | inr ret => mret ret
  | inl st => lift_res (lb_verdict st)
  end.

Definition rows_from i st : M D Z :=
  r ← for_each (lb_row current speed delay_test) (seqZ i (MAX_TX_DELAY_LINE - i)) st;
  finish r.

Definition row_rest i j st : M D (lb_state + Z) :=
  r ← for_each (lb_iteration current speed delay_test i) (seqZ j (MAX_RX_DELAY_LINE - j)) st;
  match r with
  | inr ret => mret (inr ret)
  | inl st => printf LF;; mret (inl st)
  end.

Definition resume (c : config) : res (Z * world D) :=
  match c with
  | Init w => eth_run_loopback_test current speed delay_test w
  | Row i st w => rows_from i st w
  | PerPairTest i j st w =>
      (r ← row_rest i j st;
       match r with
       | inl st' => rows_from (i + 1) st'
       | inr ret => mret ret
       end) w
  | Aggregate st w => lift_res (lb_verdict st) w
  | Done ret w => Ok (ret, w)
  end.

(** ** The relation and the function agree *)

Lemma lb_step_next c c' : lb_step c c' <-> ~ final c /\ lb_next c = Ok c'.
Proof.
  split.
  - destruct 1 as [w Hn|w w' [buf Hb] Hp|i st w w' Hi Hl|i st w Hi|i j st w st' w' Hj Hit
                   |i j st w ret w' Hj Hit|i j st w w' Hj Hp|st w ret Hv];
      (split; [by intros []|]); cbn [lb_next];
      rewrite ?Hn, ?Hb, ?Hp, ?Hl, ?Hv, ?decide_True, ?decide_False by done;
      try done; by rewrite Hit.
  - intros [Hf Hn]. destruct c as [w|i st w|i j st w|st w|ret w]; cbn in Hn, Hf.
    + destruct (w_net_tx_packet w) as [buf|] eqn:Hb.
      * destruct (lb_prepare w) as [[[] w']| |] eqn:Hp; simplify_eq/=.
        by apply step_prepare; [rewrite Hb|].
      * simplify_eq. by apply step_null.
    + case_decide as Hi; [|simplify_eq; by apply step_rows_done].
      destruct (lb_label i w) as [[[] w']| |] eqn:Hl; simplify_eq/=. by apply step_row.
    + case_decide as Hj.
      * destruct (lb_iteration current speed delay_test i j st w)
          as [[[st'|ret] w']| |] eqn:Hit; simplify_eq/=;
          [by apply step_pair|by apply step_return].
      * simplify_eq/=. by apply step_row_end.
    + destruct (lb_verdict st) as [ret| |] eqn:Hv; simplify_eq/=. by apply step_aggregate.
    + done.
Qed.

Lemma lb_step_deterministic : deterministic lb_step.
Proof. intros c c1 c2 [_ H1]%lb_step_next [_ H2]%lb_step_next. congruence. Qed.

Lemma Done_nf ret w : nf lb_step (Done ret w).
Proof. intros [c' [Hf _]%lb_step_next]. by apply Hf. Qed.

(** ** Well-formed configurations *)

Lemma config_wf_next c c' : config_wf c -> lb_next c = Ok c' -> config_wf c'.
Proof.
  destruct c as [w|i st w|i j st w|st w|ret w]; cbn; intros Hwf Hn.
  - destruct (w_net_tx_packet w); [|by simplify_eq].
    destruct (lb_prepare w) as [[[] w']| |]; by simplify_eq/=.
  - case_decide; [|by simplify_eq].
    destruct (lb_label i w) as [[[] w']| |]; simplify_eq/=. counters.
  - case_decide.
    + destruct (lb_iteration current speed delay_test i j st w) as [[[st'|ret] w']| |];
        simplify_eq/=; [counters|done].
    + simplify_eq/=. counters.
  - destruct (lb_verdict st); by simplify_eq/=.
  - by simplify_eq.
Qed.

Lemma steps_left_next c c' :
  config_wf c -> ~ final c -> lb_next c = Ok c' -> 0 <= steps_left c' < steps_left c.
Proof.
  destruct c as [w|i st w|i j st w|st w|ret w]; cbn; intros Hwf Hf Hn.
  - destruct (w_net_tx_packet w); [|simplify_eq; cbn; counters].
    destruct (lb_prepare w) as [[[] w']| |]; simplify_eq/=. counters.
  - case_decide; [|simplify_eq; cbn; counters].
    destruct (lb_label i w) as [[[] w']| |]; simplify_eq/=. counters.
  - case_decide.
    + destruct (lb_iteration current speed delay_test i j st w) as [[[st'|ret] w']| |];
        simplify_eq/=; counters.
    + simplify_eq/=. counters.
  - destruct (lb_verdict st); simplify_eq/=. lia.
  - done.
Qed.

(** ** The function, one transition at a time *)

Lemma eth_run_loopback_test_prepare w :
  eth_run_loopback_test current speed delay_test w =
    match w_net_tx_packet w with
    | None => Ok (- EINVAL, w)
    | Some _ => (lb_prepare;; rows_from 0 (LbState None 0)) w
    end.
Proof.
  unfold eth_run_loopback_test, lb_prepare, rows_from. rewrite run_bind.
  change (get_net_tx_packet w) with (Ok (w_net_tx_packet w, w)).
  destruct (w_net_tx_packet w) as [buf|]; [|done].
  rewrite !M_bind_assoc, !run_bind.
  destruct (net_set_ether _ _ w) as [[n w1]| |]; [|done..].
  rewrite !M_bind_assoc, !run_bind.
  destruct (with_tx_packet _ w1) as [[[] w2]| |]; [|done..].
  rewrite !run_bind. cbn [udelay emit]. rewrite !run_bind.
  by rewrite for_u32_for_each by (done || counters).
Qed.

Lemma lb_row_eq i st w :
  lb_row current speed delay_test i st w = (lb_label i;; row_rest i 0 st) w.
Proof.
  unfold lb_row, lb_label, row_rest. rewrite !run_bind.
  destruct ((if decide (delay_test ≠ 0) then printf (msg_row i) else mret tt) w)
    as [[[] w1]| |]; [|done..].
  rewrite !run_bind. by rewrite for_u32_for_each by (done || counters).
Qed.

Lemma rows_from_unfold i st w :
  0 <= i ->
  rows_from i st w =
    if decide (i < MAX_TX_DELAY_LINE) then
      (lb_label i;;
       r ← row_rest i 0 st;
       match r with
       | inl st' => rows_from (i + 1) st'
       | inr ret => mret ret
       end) w
    else lift_res (lb_verdict st) w.
Proof.
  intros Hi. unfold rows_from at 1. case_decide as Hlt.
  - rewrite seqZ_cons by lia. change (Z.succ i) with (i + 1).
    replace (Z.pred (MAX_TX_DELAY_LINE - i)) with (MAX_TX_DELAY_LINE - (i + 1)) by lia.
    cbn [for_each]. rewrite M_bind_assoc, run_bind, lb_row_eq.
    rewrite !run_bind. destruct (lb_label i w) as [[[] w1]| |]; [|done..].
    rewrite !run_bind. by destruct (row_rest i 0 st w1) as [[[st'|ret] w2]| |].
  - by rewrite seqZ_nil by lia.
Qed.

Lemma row_rest_unfold i j st w :
  row_rest i j st w =
    if decide (j < MAX_RX_DELAY_LINE) then
      (r ← lb_iteration current speed delay_test i j st;
       match r with
       | inl st' => row_rest i (j + 1) st'
       | inr ret => mret (inr ret)
       end) w
    else (printf LF;; mret (inl st)) w.
Proof.
  unfold row_rest at 1. case_decide as Hlt.
  - rewrite seqZ_cons by lia. change (Z.succ j) with (j + 1).
    replace (Z.pred (MAX_RX_DELAY_LINE - j)) with (MAX_RX_DELAY_LINE - (j + 1)) by lia.
    cbn [for_each]. rewrite !M_bind_assoc, !run_bind.
    by destruct (lb_iteration current speed delay_test i j st w) as [[[st'|ret] w1]| |].
  - by rewrite seqZ_nil by lia.
Qed.

(** What is left at a configuration is one transition and what is left
    after it. *)
Lemma resume_next c : config_wf c -> resume c = lb_next c ≫= resume.
Proof.
  destruct c as [w|i st w|i j st w|st w|ret w]; cbn [config_wf resume lb_next]; intros Hwf.
  - rewrite eth_run_loopback_test_prepare. destruct (w_net_tx_packet w); [|done].
    rewrite run_bind. by destruct (lb_prepare w) as [[[] w']| |].
  - rewrite rows_from_unfold by lia. case_decide; [|done].
    rewrite run_bind. by destruct (lb_label i w) as [[[] w']| |].
  - rewrite run_bind, row_rest_unfold. case_decide.
    + rewrite run_bind.
      destruct (lb_iteration current speed delay_test i j st w) as [[[st'|ret] w']| |];
        try done.
      cbn [mbind res_bind fst snd resume]. rewrite run_bind. by rewrite u32_small by counters.
    + cbn [printf emit]. rewrite !run_bind. cbn [mbind res_bind fst snd resume].
      by rewrite u32_small by counters.
  - unfold lift_res. by destruct (lb_verdict st).
  - done.
Qed.

Lemma steps_left_final c : ~ final c -> 0 < steps_left c.
Proof. destruct c; cbn; intros Hf; [counters..|done]. Qed.

Lemma machine_fuel_enough w : steps_left (Init w) <= Z.of_nat machine_fuel.
Proof. cbn [steps_left]. unfold machine_fuel. counters. Qed.

Lemma lb_exec_resume fuel c :
  config_wf c -> steps_left c <= Z.of_nat fuel -> lb_exec fuel c = resume c.
Proof.
  revert c. induction fuel as [|fuel IH]; intros c Hwf Hfuel;
    (destruct (decide (final c)) as [Hf|Hf]; [by destruct c|]).
  { apply steps_left_final in Hf. lia. }
  rewrite resume_next by done. transitivity (lb_next c ≫= lb_exec fuel); [by destruct c|].
  destruct (lb_next c) as [c'| |] eqn:Hn; [|done..]. cbn [mbind res_bind].
  pose proof (steps_left_next c c' Hwf Hf Hn).
  apply IH; [by eapply config_wf_next|lia].
Qed.

(** Along a run of the machine what is left of the function does not
    change. *)
Lemma lb_step_resume c c' : config_wf c -> lb_step c c' -> resume c = resume c' /\ config_wf c'.
Proof.
  intros Hwf [_ Hn]%lb_step_next. split; [|by eapply config_wf_next].
  by rewrite resume_next, Hn.
Qed.

Lemma rtc_lb_step_resume c c' :
  config_wf c -> rtc lb_step c c' -> resume c = resume c' /\ config_wf c'.
Proof.
  intros Hwf Hrun. induction Hrun as [c|c c1 c2 Hstep _ IH]; [done|].
  destruct (lb_step_resume c c1 Hwf Hstep) as [-> Hwf1]. by apply IH.
Qed.

Lemma lb_exec_function w :
  lb_exec machine_fuel (Init w) = eth_run_loopback_test current speed delay_test w.
Proof.
  change (eth_run_loopback_test current speed delay_test w) with (resume (Init w)).
  apply lb_exec_resume; [done|apply machine_fuel_enough].
Qed.

(** A machine that has something left that returns, reaches [Done]. *)
Lemma resume_reaches n c ret w' :
  config_wf c -> steps_left c <= Z.of_nat n -> resume c = Ok (ret, w') ->
  rtc lb_step c (Done ret w').
Proof.
  revert c. induction n as [|n IH]; intros c Hwf Hn Hres;
    (destruct (decide (final c)) as [Hf|Hf]; [destruct c; by simplify_eq/=|]).
  { apply steps_left_final in Hf. lia. }
  rewrite resume_next in Hres by done.
  destruct (lb_next c) as [c'| |] eqn:Hnext; [|done..]. cbn [mbind res_bind] in Hres.
  pose proof (steps_left_next c c' Hwf Hf Hnext).
  eapply rtc_l; [by apply lb_step_next|].
  apply IH; [by eapply config_wf_next|lia|done].
Qed.

(** Every step uses up one of the transitions that are left. *)
Lemma lb_step_sn n c : config_wf c -> steps_left c <= Z.of_nat n -> sn lb_step c.
Proof.
  revert c. induction n as [|n IH]; intros c Hwf Hn; constructor;
    intros c' [Hf Hnext]%lb_step_next.
  - apply steps_left_final in Hf. lia.
  - pose proof (steps_left_next c c' Hwf Hf Hnext).
    apply IH; [by eapply config_wf_next|lia].
Qed.

(** ** Preservation and progress *)

Section Soundness.
Context `{!RxBuffers D}.

Lemma lb_prepare_run w buf :
  eth_ready w buf ->
  lb_prepare w =
    Ok (tt, World (plat_udelay 50000 (w_dev w)) (EvUdelay 50000 :: w_trace w)
              (Some (prepared buf (plat_net_ethaddr (w_dev w))))).
Proof.
  intros Hr. pose proof Hr as (Hb & Hlen & Hs). unfold lb_prepare. run.
  rewrite (net_set_ether_run w buf) by done. run.
  by erewrite create_frame_run.
Qed.

Lemma lb_label_run i w :
  exists tr, lb_label i w = Ok (tt, World (w_dev w) (tr ++ w_trace w) (w_net_tx_packet w)) /\
    sent_packets tr = [].
Proof.
  unfold lb_label. case_decide.
  - by exists [EvPrintf (msg_row i)].
  - exists []. by destruct w.
Qed.

Lemma frames_app tr w d p :
  frames (World d (tr ++ w_trace w) p) = frames w + Z.of_nat (length (sent_packets tr)).
Proof. unfold frames. cbn [w_trace]. rewrite sent_packets_app, length_app. lia. Qed.

Lemma st_inv_outcome n o st : 0 <= n -> st_inv n st -> st_inv (n + 1) (outcome_state o st).
Proof.
  intros Hn [Hs _]. pose proof (outcome_state_success o st). split; [lia|by eexists].
Qed.

(** One probe from a configuration that satisfies the invariant. *)
Lemma lb_iteration_inv sent0 i j st w :
  config_inv sent0 (PerPairTest i j st w) -> j < MAX_RX_DELAY_LINE ->
  exists x w', lb_iteration current speed delay_test i j st w = Ok (x, w') /\
    tx_ready w' /\ frames w' = frames w + 1 /\
    match x with
    | inl st' => delay_test ≠ 0 /\ st_inv (MAX_RX_DELAY_LINE * i + j + 1) st'
    | inr ret => delay_test = 0
    end.
Proof.
  intros (Hi & Hj & Hmode & (buf & Hb & Hlen) & Hfr & Hst & Hret) Hlt.
  rewrite (lb_iteration_run _ _ _ _ _ _ _ buf)
    by (done || unfold INT_MAX; counters). cbn zeta.
  assert (forall d tr, tx_ready (World d tr (Some (tagged buf i j)))) as Hready.
  { intros d tr. exists (tagged buf i j). by rewrite tagged_length. }
  assert (frames (probe_world current speed delay_test i j buf w) = frames w + 1) as Hone.
  { unfold probe_world. by rewrite frames_app, probe_events_sent. }
  case_decide as Hdt; eexists _, _; (split; [done|]).
  - split; [apply Hready|]. split; [|done]. rewrite <- Hone. by unfold frames.
  - split; [apply Hready|]. split; [done|]. split; [done|].
    apply st_inv_outcome; [counters|done].
Qed.

Lemma config_inv_next sent0 c c' :
  config_inv sent0 c -> lb_next c = Ok c' -> config_inv sent0 c'.
Proof.
  destruct c as [w|i st w|i j st w|st w|ret w]; intros Hinv Hn; [| | | |by simplify_eq/=].
  - destruct Hinv as [[Hlen Hs] Hfr]. cbn in Hn.
    destruct (w_net_tx_packet w) as [buf|] eqn:Hb; [|simplify_eq; by left].
    rewrite (lb_prepare_run w buf) in Hn by done. simplify_eq/=.
    rewrite (frames_app [EvUdelay 50000] w).
    split_and!; try done; try lia.
    exists (prepared buf (plat_net_ethaddr (w_dev w))). split; [done|].
    rewrite prepared_length; [done..|]. unfold LOOPBACK_TEST_FRAME_SIZE in Hlen. lia.
  - destruct Hinv as (Hi & Hmode & (buf & Hb & Hlen) & Hfr & Hst). cbn in Hn.
    case_decide as Hlt.
    + destruct (lb_label_run i w) as (tr & Hl & Htr). rewrite Hl in Hn. simplify_eq/=.
      rewrite frames_app, Htr. cbn [length Z.of_nat]. rewrite !Z.add_0_r.
      split_and!; try done; try lia. by exists buf.
    + simplify_eq/=. replace i with MAX_TX_DELAY_LINE in * by lia.
      split_and!; try done. intros ->. by specialize (Hmode eq_refl).
  - pose proof Hinv as (Hi & Hj & Hmode & (buf & Hb & Hlen) & Hfr & Hst). cbn in Hn.
    case_decide as Hlt.
    + destruct (lb_iteration_inv sent0 i j st w Hinv Hlt) as (x & w' & Hit & Hr & Hfr' & Hx).
      rewrite Hit in Hn. destruct x as [st'|ret]; simplify_eq/=.
      * destruct Hx as [Hdt Hst']. rewrite u32_small by counters.
        split_and!; try done; try lia. by rewrite Z.add_assoc.
      * destruct (Hmode eq_refl) as [-> ->]. right. left. split; [done|]. lia.
    + simplify_eq/=. rewrite u32_small by counters.
      replace j with MAX_RX_DELAY_LINE in * by lia.
      replace (MAX_RX_DELAY_LINE * (i + 1)) with (MAX_RX_DELAY_LINE * i + MAX_RX_DELAY_LINE)
        by lia.
      rewrite (frames_app [EvPrintf LF] w).
      split_and!; try done; try lia; [|by exists buf|cbn; lia].
      intros Hdt. destruct (Hmode Hdt) as [_ Hj0]. by rewrite Hj0 in Hj.
  - destruct Hinv as (Hdt & Hfr & Hst). cbn in Hn.
    destruct (lb_verdict st); simplify_eq/=. by right; right.
Qed.

Lemma config_inv_progress sent0 c : config_inv sent0 c -> is_Ok (lb_next c).
Proof.
  destruct c as [w|i st w|i j st w|st w|ret w]; intros Hinv; cbn [lb_next].
  - destruct Hinv as [[Hlen Hs] Hfr].
    destruct (w_net_tx_packet w) as [buf|] eqn:Hb; [|by eexists].
    rewrite (lb_prepare_run w buf) by done. by eexists.
  - case_decide; [|by eexists]. destruct (lb_label_run i w) as (tr & -> & _). by eexists.
  - case_decide as Hlt; [|by eexists].
    destruct (lb_iteration_inv sent0 i j st w Hinv Hlt) as (x & w' & -> & _). by eexists.
  - destruct Hinv as (Hdt & _ & _ & Hret). unfold lb_verdict. case_decide; [by eexists|].
    destruct Hret as [ret ->]; [counters|]. by eexists.
  - by eexists.
Qed.

Lemma rtc_config_inv sent0 c c' :
  config_inv sent0 c -> rtc lb_step c c' -> config_inv sent0 c'.
Proof.
  intros Hinv Hrun. induction Hrun as [c|c c1 c2 [_ Hn]%lb_step_next _ IH]; [done|].
  by eapply IH, config_inv_next.
Qed.

Lemma config_inv_red sent0 c : config_inv sent0 c -> final c \/ red lb_step c.
Proof.
  intros [c' Hn]%config_inv_progress. destruct (decide (final c)); [by left|right].
  exists c'. by apply lb_step_next.
Qed.

(** Progress and the measure together: the executable machine halts. *)
Lemma lb_exec_returns sent0 n c :
  config_inv sent0 c -> steps_left c <= Z.of_nat n ->
  exists ret w', lb_exec n c = Ok (ret, w').
Proof.
  revert c. induction n as [|n IH]; intros c Hinv Hn;
    (destruct (decide (final c)) as [Hf|Hf]; [destruct c; try done; by eexists _, _|]).
  { apply steps_left_final in Hf. lia. }
  destruct (config_inv_progress _ c Hinv) as [c' Hnext].
  assert (config_wf c) as Hwf by (destruct c; cbn in *; tauto).
  pose proof (steps_left_next c c' Hwf Hf Hnext).
  destruct (IH c') as (ret & w' & Hret); [by eapply config_inv_next|lia|].
  exists ret, w'. destruct c; try done; cbn [lb_exec]; by rewrite Hnext.
Qed.

End Soundness.

End Machine.

Arguments config : clear implicits.
Arguments Init {D} _.
Arguments Row {D} _ _ _.
Arguments PerPairTest {D} _ _ _ _.
Arguments Aggregate {D} _ _.
Arguments Done {D} _ _.

(** ** The machine and the nested loops are the same program *)

Section MachineClaims.
Context {D : Type} `{!Platform D}.
Implicit Types (current : udevice) (w : world D).

(** From every world, the machine run from [Init] with its fuel
    returns exactly what [eth_run_loopback_test] returns: the same value
    and world, or undefined behaviour in the same cases; the fuel is
    never the reason. *)
Theorem machine_runs_function current speed delay_test w :
  lb_exec current speed delay_test machine_fuel (Init w) =
    eth_run_loopback_test current speed delay_test w.
Proof. apply lb_exec_function. Qed.

(** C15. [Done ret] with the world [w'] is reachable from [Init] exactly
    when the function returns [ret] and leaves [w']. *)
Theorem machine_reaches_done current speed delay_test w ret w' :
  rtc (lb_step current speed delay_test) (Init w) (Done ret w') <->
  eth_run_loopback_test current speed delay_test w = Ok (ret, w').
Proof.
  split.
  - intros Hrun.
    by destruct (rtc_lb_step_resume current speed delay_test (Init w) _ I Hrun) as [Hres _].
  - intros Hres.
    by apply (resume_reaches current speed delay_test machine_fuel (Init w));
      [|apply machine_fuel_enough|].
Qed.

(** The machine terminates: there is no infinite run from [Init],
    whatever the platform answers. *)
Theorem machine_terminates current speed delay_test w :
  sn (lb_step current speed delay_test) (Init w).
Proof.
  by apply (lb_step_sn current speed delay_test machine_fuel); [|apply machine_fuel_enough].
Qed.

Section Sound.
Context `{!RxBuffers D}.

(** C24. The invariant of the machine.  In every configuration reachable
    from [Init] in a world where a transmit buffer, if there is one,
    holds a whole frame: the counters are within [0, 0x7F], the
    single-shot run is at the first pair, the transmit buffer still
    holds a frame, exactly one frame has gone out for each pair before
    the current one, [success] is at most that number, and [ret] has
    been assigned once a probe was made. *)
Theorem machine_invariant current speed delay_test w c :
  world_ok w -> rtc (lb_step current speed delay_test) (Init w) c ->
  config_inv delay_test (frames w) c.
Proof.
  intros Hw. by apply (rtc_config_inv current speed delay_test (frames w) (Init w)).
Qed.

(** C16. The machine is never stuck: a reachable configuration is [Done]
    or has a successor.  No probe overflows [success], writes outside
    the transmit buffer or compares past the end of a receive buffer,
    and [ret] is never read before it is assigned. *)
Theorem machine_never_stuck current speed delay_test w c :
  world_ok w -> rtc (lb_step current speed delay_test) (Init w) c ->
  final c \/ red (lb_step current speed delay_test) c.
Proof.
  intros Hw Hrun. apply (config_inv_red current speed delay_test (frames w)).
  by apply (rtc_config_inv current speed delay_test (frames w) (Init w)).
Qed.

(** Progress and termination together: the run from [Init] ends in
    [Done], so the function returns. *)
Lemma eth_run_loopback_test_returns current speed delay_test w :
  world_ok w -> exists ret w', eth_run_loopback_test current speed delay_test w = Ok (ret, w').
Proof.
  intros Hw. rewrite <- lb_exec_function.
  apply (lb_exec_returns current speed delay_test (frames w)); [by split|apply machine_fuel_enough].
Qed.

End Sound.

End MachineClaims.

(** ** On the simulated board *)

(** The single-shot run on the board in loopback halts after three
    transitions, [Init], [Row 0] and [PerPairTest 0 0], with 0. *)
Example single_shot_run :
  fst <$> lb_exec board_dev 1000 0 3 (Init (ready_world board_looped)) = Ok 0.
Proof. vm_compute. reflexivity. Qed.

Lemma machine_invariant_witness :
  config_inv 0 (frames (ready_world board_looped))
    (Row 0 (LbState None 0)
       (World (plat_udelay 50000 board_looped) [EvUdelay 50000]
          (Some (prepared (sim_pkt_buf board_looped) (plat_net_ethaddr board_looped))))).
Proof.
  apply (machine_invariant board_dev 1000 0 (ready_world board_looped)).
  - by vm_compute.
  - apply rtc_once, step_prepare; [by eexists|].
    apply (lb_prepare_run (ready_world board_looped) (sim_pkt_buf board_looped)).
    apply board_looped_ready.
Defined.

Lemma machine_never_stuck_witness :
  final (Init board_world) \/ red (lb_step board_dev 1000 1) (Init board_world).
Proof. apply (machine_never_stuck board_dev 1000 1 board_world); [by vm_compute|done]. Defined.
