(* ===== verification/FrameEq.v ===== *)
(** * Buffers that agree on the frame

    The test sends and compares [LOOPBACK_TEST_FRAME_SIZE] bytes
    ([src/test/rockchip/test-eth.c], lines 153 and 169), whatever the
    size of the buffers behind [net_tx_packet] and [rx_packet].  Two
    buffers are equivalent here when they agree on those 1514 bytes.
    Tagging, sending and classifying respect the equivalence, so a probe
    cannot tell equivalent buffers apart; and since
    [eth_run_loopback_test] writes the header and the payload before its
    first probe (lines 140-142), a sweep does not depend on what the
    transmit buffer held before: tags left by an earlier run are gone. *)

From Stdlib Require Import ZArith Lia Strings.Byte.
From stdpp Require Import base option list strings.
From S2P Require Import Prelude Frame Regs Hw Sim Setup Runner Sweep.

#[local] Open Scope Z_scope.

Definition frame_eq (b1 b2 : list byte) : Prop := take 1514 b1 = take 1514 b2.

#[export] Instance frame_eq_dec : RelDecision frame_eq.
Proof. intros b1 b2. unfold frame_eq. apply _. Defined.

#[export] Instance frame_eq_equivalence : Equivalence frame_eq.
Proof.
  unfold frame_eq. split; [by intros b|by intros b1 b2|].
  intros b1 b2 b3 H12 H23. by rewrite H12.
Qed.

(** ** The frame operations respect the equivalence *)

#[export] Instance insert_frame_eq k x : Proper (frame_eq ==> frame_eq) (<[k := x]>).
Proof.
  intros b1 b2 Hb. unfold frame_eq in *. rewrite !take_insert.
  case_decide; by rewrite Hb.
Qed.

#[export] Instance tagged_frame_eq : Proper (frame_eq ==> eq ==> eq ==> frame_eq) tagged.
Proof. intros b1 b2 Hb i ? <- j ? <-. unfold tagged. by rewrite Hb. Qed.

#[export] Instance sent_frame_frame_eq : Proper (frame_eq ==> eq ==> eq ==> eq) sent_frame.
Proof. intros b1 b2 Hb i ? <- j ? <-. exact (tagged_frame_eq _ _ Hb i i eq_refl j j eq_refl). Qed.

#[export] Instance classify_frame_eq : Proper (eq ==> frame_eq ==> frame_eq ==> eq) classify.
Proof.
  intros length ? <- tx1 tx2 Htx rx1 rx2 Hrx. unfold classify, frame_eq in *.
  change (Z.to_nat LOOPBACK_TEST_FRAME_SIZE) with 1514%nat.
  repeat case_decide; done || congruence.
Qed.

(** The prepared frame does not depend on the buffer it is written to. *)
Lemma prepared_frame_eq b1 b2 src :
  length src = 6%nat -> frame_eq (prepared b1 src) (prepared b2 src).
Proof.
  intros Hs. unfold frame_eq. rewrite !prepared_eq by done.
  rewrite !app_assoc.
  by rewrite !take_app_length'
    by (rewrite !length_app, canonical_payload_length, Hs; done).
Qed.

(** ** Probes *)

(** A device state with a transmit buffer, up to the equivalence of the
    buffers. *)
Definition state_eq {D} (s1 s2 : D * list byte) : Prop :=
  s1.1 = s2.1 /\ frame_eq s1.2 s2.2.

#[export] Instance state_eq_equivalence {D} : Equivalence (state_eq (D := D)).
Proof.
  split; [by intros s|by intros s1 s2 []|].
  intros s1 s2 s3 [Hd12 Hb12] [Hd23 Hb23]. split; [congruence|by rewrite Hb12].
Qed.

Section Probes.
Context {D : Type} `{!Platform D}.
Implicit Types (current : udevice) (s : D * list byte).

#[export] Instance probe_recv_frame_eq current speed delay_test i j :
  Proper (frame_eq ==> eq ==> eq) (probe_recv current speed delay_test i j).
Proof.
  intros b1 b2 Hb d ? <-. unfold probe_recv.
  by rewrite (sent_frame_frame_eq _ _ Hb i i eq_refl j j eq_refl).
Qed.

#[export] Instance probe_of_state_eq current speed delay_test i j :
  Proper (state_eq ==> eq) (probe_of current speed delay_test i j).
Proof.
  intros [d b1] [d2 b2] [Hd Hb]. cbn [fst snd] in Hd. subst d2.
  change (frame_eq b1 b2) in Hb.
  unfold probe_of, probe_outcome, probe_length. cbn [fst snd].
  rewrite (sent_frame_frame_eq _ _ Hb i i eq_refl j j eq_refl),
    (probe_recv_frame_eq current speed delay_test i j _ _ Hb d d eq_refl).
  f_equal. apply classify_frame_eq; [done| |done].
  exact (tagged_frame_eq _ _ Hb i i eq_refl j j eq_refl).
Qed.

#[export] Instance probe_next_state_eq current speed delay_test i j :
  Proper (state_eq ==> state_eq) (probe_next current speed delay_test i j).
Proof.
  intros [d b1] [d2 b2] [Hd Hb]. cbn [fst snd] in Hd. subst d2.
  change (frame_eq b1 b2) in Hb.
  unfold probe_next, probe_length. cbn [fst snd].
  rewrite (probe_recv_frame_eq current speed delay_test i j _ _ Hb d d eq_refl).
  split; [done|]. exact (tagged_frame_eq _ _ Hb i i eq_refl j j eq_refl).
Qed.

Lemma probe_row_state_eq current speed delay_test i js s1 s2 :
  state_eq s1 s2 ->
  (probe_row current speed delay_test i js s1).1 =
    (probe_row current speed delay_test i js s2).1 /\
  state_eq (probe_row current speed delay_test i js s1).2
    (probe_row current speed delay_test i js s2).2.
Proof.
  revert s1 s2. induction js as [|j js IH]; intros s1 s2 Hs; [done|].
  cbn [probe_row fst snd].
  destruct (IH _ _ (probe_next_state_eq current speed delay_test i j _ _ Hs)) as [-> Hs'].
  by rewrite (probe_of_state_eq current speed delay_test i j _ _ Hs).
Qed.

Lemma probe_rows_state_eq current speed delay_test txs rxs s1 s2 :
  state_eq s1 s2 ->
  (probe_rows current speed delay_test txs rxs s1).1 =
    (probe_rows current speed delay_test txs rxs s2).1 /\
  state_eq (probe_rows current speed delay_test txs rxs s1).2
    (probe_rows current speed delay_test txs rxs s2).2.
Proof.
  revert s1 s2. induction txs as [|i txs IH]; intros s1 s2 Hs; [done|].
  rewrite !probe_rows_cons. cbn [fst snd].
  destruct (probe_row_state_eq current speed delay_test i rxs s1 s2 Hs) as [-> Hs'].
  by destruct (IH _ _ Hs') as [-> Hs''].
Qed.

(** The rows of a sweep are the same from any two ready buffers. *)
Lemma sweep_rows_any_buffer current speed delay_test (w1 w2 : world D) buf1 buf2 :
  w_dev w1 = w_dev w2 -> length (plat_net_ethaddr (w_dev w1)) = 6%nat ->
  (sweep_rows current speed delay_test w1 buf1).1 =
    (sweep_rows current speed delay_test w2 buf2).1 /\
  (sweep_rows current speed delay_test w1 buf1).2.1 =
    (sweep_rows current speed delay_test w2 buf2).2.1.
Proof.
  intros Hd He. unfold sweep_rows.
  destruct (probe_rows_state_eq current speed delay_test (seqZ 0 MAX_TX_DELAY_LINE)
              (seqZ 0 MAX_RX_DELAY_LINE) (sweep_start w1 buf1) (sweep_start w2 buf2))
    as [Hrows [Hdev _]]; [|exact (conj Hrows Hdev)].
  unfold sweep_start. rewrite <- Hd. split; [done|]. by apply prepared_frame_eq.
Qed.

Section Forget.
Context `{!RxBuffers D}.

(** C22. A sweep forgets the buffer: from two worlds with the same device
    and trace whose transmit buffers hold whatever an earlier run, or
    anything else, left there, the delay test returns the same value and
    leaves the same device and the same trace.  The frame is created
    anew before the first probe, and no byte beyond the frame is ever
    looked at. *)
Theorem sweep_forgets_buffer current speed delay_test (w1 w2 : world D) buf1 buf2 :
  eth_ready w1 buf1 -> eth_ready w2 buf2 ->
  w_dev w1 = w_dev w2 -> w_trace w1 = w_trace w2 -> delay_test ≠ 0 ->
  post (eth_run_loopback_test current speed delay_test) w1 (fun ret1 w1' =>
    post (eth_run_loopback_test current speed delay_test) w2 (fun ret2 w2' =>
      ret1 = ret2 /\ w_dev w1' = w_dev w2' /\ w_trace w1' = w_trace w2')).
Proof.
  intros Hr1 Hr2 Hd Ht Hdt.
  destruct (sweep_run current speed delay_test w1 buf1 Hr1 Hdt) as (ret1 & Hret1 & Hrun1).
  destruct (sweep_run current speed delay_test w2 buf2 Hr2 Hdt) as (ret2 & Hret2 & Hrun2).
  destruct (sweep_rows_any_buffer current speed delay_test w1 w2 buf1 buf2 Hd)
    as [Hrows Hdev]; [apply Hr1|].
  unfold post. rewrite Hrun1, Hrun2. cbn [w_dev w_trace].
  rewrite <- Hrows in Hret2 |- *. rewrite <- Hdev, Ht.
  split; [congruence|]. split; reflexivity.
Qed.

End Forget.

End Probes.

(** ** On the simulated board *)

(** A transmit buffer that an earlier run left full of tags. *)
Definition used_buffer : list byte := replicate 1536 xbe.

Lemma sweep_forgets_buffer_witness :
  post (eth_run_loopback_test board_dev 1000 1) (ready_world board_looped) (fun ret1 w1' =>
    post (eth_run_loopback_test board_dev 1000 1)
      (World board_looped [] (Some used_buffer)) (fun ret2 w2' =>
        ret1 = ret2 /\ w_dev w1' = w_dev w2' /\ w_trace w1' = w_trace w2')).
Proof.
  apply (sweep_forgets_buffer board_dev 1000 1 (ready_world board_looped)
           (World board_looped [] (Some used_buffer)) (sim_pkt_buf board_looped) used_buffer);
    [apply board_looped_ready | by split; [|split; [by vm_compute|]]
    | done | done | done].
Defined.
