(* ===== verification/Board.v ===== *)
(** * The delay test on a board with a known window

    The simulated board of [Sim] loops a frame back unchanged when both
    RGMII delays are inside its window, damages its first byte when only
    the transmit delay is, and loses it otherwise.  On such a board the
    outcome of every probe of the sweep of [eth_run_loopback_test]
    ([src/test/rockchip/test-eth.c], lines 145-197) is known in advance:
    this file proves that the log of the sweep holds exactly those
    outcomes, for every window and without running the sweep, that the
    console shows the grid of their marks, and that the test returns 0
    when the window is inside the range that is swept. *)

From Stdlib Require Import ZArith Lia Strings.Byte.
From stdpp Require Import base option list strings gmap.
From S2P Require Import Prelude Frame Regs Hw Sim Setup Runner Sweep.

#[local] Open Scope Z_scope.

Definition in_range (lo hi x : Z) : bool := bool_decide (lo <= x <= hi).

(** What a probe of the pair [(i, j)] finds on a board with the window
    [lo..hi]. *)
Definition board_outcome (lo hi i j : Z) : outcome :=
  if in_range lo hi i then if in_range lo hi j then Pass else Mismatch else NoFrame.

(** The PHY is in loopback, no frame is waiting and the receive path
    reports no error. *)
Definition link_up (lo hi : Z) (d : sim) : Prop :=
  Z.testbit (sim_bmcr d) 14 = true /\ sim_rx_ring d = [] /\ 0 <= sim_recv_error d /\
  sim_window d = (lo, hi).

(** The transmit buffer holds a frame whose first byte is not the one a
    damaged frame carries. *)
Definition frame_ok (buf : list byte) : Prop :=
  (1514 <= length buf)%nat /\ exists b, buf !! 0%nat = Some b /\ b ≠ x00.

Definition as_expected (lo hi : Z) (p : probe) : Prop :=
  pr_outcome p = board_outcome lo hi (pr_tx p) (pr_rx p).

(** What the delay test prints on such a board: the marks of the row of
    transmit delay [i], and the grid of all rows. *)
Definition row_marks (lo hi i : Z) (js : list Z) : string :=
  foldr (fun j acc => outcome_mark (board_outcome lo hi i j) +:+ acc) EmptyString js.

Definition board_grid (lo hi : Z) (txs rxs : list Z) : string :=
  foldr (fun i acc => (msg_row i +:+ row_marks lo hi i rxs +:+ LF) +:+ acc)
    EmptyString txs.

#[export] Instance as_expected_dec lo hi p : Decision (as_expected lo hi p).
Proof. unfold as_expected. apply _. Defined.

(** ** Frames *)

Lemma sent_frame_length buf i j :
  (1514 <= length buf)%nat -> length (sent_frame buf i j) = 1514%nat.
Proof.
  intros Hl. unfold sent_frame. rewrite length_take, tagged_length.
  change (Z.to_nat LOOPBACK_TEST_FRAME_SIZE) with 1514%nat. lia.
Qed.

Lemma tagged_lookup_0 buf i j : 0 <= i -> 0 <= j -> tagged buf i j !! 0%nat = buf !! 0%nat.
Proof. intros Hi Hj. unfold tagged. rewrite !list_lookup_insert_ne by lia. done. Qed.

Lemma tagged_frame_ok buf i j : 0 <= i -> 0 <= j -> frame_ok buf -> frame_ok (tagged buf i j).
Proof.
  intros Hi Hj (Hl & b & Hb & Hne). split; [by rewrite tagged_length|].
  exists b. by rewrite tagged_lookup_0.
Qed.

Lemma classify_echo tx pad :
  (1514 <= length tx)%nat -> classify 1514 tx (take 1514 tx ++ pad) = Pass.
Proof.
  intros Hl. unfold classify. rewrite decide_True by done.
  change (Z.to_nat LOOPBACK_TEST_FRAME_SIZE) with 1514%nat.
  rewrite decide_True; [done|].
  rewrite take_app_le by (rewrite length_take; lia). by rewrite take_take, Nat.min_id.
Qed.

Lemma classify_damaged tx pad b :
  (1514 <= length tx)%nat -> tx !! 0%nat = Some b -> b ≠ x00 ->
  classify 1514 tx (<[0%nat := x00]> (take 1514 tx) ++ pad) = Mismatch.
Proof.
  intros Hl Hb Hne. unfold classify. rewrite decide_True by done.
  change (Z.to_nat LOOPBACK_TEST_FRAME_SIZE) with 1514%nat.
  rewrite decide_False; [done|]. intros Heq. apply (f_equal (fun l => l !! 0%nat)) in Heq.
  rewrite take_app_le in Heq by (rewrite length_insert, length_take; lia).
  rewrite !lookup_take_lt, Hb in Heq by lia.
  rewrite list_lookup_insert_eq in Heq by (rewrite length_take; lia). congruence.
Qed.

(** ** One probe *)

Section Board.
Variables lo hi : Z.
Implicit Types (d : sim) (current : udevice) (buf : list byte).

Lemma release_dev_sim current rx_packet length d :
  release_dev current rx_packet length d = d.
Proof. unfold release_dev. by case_decide. Qed.

Lemma link_up_udelay usec d : link_up lo hi d -> link_up lo hi (plat_udelay usec d).
Proof. by destruct d. Qed.

Ltac sim_fields :=
  cbn [sim_dev sim_bus sim_mac sim_phy sim_tx_delay sim_rx_delay sim_window
       sim_rx_ring sim_recv_error sim_init_ret sim_clock sim_ethaddr sim_pkt_buf
       sim_commands app andb negb fst snd].

Lemma sim_probe current speed i j d buf :
  link_up lo hi d -> in_u32 i -> in_u32 j -> frame_ok buf ->
  link_up lo hi (probe_recv current speed 1 i j buf d).2 /\
  probe_outcome current speed 1 i j buf d = board_outcome lo hi i j.
Proof.
  intros (Hb & Hring & Herr & Hwin) Hi Hj (Hlen & b & Hb0 & Hne).
  unfold probe_outcome, probe_length, probe_recv, rgmii_dev.
  rewrite decide_True by done. rewrite !u32_small by done.
  destruct d as [dev bus mac phy tx rx win ring err ini clk ea pb cmds].
  cbn in Hring, Herr, Hwin. subst.
  cbn [plat_recv plat_udelay plat_send plat_gmac_set_rgmii sim_platform].
  unfold sim_send, in_window. sim_fields.
  change (sim_bmcr (Sim dev bus mac phy i j (lo, hi) [] err ini clk ea pb cmds))
    with (sim_bmcr (Sim dev bus mac phy tx rx (lo, hi) [] err ini clk ea pb cmds)).
  rewrite Hb. unfold board_outcome, in_range.
  destruct (bool_decide (lo <= i <= hi)), (bool_decide (lo <= j <= hi));
    sim_fields; unfold sim_recv; sim_fields; rewrite decide_False by lia; sim_fields;
    (split; [by repeat split|]);
    rewrite ?length_insert, ?sent_frame_length by done.
  - apply classify_echo. by rewrite tagged_length.
  - apply (classify_damaged _ _ b); [by rewrite tagged_length| |done].
    rewrite tagged_lookup_0; [done|apply Hi|apply Hj].
  - done.
  - done.
Qed.

(** ** Rows and sweeps *)

Lemma board_row current speed i js d buf :
  link_up lo hi d -> frame_ok buf -> in_u32 i -> Forall in_u32 js ->
  Forall (as_expected lo hi) (probe_row current speed 1 i js (d, buf)).1 /\
  link_up lo hi (probe_row current speed 1 i js (d, buf)).2.1 /\
  frame_ok (probe_row current speed 1 i js (d, buf)).2.2.
Proof.
  intros Hd Hf Hi Hjs. revert d buf Hd Hf.
  induction Hjs as [|j js Hj _ IH]; intros d buf Hd Hf; [by split; [constructor|]|].
  destruct (sim_probe current speed i j d buf Hd Hi Hj Hf) as [Hd' Ho].
  cbn [probe_row fst snd]. unfold probe_next. cbn [fst snd].
  rewrite release_dev_sim.
  destruct (IH _ (tagged buf i j) Hd') as (Hlog & Hd'' & Hf'');
    [apply tagged_frame_ok; [apply Hi|apply Hj|done]|].
  split; [|done]. by constructor.
Qed.

Lemma board_rows current speed txs rxs d buf :
  link_up lo hi d -> frame_ok buf -> Forall in_u32 txs -> Forall in_u32 rxs ->
  Forall (as_expected lo hi) (flat (probe_rows current speed 1 txs rxs (d, buf)).1).
Proof.
  intros Hd Hf Htxs Hrxs. revert d buf Hd Hf.
  induction Htxs as [|i txs Hi _ IH]; intros d buf Hd Hf; [constructor|].
  destruct (board_row current speed i rxs d buf Hd Hf Hi Hrxs) as (Hlog & Hd' & Hf').
  rewrite probe_rows_cons. cbn [fst]. rewrite flat_cons. apply Forall_app. split; [done|].
  rewrite (surjective_pairing (probe_row current speed 1 i rxs (d, buf)).2).
  by apply IH.
Qed.

Lemma marks_expected i js (log : list probe) :
  Forall (as_expected lo hi) log ->
  (fun p => (pr_tx p, pr_rx p)) <$> log = (fun j => (i, j)) <$> js ->
  marks log = row_marks lo hi i js.
Proof.
  intros Hlog. revert js. induction Hlog as [|p log Hp _ IH]; intros [|j js] Hpairs;
    try done.
  injection Hpairs as Htx Hrx Hrest. cbn [marks row_marks foldr].
  fold (marks log). fold (row_marks lo hi i js). by rewrite Hp, Htx, Hrx, (IH js).
Qed.

Lemma board_grid_rows current speed txs rxs d buf :
  link_up lo hi d -> frame_ok buf -> Forall in_u32 txs -> Forall in_u32 rxs ->
  grid (probe_rows current speed 1 txs rxs (d, buf)).1 = board_grid lo hi txs rxs.
Proof.
  intros Hd Hf Htxs Hrxs. revert d buf Hd Hf.
  induction Htxs as [|i txs Hi _ IH]; intros d buf Hd Hf; [done|].
  destruct (board_row current speed i rxs d buf Hd Hf Hi Hrxs) as (Hlog & Hd' & Hf').
  rewrite probe_rows_cons. cbn [fst].
  change (grid (?row :: ?rows)) with (row_text row +:+ grid rows).
  rewrite (surjective_pairing (probe_row current speed 1 i rxs (d, buf)).2).
  rewrite (IH _ _ Hd' Hf'). unfold row_text. cbn [fst snd].
  by rewrite (marks_expected i rxs _ Hlog (probe_row_pairs _ _ _ _ _ _)).
Qed.

Lemma seqZ_in_u32 n : 0 <= n <= 2 ^ 32 -> Forall in_u32 (seqZ 0 n).
Proof. intros Hn. apply Forall_forall. intros x Hx%elem_of_seqZ. unfold in_u32. lia. Qed.

(** The first probe of a sweep finds the link up and a fresh frame. *)
Lemma sweep_start_ok (w : world sim) buf :
  link_up lo hi (w_dev w) -> eth_ready w buf ->
  link_up lo hi (sweep_start w buf).1 /\ frame_ok (sweep_start w buf).2.
Proof.
  intros Hd (_ & Hl & He). unfold sweep_start, LOOPBACK_TEST_FRAME_SIZE in *.
  split; [by apply link_up_udelay|]. cbn [snd].
  split; [rewrite prepared_length; [lia|done|lia]|]. exists xff. by rewrite prepared_eq.
Qed.

(** The log and the grid of the sweep from a ready world. *)
Lemma board_sweep_log current speed (w : world sim) buf :
  link_up lo hi (w_dev w) -> eth_ready w buf ->
  Forall (as_expected lo hi) (flat (sweep_rows current speed 1 w buf).1) /\
  grid (sweep_rows current speed 1 w buf).1 =
    board_grid lo hi (seqZ 0 MAX_TX_DELAY_LINE) (seqZ 0 MAX_RX_DELAY_LINE).
Proof.
  intros Hd Hr. destruct (sweep_start_ok w buf Hd Hr) as [Hd' Hf'].
  unfold sweep_rows. rewrite (surjective_pairing (sweep_start w buf)).
  split; [apply board_rows|apply board_grid_rows]; by try apply seqZ_in_u32.
Qed.

(** With the expected outcomes in its log, a sweep over a window inside
    the swept range has a passing probe. *)
Lemma expected_verdict (log : list probe) ret :
  Forall (as_expected lo hi) log ->
  (fun p => (pr_tx p, pr_rx p)) <$> log = pairs ->
  sweep_verdict log = Some ret -> 0 <= lo <= hi -> hi < 0x7F -> ret = 0.
Proof.
  intros Hlog Hpairs Hret Hlo Hhi.
  assert ((lo, lo) ∈ pairs) as Hin
    by (apply elem_of_pairs; unfold MAX_TX_DELAY_LINE, MAX_RX_DELAY_LINE; lia).
  rewrite <- Hpairs in Hin. apply list_elem_of_fmap in Hin as (p & [= Htx Hrx] & Hp).
  unfold sweep_verdict in Hret. rewrite decide_True in Hret; [congruence|].
  apply Exists_exists. exists p. split; [done|].
  rewrite Forall_forall in Hlog. unfold passed. rewrite (Hlog p Hp), <- Htx, <- Hrx.
  unfold board_outcome, in_range. by rewrite !bool_decide_eq_true_2 by lia.
Qed.

(** The verdict alone, for the proofs about the command. *)
Lemma board_sweep_verdict current speed (w : world sim) buf :
  link_up lo hi (w_dev w) -> eth_ready w buf -> 0 <= lo <= hi -> hi < 0x7F ->
  post (eth_run_loopback_test current speed 1) w (fun ret _ => ret = 0).
Proof.
  intros Hd Hr Hlo Hhi.
  destruct (board_sweep_log current speed w buf Hd Hr) as [Hlog _].
  destruct (sweep_run current speed 1 w buf Hr) as (ret & Hret & Hrun); [done|].
  unfold post. rewrite Hrun.
  exact (expected_verdict _ ret Hlog (sweep_log_pairs _ _ _ _ _) Hret Hlo Hhi).
Qed.

(** C20. On a board whose link works exactly for the delays of a window
    inside the swept range, the delay test finds the window: every probe
    of its log passes when both delays are inside, finds a damaged frame
    when only the transmit delay is, and no frame otherwise; the test
    returns 0; and the console shows the grid of those outcomes, row by
    row. *)
Theorem delaytest_finds_window current speed (w : world sim) buf :
  link_up lo hi (w_dev w) -> eth_ready w buf -> 0 <= lo <= hi -> hi < 0x7F ->
  post (eth_run_loopback_test current speed 1) w (fun ret w' =>
    ret = 0 /\
    Forall (as_expected lo hi) (flat (sweep_rows current speed 1 w buf).1) /\
    console (w_trace w') =
      console (w_trace w) +:+
      board_grid lo hi (seqZ 0 MAX_TX_DELAY_LINE) (seqZ 0 MAX_RX_DELAY_LINE)).
Proof.
  intros Hd Hr Hlo Hhi.
  destruct (board_sweep_log current speed w buf Hd Hr) as [Hlog Hgrid].
  destruct (sweep_run current speed 1 w buf Hr) as (ret & Hret & Hrun); [done|].
  unfold post. rewrite Hrun. cbn [w_trace]. split; [|split; [exact Hlog|]].
  - exact (expected_verdict _ ret Hlog (sweep_log_pairs _ _ _ _ _) Hret Hlo Hhi).
  - by rewrite console_app, console_rows_trace, Hgrid.
Qed.

End Board.

(** ** The board of the witnesses *)

Lemma delaytest_finds_window_witness :
  post (eth_run_loopback_test board_dev 1000 1) (ready_world board_looped) (fun ret w' =>
    ret = 0 /\
    Forall (as_expected 0x20 0x30)
      (flat (sweep_rows board_dev 1000 1 (ready_world board_looped)
               (sim_pkt_buf board_looped)).1) /\
    console (w_trace w') =
      console (w_trace (ready_world board_looped)) +:+
      board_grid 0x20 0x30 (seqZ 0 MAX_TX_DELAY_LINE) (seqZ 0 MAX_RX_DELAY_LINE)).
Proof.
  apply (delaytest_finds_window 0x20 0x30 board_dev 1000 (ready_world board_looped)
           (sim_pkt_buf board_looped)); [by vm_compute | apply board_looped_ready | lia | lia].
Defined.
