(* ===== verification/Cli.v ===== *)
(** * The command [rktest eth]
      ([src/test/rockchip/test-eth.c], lines 242-309)

    [board_eth_test] selects a sub-command by the number of arguments and
    the keyword [argv[2]]; every other shape of the command line is joined
    into [cmd_eth] and handed to the command interpreter.  [argv] is the
    list of the arguments and [argc] their number as the caller passes it;
    reading [argv] at an index outside the list is [UB].

    The specification of the dispatch is the function [route_of] from the
    argument list to a [route]; the refinement theorem states that the
    code takes the route it names.  The last part follows the two test
    commands from the command line through the set-up and the bring-up to
    the verdict of the runner, and a delay value from the row label that
    the delay test prints back through [delayline]. *)

From Stdlib Require Import ZArith Lia Strings.Byte Strings.Ascii Strings.String.
From stdpp Require Import base option list strings.
From S2P Require Import Prelude Cstring Frame Regs Hw Sim Setup Runner Sweep Board.

#[local] Open Scope Z_scope.

Definition CMD_ETH_SIZE : Z := 512.

(** [argv[i]]. *)
Definition arg (argv : list string) (i : Z) : res string :=
  if decide (0 <= i) then of_option (argv !! Z.to_nat i) else UB.

(** The loop of lines 294-298, from index [i] with [cmd_eth] as built so
    far.  Both [strncat] calls are bounded by a [sizeof], not by the room
    that is left. *)
Fixpoint cat_args (fuel : nat) (argc : Z) (argv : list string) (i : Z)
    (cmd_eth : string) : res string :=
  match fuel with
  | O => OutOfFuel
  | S fuel =>
      if decide (i < argc) then
        a ← arg argv i;
        cmd_eth ← strncat CMD_ETH_SIZE cmd_eth a CMD_ETH_SIZE;
        cmd_eth ← (if decide (i < argc - 1)
                   then strncat CMD_ETH_SIZE cmd_eth " " (sizeof " ")
                   else Ok cmd_eth);
        if decide (i + 1 <= INT_MAX) then cat_args fuel argc argv (i + 1) cmd_eth
        else UB
      else Ok cmd_eth
  end.

Definition msg_usage : list string :=
  ["Usage:" +:+ LF;
   "rktest eth loopback speed - Test the phy loopback, speed is 1000/100/10, need to unplug the RJ45 cable" +:+ LF;
   "rktest eth delaytest - Get the loopback-passed tx_delay/rx_delay array, need to unplug the RJ45 cable" +:+ LF;
   "rktest eth delayline tx_delay rx_delay - Delay value is 0x00~0x7f" +:+ LF;
   "rktest eth dhcp address IP:file - Boot image via network using DHCP/TFTP protocol, example: rktest eth dhcp 0x62000000 192.168.1.100:Image" +:+ LF].

Definition msg_dhcp_error (ret : Z) : string :=
  "DHCP test error: " +:+ fmt_d ret +:+ LF.

Section Cli.
Context {D : Type} `{!Platform D}.

Definition do_eth_help : M D unit :=
  printf (msg_usage !!! 0%nat);;
  printf (msg_usage !!! 1%nat);;
  printf (msg_usage !!! 2%nat);;
  printf (msg_usage !!! 3%nat);;
  printf (msg_usage !!! 4%nat).

(** Lines 294-308: join the arguments and run them as a command. *)
Definition dhcp_fallback (argc : Z) (argv : list string) : M D Z :=
  cmd_eth ← lift_res (cat_args (S (Z.to_nat (argc - 2))) argc argv 2 EmptyString);
  ret ← cli_simple_run_command cmd_eth 0;
  if decide (ret < 0) then printf (msg_dhcp_error ret);; mret ret
  else mret 0.

Definition board_eth_test (argc : Z) (argv : list string) : M D Z :=
  current ← eth_get_dev;
  match current with
  | None => mret (- EINVAL)
  | Some current =>
      if negb (device_active current) then mret (- EINVAL)
      else if decide (argc = 3) then
        a2 ← lift_res (arg argv 2);
        if decide (strncmp a2 "delaytest" (sizeof "delaytest") = 0) then
          eth_loopback_test LOOPBACK_SPEED_1000 1
        else if decide (strncmp a2 "help" (sizeof "help") = 0) then
          do_eth_help;; mret 0
        else dhcp_fallback argc argv
      else if decide (argc = 4) then
        a2 ← lift_res (arg argv 2);
        if decide (strncmp a2 "loopback" (sizeof "loopback") = 0) then
          a3 ← lift_res (arg argv 3);
          eth_loopback_test (s32 (strtoul a3)) 0
        else dhcp_fallback argc argv
      else if decide (argc = 5) then
        a2 ← lift_res (arg argv 2);
        if decide (strncmp a2 "delayline" (sizeof "delayline") = 0) then
          a3 ← lift_res (arg argv 3);
          a4 ← lift_res (arg argv 4);
          gmac_set_rgmii current (u32 (strtoul a3)) (u32 (strtoul a4));;
          mret 0
        else dhcp_fallback argc argv
      else dhcp_fallback argc argv
  end.

End Cli.

(** ** The specification of the dispatch *)

Inductive route :=
| RDelayTest
| RHelp
| RLoopback (speed : Z)
| RDelayLine (tx_delay rx_delay : Z)
| RFallback.

#[export] Instance route_eq_dec : EqDecision route.
Proof. solve_decision. Defined.

(** The route of a command line [rktest eth ...]: the keyword must be the
    whole third argument and the number of arguments must fit it. *)
Definition route_of (argv : list string) : route :=
  match drop 2 argv with
  | [kw] =>
      if decide (kw = "delaytest") then RDelayTest
      else if decide (kw = "help") then RHelp
      else RFallback
  | [kw; a] =>
      if decide (kw = "loopback") then RLoopback (s32 (strtoul a)) else RFallback
  | [kw; a; b] =>
      if decide (kw = "delayline")
      then RDelayLine (u32 (strtoul a)) (u32 (strtoul b))
      else RFallback
  | _ => RFallback
  end.

Section Routes.
Context {D : Type} `{!Platform D}.

Definition run_route (current : udevice) (argv : list string) (r : route) : M D Z :=
  match r with
  | RDelayTest => eth_loopback_test 1000 1
  | RHelp => do_eth_help;; mret 0
  | RLoopback speed => eth_loopback_test speed 0
  | RDelayLine tx_delay rx_delay => gmac_set_rgmii current tx_delay rx_delay;; mret 0
  | RFallback => dhcp_fallback (Z.of_nat (length argv)) argv
  end.

End Routes.

(** Whether the joined arguments fit [cmd_eth] with their terminator. *)
Definition fits (cmd_eth : string) (args : list string) : Prop :=
  Z.of_nat (String.length cmd_eth) + Z.of_nat (String.length (unwords args)) + 1
    <= CMD_ETH_SIZE.

#[export] Instance fits_dec cmd_eth args : Decision (fits cmd_eth args).
Proof. unfold fits. apply _. Defined.

(** ** Joining the arguments *)

(** ** Hexadecimal numbers: what [%02x] prints, [strtoul] reads *)

Lemma digit_value_hex_digit d : 0 <= d < 16 -> digit_value (hex_digit d) = Some d.
Proof.
  intros Hd. replace d with (Z.of_nat (Z.to_nat d)) by lia.
  assert (Z.to_nat d < 16)%nat as Hn by lia. revert Hn. generalize (Z.to_nat d).
  intros n Hn. do 16 (destruct n as [|n]; [by vm_compute|]). lia.
Qed.

Lemma strtoul_digits_hex_cons d s v :
  0 <= d < 16 ->
  strtoul_digits 16 (String (hex_digit d) s) (u64 v) = strtoul_digits 16 s (u64 (v * 16 + d)).
Proof.
  intros Hd. cbn [strtoul_digits]. rewrite digit_value_hex_digit by done.
  rewrite decide_True by lia. f_equal. wrap_solve.
Qed.

Lemma strtoul_digits_hex_digits fuel z acc a :
  0 <= z < 16 ^ Z.of_nat fuel ->
  exists k, 0 <= k /\
    strtoul_digits 16 (hex_digits fuel z acc) (u64 a) =
      strtoul_digits 16 acc (u64 (a * 16 ^ k + z)).
Proof.
  revert z acc a. induction fuel as [|fuel IH]; intros z acc a Hz.
  { exists 0. split; [done|]. cbn in *. do 2 f_equal. lia. }
  rewrite Nat2Z.inj_succ, Z.pow_succ_r in Hz by lia.
  pose proof (Z.mod_pos_bound z 16 ltac:(lia)) as Hm.
  pose proof (Z.div_mod z 16 ltac:(lia)) as Hdm.
  cbn [hex_digits]. case_decide as Hq.
  - exists 1. split; [done|]. rewrite strtoul_digits_hex_cons by done.
    do 2 f_equal. lia.
  - destruct (IH (z / 16) (String (hex_digit (z mod 16)) acc) a) as (k & Hk & ->).
    { split; [apply Z.div_pos; lia | apply Z.div_lt_upper_bound; lia]. }
    exists (Z.succ k). split; [lia|]. rewrite strtoul_digits_hex_cons by done.
    rewrite Z.pow_succ_r by done. do 2 f_equal. lia.
Qed.

Lemma hex_digits_head fuel z acc :
  0 <= z ->
  exists d rest, 0 <= d < 16 /\ hex_digits (S fuel) z acc = String (hex_digit d) rest.
Proof.
  revert z acc. induction fuel as [|fuel IH]; intros z acc Hz.
  - cbn [hex_digits]. exists (z mod 16), acc. split; [apply Z.mod_pos_bound; lia|].
    by case_decide.
  - change (hex_digits (S (S fuel)) z acc) with
      (if decide (z / 16 = 0) then String (hex_digit (z mod 16)) acc
       else hex_digits (S fuel) (z / 16) (String (hex_digit (z mod 16)) acc)).
    case_decide; [|apply IH, Z.div_pos; lia].
    exists (z mod 16), acc. split; [apply Z.mod_pos_bound; lia|done].
Qed.

Lemma strtoul_0x d rest :
  0 <= d < 16 ->
  strtoul ("0x" +:+ String (hex_digit d) rest) =
    strtoul_digits 16 (String (hex_digit d) rest) 0.
Proof.
  intros Hd. change ("0x" +:+ ?s) with (String "0" (String "x" s)).
  cbn [strtoul]. rewrite decide_True by done.
  rewrite decide_True; [done|]. split; [by left|]. by rewrite digit_value_hex_digit.
Qed.

(** The number that [%02x] printed, behind the prefix [0x], is read
    back by [strtoul]. *)
Lemma strtoul_fmt_02x z : strtoul ("0x" +:+ fmt_02x z) = u32 z.
Proof.
  unfold fmt_02x. cbn zeta.
  destruct (strtoul_digits_hex_digits 8 (u32 z) EmptyString 0) as (k & Hk & Hs).
  { change (16 ^ Z.of_nat 8) with (2 ^ 32). apply u32_range. }
  change (u64 0) with 0 in Hs. cbn [strtoul_digits] in Hs.
  replace (u64 (0 * 16 ^ k + u32 z)) with (u32 z) in Hs by wrap_solve.
  case_decide.
  - change ("0" +:+ ?s) with (String (hex_digit 0) s).
    rewrite strtoul_0x by done. change 0 with (u64 0) at 2.
    rewrite strtoul_digits_hex_cons by done. exact Hs.
  - destruct (hex_digits_head 7 (u32 z) EmptyString) as (d & rest & Hd & Hh);
      [apply u32_range|].
    rewrite Hh in *. by rewrite strtoul_0x.
Qed.

Lemma arg_lookup argv (i : nat) a :
  argv !! i = Some a -> arg argv (Z.of_nat i) = Ok a.
Proof. intros Ha. unfold arg. by rewrite decide_True, Nat2Z.id, Ha by lia. Qed.

Lemma unwords_length_cons a l :
  String.length (unwords (a :: l)) =
    match l with
    | [] => String.length a
    | _ => (String.length a + 1 + String.length (unwords l))%nat
    end.
Proof.
  rewrite unwords_cons. destruct l; [done|].
  rewrite !length_append. cbn [String.length]. lia.
Qed.

(** One pass of the loop body: the argument, and a space when [P] holds,
    are appended when they fit with the terminator. *)
Lemma cat_step cmd_eth a (P : Prop) `{!Decision P} :
  (cmd_eth ← strncat CMD_ETH_SIZE cmd_eth a CMD_ETH_SIZE;
   if decide P then strncat CMD_ETH_SIZE cmd_eth " " (sizeof " ") else Ok cmd_eth) =
    let sep := if decide P then " " else EmptyString in
    if decide (Z.of_nat (String.length cmd_eth) + Z.of_nat (String.length (a +:+ sep)) + 1
               <= CMD_ETH_SIZE)
    then Ok (cmd_eth +:+ a +:+ sep) else UB.
Proof.
  cbn zeta. assert (sizeof " " = 2) as -> by done.
  destruct (decide (Z.of_nat (String.length a) <= CMD_ETH_SIZE)) as [Ha|Ha].
  2:{ rewrite strncat_long by (done || lia).
      by rewrite decide_False by (rewrite length_append; lia). }
  destruct (decide (Z.of_nat (String.length cmd_eth) + Z.of_nat (String.length a) + 1
                    <= CMD_ETH_SIZE)) as [Hfit|Hfit].
  2:{ rewrite strncat_UB by lia. by rewrite decide_False by (rewrite length_append; lia). }
  rewrite strncat_Ok by lia. cbn [mbind res_bind]. destruct (decide P).
  - unfold strncat. rewrite substring_0_all by (cbn; lia).
    rewrite !length_append. cbn [String.length].
    repeat case_decide; try lia; [|done]. by rewrite append_assoc.
  - rewrite append_nil_r. by rewrite decide_True by lia.
Qed.

(** The loop appends [unwords] of the remaining arguments when they fit,
    and writes past the end of [cmd_eth] when they do not. *)
Lemma cat_args_from fuel argv (i : nat) cmd_eth :
  Z.of_nat (length argv) <= INT_MAX ->
  (length argv - i < fuel)%nat ->
  Z.of_nat (String.length cmd_eth) + 1 <= CMD_ETH_SIZE ->
  cat_args fuel (Z.of_nat (length argv)) argv (Z.of_nat i) cmd_eth =
    if decide (fits cmd_eth (drop i argv))
    then Ok (cmd_eth +:+ unwords (drop i argv))
    else UB.
Proof.
  unfold INT_MAX. intros Hmax. revert i cmd_eth.
  induction fuel as [|fuel IH]; intros i cmd_eth Hf Hcmd; [lia|].
  cbn [cat_args]. unfold INT_MAX. case_decide as Hi.
  2:{ rewrite drop_ge by lia. rewrite decide_True by (unfold fits; cbn; lia).
      by rewrite append_nil_r. }
  destruct (argv !! i) as [a|] eqn:Ha; [|apply lookup_ge_None in Ha; lia].
  rewrite (drop_S _ _ _ Ha), (arg_lookup _ _ _ Ha). cbn [mbind res_bind].
  rewrite <- res_bind_assoc, cat_step. cbn zeta.
  pose proof (unwords_length_cons a (drop (S i) argv)) as Hlen.
  pose proof (unwords_cons a (drop (S i) argv)) as Hunw.
  pose proof (length_drop argv (S i)) as Hrest.
  specialize (IH (S i)). replace (Z.of_nat i + 1) with (Z.of_nat (S i)) by lia.
  destruct (decide (Z.of_nat (S i) <= 2 ^ 31 - 1)) as [_|]; [|lia].
  destruct (drop (S i) argv) as [|b rest]; cbn [length] in Hrest.
  - rewrite (decide_False (P := Z.of_nat i < _)), append_nil_r by lia.
    case_decide as Hfit.
    + cbn [mbind res_bind]. rewrite IH by (rewrite ?length_append; lia).
      rewrite !decide_True by (unfold fits; rewrite ?Hlen, ?length_append; cbn; lia).
      by rewrite Hunw, append_nil_r.
    + by rewrite decide_False by (unfold fits; rewrite Hlen; lia).
  - rewrite (decide_True (P := Z.of_nat i < _)) by lia.
    rewrite length_append in *. cbn [String.length] in *. case_decide as Hfit.
    + cbn [mbind res_bind].
      rewrite IH by (rewrite ?length_append; cbn [String.length]; lia).
      rewrite Hunw.
      destruct (decide (fits cmd_eth (a :: b :: rest))) as [Hall|Hall];
        unfold fits in Hall; rewrite Hlen in Hall.
      * rewrite decide_True
          by (unfold fits; rewrite !length_append; cbn [String.length]; lia).
        by rewrite !append_assoc.
      * by rewrite decide_False
          by (unfold fits; rewrite !length_append; cbn [String.length]; lia).
    + by rewrite decide_False by (unfold fits; rewrite Hlen; lia).
Qed.

(** ** The dispatch *)

Section CliFacts.
Context {D : Type} `{!Platform D}.
Implicit Types (w : world D) (current : udevice) (argv : list string).

Lemma board_eth_test_eq argc argv w current :
  plat_eth_get_dev (w_dev w) = Some current -> device_active current = true ->
  board_eth_test argc argv w =
    (if decide (argc = 3) then
       a2 ← lift_res (arg argv 2);
       if decide (strncmp a2 "delaytest" (sizeof "delaytest") = 0) then
         eth_loopback_test LOOPBACK_SPEED_1000 1
       else if decide (strncmp a2 "help" (sizeof "help") = 0) then
         do_eth_help;; mret 0
       else dhcp_fallback argc argv
     else if decide (argc = 4) then
       a2 ← lift_res (arg argv 2);
       if decide (strncmp a2 "loopback" (sizeof "loopback") = 0) then
         a3 ← lift_res (arg argv 3);
         eth_loopback_test (s32 (strtoul a3)) 0
       else dhcp_fallback argc argv
     else if decide (argc = 5) then
       a2 ← lift_res (arg argv 2);
       if decide (strncmp a2 "delayline" (sizeof "delayline") = 0) then
         a3 ← lift_res (arg argv 3);
         a4 ← lift_res (arg argv 4);
         gmac_set_rgmii current (u32 (strtoul a3)) (u32 (strtoul a4));;
         mret 0
       else dhcp_fallback argc argv
     else dhcp_fallback argc argv) w.
Proof.
  intros Hd Ha. unfold board_eth_test. rewrite run_bind, run_eth_get_dev.
  by rewrite Hd, Ha.
Qed.

(** The keyword tests of the code are equalities with the keyword. *)
Lemma keyword_test {A} kw lit (x y : A) :
  cstring kw -> cstring lit ->
  (if decide (strncmp kw lit (sizeof lit) = 0) then x else y) =
    (if decide (kw = lit) then x else y).
Proof. intros Hk Hl. by apply decide_ext, strncmp_sizeof. Qed.

Lemma dhcp_fallback_run argv w :
  Z.of_nat (length argv) <= INT_MAX ->
  dhcp_fallback (Z.of_nat (length argv)) argv w =
    if decide (fits EmptyString (drop 2 argv)) then
      let cmd := unwords (drop 2 argv) in
      let r := plat_run_command cmd 0 (w_dev w) in
      if decide (s32 r.1 < 0)
      then Ok (s32 r.1,
               World r.2 (EvPrintf (msg_dhcp_error (s32 r.1))
                            :: EvRunCommand cmd (s32 r.1) :: w_trace w)
                 (w_net_tx_packet w))
      else Ok (0, World r.2 (EvRunCommand cmd (s32 r.1) :: w_trace w)
                    (w_net_tx_packet w))
    else UB.
Proof.
  intros Hmax. unfold dhcp_fallback. rewrite run_bind.
  rewrite (cat_args_from _ argv 2) by (done || lia).
  case_decide; [|done]. change (EmptyString +:+ ?s) with s. run.
  cbn zeta. case_decide; by run.
Qed.

(** The code takes the route of the specification.  One lemma per
    number of arguments; [Hkw] says that the keyword holds no NUL. *)
Lemma route_short argv w current :
  plat_eth_get_dev (w_dev w) = Some current -> device_active current = true ->
  (length argv < 3 \/ 5 < length argv)%nat ->
  board_eth_test (Z.of_nat (length argv)) argv w =
    dhcp_fallback (Z.of_nat (length argv)) argv w /\
  route_of argv = RFallback.
Proof.
  intros Hd Ha Hlen. rewrite (board_eth_test_eq _ _ _ current) by done.
  rewrite !decide_False by lia. split; [done|].
  unfold route_of. pose proof (length_drop argv 2) as Hl.
  destruct (drop 2 argv) as [|? [|? [|? [|]]]]; cbn [length] in Hl; (done || lia).
Qed.

Lemma route_3 a0 a1 kw w current :
  plat_eth_get_dev (w_dev w) = Some current -> device_active current = true ->
  cstring kw ->
  board_eth_test 3 [a0; a1; kw] w =
    run_route current [a0; a1; kw] (route_of [a0; a1; kw]) w.
Proof.
  intros Hd Ha Hkw. rewrite (board_eth_test_eq _ _ _ current) by done.
  rewrite decide_True by done. rewrite run_bind.
  change (arg [a0; a1; kw] 2) with (Ok kw). run.
  rewrite !keyword_test by done. unfold route_of. cbn [drop].
  by repeat case_decide.
Qed.

Lemma route_4 a0 a1 kw a w current :
  plat_eth_get_dev (w_dev w) = Some current -> device_active current = true ->
  cstring kw ->
  board_eth_test 4 [a0; a1; kw; a] w =
    run_route current [a0; a1; kw; a] (route_of [a0; a1; kw; a]) w.
Proof.
  intros Hd Ha Hkw. rewrite (board_eth_test_eq _ _ _ current) by done.
  rewrite decide_False, decide_True by done. rewrite run_bind.
  change (arg [a0; a1; kw; a] 2) with (Ok kw). run.
  rewrite !keyword_test by done. unfold route_of. cbn [drop].
  case_decide; [|done]. rewrite run_bind.
  by change (arg [a0; a1; kw; a] 3) with (Ok a).
Qed.

Lemma route_5 a0 a1 kw a b w current :
  plat_eth_get_dev (w_dev w) = Some current -> device_active current = true ->
  cstring kw ->
  board_eth_test 5 [a0; a1; kw; a; b] w =
    run_route current [a0; a1; kw; a; b] (route_of [a0; a1; kw; a; b]) w.
Proof.
  intros Hd Ha Hkw. rewrite (board_eth_test_eq _ _ _ current) by done.
  rewrite !decide_False, decide_True by done. rewrite run_bind.
  change (arg [a0; a1; kw; a; b] 2) with (Ok kw). run.
  rewrite !keyword_test by done. unfold route_of. cbn [drop].
  case_decide; [|done]. rewrite !run_bind.
  change (arg [a0; a1; kw; a; b] 3) with (Ok a).
  by change (arg [a0; a1; kw; a; b] 4) with (Ok b).
Qed.

(** Every command line of C strings takes the route that [route_of]
    names. *)
Lemma board_eth_test_route argv w current :
  plat_eth_get_dev (w_dev w) = Some current -> device_active current = true ->
  Forall cstring argv ->
  board_eth_test (Z.of_nat (length argv)) argv w =
    run_route current argv (route_of argv) w.
Proof.
  intros Hd Ha Hc.
  destruct (decide (length argv < 3 \/ 5 < length argv)%nat) as [Hshort|Hlen].
  { by destruct (route_short argv w current Hd Ha Hshort) as [-> ->]. }
  destruct argv as [|a0 [|a1 [|kw [|a [|b [|c rest]]]]]];
    cbn [length] in Hlen; try lia;
    apply Forall_cons in Hc as [_ [_ [Hkw _]%Forall_cons]%Forall_cons].
  - by apply route_3.
  - by apply route_4.
  - by apply route_5.
Qed.

Lemma do_eth_help_run w :
  do_eth_help w =
    Ok (tt, World (w_dev w) (rev (EvPrintf <$> msg_usage) ++ w_trace w)
              (w_net_tx_packet w)).
Proof. done. Qed.

End CliFacts.

(** ** Termination *)

Lemma arg_terminates argv i : terminates (arg argv i).
Proof. unfold arg. case_decide; [|done]. by destruct (argv !! Z.to_nat i). Qed.

Lemma cat_args_terminates fuel argc argv i cmd_eth :
  (Z.to_nat (argc - i) < fuel)%nat ->
  terminates (cat_args fuel argc argv i cmd_eth).
Proof.
  revert i cmd_eth. induction fuel as [|fuel IH]; intros i cmd_eth Hf; [lia|].
  cbn [cat_args]. case_decide; [|done].
  apply terminates_bind; [apply arg_terminates|]. intros a _.
  apply terminates_bind; [apply strncat_terminates|]. intros c1 _.
  apply terminates_bind; [case_decide; [apply strncat_terminates|done]|].
  intros c2 _. case_decide; [|done]. apply IH. lia.
Qed.

Section CliClaims.
Context {D : Type} `{!Platform D}.
Implicit Types (w : world D) (current : udevice) (argv : list string).

Lemma dhcp_fallback_terminates argc argv w : terminates (dhcp_fallback argc argv w).
Proof.
  unfold dhcp_fallback. apply run_bind_terminates.
  { apply lift_res_terminates, cat_args_terminates. lia. }
  intros cmd w1 _. run. by case_decide.
Qed.

(** C3. Refinement of the dispatch: with an active device and arguments
    that are C strings, [board_eth_test] takes the route that [route_of]
    assigns to the argument list.  Exactly three arguments with the
    keyword [delaytest] or [help], four with [loopback], five with
    [delayline]; every other number of arguments and every other keyword
    is the fall-back. *)
Theorem board_eth_test_routes argv w current :
  plat_eth_get_dev (w_dev w) = Some current -> device_active current = true ->
  Forall cstring argv ->
  board_eth_test (Z.of_nat (length argv)) argv w =
    run_route current argv (route_of argv) w.
Proof. apply board_eth_test_route. Qed.

(** C39. Without an active Ethernet device every command line, [help]
    included, returns [-EINVAL] and does nothing. *)
Theorem board_eth_test_no_device argc argv w :
  match plat_eth_get_dev (w_dev w) with
  | Some current => device_active current = false
  | None => True
  end ->
  board_eth_test argc argv w = Ok (- EINVAL, w).
Proof.
  intros Hd. unfold board_eth_test. rewrite run_bind, run_eth_get_dev.
  destruct (plat_eth_get_dev (w_dev w)) as [current|]; [|done]. by rewrite Hd.
Qed.

(** C31. Round trip of a delay value through the console: the number
    that the delay test prints in a row label with [%02x], typed back
    behind [0x], makes [delayline] program that delay. *)
Theorem delayline_reads_labels a0 a1 i j w current :
  plat_eth_get_dev (w_dev w) = Some current -> device_active current = true ->
  msg_row i = "[0x" +:+ fmt_02x i +:+ "]:" /\
  board_eth_test 5 [a0; a1; "delayline"; "0x" +:+ fmt_02x i; "0x" +:+ fmt_02x j] w =
    Ok (0, World (plat_gmac_set_rgmii current (u32 i) (u32 j) (w_dev w))
             (EvSetRgmii (u32 i) (u32 j) :: w_trace w) (w_net_tx_packet w)).
Proof.
  intros Hd Ha. split; [done|]. rewrite (route_5 _ _ _ _ _ _ current) by done.
  unfold route_of, run_route. cbn [drop]. rewrite decide_True by done. run.
  rewrite !strtoul_fmt_02x. unfold u32. by rewrite !wrap_idemp.
Qed.

(** C32. [delayline tx rx] programs the delay lines with the two numbers
    as [strtoul] reads them, truncated to 32 bits, and returns 0: no
    frame is sent, and the values are not checked against the range
    0..0x7F. *)
Theorem delayline_programs_only a0 a1 a b w current :
  plat_eth_get_dev (w_dev w) = Some current -> device_active current = true ->
  board_eth_test 5 [a0; a1; "delayline"; a; b] w =
    Ok (0, World (plat_gmac_set_rgmii current (u32 (strtoul a)) (u32 (strtoul b)) (w_dev w))
             (EvSetRgmii (u32 (strtoul a)) (u32 (strtoul b)) :: w_trace w)
             (w_net_tx_packet w)).
Proof.
  intros Hd Ha. rewrite (route_5 _ _ _ _ _ _ current) by done.
  unfold route_of, run_route. cbn [drop]. rewrite decide_True by done. run.
  unfold u32. by rewrite !wrap_idemp.
Qed.

(** The fall-back runs the arguments from the third on, joined by
    single spaces, as one command when they fit [cmd_eth]; a negative
    result of the command is printed and returned, any other result
    becomes 0. *)
Theorem dhcp_fallback_joins_arguments argv w :
  Z.of_nat (length argv) <= INT_MAX ->
  fits EmptyString (drop 2 argv) ->
  let cmd := unwords (drop 2 argv) in
  let r := plat_run_command cmd 0 (w_dev w) in
  dhcp_fallback (Z.of_nat (length argv)) argv w =
    if decide (s32 r.1 < 0)
    then Ok (s32 r.1,
             World r.2 (EvPrintf (msg_dhcp_error (s32 r.1))
                          :: EvRunCommand cmd (s32 r.1) :: w_trace w)
               (w_net_tx_packet w))
    else Ok (0, World r.2 (EvRunCommand cmd (s32 r.1) :: w_trace w)
                  (w_net_tx_packet w)).
Proof. intros Hmax Hfit. by rewrite dhcp_fallback_run, decide_True. Qed.

(** Both [strncat] calls are bounded by a [sizeof] and not by the
    room left in [cmd_eth]: when the joined arguments have 512
    characters or more, the fall-back writes past the end of the array. *)
Theorem dhcp_fallback_overflow argv w :
  Z.of_nat (length argv) <= INT_MAX ->
  CMD_ETH_SIZE <= Z.of_nat (String.length (unwords (drop 2 argv))) ->
  dhcp_fallback (Z.of_nat (length argv)) argv w = UB.
Proof.
  intros Hmax Hlong. rewrite dhcp_fallback_run by done.
  rewrite decide_False; [done|]. unfold fits. cbn [String.length]. lia.
Qed.

(** No fuel runs out in the command. *)
Lemma board_eth_test_halts argc argv w : terminates (board_eth_test argc argv w).
Proof.
  unfold board_eth_test. rewrite run_bind, run_eth_get_dev.
  destruct (plat_eth_get_dev (w_dev w)) as [current|]; [|done].
  destruct (device_active current); [|done]. cbn [negb].
  repeat case_decide;
    try apply dhcp_fallback_terminates;
    (apply run_bind_terminates; [apply lift_res_terminates, arg_terminates|]);
    intros a2 w1 _; repeat case_decide;
    try apply dhcp_fallback_terminates; try apply eth_loopback_test_terminates.
  - by rewrite run_bind, do_eth_help_run.
  - apply run_bind_terminates; [apply lift_res_terminates, arg_terminates|].
    intros a3 w2 _. apply eth_loopback_test_terminates.
  - apply run_bind_terminates; [apply lift_res_terminates, arg_terminates|].
    intros a3 w2 _.
    apply run_bind_terminates; [apply lift_res_terminates, arg_terminates|].
    by intros a4 w3 _.
Qed.

(** C28. [board_eth_test] never runs out of the fuel of its loops: the
    argument loop, the PHY scan and the two loops of the runner all end,
    on any platform, for any arguments and from any world. *)
Theorem board_eth_test_terminates argc argv w :
  terminates (board_eth_test argc argv w).
Proof. apply board_eth_test_halts. Qed.

End CliClaims.

(** ** The test commands, from the command line to the verdict *)

Section Commands.
Context {D : Type} `{!Platform D} `{!RxBuffers D}.
Implicit Types (w : world D) (current : udevice).

(** C4. [rktest eth delaytest] end to end: with an active device, a
    set-up that leaves [w1] and a bring-up that returns 0 and leaves a
    transmit buffer in [w2], the command returns the verdict of the sweep
    at 1000 Mbit/s from [w2], which is 0 exactly when a probe passed, and
    its trace is the trace of that sweep on top of the trace of the
    bring-up. *)
Theorem delaytest_end_to_end a0 a1 w current w1 w2 buf :
  plat_eth_get_dev (w_dev w) = Some current -> device_active current = true ->
  eth_setup_loopback_test current LOOPBACK_SPEED_1000 w = Ok (tt, w1) ->
  ethernet_init w1 = Ok (0, w2) ->
  eth_ready w2 buf ->
  post (board_eth_test 3 [a0; a1; "delaytest"]) w (fun ret w' =>
    let rows := (sweep_rows current LOOPBACK_SPEED_1000 1 w2 buf).1 in
    sweep_verdict (flat rows) = Some ret /\
    (ret = 0 <-> Exists passed (flat rows)) /\
    w_trace w' =
      rows_trace LOOPBACK_SPEED_1000 rows [] ++ EvUdelay 50000 :: w_trace w2).
Proof.
  intros Hd Ha Hs Hi Hr. unfold post.
  rewrite (route_3 _ _ _ _ current) by done.
  change (run_route current [a0; a1; "delaytest"] (route_of [a0; a1; "delaytest"]))
    with (eth_loopback_test LOOPBACK_SPEED_1000 1).
  rewrite (eth_loopback_test_up _ _ _ current w1 w2) by done.
  destruct (sweep_run current LOOPBACK_SPEED_1000 1 w2 buf Hr) as (ret & Hret & Hrun);
    [done|].
  rewrite Hrun. cbn zeta. split; [done|]. split; [|done].
  by apply sweep_verdict_last_pair;
    [apply probe_rows_outcome_wf | apply sweep_log_pairs |].
Qed.

(** C21. [rktest eth loopback <speed>] end to end: after the set-up for
    the speed that [strtoul] read, whatever it is, and a bring-up that
    returns 0, the command returns the code of the one probe of the pair
    (0, 0): 0 for a frame that came back unchanged, [-EINVAL] for one
    that differs, [-EBUSY] for none and a negative receive length as it
    is. *)
Theorem loopback_end_to_end a0 a1 a w current w1 w2 buf :
  plat_eth_get_dev (w_dev w) = Some current -> device_active current = true ->
  eth_setup_loopback_test current (s32 (strtoul a)) w = Ok (tt, w1) ->
  ethernet_init w1 = Ok (0, w2) ->
  eth_ready w2 buf ->
  post (board_eth_test 4 [a0; a1; "loopback"; a]) w (fun ret w' =>
    ret = outcome_code
            (probe_outcome current (s32 (strtoul a)) 0 0 0
               (prepared buf (plat_net_ethaddr (w_dev w2)))
               (plat_udelay 50000 (w_dev w2))) /\
    sent_packets (w_trace w') =
      sent_packets (w_trace w2) ++
      [sent_frame (prepared buf (plat_net_ethaddr (w_dev w2))) 0 0]).
Proof.
  intros Hd Ha Hs Hi Hr. unfold post.
  rewrite (route_4 _ _ _ _ _ current) by done.
  change (run_route current [a0; a1; "loopback"; a] (route_of [a0; a1; "loopback"; a]))
    with (eth_loopback_test (s32 (strtoul a)) 0).
  rewrite (eth_loopback_test_up _ _ _ current w1 w2) by done.
  rewrite (eth_run_loopback_test_single_run _ _ _ buf) by done. cbn zeta.
  split; [done|]. unfold probe_world. cbn [w_trace w_dev].
  change (EvPrintf LF :: ?l) with ([EvPrintf LF] ++ l).
  change (EvUdelay 50000 :: ?l) with ([EvUdelay 50000] ++ l).
  by rewrite !sent_packets_app, probe_events_sent, !app_nil_r.
Qed.

End Commands.

(** ** On the simulated board *)

Example strtoul_examples :
  strtoul "1000" = 1000 /\ strtoul "0x10" = 16 /\ strtoul "0x7f" = 127 /\
  strtoul "010" = 8 /\ strtoul "100Mbit" = 100 /\ strtoul "fast" = 0.
Proof. by vm_compute. Qed.

(** The delay test on a simulated board whose link is up after the
    set-up and the bring-up. *)
Lemma sim_delaytest lo hi a0 a1 (w : world sim) current w1 w2 buf :
  plat_eth_get_dev (w_dev w) = Some current -> device_active current = true ->
  eth_setup_loopback_test current LOOPBACK_SPEED_1000 w = Ok (tt, w1) ->
  ethernet_init w1 = Ok (0, w2) ->
  eth_ready w2 buf -> link_up lo hi (w_dev w2) -> 0 <= lo <= hi -> hi < 0x7F ->
  post (board_eth_test 3 [a0; a1; "delaytest"]) w (fun ret _ => ret = 0).
Proof.
  intros Hd Ha Hs Hi Hr Hl Hlo Hhi. unfold post.
  rewrite (route_3 _ _ _ _ current) by done.
  change (run_route current [a0; a1; "delaytest"] (route_of [a0; a1; "delaytest"]))
    with (eth_loopback_test (D := sim) LOOPBACK_SPEED_1000 1).
  rewrite (eth_loopback_test_up _ _ _ current w1 w2) by done.
  exact (board_sweep_verdict lo hi current LOOPBACK_SPEED_1000 w2 buf Hl Hr Hlo Hhi).
Qed.

(** The whole command on the board of the witnesses, whose PHY is not
    in loopback before the set-up and whose link works for the delays
    0x20..0x30: the delay test returns 0. *)
Example board_delaytest_passes :
  post (board_eth_test 3 ["rktest"; "eth"; "delaytest"]) board_world (fun ret _ => ret = 0).
Proof.
  eapply (sim_delaytest 0x20 0x30 "rktest" "eth" board_world board_dev);
    [reflexivity | reflexivity | vm_compute; reflexivity | vm_compute; reflexivity
    | split; [reflexivity|split; [by vm_compute|reflexivity]] | by vm_compute | lia | lia].
Qed.

Lemma board_eth_test_routes_witness :
  board_eth_test 4 ["rktest"; "eth"; "loopback"; "100"] board_world =
    run_route board_dev ["rktest"; "eth"; "loopback"; "100"] (RLoopback 100) board_world.
Proof.
  apply (board_eth_test_routes ["rktest"; "eth"; "loopback"; "100"] board_world board_dev);
    [done | done | repeat constructor; by vm_compute].
Defined.

Lemma board_eth_test_no_device_witness :
  board_eth_test 3 ["rktest"; "eth"; "help"] (World board_no_dev [] None) =
    Ok (- EINVAL, World board_no_dev [] None).
Proof.
  by apply (board_eth_test_no_device 3 ["rktest"; "eth"; "help"]
              (World board_no_dev [] None)).
Defined.

Lemma delayline_programs_only_witness :
  (r ← board_eth_test 5 ["rktest"; "eth"; "delayline"; "0x10"; "0x20"] board_world;
   Ok (r.1, w_trace r.2, sim_tx_delay (w_dev r.2), sim_rx_delay (w_dev r.2))) =
    Ok (0, [EvSetRgmii 0x10 0x20], 0x10, 0x20).
Proof.
  by rewrite (delayline_programs_only "rktest" "eth" "0x10" "0x20" board_world board_dev).
Defined.

Lemma dhcp_fallback_joins_arguments_witness :
  (r ← dhcp_fallback 5 ["rktest"; "eth"; "dhcp"; "0x62000000"; "192.168.1.100:Image"]
         board_world;
   Ok (r.1, w_trace r.2)) =
    Ok (0, [EvRunCommand "dhcp 0x62000000 192.168.1.100:Image" 0]).
Proof.
  by rewrite (dhcp_fallback_joins_arguments
                ["rktest"; "eth"; "dhcp"; "0x62000000"; "192.168.1.100:Image"] board_world).
Defined.

(** A command line of 6 arguments of which the last has 512 characters. *)
Definition long_argv : list string :=
  ["rktest"; "eth"; "tftp"; "a"; "b";
   string_of_list_ascii (replicate 512 "x"%char)].

Lemma dhcp_fallback_overflow_witness :
  dhcp_fallback (Z.of_nat (length long_argv)) long_argv board_world = UB.
Proof. by apply dhcp_fallback_overflow. Defined.

Lemma delaytest_end_to_end_witness :
  exists w2 buf,
    post (board_eth_test 3 ["rktest"; "eth"; "delaytest"]) board_world (fun ret w' =>
      let rows := (sweep_rows board_dev LOOPBACK_SPEED_1000 1 w2 buf).1 in
      sweep_verdict (flat rows) = Some ret /\
      (ret = 0 <-> Exists passed (flat rows)) /\
      w_trace w' =
        rows_trace LOOPBACK_SPEED_1000 rows [] ++ EvUdelay 50000 :: w_trace w2).
Proof.
  eexists _, _.
  eapply (delaytest_end_to_end "rktest" "eth" board_world board_dev);
    [reflexivity | reflexivity | vm_compute; reflexivity | vm_compute; reflexivity |].
  split; [reflexivity|]. split; [by vm_compute | reflexivity].
Defined.

Lemma loopback_end_to_end_witness :
  exists w2 buf,
    post (board_eth_test 4 ["rktest"; "eth"; "loopback"; "100"]) board_world (fun ret w' =>
      ret = outcome_code
              (probe_outcome board_dev (s32 (strtoul "100")) 0 0 0
                 (prepared buf (plat_net_ethaddr (w_dev w2)))
                 (plat_udelay 50000 (w_dev w2))) /\
      sent_packets (w_trace w') =
        sent_packets (w_trace w2) ++
        [sent_frame (prepared buf (plat_net_ethaddr (w_dev w2))) 0 0]).
Proof.
  eexists _, _.
  eapply (loopback_end_to_end "rktest" "eth" "100" board_world board_dev);
    [reflexivity | reflexivity | vm_compute; reflexivity | vm_compute; reflexivity |].
  split; [reflexivity|]. split; [by vm_compute | reflexivity].
Defined.

Lemma delayline_reads_labels_witness :
  msg_row 0x26 = "[0x" +:+ fmt_02x 0x26 +:+ "]:" /\
  board_eth_test 5 ["rktest"; "eth"; "delayline"; "0x" +:+ fmt_02x 0x26;
                    "0x" +:+ fmt_02x 0x28] board_world =
    Ok (0, World (plat_gmac_set_rgmii board_dev (u32 0x26) (u32 0x28) (w_dev board_world))
             (EvSetRgmii (u32 0x26) (u32 0x28) :: w_trace board_world)
             (w_net_tx_packet board_world)).
Proof. by apply (delayline_reads_labels "rktest" "eth" 0x26 0x28 board_world board_dev). Defined.
