(* ===== verification/Numbers.v ===== *)
(** * The numbers on the command line

    [board_eth_test] reads the speed of [rktest eth loopback <speed>]
    with [strtoul(argv[3], NULL, 0)] and passes the [unsigned long] to
    the [int] parameter of [eth_loopback_test]
    ([src/test/rockchip/test-eth.c], line 277).  This file relates the
    digits that are typed to the number the test runs with: [strtoul]
    reads back every decimal numeral that [%d] prints ([fmt_d], for a
    number that fits 64 bits), and the conversion to [int] keeps the low
    32 bits, so that every speed has other spellings. *)

From Stdlib Require Import ZArith NArith Lia Strings.Ascii Strings.String.
From stdpp Require Import base option list strings pretty.
From S2P Require Import Prelude Cstring Frame Regs Hw Sim Setup Runner Cli.

#[local] Open Scope Z_scope.

(** A string of decimal digits. *)
Fixpoint decimal (s : string) : Prop :=
  match s with
  | EmptyString => True
  | String c s => (exists d, 0 <= d < 10 /\ digit_value c = Some d) /\ decimal s
  end.

(** The numeral of [x], most significant digit first; empty for 0. *)
Definition numeral (x : N) : string := pretty_N_go x EmptyString.

(** ** Digits *)

Lemma digit_value_pretty_N_char d :
  (d < 10)%N -> digit_value (pretty_N_char d) = Some (Z.of_N d).
Proof.
  intros Hd. rewrite <- (N2Nat.id d). assert (N.to_nat d < 10)%nat as Hn by lia.
  revert Hn. generalize (N.to_nat d). intros n Hn.
  do 10 (destruct n as [|n]; [by vm_compute|]). lia.
Qed.

Lemma pretty_N_char_not_0 d : (0 < d < 10)%N -> char_code (pretty_N_char d) ≠ 48.
Proof.
  intros Hd. rewrite <- (N2Nat.id d). assert (0 < N.to_nat d < 10)%nat as Hn by lia.
  revert Hn. generalize (N.to_nat d). intros n Hn.
  destruct n as [|n]; [lia|]. do 9 (destruct n as [|n]; [by vm_compute|]). lia.
Qed.

Lemma decimal_app s1 s2 : decimal s1 -> decimal s2 -> decimal (s1 +:+ s2).
Proof. induction s1 as [|c s1 IH]; [done|]. intros [Hc H1] H2. split; auto. Qed.

(** [strtoul] reads a numeral digit by digit. *)
Lemma strtoul_digits_app s1 s2 acc :
  decimal s1 ->
  strtoul_digits 10 (s1 +:+ s2) acc = strtoul_digits 10 s2 (strtoul_digits 10 s1 acc).
Proof.
  revert acc. induction s1 as [|c s1 IH]; intros acc; [done|].
  intros [(d & Hd & Hc) H1]. rewrite append_cons. cbn [strtoul_digits]. rewrite Hc.
  rewrite !decide_True by lia. by apply IH.
Qed.

(** ** The numeral of a number *)

Lemma numeral_app x s : pretty_N_go x s = numeral x +:+ s.
Proof.
  unfold numeral. revert s.
  induction x as [x IH] using (well_founded_induction N.lt_wf_0). intros s.
  destruct (decide (x = 0%N)) as [->|Hx]; [done|].
  rewrite !(pretty_N_go_step x) by lia.
  assert (x `div` 10 < x)%N as Hlt by (apply N.div_lt; lia).
  rewrite (IH _ Hlt (String _ s)), (IH _ Hlt (String _ EmptyString)).
  by rewrite append_assoc.
Qed.

Lemma numeral_snoc x :
  (0 < x)%N ->
  numeral x = numeral (x `div` 10) +:+ String (pretty_N_char (x `mod` 10)) EmptyString.
Proof. intros Hx. unfold numeral at 1. by rewrite pretty_N_go_step, numeral_app. Qed.

Lemma numeral_decimal x : decimal (numeral x).
Proof.
  induction x as [x IH] using (well_founded_induction N.lt_wf_0).
  destruct (decide (x = 0%N)) as [->|Hx]; [done|].
  rewrite numeral_snoc by lia. apply decimal_app; [apply IH, N.div_lt; lia|].
  split; [|done]. assert (x `mod` 10 < 10)%N as Hr by (by apply N.mod_lt).
  revert Hr. generalize (x `mod` 10)%N. intros r Hr.
  exists (Z.of_N r). split; [lia|]. by apply digit_value_pretty_N_char.
Qed.

Lemma strtoul_digits_numeral x :
  Z.of_N x < 2 ^ 64 -> strtoul_digits 10 (numeral x) 0 = Z.of_N x.
Proof.
  induction x as [x IH] using (well_founded_induction N.lt_wf_0). intros Hx.
  destruct (decide (x = 0%N)) as [->|Hx0]; [done|].
  assert (x `div` 10 < x)%N as Hlt by (apply N.div_lt; lia).
  assert (x `mod` 10 < 10)%N as Hmod by (by apply N.mod_lt).
  pose proof (N.div_mod x 10 ltac:(done)) as Hdiv.
  rewrite numeral_snoc by lia. revert Hlt Hmod Hdiv.
  generalize (x `mod` 10)%N (x `div` 10)%N. intros r q Hlt Hmod Hdiv.
  rewrite strtoul_digits_app, IH by (apply numeral_decimal || lia).
  cbn [strtoul_digits]. rewrite digit_value_pretty_N_char, decide_True by lia.
  replace (Z.of_N x) with (Z.of_N q * 10 + Z.of_N r) in * by lia.
  unfold u64. apply wrap_small; lia.
Qed.

(** The first digit of a numeral is not 0. *)
Lemma numeral_head x :
  (0 < x)%N -> exists c rest, numeral x = String c rest /\ char_code c ≠ 48.
Proof.
  induction x as [x IH] using (well_founded_induction N.lt_wf_0). intros Hx.
  rewrite numeral_snoc by done.
  destruct (decide (x < 10)%N) as [Hs|Hl].
  - rewrite N.div_small, N.mod_small by done. eexists _, _. split; [done|].
    apply pretty_N_char_not_0. lia.
  - assert (0 < x `div` 10)%N as Hq by (apply N.div_str_pos; lia).
    destruct (IH (x `div` 10)%N) as (c & rest & -> & Hc); [apply N.div_lt; lia|done|].
    eexists _, _. by rewrite append_cons.
Qed.

(** A string that does not start with 0 is read in base 10. *)
Lemma strtoul_base_10 c rest :
  char_code c ≠ 48 -> strtoul (String c rest) = strtoul_digits 10 (String c rest) 0.
Proof.
  intros Hc. unfold strtoul. destruct rest as [|c1 [|c2 rest]]; by rewrite decide_False.
Qed.

(** The conversion to [int] forgets multiples of 2^32. *)
Lemma s32_add_multiple z k : s32 (z + 2 ^ 32 * k) = s32 z.
Proof.
  unfold s32, swrap. f_equal.
  replace (z + 2 ^ 32 * k + 2 ^ (32 - 1)) with (z + 2 ^ (32 - 1) + k * 2 ^ 32) by lia.
  apply Z_mod_plus_full.
Qed.

(** ** Round trip *)

Lemma strtoul_pretty n : 0 <= n < 2 ^ 64 -> strtoul (pretty n) = n.
Proof.
  intros Hn. destruct n as [|p|p]; [done| |lia].
  change (pretty (Z.pos p)) with (numeral (N.pos p)).
  destruct (numeral_head (N.pos p)) as (c & rest & Hs & Hc); [lia|].
  rewrite Hs, strtoul_base_10, <- Hs by done. apply (strtoul_digits_numeral (N.pos p)). lia.
Qed.

(** Round trip of a number through the console: what [%d] prints of
    a number that fits an [unsigned long] without its sign, [strtoul]
    reads back as the same number. *)
Theorem strtoul_fmt_d n : 0 <= n < 2 ^ 64 -> strtoul (fmt_d n) = n.
Proof. apply strtoul_pretty. Qed.

Section Speed.
Context {D : Type} `{!Platform D}.
Implicit Types (w : world D) (current : udevice).

(** C34. The speed is truncated.  [rktest eth loopback <n>] with a decimal
    numeral runs the test at the [int] that the low 32 bits of [n] are:
    each speed, 10, 100 and 1000 included, is also selected by the
    numbers that differ from it by a multiple of 2^32, and a numeral
    from 2^31 on selects a negative speed. *)
Theorem loopback_speed_truncated a0 a1 speed k w current :
  plat_eth_get_dev (w_dev w) = Some current -> device_active current = true ->
  in_s32 speed -> 0 <= speed + 2 ^ 32 * k < 2 ^ 64 ->
  board_eth_test 4 [a0; a1; "loopback"; fmt_d (speed + 2 ^ 32 * k)] w =
    eth_loopback_test speed 0 w.
Proof.
  intros Hd Ha Hs Hn. rewrite (route_4 _ _ _ _ _ current) by done.
  unfold route_of. cbn [drop]. rewrite decide_True by done. cbn [run_route].
  unfold fmt_d. rewrite (strtoul_pretty (speed + 2 ^ 32 * k) Hn).
  by rewrite s32_add_multiple, s32_small.
Qed.

End Speed.

(** ** On the simulated board *)

Lemma strtoul_fmt_d_witness : strtoul (fmt_d 1000) = 1000.
Proof. apply strtoul_fmt_d. lia. Defined.

(** [rktest eth loopback 4294968296] is [rktest eth loopback 1000]. *)
Lemma loopback_speed_truncated_witness :
  board_eth_test 4 ["rktest"; "eth"; "loopback"; "4294968296"] board_world =
    eth_loopback_test 1000 0 board_world.
Proof.
  apply (loopback_speed_truncated "rktest" "eth" 1000 1 board_world board_dev);
    [done|done|by vm_compute|lia].
Defined.

Example speed_spellings :
  s32 (strtoul "1000") = 1000 /\ s32 (strtoul "0x3e8") = 1000 /\
  s32 (strtoul "01750") = 1000 /\ s32 (strtoul "4294968296") = 1000 /\
  s32 (strtoul "4294967295") = -1 /\ s32 (strtoul "1000Mbit") = 1000.
Proof. by vm_compute. Qed.
