(* ===== verification/Footprint.v ===== *)
(** * What each function touches

    The diagnostic changes the hardware only through the external calls
    it makes.  A [call] is the kind of an external call; a property of
    the device is [stable] under a kind of call when no call of that kind
    can break it, whatever its arguments.  [confined cs m] says that the
    computation [m] makes only calls of the kinds [cs]: every event it
    adds to the trace is of such a kind, every property of the device
    that is stable under [cs] holds after [m] when it held before, and
    the transmit buffer, once allocated, is left no shorter than such a
    property promises of the buffer the stack hands out ([guards]).

    The rules follow the monad and the loops of [Logic].  The theorems
    give the footprint of each function of
    [src/test/rockchip/test-eth.c]: the set-up touches the MAC and PHY
    registers only, the bring-up the network stack only, the runner the
    frame path and, in the sweep only, the delay lines; each command line
    has the footprint of its route.  On a platform whose registers are
    changed by register writes only ([QuietRegisters]), what the set-up
    wrote is what the registers hold when the test returns. *)

From Stdlib Require Import ZArith Lia Strings.Byte Strings.Ascii Strings.String.
From stdpp Require Import base option list strings.
From S2P Require Import Prelude Cstring Frame Regs Hw Sim Logic Setup Runner Cli.

#[local] Open Scope Z_scope.

(** The kinds of external call, one for each constructor of [event]. *)
Inductive call :=
| CPrintf | CUdelay | CReadl | CWritel | CPhyRead | CPhyWrite | CSetRgmii
| CSend | CRecv | CFreePkt | CNetInit | CEthHalt | CEthSetCurrent | CEthInit
| CRunCommand.

#[export] Instance call_eq_dec : EqDecision call.
Proof. solve_decision. Defined.

Definition call_of (e : event) : call :=
  match e with
  | EvPrintf _ => CPrintf
  | EvUdelay _ => CUdelay
  | EvReadl _ _ => CReadl
  | EvWritel _ _ => CWritel
  | EvPhyRead _ _ _ _ => CPhyRead
  | EvPhyWrite _ _ _ _ => CPhyWrite
  | EvSetRgmii _ _ => CSetRgmii
  | EvSend _ => CSend
  | EvRecv _ => CRecv
  | EvFreePkt _ => CFreePkt
  | EvNetInit => CNetInit
  | EvEthHalt => CEthHalt
  | EvEthSetCurrent => CEthSetCurrent
  | EvEthInit _ => CEthInit
  | EvRunCommand _ _ => CRunCommand
  end.

(** The calls of the register set-up (lines 84-126), of the bring-up
    (lines 205-219) and of the runner (lines 128-203); the delay lines
    are programmed in the sweep only. *)
Definition setup_calls (c : call) : bool :=
  match c with
  | CPrintf | CReadl | CWritel | CPhyRead | CPhyWrite => true
  | _ => false
  end.

Definition init_calls (c : call) : bool :=
  match c with
  | CNetInit | CEthHalt | CEthSetCurrent | CEthInit => true
  | _ => false
  end.

Definition probe_calls (delay_test : Z) (c : call) : bool :=
  match c with
  | CPrintf | CUdelay | CSend | CRecv | CFreePkt => true
  | CSetRgmii => bool_decide (delay_test ≠ 0)
  | _ => false
  end.

Definition test_calls (delay_test : Z) (c : call) : bool :=
  setup_calls c || init_calls c || probe_calls delay_test c.

(** The calls of a command line, by its route. *)
Definition route_calls (r : route) (c : call) : bool :=
  match r with
  | RDelayTest => test_calls 1 c
  | RLoopback _ => test_calls 0 c
  | RHelp => bool_decide (c = CPrintf)
  | RDelayLine _ _ => bool_decide (c = CSetRgmii)
  | RFallback => bool_decide (c = CPrintf \/ c = CRunCommand)
  end.

Section Footprint.
Context {D : Type} `{!Platform D}.
Implicit Types (I : D -> Prop) (cs : call -> bool) (w : world D) (c : call).

(** No call of the kind [c] breaks [I]. *)
Definition stable I c : Prop :=
  match c with
  | CPrintf | CReadl | CPhyRead => True
  | CUdelay => forall usec d, I d -> I (plat_udelay usec d)
  | CWritel => forall val addr d, I d -> I (plat_writel val addr d)
  | CPhyWrite => forall p devad r v d, I d -> I (plat_phy_write p devad r v d)
  | CSetRgmii => forall dev tx rx d, I d -> I (plat_gmac_set_rgmii dev tx rx d)
  | CSend => forall pkt d, I d -> I (plat_send pkt d)
  | CRecv => forall dev flags d, I d -> I (plat_recv dev flags d).2
  | CFreePkt =>
      forall free dev pkt len d, plat_free_pkt = Some free -> I d -> I (free dev pkt len d)
  | CNetInit => forall d, I d -> I (plat_net_init d)
  | CEthHalt => forall d, I d -> I (plat_eth_halt d)
  | CEthSetCurrent => forall d, I d -> I (plat_eth_set_current d)
  | CEthInit => forall d, I d -> I (plat_eth_init d).2
  | CRunCommand => forall cmd flag d, I d -> I (plat_run_command cmd flag d).2
  end.

(** The transmit buffer, once [net_tx_packet] is set, holds [n] bytes
    or more. *)
Definition tx_holds (n : nat) w : Prop :=
  forall buf, w_net_tx_packet w = Some buf -> (n <= length buf)%nat.

(** The world since the trace [tr0]: the device satisfies [I], the
    calls made since are of the kinds [cs], and the transmit buffer
    holds [n] bytes. *)
Definition within cs I (n : nat) (tr0 : list event) w : Prop :=
  I (w_dev w) /\
  (exists tr, w_trace w = tr ++ tr0 /\ Forall (fun e => cs (call_of e) = true) tr) /\
  tx_holds n w.

(** [I] is stable under the calls [cs] and bounds the packet buffer of
    the network stack, which [net_init] makes the transmit buffer. *)
Definition guards cs I (n : nat) : Prop :=
  (forall c, cs c = true -> stable I c) /\
  (forall d, I d -> (n <= length (plat_net_pkt_buf d))%nat).

Definition confined {A} cs (m : M D A) : Prop :=
  forall I n tr0, guards cs I n ->
    triple (within cs I n tr0) m (fun _ => within cs I n tr0).

End Footprint.

(** No call changes the current device or the current bus. *)
Class QuietLookups (D : Type) `{!Platform D} : Prop := {
  quiet_eth_get_dev c x : stable (fun d => plat_eth_get_dev d = x) c;
  quiet_mdio_get_current_dev c x : stable (fun d => plat_mdio_get_current_dev d = x) c;
}.

(** Registers that are changed by register writes only: no other call
    changes what a read of a MAC or PHY register returns.  The simulated
    board is such a platform; a driver whose [eth_init] reprograms the
    MAC is not. *)
Class QuietRegisters (D : Type) `{!Platform D} : Prop := {
  quiet_lookups :: QuietLookups D;
  quiet_readl c a v :
    c ≠ CWritel -> c ≠ CPhyWrite -> stable (fun d => plat_readl a d = v) c;
  quiet_phy_read c p devad r v :
    c ≠ CWritel -> c ≠ CPhyWrite -> stable (fun d => plat_phy_read p devad r d = v) c;
}.

Section Rules.
Context {D : Type} `{!Platform D}.
Implicit Types (I : D -> Prop) (cs : call -> bool) (w : world D) (c : call).

(** ** What a confined computation guarantees *)

Lemma within_start cs I n w : I (w_dev w) -> tx_holds n w -> within cs I n (w_trace w) w.
Proof. intros HI Htx. split; [done|]. split; [by exists []|done]. Qed.

Lemma guards_0 cs I : (forall c, cs c = true -> stable I c) -> guards cs I 0.
Proof. intros Hst. split; [done|]. intros. lia. Qed.

Lemma tx_holds_0 w : tx_holds 0 w.
Proof. intros buf _. lia. Qed.

Lemma confined_keeps {A} cs (m : M D A) I w a w' :
  confined cs m -> (forall c, cs c = true -> stable I c) ->
  I (w_dev w) -> m w = Ok (a, w') -> I (w_dev w').
Proof.
  intros Hm Hst HI Hrun.
  refine (proj1 (Hm I 0%nat (w_trace w) (guards_0 _ _ Hst) w a w' _ Hrun)).
  by apply within_start, tx_holds_0.
Qed.

Lemma confined_trace {A} cs (m : M D A) w a w' :
  confined cs m -> m w = Ok (a, w') ->
  exists tr, w_trace w' = tr ++ w_trace w /\ Forall (fun e => cs (call_of e) = true) tr.
Proof.
  intros Hm Hrun.
  assert (forall c, cs c = true -> stable (fun _ => True) c) as Hst by (by intros []).
  refine (proj1 (proj2 (Hm (fun _ => True) 0%nat (w_trace w) (guards_0 _ _ Hst) w a w' _ Hrun))).
  by apply within_start, tx_holds_0.
Qed.

(** The transmit buffer is written in place. *)
Lemma confined_tx_holds {A} cs (m : M D A) I n w a w' :
  confined cs m -> guards cs I n ->
  I (w_dev w) -> tx_holds n w -> m w = Ok (a, w') -> tx_holds n w'.
Proof.
  intros Hm Hg HI Htx Hrun.
  refine (proj2 (proj2 (Hm I n (w_trace w) Hg w a w' _ Hrun))). by apply within_start.
Qed.

(** Properties that are stable, together. *)
Lemma stable_and I1 I2 c : stable I1 c -> stable I2 c -> stable (fun d => I1 d /\ I2 d) c.
Proof. destruct c; cbn; firstorder. Qed.

(** ** Rules *)

Lemma confined_ret {A} cs (a : A) : confined cs (mret a).
Proof. intros I n tr0 _. by apply triple_ret. Qed.

Lemma confined_lift_res {A} cs (r : res A) : confined cs (lift_res r).
Proof. intros I n tr0 _. by apply triple_lift_res. Qed.

Lemma confined_bind {A B} cs (m : M D A) (f : A -> M D B) :
  confined cs m -> (forall a, confined cs (f a)) -> confined cs (m ≫= f).
Proof.
  intros Hm Hf I n tr0 Hg. eapply triple_bind; [by apply Hm|]. intros a. by apply Hf.
Qed.

Lemma confined_if {A} cs (C : Prop) `{!Decision C} (m1 m2 : M D A) :
  (C -> confined cs m1) -> (~ C -> confined cs m2) ->
  confined cs (if decide C then m1 else m2).
Proof. by case_decide; auto. Qed.

Lemma confined_for_u32 {St R} cs fuel bound (body : Z -> St -> M D (St + R)) i st :
  (forall i st, confined cs (body i st)) -> confined cs (for_u32 fuel bound body i st).
Proof.
  intros Hbody I n tr0 Hg.
  pose proof (triple_for_u32 (fun _ => within cs I n tr0) (fun _ => within cs I n tr0)
                fuel bound body i st) as Hloop.
  eapply triple_conseq; [apply Hloop|done|by intros []].
  intros i1 st1. eapply triple_conseq; [by apply (Hbody i1 st1)|done|by intros []].
Qed.

(** A larger set of calls confines what a smaller one does. *)
Lemma confined_mono {A} cs cs' (m : M D A) :
  confined cs m -> (forall c, cs c = true -> cs' c = true) -> confined cs' m.
Proof.
  intros Hm Hsub I n tr0 [Hst Hbuf] w a w' (HI & (tr & Htr & Hall) & Htx) Hrun.
  destruct (Hm I n (w_trace w)) with w a w' as (HI' & (tr' & Htr' & Hall') & Htx');
    [by split; auto|by apply within_start|done|].
  split; [done|]. split; [|done].
  exists (tr' ++ tr). rewrite Htr', Htr, app_assoc. split; [done|].
  apply Forall_app. split; [|done]. eapply Forall_impl; [exact Hall'|]. auto.
Qed.

(** A computation that leaves the world as it is. *)
Lemma confined_silent {A} cs (m : M D A) :
  (forall w a w', m w = Ok (a, w') -> w' = w) -> confined cs m.
Proof. intros Hm I n tr0 _ w a w' Hw Hrun. by rewrite (Hm w a w' Hrun). Qed.

(** A computation that makes one call of the kind [c]. *)
Lemma confined_step {A} cs c (m : M D A) :
  cs c = true ->
  (forall w a w', m w = Ok (a, w') ->
     (exists e, w_trace w' = e :: w_trace w /\ call_of e = c) /\
     w_net_tx_packet w' = w_net_tx_packet w /\
     forall I, stable I c -> I (w_dev w) -> I (w_dev w')) ->
  confined cs m.
Proof.
  intros Hc Hm I n tr0 [Hst _] w a w' (HI & (tr & Htr & Hall) & Htx) Hrun.
  destruct (Hm w a w' Hrun) as ((e & He & Hce) & Hp & Hd).
  split; [by apply Hd; auto|]. split; [|unfold tx_holds; by rewrite Hp].
  exists (e :: tr). rewrite He, Htr. split; [done|]. constructor; [by rewrite Hce|done].
Qed.

(** ** The external calls *)

Lemma confined_printf cs s : cs CPrintf = true -> confined cs (printf s).
Proof.
  intros Hc. apply (confined_step cs CPrintf); [done|].
  intros w [] w' [= <-]. split; [by eexists|]. split; [done|]. by intros I _.
Qed.

Lemma confined_udelay cs usec : cs CUdelay = true -> confined cs (udelay usec).
Proof.
  intros Hc. apply (confined_step cs CUdelay); [done|].
  intros w [] w' [= <-]. split; [by eexists|]. split; [done|]. intros I HI. apply HI.
Qed.

Lemma confined_readl cs addr : cs CReadl = true -> confined cs (readl addr).
Proof.
  intros Hc. apply (confined_step cs CReadl); [done|].
  intros w a w'. rewrite run_readl. intros [= <- <-]. split; [by eexists|]. split; [done|]. by intros I _.
Qed.

Lemma confined_writel cs val addr : cs CWritel = true -> confined cs (writel val addr).
Proof.
  intros Hc. apply (confined_step cs CWritel); [done|].
  intros w [] w' [= <-]. split; [by eexists|]. split; [done|]. intros I HI. apply HI.
Qed.

Lemma confined_phy_read cs p devad r : cs CPhyRead = true -> confined cs (phy_read p devad r).
Proof.
  intros Hc. apply (confined_step cs CPhyRead); [done|].
  intros w a w'. rewrite run_phy_read. intros [= <- <-]. split; [by eexists|]. split; [done|]. by intros I _.
Qed.

Lemma confined_phy_write cs p devad r v :
  cs CPhyWrite = true -> confined cs (phy_write p devad r v).
Proof.
  intros Hc. apply (confined_step cs CPhyWrite); [done|].
  intros w [] w' [= <-]. split; [by eexists|]. split; [done|]. intros I HI. apply HI.
Qed.

Lemma confined_gmac_set_rgmii cs dev tx rx :
  cs CSetRgmii = true -> confined cs (gmac_set_rgmii dev tx rx).
Proof.
  intros Hc. apply (confined_step cs CSetRgmii); [done|].
  intros w [] w' [= <-]. split; [by eexists|]. split; [done|]. intros I HI. apply HI.
Qed.

Lemma confined_net_send_packet cs len : cs CSend = true -> confined cs (net_send_packet len).
Proof.
  intros Hc. apply (confined_step cs CSend); [done|].
  intros w [] w'. unfold net_send_packet. rewrite run_bind.
  change (get_net_tx_packet w) with (Ok (w_net_tx_packet w, w)).
  destruct (w_net_tx_packet w) as [buf|] eqn:Hb; [|done]. case_decide; [|done].
  intros [= <-]. split; [by eexists|]. split; [done|]. intros I HI. apply HI.
Qed.

Lemma confined_eth_recv cs dev flags : cs CRecv = true -> confined cs (eth_recv dev flags).
Proof.
  intros Hc. apply (confined_step cs CRecv); [done|].
  intros w a w'. rewrite run_eth_recv. intros [= <- <-].
  split; [by eexists|]. split; [done|]. intros I HI. apply HI.
Qed.

(** [net_init] points [net_tx_packet] at the packet buffer of the stack
    when it was NULL. *)
Lemma confined_net_init cs : cs CNetInit = true -> confined cs net_init.
Proof.
  intros Hc I n tr0 [Hst Hbuf] w [] w' (HI & (tr & Htr & Hall) & Htx) [= <-].
  pose proof (Hst CNetInit Hc (w_dev w) HI) as HI'.
  split; [done|]. split; [exists (EvNetInit :: tr); cbn; rewrite Htr; by split; [|constructor]|].
  intros buf. cbn. destruct (w_net_tx_packet w) as [old|] eqn:Hold; intros [= <-]; auto.
Qed.

Lemma confined_eth_halt cs : cs CEthHalt = true -> confined cs eth_halt.
Proof.
  intros Hc. apply (confined_step cs CEthHalt); [done|].
  intros w [] w' [= <-]. split; [by eexists|]. split; [done|]. intros I HI. apply HI.
Qed.

Lemma confined_eth_set_current cs : cs CEthSetCurrent = true -> confined cs eth_set_current.
Proof.
  intros Hc. apply (confined_step cs CEthSetCurrent); [done|].
  intros w [] w' [= <-]. split; [by eexists|]. split; [done|]. intros I HI. apply HI.
Qed.

Lemma confined_eth_init cs : cs CEthInit = true -> confined cs eth_init.
Proof.
  intros Hc. apply (confined_step cs CEthInit); [done|].
  intros w a w'. rewrite run_eth_init. intros [= <- <-].
  split; [by eexists|]. split; [done|]. intros I HI. apply HI.
Qed.

Lemma confined_cli_simple_run_command cs cmd flag :
  cs CRunCommand = true -> confined cs (cli_simple_run_command cmd flag).
Proof.
  intros Hc. apply (confined_step cs CRunCommand); [done|].
  intros w a w'. rewrite run_cli_simple_run_command. intros [= <- <-].
  split; [by eexists|]. split; [done|]. intros I HI. apply HI.
Qed.

(** Reads of the world and writes of the transmit buffer make no call. *)
Lemma confined_eth_get_dev cs : confined cs eth_get_dev.
Proof. apply confined_silent. by intros w a w' [= <- <-]. Qed.

Lemma confined_mdio_get_current_dev cs : confined cs mdio_get_current_dev.
Proof. apply confined_silent. by intros w a w' [= <- <-]. Qed.

Lemma confined_get_net_tx_packet cs : confined cs get_net_tx_packet.
Proof. apply confined_silent. by intros w a w' [= <- <-]. Qed.

Lemma confined_get_dev cs : confined cs get_dev.
Proof. apply confined_silent. by intros w a w' [= <- <-]. Qed.

(** A write to the transmit buffer that keeps its length. *)
Lemma confined_with_tx_packet cs f :
  (forall buf buf', f buf = Ok buf' -> length buf' = length buf) ->
  confined cs (with_tx_packet f).
Proof.
  intros Hf I n tr0 _ w [] w' (HI & Htr & Htx). unfold with_tx_packet. rewrite run_bind.
  change (get_net_tx_packet w) with (Ok (w_net_tx_packet w, w)).
  destruct (w_net_tx_packet w) as [buf|] eqn:Hb; [|done]. rewrite run_bind.
  destruct (f buf) as [buf'| |] eqn:Hfb; [|done..]. intros [= <-].
  split; [done|]. split; [done|]. intros ? [= <-]. rewrite (Hf buf buf' Hfb). by apply Htx.
Qed.

End Rules.

Create HintDb footprint discriminated.

#[export] Hint Resolve confined_ret confined_lift_res confined_printf confined_udelay
  confined_readl confined_writel confined_phy_read confined_phy_write
  confined_gmac_set_rgmii confined_net_send_packet confined_eth_recv confined_net_init
  confined_eth_halt confined_eth_set_current confined_eth_init
  confined_cli_simple_run_command confined_eth_get_dev confined_mdio_get_current_dev
  confined_get_net_tx_packet confined_get_dev confined_with_tx_packet : footprint.
#[export] Hint Extern 1 (_ = true) => reflexivity : footprint.
#[export] Hint Resolve create_lbtest_frame_length alter_lbtest_frame_length : footprint.

(** The footprint of a composed computation, part by part: calls by the
    hints, binds, conditionals and loops by their rules. *)
Ltac confine :=
  repeat first
    [ solve [eauto with footprint]
    | apply confined_bind; [|intros ?]
    | apply confined_if; intros ?
    | apply confined_for_u32; intros ? ?
    | match goal with
      | |- confined _ (match ?x with _ => _ end) => destruct x
      | |- confined _ (let '(_, _) := ?x in _) => destruct x
      end ].

(** ** The functions of the diagnostic *)

Section Functions.
Context {D : Type} `{!Platform D}.
Implicit Types (cs : call -> bool) (current : udevice) (st : lb_state).

Lemma confined_net_set_ether cs dest prot : confined (D := D) cs (net_set_ether dest prot).
Proof.
  unfold net_set_ether. apply confined_bind; [confine|]. intros d.
  apply confined_bind; [|intros ?; confine]. apply confined_with_tx_packet.
  intros buf buf' (b1 & H1 & (b2 & H2 & H3)%res_bind_Ok)%res_bind_Ok.
  by rewrite (memcpy_length _ _ _ _ H3), (memcpy_length _ _ _ _ H2), (memcpy_length _ _ _ _ H1).
Qed.

Lemma confined_eth_setup_loopback_test current speed :
  confined (D := D) setup_calls (eth_setup_loopback_test current speed).
Proof. unfold eth_setup_loopback_test, get_current_phydev. confine. Qed.

Lemma confined_ethernet_init : confined (D := D) init_calls ethernet_init.
Proof. unfold ethernet_init. confine. Qed.

Lemma confined_lb_transmit current speed delay_test i j :
  confined (D := D) (probe_calls delay_test) (lb_transmit current speed delay_test i j).
Proof.
  unfold lb_transmit. apply confined_bind; [|intros ?; confine].
  apply confined_if; intros Hdt; [|confine].
  apply confined_gmac_set_rgmii. by apply bool_decide_eq_true_2.
Qed.

Lemma confined_lb_classify delay_test length rx_packet st :
  confined (D := D) (probe_calls delay_test) (lb_classify length rx_packet st).
Proof. unfold lb_classify. confine. Qed.

Lemma confined_lb_release current delay_test rx_packet length :
  confined (D := D) (probe_calls delay_test) (lb_release current rx_packet length).
Proof.
  unfold lb_release. apply confined_if; intros Hl; [|confine].
  destruct plat_free_pkt as [free|] eqn:Hfree; [|confine].
  apply (confined_step _ CFreePkt); [done|]. intros w [] w' [= <-].
  split; [by eexists|]. split; [done|]. intros I HI. by apply HI.
Qed.

Lemma confined_lb_iteration current speed delay_test i j st :
  confined (D := D) (probe_calls delay_test) (lb_iteration current speed delay_test i j st).
Proof.
  unfold lb_iteration.
  apply confined_bind; [apply confined_lb_transmit|]. intros _.
  apply confined_bind; [confine|]. intros [length rx_packet].
  apply confined_bind; [apply confined_lb_classify|]. intros st'.
  apply confined_bind; [apply confined_lb_release|]. intros _. confine.
Qed.

Lemma confined_lb_row current speed delay_test i st :
  confined (D := D) (probe_calls delay_test) (lb_row current speed delay_test i st).
Proof.
  unfold lb_row. apply confined_bind; [confine|]. intros _.
  apply confined_bind; [|intros ?; confine].
  apply confined_for_u32. intros. apply confined_lb_iteration.
Qed.

Lemma confined_eth_run_loopback_test current speed delay_test :
  confined (D := D) (probe_calls delay_test) (eth_run_loopback_test current speed delay_test).
Proof.
  unfold eth_run_loopback_test. apply confined_bind; [confine|]. intros [buf|]; [|confine].
  apply confined_bind; [apply confined_net_set_ether|]. intros _.
  do 2 (apply confined_bind; [confine|]; intros _).
  apply confined_bind; [|intros ?; confine].
  apply confined_for_u32. intros. apply confined_lb_row.
Qed.

Lemma test_calls_setup delay_test c : setup_calls c = true -> test_calls delay_test c = true.
Proof. unfold test_calls. by intros ->. Qed.

Lemma test_calls_init delay_test c : init_calls c = true -> test_calls delay_test c = true.
Proof. unfold test_calls. intros ->. by rewrite orb_true_r. Qed.

Lemma test_calls_probe delay_test c :
  probe_calls delay_test c = true -> test_calls delay_test c = true.
Proof. unfold test_calls. intros ->. by rewrite orb_true_r. Qed.

Lemma confined_eth_loopback_test speed delay_test :
  confined (D := D) (test_calls delay_test) (eth_loopback_test speed delay_test).
Proof.
  unfold eth_loopback_test. apply confined_bind; [confine|]. intros [current|]; [|confine].
  destruct (device_active current); cbn [negb]; [|confine].
  apply confined_bind; [|intros _].
  { eapply confined_mono; [apply confined_eth_setup_loopback_test|apply test_calls_setup]. }
  apply confined_bind; [|intros ret].
  { eapply confined_mono; [apply confined_ethernet_init|apply test_calls_init]. }
  apply confined_if; intros Hret; [confine|].
  eapply confined_mono; [apply confined_eth_run_loopback_test|apply test_calls_probe].
Qed.

Lemma confined_run_route current argv :
  confined (D := D) (route_calls (route_of argv)) (run_route current argv (route_of argv)).
Proof.
  destruct (route_of argv) as [| |speed|tx rx|]; cbn [run_route route_calls].
  - apply confined_eth_loopback_test.
  - unfold do_eth_help. confine.
  - apply confined_eth_loopback_test.
  - confine.
  - unfold dhcp_fallback. confine.
Qed.

End Functions.

(** ** What the test leaves of the set-up *)

Section AfterSetup.
Context {D : Type} `{!Platform D}.
Implicit Types (current : udevice) (w : world D) (I : D -> Prop).

(** Whatever the bring-up and the probes cannot break is, when the test
    returns, as the set-up left it. *)
Lemma eth_loopback_test_after_setup speed delay_test w current ret w' I :
  plat_eth_get_dev (w_dev w) = Some current -> device_active current = true ->
  (forall c, init_calls c = true \/ probe_calls delay_test c = true -> stable I c) ->
  eth_loopback_test speed delay_test w = Ok (ret, w') ->
  exists w1, eth_setup_loopback_test current speed w = Ok (tt, w1) /\
    (I (w_dev w1) -> I (w_dev w')).
Proof.
  intros Hd Ha Hst. rewrite (eth_loopback_test_eq _ _ _ current) by done.
  intros ([] & w1 & Hs & (r & w2 & Hi & Hk)%run_bind_Ok)%run_bind_Ok.
  exists w1. split; [done|]. intros H1.
  assert (I (w_dev w2)) as H2.
  { eapply (confined_keeps init_calls ethernet_init); eauto using confined_ethernet_init. }
  revert Hk. case_decide; [run; by intros [= <- <-]|intros Hk].
  eapply (confined_keeps (probe_calls delay_test)); eauto using confined_eth_run_loopback_test.
Qed.

(** The command makes the calls of its route, and no others. *)
Lemma board_eth_test_confined argv :
  Forall cstring argv ->
  confined (D := D) (route_calls (route_of argv)) (board_eth_test (Z.of_nat (length argv)) argv).
Proof.
  intros Hc I n tr0 Hg w ret w' Hw Hrun.
  destruct (plat_eth_get_dev (w_dev w)) as [current|] eqn:Hd.
  2:{ unfold board_eth_test in Hrun. rewrite run_bind, run_eth_get_dev, Hd in Hrun.
      by injection Hrun as <- <-. }
  destruct (device_active current) eqn:Ha.
  2:{ unfold board_eth_test in Hrun. rewrite run_bind, run_eth_get_dev, Hd, Ha in Hrun.
      by injection Hrun as <- <-. }
  rewrite (board_eth_test_route _ _ current) in Hrun by done.
  exact (confined_run_route current argv I n tr0 Hg w ret w' Hw Hrun).
Qed.

(** C17. The footprint of the command.  A run of [board_eth_test] on
    arguments that are C strings makes only the calls of its route:
    [help] only prints, [delayline] only programs the delay lines, the
    fall-back only runs its command and prints, and a test reads and
    writes registers, brings the device up and probes, programming the
    delay lines in the sweep only.  Every property of the device that no
    call of the route can break holds afterwards when it held before. *)
Theorem board_eth_test_footprint argv w ret w' I :
  Forall cstring argv ->
  board_eth_test (Z.of_nat (length argv)) argv w = Ok (ret, w') ->
  (exists tr, w_trace w' = tr ++ w_trace w /\
     Forall (fun e => route_calls (route_of argv) (call_of e) = true) tr) /\
  ((forall c, route_calls (route_of argv) c = true -> stable I c) ->
   I (w_dev w) -> I (w_dev w')).
Proof.
  intros Hc Hrun. pose proof (board_eth_test_confined argv Hc) as Hm. split.
  - exact (confined_trace _ _ w ret w' Hm Hrun).
  - intros Hst HI. exact (confined_keeps _ _ I w ret w' Hm Hst HI Hrun).
Qed.

Section Registers.
Context `{!RegisterFile D} `{!QuietRegisters D}.

(** The two registers of the set-up, when the test returns. *)
Lemma eth_loopback_test_registers speed delay_test w current bus p ret w' :
  plat_eth_get_dev (w_dev w) = Some current -> device_active current = true ->
  plat_mdio_get_current_dev (w_dev w) = Some bus -> bus_wf bus ->
  first_phy (phymap bus) = Some p ->
  eth_loopback_test speed delay_test w = Ok (ret, w') ->
  plat_phy_read p MDIO_DEVAD_NONE MII_BMCR (w_dev w') = setup_bmcr current speed p (w_dev w) /\
  plat_readl (pdata_iobase current) (w_dev w') = setup_conf current speed p (w_dev w).
Proof.
  intros Hd Ha Hbus Hwf Hp Hrun.
  set (I := fun d : D =>
    plat_phy_read p MDIO_DEVAD_NONE MII_BMCR d = setup_bmcr current speed p (w_dev w) /\
    plat_readl (pdata_iobase current) d = setup_conf current speed p (w_dev w)).
  destruct (eth_loopback_test_after_setup speed delay_test w current ret w' I Hd Ha)
    as (w1 & Hs & Hkeep); [|done|].
  { intros c Hc. apply stable_and; [apply quiet_phy_read|apply quiet_readl];
      by destruct Hc, c. }
  rewrite (eth_setup_loopback_test_run w bus), Hp in Hs by done. simplify_eq/=.
  apply Hkeep, setup_dev_readback.
Qed.

(** C25. What the set-up wrote is what the registers hold when the test
    returns.  On a platform whose registers are plain storage that only
    register writes change, after [eth_loopback_test], however it ends,
    the BMCR of the PHY reads back as the set-up wrote it, with the
    loopback bit set, and the MAC configuration register as well: the
    test puts nothing back. *)
Theorem eth_loopback_test_leaves_registers speed delay_test w current bus p ret w' :
  plat_eth_get_dev (w_dev w) = Some current -> device_active current = true ->
  plat_mdio_get_current_dev (w_dev w) = Some bus -> bus_wf bus ->
  first_phy (phymap bus) = Some p ->
  eth_loopback_test speed delay_test w = Ok (ret, w') ->
  plat_phy_read p MDIO_DEVAD_NONE MII_BMCR (w_dev w') = setup_bmcr current speed p (w_dev w) /\
  Z.testbit (plat_phy_read p MDIO_DEVAD_NONE MII_BMCR (w_dev w')) 14 = true /\
  plat_readl (pdata_iobase current) (w_dev w') = setup_conf current speed p (w_dev w).
Proof.
  intros Hd Ha Hbus Hwf Hp Hrun.
  destruct (eth_loopback_test_registers _ _ _ _ _ _ _ _ Hd Ha Hbus Hwf Hp Hrun) as [Hb Hm].
  rewrite Hb. split; [done|]. split; [|done]. apply setup_bmcr_testbit.
Qed.

End Registers.

End AfterSetup.

(** ** The simulated board *)

(** A property of the simulated board is stable under a kind of call:
    by cases on the kind and on what the board does. *)
Ltac sim_stable c :=
  intros; destruct c; try done; cbn; intros;
  unfold sim_send, sim_recv; repeat case_match; by simplify_eq.

#[export] Instance sim_quiet_lookups : QuietLookups sim.
Proof. split; intros c; sim_stable c. Qed.

#[export] Instance sim_quiet_registers : QuietRegisters sim.
Proof. split; [apply _|..]; intros c; sim_stable c. Qed.

(** [rktest eth delayline 0x10 0x20] on the board programs the delay
    lines and leaves the BMCR alone. *)
Lemma board_eth_test_footprint_witness :
  exists ret w',
    board_eth_test 5 ["rktest"; "eth"; "delayline"; "0x10"; "0x20"] board_world =
      Ok (ret, w') /\
    (exists tr, w_trace w' = tr ++ w_trace board_world /\
       Forall (fun e => route_calls (route_of ["rktest"; "eth"; "delayline"; "0x10"; "0x20"])
                          (call_of e) = true) tr) /\
    ((forall c, route_calls (route_of ["rktest"; "eth"; "delayline"; "0x10"; "0x20"]) c = true ->
        stable (fun d => sim_bmcr d = 0x1140) c) ->
     sim_bmcr (w_dev board_world) = 0x1140 -> sim_bmcr (w_dev w') = 0x1140).
Proof.
  eexists _, _. split; [vm_compute; reflexivity|].
  eapply (board_eth_test_footprint ["rktest"; "eth"; "delayline"; "0x10"; "0x20"] board_world);
    [repeat constructor; by vm_compute|vm_compute; reflexivity].
Defined.

Lemma eth_loopback_test_leaves_registers_witness :
  exists ret w',
    eth_loopback_test 1000 0 board_world = Ok (ret, w') /\
    plat_phy_read board_phy MDIO_DEVAD_NONE MII_BMCR (w_dev w') =
      setup_bmcr board_dev 1000 board_phy (w_dev board_world) /\
    Z.testbit (plat_phy_read board_phy MDIO_DEVAD_NONE MII_BMCR (w_dev w')) 14 = true /\
    plat_readl (pdata_iobase board_dev) (w_dev w') =
      setup_conf board_dev 1000 board_phy (w_dev board_world).
Proof.
  eexists _, _. split; [vm_compute; reflexivity|].
  eapply (eth_loopback_test_leaves_registers 1000 0 board_world board_dev board_bus board_phy);
    [done|done|done|done|done|vm_compute; reflexivity].
Defined.

(** The single shot never programs the delay lines: on the board they
    are after [rktest eth loopback 1000] what they were before. *)
Example loopback_keeps_delay_lines :
  (fun r => (sim_tx_delay (w_dev r.2), sim_rx_delay (w_dev r.2))) <$>
    board_eth_test 4 ["rktest"; "eth"; "loopback"; "1000"] board_world =
  Ok (sim_tx_delay board, sim_rx_delay board).
Proof. vm_compute. reflexivity. Qed.
