(* ===== verification/Protocol.v ===== *)
(** * The protocol of the network driver

    The diagnostic drives the Ethernet device through the calls of the
    network stack: [eth_halt], [eth_set_current], [eth_init],
    [net_send_packet], the driver's [recv] and [free_pkt]
    ([src/test/rockchip/test-eth.c], lines 153-188 and 209-216).  The
    calls have an order: the device is halted before it is initialised,
    a failed initialisation is followed by a halt before anything else, a
    frame is sent only on a started device, each send is followed by one
    poll of the receive path, and a buffer the driver handed out is given
    back, with the length the driver reported, before the next send.

    [proto] gives that order as a transition system over the states of
    the link, [proto_step] is its step function, and the theorems state
    that every run of every function of the file, up to the command
    [board_eth_test], makes its calls in that order on every platform,
    and leaves no frame in flight and no receive buffer behind. *)

From Stdlib Require Import ZArith Lia Strings.Byte Strings.Ascii Strings.String.
From stdpp Require Import base option list strings.
From S2P Require Import Prelude Cstring Frame Regs Hw Sim Logic Monitor Setup Runner Cli.

#[local] Open Scope Z_scope.

(** The state of the link as the calls so far leave it. *)
Inductive link :=
| Unknown
| Halted
| Failed
| Started
| Sent
| Holding (length : Z).

#[export] Instance link_eq_dec : EqDecision link.
Proof. solve_decision. Defined.

(** Between two probes: no frame in flight, no buffer held, no halt due. *)
Definition quiescent (s : link) : Prop :=
  match s with
  | Unknown | Halted | Started => True
  | Failed | Sent | Holding _ => False
  end.

#[export] Instance quiescent_dec s : Decision (quiescent s).
Proof. destruct s; cbn; apply _. Defined.

(** A receive that the caller has to answer with [free_pkt]: the test of
    line 186. *)
Definition held (length : Z) (free : bool) : Prop := length >= 0 /\ free = true.

#[export] Instance held_dec length free : Decision (held length free).
Proof. unfold held. apply _. Defined.

Definition is_held_recv (e : event) : bool :=
  match e with EvRecv length => bool_decide (length >= 0) | _ => false end.

(** The receive buffers the caller holds in a state of the link. *)
Definition holding (s : link) : Z :=
  match s with Holding _ => 1 | _ => 0 end.

Section Protocol.
Context {D : Type} `{!Platform D}.
Implicit Types (s : link) (w : world D) (current : udevice).

(** Whether the driver has a [free_pkt] operation. *)
Definition driver_frees : bool :=
  match plat_free_pkt with Some _ => true | None => false end.

(** ** The transition system *)

Inductive proto : link -> event -> link -> Prop :=
| proto_printf s msg : s ≠ Failed -> proto s (EvPrintf msg) s
| proto_udelay s usec : s ≠ Failed -> proto s (EvUdelay usec) s
| proto_readl s addr val : quiescent s -> proto s (EvReadl addr val) s
| proto_writel s val addr : quiescent s -> proto s (EvWritel val addr) s
| proto_phy_read s addr devad regnum val :
    quiescent s -> proto s (EvPhyRead addr devad regnum val) s
| proto_phy_write s addr devad regnum val :
    quiescent s -> proto s (EvPhyWrite addr devad regnum val) s
| proto_set_rgmii s tx_delay rx_delay :
    quiescent s -> proto s (EvSetRgmii tx_delay rx_delay) s
| proto_net_init s : quiescent s -> proto s EvNetInit s
| proto_halt s : quiescent s \/ s = Failed -> proto s EvEthHalt Halted
| proto_set_current : proto Halted EvEthSetCurrent Halted
| proto_init_started ret : ~ ret < 0 -> proto Halted (EvEthInit ret) Started
| proto_init_failed ret : ret < 0 -> proto Halted (EvEthInit ret) Failed
| proto_send pkt : proto Started (EvSend pkt) Sent
| proto_recv_held length :
    held length driver_frees -> proto Sent (EvRecv length) (Holding length)
| proto_recv_free length :
    ~ held length driver_frees -> proto Sent (EvRecv length) Started
| proto_free_pkt length : proto (Holding length) (EvFreePkt length) Started
| proto_run_command s cmd ret : quiescent s -> proto s (EvRunCommand cmd ret) Unknown.

Definition proto_step (s : link) (e : event) : option link :=
  match e with
  | EvPrintf _ | EvUdelay _ => if decide (s = Failed) then None else Some s
  | EvReadl _ _ | EvWritel _ _ | EvPhyRead _ _ _ _ | EvPhyWrite _ _ _ _
  | EvSetRgmii _ _ | EvNetInit =>
      if decide (quiescent s) then Some s else None
  | EvEthHalt => if decide (quiescent s \/ s = Failed) then Some Halted else None
  | EvEthSetCurrent => if decide (s = Halted) then Some Halted else None
  | EvEthInit ret =>
      if decide (s = Halted) then Some (if decide (ret < 0) then Failed else Started)
      else None
  | EvSend _ => if decide (s = Started) then Some Sent else None
  | EvRecv length =>
      if decide (s = Sent)
      then Some (if decide (held length driver_frees) then Holding length else Started)
      else None
  | EvFreePkt length => if decide (s = Holding length) then Some Started else None
  | EvRunCommand _ _ => if decide (quiescent s) then Some Unknown else None
  end.

(** The state of the link after a trace, from [Unknown]. *)
Definition link_after (tr : list event) : option link := state_after proto_step Unknown tr.

(** A receive that hands a buffer to the caller. *)
Definition hands_out (e : event) : bool := is_held_recv e && driver_frees.

End Protocol.

Section Calls.
Context {D : Type} `{!Platform D}.
Implicit Types (s : link) (w : world D) (current : udevice).

(** [follows s m Q]: from a world whose trace has left the link in [s],
    [m] makes its calls in the order of the protocol, and the value it
    returns and the state it leaves the link in satisfy [Q];
    [leads s m s']: it leaves the link in [s']. *)
#[local] Abbreviation follows := (obeys (D := D) proto_step Unknown).
#[local] Abbreviation leads s m s' :=
  (obeys (D := D) proto_step Unknown s m (fun _ s1 => s1 = s')).

(** ** The relation and the function agree *)

Lemma proto_step_spec s e s' : proto s e s' <-> proto_step s e = Some s'.
Proof.
  split.
  - destruct 1; cbn; repeat case_decide; try done; naive_solver.
  - destruct e; cbn; repeat case_decide; intros ?; simplify_eq; by constructor.
Qed.

Lemma quiescent_not_Failed s : quiescent s -> s ≠ Failed.
Proof. by intros Hq ->. Qed.

Lemma quiescent_holding s : quiescent s -> holding s = 0.
Proof. by destruct s. Qed.

(** ** Buffers handed out and buffers given back *)

Lemma proto_balance s e s' :
  proto s e s' ->
  holding s + (if hands_out e then 1 else 0) = holding s' + (if is_free e then 1 else 0).
Proof.
  unfold hands_out.
  destruct 1 as [| | | | | | | | s [Hq| ->] | | | | | length [Hl ->] | length Hl | |];
    cbn; rewrite ?quiescent_holding by done; try done.
  - by rewrite bool_decide_true.
  - unfold held in Hl. destruct driver_frees; [|by rewrite andb_false_r].
    rewrite bool_decide_false; [done|tauto].
Qed.

Lemma link_balance tr s1 s :
  state_after proto_step s1 tr = Some s ->
  holding s1 + Z.of_nat (count_events hands_out tr) =
    holding s + Z.of_nat (count_events is_free tr).
Proof.
  revert s. induction tr as [|e tr IH]; intros s; [by intros [= ->]|].
  rewrite state_after_cons, !count_events_cons.
  destruct (state_after proto_step s1 tr) as [s2|]; [|done]. cbn [mbind option_bind].
  intros Hstep%proto_step_spec%proto_balance. specialize (IH s2 eq_refl).
  destruct (hands_out e), (is_free e); lia.
Qed.

(** ** The external calls *)

Lemma leads_event s s' e (f : D -> D) : proto s e s' -> leads s (emit e f) s'.
Proof. intros He%proto_step_spec. by eapply obeys_emit. Qed.

Lemma follows_call {A} s (m : M D A) (Q : A -> link -> Prop) :
  (forall w a w', m w = Ok (a, w') ->
     exists e s', w_trace w' = e :: w_trace w /\ proto s e s' /\ Q a s') ->
  follows s m Q.
Proof.
  intros Hm. apply obeys_call. intros w a w' Hrun.
  destruct (Hm w a w' Hrun) as (e & s' & Htr & He%proto_step_spec & Ha). by exists e, s'.
Qed.

Lemma leads_silent {A} s (m : M D A) :
  (forall w a w', m w = Ok (a, w') -> w_trace w' = w_trace w) -> leads s m s.
Proof. intros Hm. apply obeys_silent. intros w a w' Hrun. split; [by eapply Hm|done]. Qed.

Lemma leads_printf s msg : s ≠ Failed -> leads s (printf msg) s.
Proof. intros. by apply leads_event, proto_printf. Qed.

Lemma leads_udelay s usec : s ≠ Failed -> leads s (udelay usec) s.
Proof. intros. by apply leads_event, proto_udelay. Qed.

Lemma leads_readl s addr : quiescent s -> leads s (readl addr) s.
Proof.
  intros Hq. apply follows_call. intros w a w'. rewrite run_readl. intros [= <- <-].
  eexists _, s. split; [done|]. split; [by constructor|done].
Qed.

Lemma leads_writel s val addr : quiescent s -> leads s (writel val addr) s.
Proof. intros. by apply leads_event, proto_writel. Qed.

Lemma leads_phy_read s phydev devad regnum :
  quiescent s -> leads s (phy_read phydev devad regnum) s.
Proof.
  intros Hq. apply follows_call. intros w a w'. rewrite run_phy_read. intros [= <- <-].
  eexists _, s. split; [done|]. split; [by constructor|done].
Qed.

Lemma leads_phy_write s phydev devad regnum val :
  quiescent s -> leads s (phy_write phydev devad regnum val) s.
Proof. intros. by apply leads_event, proto_phy_write. Qed.

Lemma leads_gmac_set_rgmii s current tx_delay rx_delay :
  quiescent s -> leads s (gmac_set_rgmii current tx_delay rx_delay) s.
Proof. intros. by apply leads_event, proto_set_rgmii. Qed.

Lemma leads_net_init s : quiescent s -> leads s net_init s.
Proof.
  intros Hq. apply follows_call. intros w [] w' [= <-].
  eexists _, s. split; [done|]. split; [by constructor|done].
Qed.

Lemma leads_eth_halt s : quiescent s \/ s = Failed -> leads s eth_halt Halted.
Proof. intros. by apply leads_event, proto_halt. Qed.

Lemma leads_eth_set_current : leads Halted eth_set_current Halted.
Proof. apply leads_event, proto_set_current. Qed.

Lemma follows_eth_init :
  follows Halted eth_init (fun ret s' => s' = if decide (ret < 0) then Failed else Started).
Proof.
  apply follows_call. intros w a w'. rewrite run_eth_init. intros [= <- <-].
  eexists _, _. split; [done|]. split; [|done]. case_decide; by constructor.
Qed.

Lemma leads_net_send_packet len : leads Started (net_send_packet len) Sent.
Proof.
  apply follows_call. intros w [] w'. unfold net_send_packet. rewrite run_bind.
  change (get_net_tx_packet w) with (Ok (w_net_tx_packet w, w)).
  destruct (w_net_tx_packet w); [|done]. case_decide; [|done]. intros [= <-].
  eexists _, _. split; [done|]. split; [constructor|done].
Qed.

Lemma follows_eth_recv current flags :
  follows Sent (eth_recv current flags)
    (fun r s' => s' = if decide (held r.1 driver_frees) then Holding r.1 else Started).
Proof.
  apply follows_call. intros w a w'. rewrite run_eth_recv. intros [= <- <-].
  eexists _, _. split; [done|]. split; [|done]. cbn [fst]. case_decide; by constructor.
Qed.

Lemma leads_eth_free_pkt free current rx_packet length :
  leads (Holding length) (eth_free_pkt free current rx_packet length) Started.
Proof. apply leads_event, proto_free_pkt. Qed.

Lemma leads_cli_simple_run_command s cmd flag :
  quiescent s -> leads s (cli_simple_run_command cmd flag) Unknown.
Proof.
  intros Hq. apply follows_call. intros w a w'. rewrite run_cli_simple_run_command.
  intros [= <- <-]. eexists _, _. split; [done|]. split; [by constructor|done].
Qed.

(** Calls that only read the world or write the transmit buffer. *)
Lemma leads_eth_get_dev s : leads s eth_get_dev s.
Proof. apply leads_silent. by intros w a w' [= <- <-]. Qed.

Lemma leads_mdio_get_current_dev s : leads s mdio_get_current_dev s.
Proof. apply leads_silent. by intros w a w' [= <- <-]. Qed.

Lemma leads_get_net_tx_packet s : leads s get_net_tx_packet s.
Proof. apply leads_silent. by intros w a w' [= <- <-]. Qed.

Lemma leads_lift_res {A} s (r : res A) : leads s (lift_res r) s.
Proof. by apply obeys_lift_res. Qed.

Lemma leads_ret {A} s (a : A) : leads s (mret a) s.
Proof. by apply obeys_ret. Qed.

Lemma leads_with_tx_packet s f : leads s (with_tx_packet f) s.
Proof.
  apply leads_silent. intros w [] w'. unfold with_tx_packet. rewrite run_bind.
  change (get_net_tx_packet w) with (Ok (w_net_tx_packet w, w)).
  destruct (w_net_tx_packet w) as [buf|]; [|done]. rewrite run_bind.
  destruct (f buf); [|done..]. by intros [= <-].
Qed.

Lemma leads_get_dev s : leads s get_dev s.
Proof. apply leads_silent. by intros w a w' [= <- <-]. Qed.

Lemma leads_net_set_ether s dest prot : leads s (net_set_ether dest prot) s.
Proof.
  unfold net_set_ether. eapply obeys_bind; [apply leads_get_dev|]. intros d ? ->.
  eapply obeys_bind; [apply leads_with_tx_packet|]. intros ? ? ->. apply leads_ret.
Qed.

End Calls.

Create HintDb proto discriminated.

#[export] Hint Resolve leads_printf leads_udelay leads_readl leads_writel leads_phy_read
  leads_phy_write leads_gmac_set_rgmii leads_net_init leads_eth_halt
  leads_eth_set_current leads_net_send_packet leads_eth_free_pkt
  leads_cli_simple_run_command leads_eth_get_dev leads_mdio_get_current_dev
  leads_get_net_tx_packet leads_lift_res leads_with_tx_packet leads_net_set_ether
  quiescent_not_Failed : proto.
#[export] Hint Extern 1 (quiescent _) => exact I : proto.
#[export] Hint Extern 1 (_ ≠ Failed) => discriminate : proto.
#[export] Hint Extern 1 (_ \/ _ = Failed) => (left; assumption || exact I) || (by right) : proto.

(** One step through a bind whose first computation leads from the
    current state of the link to a known one. *)
Ltac follow := eapply obeys_bind; [solve [eauto with proto]|]; intros ? ? ->.

Tactic Notation "follow" "as" simple_intropattern(x) :=
  eapply obeys_bind; [solve [eauto with proto]|]; intros x ? ->.

(** ** The functions of the diagnostic *)

Section Functions.
Context {D : Type} `{!Platform D}.
Implicit Types (s : link) (current : udevice) (st : lb_state).

#[local] Abbreviation follows := (obeys (D := D) proto_step Unknown).
#[local] Abbreviation leads s m s' :=
  (obeys (D := D) proto_step Unknown s m (fun _ s1 => s1 = s')).

Lemma leads_eth_setup_loopback_test s current speed :
  quiescent s -> leads s (eth_setup_loopback_test current speed) s.
Proof.
  intros Hq. unfold eth_setup_loopback_test, get_current_phydev.
  eapply obeys_bind.
  { follow as [bus|]; apply leads_lift_res. }
  intros [phydev|] ? ->; [|eauto with proto].
  do 3 follow. eauto with proto.
Qed.

Lemma follows_ethernet_init s :
  quiescent s ->
  follows s ethernet_init (fun ret s' => s' = if decide (ret < 0) then Halted else Started).
Proof.
  intros Hq. unfold ethernet_init. do 3 follow.
  eapply obeys_bind; [apply follows_eth_init|]. intros ret ? ->.
  apply obeys_if; intros Hret; [rewrite decide_True by done; follow|];
    apply obeys_ret; by rewrite ?decide_True, ?decide_False by done.
Qed.

Lemma leads_lb_transmit current speed delay_test i j :
  leads Started (lb_transmit current speed delay_test i j) Sent.
Proof.
  unfold lb_transmit.
  eapply obeys_bind; [apply (obeys_if _ _ _ _ _ _ (fun _ s1 => s1 = Started)); intros;
                      [eauto with proto|by apply obeys_ret]|].
  intros ? ? ->. do 2 follow. eauto with proto.
Qed.

Lemma leads_lb_classify s length rx_packet st :
  s ≠ Failed -> leads s (lb_classify (D := D) length rx_packet st) s.
Proof.
  intros Hs. unfold lb_classify.
  apply obeys_if; intros Hpos;
    [|apply obeys_if; intros Hz; follow; by apply obeys_ret].
  do 3 follow. apply obeys_if; intros Hc; follow; [|by apply obeys_ret].
  apply obeys_if; intros Hfit; [by apply obeys_ret|apply leads_lift_res].
Qed.

Lemma leads_lb_release current rx_packet length :
  leads (if decide (held length driver_frees) then Holding length else Started)
    (lb_release current rx_packet length) Started.
Proof.
  unfold lb_release, held, driver_frees. destruct plat_free_pkt as [free|].
  - apply obeys_if; intros Hl; [rewrite decide_True by done; eauto with proto|].
    rewrite decide_False by tauto. by apply obeys_ret.
  - rewrite decide_False by (by intros []). apply obeys_if; intros; by apply obeys_ret.
Qed.

Lemma leads_lb_iteration current speed delay_test i j st :
  leads Started (lb_iteration current speed delay_test i j st) Started.
Proof.
  unfold lb_iteration.
  eapply obeys_bind; [apply leads_lb_transmit|]. intros ? ? ->.
  eapply obeys_bind; [apply follows_eth_recv|]. intros [length rx_packet] ? ->.
  eapply obeys_bind; [apply leads_lb_classify; by case_decide|]. intros st' ? ->.
  eapply obeys_bind; [apply leads_lb_release|]. intros ? ? ->.
  apply obeys_if; intros; [do 2 follow|]; by apply obeys_ret.
Qed.

Lemma leads_lb_row current speed delay_test i st :
  leads Started (lb_row current speed delay_test i st) Started.
Proof.
  unfold lb_row.
  eapply obeys_bind; [apply (obeys_if _ _ _ _ _ _ (fun _ s1 => s1 = Started)); intros;
                      [eauto with proto|by apply obeys_ret]|].
  intros ? ? ->. eapply obeys_bind.
  { apply (obeys_for_u32 _ _ (fun _ s => s = Started) (fun _ s => s = Started)); [|done].
    intros i1 st1 ? ->. eapply obeys_mono; [apply leads_lb_iteration|].
    by intros [?|?] ? ->. }
  intros [st'|ret] ? Hs; [rewrite Hs; follow|]; by apply obeys_ret.
Qed.

Lemma leads_eth_run_loopback_test current speed delay_test :
  leads Started (eth_run_loopback_test current speed delay_test) Started.
Proof.
  unfold eth_run_loopback_test. follow as [buf|]; [|by apply obeys_ret].
  do 3 follow. eapply obeys_bind.
  { apply (obeys_for_u32 _ _ (fun _ s => s = Started) (fun _ s => s = Started)); [|done].
    intros i1 st1 ? ->. eapply obeys_mono; [apply leads_lb_row|].
    by intros [?|?] ? ->. }
  intros [st|ret] ? Hs; rewrite Hs; [apply leads_lift_res|by apply obeys_ret].
Qed.

Lemma follows_eth_loopback_test s speed delay_test :
  quiescent s ->
  follows s (eth_loopback_test speed delay_test)
    (fun ret s' => quiescent s' /\ (0 <= ret -> s' = Started)).
Proof.
  intros Hq. assert (- EINVAL < 0) by done.
  unfold eth_loopback_test. follow as [current|]; [|apply obeys_ret; split; [done|lia]].
  destruct (device_active current); cbn [negb]; [|apply obeys_ret; split; [done|lia]].
  eapply obeys_bind; [by apply leads_eth_setup_loopback_test|]. intros ? ? ->.
  eapply obeys_bind; [by apply follows_ethernet_init|]. intros ret ? ->.
  apply obeys_if; intros Hret.
  - case_decide; follow; apply obeys_ret; (split; [done|lia || done]).
  - rewrite decide_False by lia.
    eapply obeys_mono; [apply leads_eth_run_loopback_test|]. by intros ? ? ->.
Qed.

Lemma leads_do_eth_help s : s ≠ Failed -> leads s (do_eth_help (D := D)) s.
Proof. intros Hs. unfold do_eth_help. do 4 follow. eauto with proto. Qed.

Lemma leads_dhcp_fallback s argc argv :
  quiescent s -> leads s (dhcp_fallback argc argv) Unknown.
Proof.
  intros Hq. unfold dhcp_fallback. do 2 follow.
  apply obeys_if; intros; [follow|]; by apply obeys_ret.
Qed.

Lemma follows_board_eth_test s argc argv :
  quiescent s -> follows s (board_eth_test argc argv) (fun _ s' => quiescent s').
Proof.
  intros Hq.
  assert (follows s (dhcp_fallback argc argv) (fun _ s' => quiescent s')) as Hdhcp.
  { eapply obeys_mono; [by apply leads_dhcp_fallback|]. by intros ? ? ->. }
  unfold board_eth_test. follow as [current|]; [|by apply obeys_ret].
  destruct (device_active current); cbn [negb]; [|by apply obeys_ret].
  apply obeys_if; intros H3; [|apply obeys_if; intros H4; [|apply obeys_if; intros H5]];
    try exact Hdhcp; follow; (apply obeys_if; intros Hkw; [|try exact Hdhcp]).
  - eapply obeys_mono; [by apply follows_eth_loopback_test|]. by intros ? ? [? _].
  - apply obeys_if; intros Hh; [|exact Hdhcp].
    eapply obeys_bind; [apply leads_do_eth_help; eauto with proto|].
    intros ? ? ->. by apply obeys_ret.
  - follow. eapply obeys_mono; [by apply follows_eth_loopback_test|]. by intros ? ? [? _].
  - do 3 follow. by apply obeys_ret.
Qed.

(** C14. Every run of the command follows the protocol of the driver.
    From a world whose trace is allowed by the protocol and has left the
    link between two probes, a run of [board_eth_test] that returns has
    made every call where the protocol allows it: the device was halted
    before it was initialised, a failed initialisation was followed by a
    halt at once, frames were sent on a started device only, each was
    followed by one poll, and each buffer the driver handed out was
    given back with its length before the next send.  At the end no
    frame is in flight and as many buffers were given back as were
    handed out. *)
Theorem board_eth_test_follows_protocol argc argv (w : world D) ret w' s :
  link_after (w_trace w) = Some s -> quiescent s ->
  board_eth_test argc argv w = Ok (ret, w') ->
  exists s', link_after (w_trace w') = Some s' /\ quiescent s' /\
    count_events is_free (w_trace w') = count_events hands_out (w_trace w').
Proof.
  intros Hs Hq Hrun.
  destruct (follows_board_eth_test s argc argv Hq w ret w' Hs Hrun) as (s' & Hs' & Hq').
  exists s'. split; [done|]. split; [done|].
  pose proof (link_balance _ _ _ Hs') as Hb. rewrite (quiescent_holding s') in Hb by done.
  cbn in Hb. lia.
Qed.

Section EmptyReceive.
Context `{!RxBuffers D}.

(** C38. The test before [free_pkt] is [length >= 0]: a probe of the sweep
    whose receive returned 0, where the driver has stored no buffer in
    [rx_packet], records -EBUSY, prints the mark of a missing frame and
    still calls [free_pkt], with whatever [rx_packet] holds and the
    length 0. *)
Theorem lb_iteration_empty_receive current speed delay_test i j st (w : world D) buf free :
  w_net_tx_packet w = Some buf -> LOOPBACK_TEST_FRAME_SIZE <= Z.of_nat (length buf) ->
  0 <= i < MAX_TX_DELAY_LINE -> 0 <= j < MAX_RX_DELAY_LINE -> lb_success st < INT_MAX ->
  delay_test ≠ 0 -> plat_free_pkt = Some free ->
  probe_length current speed delay_test i j buf (w_dev w) = 0 ->
  lb_iteration current speed delay_test i j st w =
    let r := probe_recv current speed delay_test i j buf (w_dev w) in
    Ok (inl (LbState (Some (- EBUSY)) (lb_success st)),
        World (free current r.1.2 0 r.2)
          ([EvFreePkt 0; EvPrintf "?"; EvRecv 0; EvUdelay (settle_delay speed);
            EvSend (sent_frame buf i j); EvSetRgmii (u32 i) (u32 j)] ++ w_trace w)
          (Some (tagged buf i j))).
Proof.
  intros Hb Hlen Hi Hj Hs Hdt Hfree Hzero.
  rewrite (lb_iteration_run _ _ _ _ _ _ _ buf) by done. cbn zeta.
  rewrite decide_False by done.
  unfold probe_world, probe_events, probe_outcome, release_dev, release_events, rgmii_events,
    classify.
  rewrite Hzero, Hfree. by repeat (case_decide; try lia).
Qed.

End EmptyReceive.

(** C26. The test never gives the device back.  A run of
    [eth_loopback_test] that returns 0 or a positive value leaves the
    device started: [eth_halt] is called before the bring-up and after a
    bring-up that failed with a negative value, and nowhere else. *)
Theorem eth_loopback_test_leaves_started speed delay_test (w : world D) ret w' s :
  link_after (w_trace w) = Some s -> quiescent s ->
  eth_loopback_test speed delay_test w = Ok (ret, w') -> 0 <= ret ->
  link_after (w_trace w') = Some Started.
Proof.
  intros Hs Hq Hrun Hret.
  destruct (follows_eth_loopback_test s speed delay_test Hq w ret w' Hs Hrun)
    as (s' & Hs' & _ & Hst).
  by rewrite <- (Hst Hret).
Qed.

End Functions.

(** ** On the simulated board *)

(** The link after [rktest eth loopback 1000] on the board: started, and
    never halted again. *)
Lemma board_eth_test_follows_protocol_witness :
  exists ret w',
    board_eth_test 4 ["rktest"; "eth"; "loopback"; "1000"] board_world = Ok (ret, w') /\
    exists s', link_after (w_trace w') = Some s' /\ quiescent s' /\
      count_events is_free (w_trace w') = count_events hands_out (w_trace w').
Proof.
  eexists _, _. split; [vm_compute; reflexivity|].
  eapply (board_eth_test_follows_protocol 4 ["rktest"; "eth"; "loopback"; "1000"]
            board_world _ _ Unknown); [done|done|vm_compute; reflexivity].
Defined.

Lemma lb_iteration_empty_receive_witness :
  (fun r => (r.1, take 3 (w_trace r.2))) <$>
    lb_iteration board_dev 1000 1 0 0 (LbState None 0) (ready_world board_looped) =
  Ok (inl (LbState (Some (- EBUSY)) 0), [EvFreePkt 0; EvPrintf "?"; EvRecv 0]).
Proof.
  by rewrite (lb_iteration_empty_receive board_dev 1000 1 0 0 (LbState None 0)
                (ready_world board_looped) (sim_pkt_buf board_looped) (fun _ _ _ d => d)).
Defined.

Lemma eth_loopback_test_leaves_started_witness :
  exists w', eth_loopback_test 1000 0 (World board_tuned [] None) = Ok (0, w') /\
    link_after (w_trace w') = Some Started.
Proof.
  eexists. split; [vm_compute; reflexivity|].
  eapply (eth_loopback_test_leaves_started 1000 0 (World board_tuned [] None) 0 _ Unknown);
    [done|done|vm_compute; reflexivity|done].
Defined.

(** On that board the PHY, too, is left as the set-up programmed it:
    before the test the BMCR reads 0x1140, after it 0x4140, with the
    loopback bit set. *)
Example loopback_stays_set :
  sim_bmcr board_tuned = 0x1140 /\
  (fun r => sim_bmcr (w_dev r.2)) <$> eth_loopback_test 1000 0 (World board_tuned [] None) =
    Ok 0x4140.
Proof. split; vm_compute; reflexivity. Qed.
