(* ===== verification/Safety.v ===== *)
(** * When the command is defined

    The functions of [src/test/rockchip/test-eth.c] have undefined
    behaviour in the model where the C code has it: a NULL bus is
    dereferenced (line 49), [cmd_eth] is written past its end (lines
    295-297), a buffer shorter than a frame is written or compared
    (lines 58-68, 77), [ret] is read before it is assigned (line 202),
    [success] overflows (line 172).  This file says which of them can
    happen.  On a platform whose network stack has a packet buffer and a
    station address of the right sizes and keeps them through the
    bring-up, and whose driver hands out whole receive buffers, only the
    first two are left, and the command is defined exactly when they do
    not arise: the tests need a current MDIO bus, the fall-back needs
    arguments that fit [cmd_eth]. *)

From Stdlib Require Import ZArith Lia Strings.Byte Strings.Ascii Strings.String.
From stdpp Require Import base option list strings.
From S2P Require Import Prelude Cstring Frame Regs Hw Sim Setup Runner Machine Cli.

#[local] Open Scope Z_scope.

Section Buffers.
Context {D : Type} `{!Platform D}.

(** The packet buffer of the network stack holds a frame, and the
    station address has six bytes. *)
Definition buffers_ok (d : D) : Prop :=
  LOOPBACK_TEST_FRAME_SIZE <= Z.of_nat (length (plat_net_pkt_buf d)) /\
  length (plat_net_ethaddr d) = 6%nat.

(** What the command needs of the world it starts in: the buffers of the
    network stack, a transmit buffer that holds a frame when
    [net_tx_packet] is set already, and a PHY map of [PHY_MAX_ADDR]
    entries on the current bus. *)
Definition input_ok (w : world D) : Prop :=
  buffers_ok (w_dev w) /\
  (forall buf, w_net_tx_packet w = Some buf ->
     LOOPBACK_TEST_FRAME_SIZE <= Z.of_nat (length buf)) /\
  (forall bus, plat_mdio_get_current_dev (w_dev w) = Some bus -> bus_wf bus).

(** The command line for which the command is defined in [w]. *)
Definition command_defined (argv : list string) (w : world D) : Prop :=
  match plat_eth_get_dev (w_dev w) with
  | None => True
  | Some current =>
      device_active current = true ->
      match route_of argv with
      | RDelayTest | RLoopback _ => is_Some (plat_mdio_get_current_dev (w_dev w))
      | RFallback => fits EmptyString (drop 2 argv)
      | RHelp | RDelayLine _ _ => True
      end
  end.

#[export] Instance command_defined_dec argv w : Decision (command_defined argv w).
Proof.
  unfold command_defined. destruct (plat_eth_get_dev (w_dev w)); [|apply _].
  destruct (route_of argv); apply _.
Defined.

End Buffers.

(** The register writes of the set-up and the calls of the bring-up
    leave the buffers of the network stack as they are. *)
Class KeepsBuffers (D : Type) `{!Platform D} : Prop := {
  writel_buffers v a d : buffers_ok d -> buffers_ok (plat_writel v a d);
  phy_write_buffers p devad r v d :
    buffers_ok d -> buffers_ok (plat_phy_write p devad r v d);
  net_init_buffers d : buffers_ok d -> buffers_ok (plat_net_init d);
  eth_halt_buffers d : buffers_ok d -> buffers_ok (plat_eth_halt d);
  eth_set_current_buffers d : buffers_ok d -> buffers_ok (plat_eth_set_current d);
  eth_init_buffers d : buffers_ok d -> buffers_ok (plat_eth_init d).2;
}.

#[export] Instance sim_keeps_buffers : KeepsBuffers sim.
Proof. by split. Qed.

Section Defined.
Context {D : Type} `{!Platform D} `{!KeepsBuffers D} `{!RxBuffers D}.
Implicit Types (w : world D) (current : udevice) (argv : list string).

Lemma setup_dev_buffers current speed p (d : D) :
  buffers_ok d -> buffers_ok (setup_dev current speed p d).
Proof. intros Hd. by apply phy_write_buffers, writel_buffers. Qed.

Lemma eth_setup_loopback_test_buffers w bus current speed :
  plat_mdio_get_current_dev (w_dev w) = Some bus -> bus_wf bus -> buffers_ok (w_dev w) ->
  exists w1, eth_setup_loopback_test current speed w = Ok (tt, w1) /\
    buffers_ok (w_dev w1) /\ w_net_tx_packet w1 = w_net_tx_packet w.
Proof.
  intros Hbus Hwf Hd. rewrite (eth_setup_loopback_test_run w bus) by done.
  destruct (first_phy (phymap bus)) as [p|]; eexists; split_and!; try done.
  by apply setup_dev_buffers.
Qed.

(** After the bring-up the runner finds the world it needs. *)
Lemma ethernet_init_world_ok w ret w' :
  buffers_ok (w_dev w) ->
  (forall buf, w_net_tx_packet w = Some buf ->
     LOOPBACK_TEST_FRAME_SIZE <= Z.of_nat (length buf)) ->
  ethernet_init w = Ok (ret, w') -> world_ok w'.
Proof.
  intros Hd Htx. rewrite ethernet_init_run. cbn zeta.
  pose proof (net_init_buffers _ Hd) as H1. pose proof (eth_halt_buffers _ H1) as H2.
  pose proof (eth_set_current_buffers _ H2) as H3. pose proof (eth_init_buffers _ H3) as H4.
  pose proof (eth_halt_buffers _ H4) as H5.
  assert (LOOPBACK_TEST_FRAME_SIZE <=
          Z.of_nat (length (default (plat_net_pkt_buf (plat_net_init (w_dev w)))
                              (w_net_tx_packet w)))) as Hbuf.
  { destruct (w_net_tx_packet w) as [buf|]; [by apply Htx|apply H1]. }
  case_decide; intros [= <- <-]; (split; [exact Hbuf|]); [apply H5|apply H4].
Qed.

(** The two test commands are defined exactly when there is a bus. *)
Lemma eth_loopback_test_defined speed delay_test w current :
  input_ok w ->
  plat_eth_get_dev (w_dev w) = Some current -> device_active current = true ->
  if decide (is_Some (plat_mdio_get_current_dev (w_dev w)))
  then is_Ok (eth_loopback_test speed delay_test w)
  else eth_loopback_test speed delay_test w = UB.
Proof.
  intros (Hd & Htx & Hbus) Hdev Hact.
  rewrite (eth_loopback_test_eq _ _ _ current) by done. rewrite run_bind.
  destruct (plat_mdio_get_current_dev (w_dev w)) as [bus|] eqn:Hb.
  2:{ rewrite decide_False by (by intros []).
      unfold eth_setup_loopback_test. by rewrite run_bind, get_current_phydev_eq, Hb. }
  rewrite decide_True by done.
  destruct (eth_setup_loopback_test_buffers w bus current speed) as (w1 & -> & Hd1 & Htx1);
    [auto..|].
  rewrite run_bind. destruct (ethernet_init w1) as [[ret w2]| |] eqn:Hinit;
    [|by rewrite ethernet_init_run in Hinit; cbn zeta in Hinit; case_decide..].
  case_decide; [by eexists|].
  destruct (eth_run_loopback_test_returns current speed delay_test w2) as (r & w3 & ->);
    [|by eexists].
  eapply ethernet_init_world_ok; [done| |done]. by rewrite Htx1.
Qed.

Lemma board_eth_test_defined argv w :
  input_ok w -> Forall cstring argv -> Z.of_nat (length argv) <= INT_MAX ->
  (command_defined argv w -> is_Ok (board_eth_test (Z.of_nat (length argv)) argv w)) /\
  (~ command_defined argv w -> board_eth_test (Z.of_nat (length argv)) argv w = UB).
Proof.
  intros Hw Hc Hmax. unfold command_defined.
  destruct (plat_eth_get_dev (w_dev w)) as [current|] eqn:Hdev.
  2:{ split; [|done]. unfold board_eth_test.
      rewrite run_bind, run_eth_get_dev, Hdev. by eexists. }
  destruct (device_active current) eqn:Hact.
  2:{ split; [|by intros []]. unfold board_eth_test.
      rewrite run_bind, run_eth_get_dev, Hdev, Hact. by eexists. }
  rewrite (board_eth_test_route _ _ current) by done.
  destruct (route_of argv) as [| |speed|tx rx|]; cbn [run_route].
  - pose proof (eth_loopback_test_defined 1000 1 w current Hw Hdev Hact) as Ht.
    case_decide; split; tauto.
  - split; [by eexists|tauto].
  - pose proof (eth_loopback_test_defined speed 0 w current Hw Hdev Hact) as Ht.
    case_decide; split; tauto.
  - split; [by eexists|tauto].
  - rewrite dhcp_fallback_run by done. cbn zeta.
    repeat case_decide; split; try tauto; by eexists.
Qed.

(** C13. The command is defined exactly for the command lines of
    [command_defined].  On a platform that keeps its buffers and hands
    out whole receive buffers, from a world with those buffers and with
    arguments that are C strings: without an active device, for [help]
    and for [delayline] the command always returns; [delaytest] and
    [loopback] return exactly when there is a current MDIO bus, and
    dereference NULL otherwise; every other command line returns exactly
    when its arguments, joined by spaces, fit the 512 bytes of
    [cmd_eth], and overflows the array otherwise.  No other undefined
    behaviour is left, and the fuel is never the reason. *)
Theorem board_eth_test_defined_iff argv w :
  input_ok w -> Forall cstring argv -> Z.of_nat (length argv) <= INT_MAX ->
  if decide (command_defined argv w)
  then is_Ok (board_eth_test (Z.of_nat (length argv)) argv w)
  else board_eth_test (Z.of_nat (length argv)) argv w = UB.
Proof.
  intros Hw Hc Hmax. destruct (board_eth_test_defined argv w Hw Hc Hmax) as [Hok Hub].
  case_decide; auto.
Qed.

End Defined.

(** ** On the simulated board *)

Lemma board_eth_test_defined_iff_witness :
  if decide (command_defined ["rktest"; "eth"; "loopback"; "100"] board_world)
  then is_Ok (board_eth_test 4 ["rktest"; "eth"; "loopback"; "100"] board_world)
  else board_eth_test 4 ["rktest"; "eth"; "loopback"; "100"] board_world = UB.
Proof.
  apply (board_eth_test_defined_iff ["rktest"; "eth"; "loopback"; "100"] board_world).
  - split; [by vm_compute|]. split; [done|]. intros bus [= <-]. by vm_compute.
  - by repeat constructor.
  - by vm_compute.
Defined.

(** With the bus the command line of the witness is defined, without it
    it is not. *)
Example loopback_with_and_without_bus :
  command_defined ["rktest"; "eth"; "loopback"; "100"] board_world /\
  board_eth_test 4 ["rktest"; "eth"; "loopback"; "100"] (World board_no_bus [] None) = UB.
Proof. split; [vm_compute; intros _; by eexists|vm_compute; reflexivity]. Qed.
