(* ===== verification/Typing.v ===== *)
(** * Every call is well typed

    The diagnostic passes values to its collaborators through parameters
    of the C types [u32], [u16], [int], [unsigned long] and through
    arrays of a fixed size.  [event_wf] says of one external call that
    its arguments and its result fit those types; a world is well typed
    when every event of its trace is.  This is the monitor [wf_step] of
    one state that accepts the well-typed calls, so the typing rules are
    the rules of [Monitor] at that monitor.  The theorems state that each
    function of [src/test/rockchip/test-eth.c], from the register set-up
    to the command [board_eth_test], keeps the world well typed and
    returns an [int], on every platform and for every input: the
    invariant of the loop-carried variables [ret] and [success] is part
    of it. *)

From Stdlib Require Import ZArith Lia Strings.Byte Strings.Ascii Strings.String.
From stdpp Require Import base option list strings.
From S2P Require Import Prelude Cstring Frame Regs Hw Sim Logic Monitor Setup Runner Cli.

#[local] Open Scope Z_scope.

(** What the parameter types allow. *)
Definition event_wf (e : event) : Prop :=
  match e with
  | EvPrintf _ | EvNetInit | EvEthHalt | EvEthSetCurrent => True
  | EvUdelay usec => in_u32 usec
  | EvReadl _ val => in_u32 val
  | EvWritel val _ => in_u32 val
  | EvPhyRead _ _ _ val => in_s32 val
  | EvPhyWrite _ _ _ val => 0 <= val < 2 ^ 16
  | EvSetRgmii tx_delay rx_delay => in_u32 tx_delay /\ in_u32 rx_delay
  | EvSend pkt => Z.of_nat (length pkt) = LOOPBACK_TEST_FRAME_SIZE
  | EvRecv length => in_s32 length
  | EvFreePkt length => 0 <= length < 2 ^ 31
  | EvEthInit ret => in_s32 ret
  | EvRunCommand cmd ret => Z.of_nat (String.length cmd) < CMD_ETH_SIZE /\ in_s32 ret
  end.

#[export] Instance event_wf_dec e : Decision (event_wf e).
Proof. destruct e; cbn; unfold in_u32, in_s32; apply _. Defined.

(** The loop-carried variables of the runner: [ret], once assigned, is
    an [int], and [success] counts within the range of [int]. *)
Definition lb_state_wf (st : lb_state) : Prop :=
  (forall ret, lb_ret st = Some ret -> in_s32 ret) /\ 0 <= lb_success st <= INT_MAX.

(** The check of one call, as a monitor without state. *)
Definition wf_step (_ : unit) (e : event) : option unit :=
  if decide (event_wf e) then Some tt else None.

Section Typing.
Context {D : Type} `{!Platform D}.
Implicit Types (w : world D) (current : udevice).

Definition world_wf w : Prop := Forall event_wf (w_trace w).

(** [typed m Q]: [m] keeps the world well typed and returns a value in
    [Q]. *)
Definition typed {A} (m : M D A) (Q : A -> Prop) : Prop :=
  obeys wf_step tt tt m (fun a _ => Q a).

(** A world is well typed when the monitor accepts its trace. *)
Lemma tracks_world_wf w s : tracks wf_step tt s w <-> world_wf w.
Proof.
  unfold tracks, world_wf. destruct s. induction (w_trace w) as [|e tr IH].
  { split; [by constructor|done]. }
  rewrite state_after_cons, Forall_cons. unfold wf_step at 1.
  destruct (state_after wf_step tt tr) as [[]|]; cbn [mbind option_bind];
    [case_decide|]; split; try done; try tauto; intros [He Htr]; tauto.
Qed.

Lemma typed_triple {A} (m : M D A) (Q : A -> Prop) :
  typed m Q <-> triple world_wf m (fun a w' => world_wf w' /\ Q a).
Proof.
  split; intros Hm w a w' Hw Hrun.
  - destruct (Hm w a w') as (s' & Hw' & Ha); [by apply tracks_world_wf|done|].
    split; [by eapply tracks_world_wf|done].
  - destruct (Hm w a w') as [Hw' Ha]; [by eapply tracks_world_wf|done|].
    exists tt. split; [by apply tracks_world_wf|done].
Qed.

(** ** Rules *)

Lemma typed_ret {A} (a : A) (Q : A -> Prop) : Q a -> typed (mret a) Q.
Proof. intros HQ. by apply obeys_ret. Qed.

Lemma typed_bind {A B} (m : M D A) (f : A -> M D B) (Qm : A -> Prop) (Q : B -> Prop) :
  typed m Qm -> (forall a, Qm a -> typed (f a) Q) -> typed (m ≫= f) Q.
Proof. intros Hm Hf. eapply obeys_bind; [exact Hm|]. intros a [] Ha. by apply Hf. Qed.

Lemma typed_mono {A} (m : M D A) (Q Q' : A -> Prop) :
  typed m Q -> (forall a, Q a -> Q' a) -> typed m Q'.
Proof. intros Hm HQ. eapply obeys_mono; [exact Hm|]. intros a ?. apply HQ. Qed.

Lemma typed_lift_res {A} (r : res A) (Q : A -> Prop) :
  (forall a, r = Ok a -> Q a) -> typed (lift_res r) Q.
Proof. intros HQ. by apply obeys_lift_res. Qed.

Lemma typed_emit e f : event_wf e -> typed (emit e f) (fun _ => True).
Proof. intros He. apply (obeys_emit _ _ _ tt); [|done]. unfold wf_step. by rewrite decide_True. Qed.

Lemma typed_if {A} (C : Prop) `{!Decision C} (m1 m2 : M D A) (Q : A -> Prop) :
  (C -> typed m1 Q) -> (~ C -> typed m2 Q) -> typed (if decide C then m1 else m2) Q.
Proof. apply obeys_if. Qed.

(** A computation that only reads the world. *)
Lemma typed_read {A} (m : M D A) (g : world D -> A) (Q : A -> Prop) :
  (forall w, m w = Ok (g w, w)) -> (forall w, Q (g w)) -> typed m Q.
Proof. intros Hm HQ. apply obeys_silent. intros w a w'. rewrite Hm. by intros [= <- <-]. Qed.

(** A computation that logs one well-typed event and returns in [Q]. *)
Lemma typed_call {A} (m : M D A) (g : world D -> A) (e : world D -> event)
    (d' : world D -> D) (Q : A -> Prop) :
  (forall w, m w = Ok (g w, World (d' w) (e w :: w_trace w) (w_net_tx_packet w))) ->
  (forall w, event_wf (e w) /\ Q (g w)) -> typed m Q.
Proof.
  intros Hm HQ. apply obeys_call. intros w a w'. rewrite Hm. intros [= <- <-].
  exists (e w), tt. destruct (HQ w) as [He Ha]. unfold wf_step. by rewrite decide_True.
Qed.

Lemma typed_for_u32 {St R} (Inv : St -> Prop) (Qr : R -> Prop) fuel bound
    (body : Z -> St -> M D (St + R)) i s :
  (forall i s, Inv s ->
     typed (body i s) (fun x => match x with inl s' => Inv s' | inr r => Qr r end)) ->
  Inv s ->
  typed (for_u32 fuel bound body i s)
    (fun x => match x with inl s' => Inv s' | inr r => Qr r end).
Proof.
  intros Hbody HI. eapply obeys_mono.
  - apply (obeys_for_u32 _ _ (fun st _ => Inv st) (fun r _ => Qr r)); [|done].
    intros i1 st1 [] Hst. eapply obeys_mono; [by apply Hbody|]. by intros [?|?] ?.
  - by intros [?|?] ?.
Qed.

(** ** The external calls *)

Lemma typed_printf s : typed (printf s) (fun _ => True).
Proof. by apply typed_emit. Qed.

Lemma typed_udelay usec : in_u32 usec -> typed (udelay usec) (fun _ => True).
Proof. intros Hu. by apply typed_emit. Qed.

Lemma typed_readl addr : typed (readl addr) in_u32.
Proof.
  eapply (typed_call _ _ (fun w => EvReadl addr _) w_dev); [apply run_readl|].
  intros w. split; apply u32_range.
Qed.

Lemma typed_writel val addr : typed (writel val addr) (fun _ => True).
Proof. apply typed_emit. cbn. apply u32_range. Qed.

Lemma typed_phy_read phydev devad regnum : typed (phy_read phydev devad regnum) in_s32.
Proof.
  eapply (typed_call _ _ (fun w => EvPhyRead _ devad regnum _) w_dev); [apply run_phy_read|].
  intros w. split; apply s32_range.
Qed.

Lemma typed_phy_write phydev devad regnum val :
  typed (phy_write phydev devad regnum val) (fun _ => True).
Proof. apply typed_emit. cbn. apply u16_range. Qed.

Lemma typed_gmac_set_rgmii current tx_delay rx_delay :
  typed (gmac_set_rgmii current tx_delay rx_delay) (fun _ => True).
Proof. apply typed_emit. cbn. split; apply u32_range. Qed.

Lemma typed_eth_recv current flags :
  typed (eth_recv current flags) (fun r => in_s32 r.1).
Proof.
  eapply (typed_call _ _ (fun w => EvRecv _) (fun w => (plat_recv current flags (w_dev w)).2));
    [apply run_eth_recv|].
  intros w. split; apply s32_range.
Qed.

Lemma typed_eth_init : typed eth_init in_s32.
Proof.
  eapply (typed_call _ _ (fun w => EvEthInit _) (fun w => (plat_eth_init (w_dev w)).2));
    [apply run_eth_init|].
  intros w. split; apply s32_range.
Qed.

Lemma typed_cli_simple_run_command cmd flag :
  Z.of_nat (String.length cmd) < CMD_ETH_SIZE ->
  typed (cli_simple_run_command cmd flag) in_s32.
Proof.
  intros Hcmd.
  eapply (typed_call _ _ (fun w => EvRunCommand cmd _)
            (fun w => (plat_run_command cmd flag (w_dev w)).2));
    [apply run_cli_simple_run_command|].
  intros w. split; [split; [done|]|]; apply s32_range.
Qed.

Lemma typed_net_init : typed net_init (fun _ => True).
Proof. apply obeys_call. intros w [] w' [= <-]. by exists EvNetInit, tt. Qed.

Lemma typed_net_send_packet :
  typed (net_send_packet LOOPBACK_TEST_FRAME_SIZE) (fun _ => True).
Proof.
  unfold net_send_packet. eapply typed_bind; [by apply (typed_read _ w_net_tx_packet
    (fun _ => True))|].
  intros [buf|] _; [|by apply typed_lift_res].
  apply typed_if; [|intros _; by apply typed_lift_res].
  intros Hb. apply typed_emit. cbn. rewrite length_take.
  unfold in_bounds, LOOPBACK_TEST_FRAME_SIZE in *. lia.
Qed.

Lemma typed_with_tx_packet f : typed (with_tx_packet f) (fun _ => True).
Proof.
  unfold with_tx_packet. eapply typed_bind; [by apply (typed_read _ w_net_tx_packet
    (fun _ => True))|].
  intros [buf|] _; [|by apply typed_lift_res].
  eapply typed_bind; [by apply (typed_lift_res _ (fun _ => True))|].
  intros buf' _. apply obeys_silent. by intros w [] w' [= <-].
Qed.

Lemma typed_net_set_ether dest prot : typed (net_set_ether dest prot) in_s32.
Proof.
  unfold net_set_ether. eapply typed_bind; [by apply (typed_read _ w_dev (fun _ => True))|].
  intros d _. eapply typed_bind; [apply typed_with_tx_packet|].
  intros ? _. apply typed_ret. by vm_compute.
Qed.

Lemma typed_eth_halt : typed eth_halt (fun _ => True).
Proof. by apply typed_emit. Qed.

Lemma typed_eth_set_current : typed eth_set_current (fun _ => True).
Proof. by apply typed_emit. Qed.

Lemma typed_eth_get_dev : typed eth_get_dev (fun _ => True).
Proof. by apply (typed_read _ (fun w => plat_eth_get_dev (w_dev w))). Qed.

Lemma typed_mdio_get_current_dev : typed mdio_get_current_dev (fun _ => True).
Proof. by apply (typed_read _ (fun w => plat_mdio_get_current_dev (w_dev w))). Qed.

Lemma typed_get_net_tx_packet : typed get_net_tx_packet (fun _ => True).
Proof. by apply (typed_read _ w_net_tx_packet). Qed.

Lemma typed_eth_free_pkt free current rx_packet length :
  0 <= length < 2 ^ 31 -> typed (eth_free_pkt free current rx_packet length) (fun _ => True).
Proof. intros Hl. by apply typed_emit. Qed.

End Typing.

Create HintDb typed discriminated.

#[export] Hint Resolve typed_printf typed_readl typed_writel typed_phy_read
  typed_phy_write typed_gmac_set_rgmii typed_eth_recv typed_eth_init typed_net_init
  typed_net_send_packet typed_with_tx_packet typed_net_set_ether typed_eth_halt
  typed_eth_set_current typed_eth_get_dev typed_mdio_get_current_dev
  typed_get_net_tx_packet : typed.

(** One step through a bind whose first computation is an external call
    or a function already shown to be typed. *)
Ltac typed_step :=
  eapply typed_bind; [solve [eauto with typed]|]; intros ? ?.

Tactic Notation "typed_step" "as" simple_intropattern(x) :=
  eapply typed_bind; [solve [eauto with typed]|]; intros x ?.

(** One step through a bind of a pure computation whose value needs no
    property. *)
Ltac typed_pure :=
  eapply typed_bind; [apply (typed_lift_res _ (fun _ => True)); intros; exact I|];
  intros ? _.

(** ** The functions of the diagnostic *)

Lemma settle_delay_range speed : in_u32 (settle_delay speed).
Proof. unfold settle_delay. by repeat case_decide. Qed.

Lemma strncat_fits size dest src n s :
  strncat size dest src n = Ok s -> Z.of_nat (String.length s) < size.
Proof.
  unfold strncat. case_decide as Hfit; [|done]. intros [= <-].
  rewrite length_append. lia.
Qed.

Lemma cat_args_fits fuel argc argv i cmd_eth s :
  Z.of_nat (String.length cmd_eth) < CMD_ETH_SIZE ->
  cat_args fuel argc argv i cmd_eth = Ok s -> Z.of_nat (String.length s) < CMD_ETH_SIZE.
Proof.
  revert i cmd_eth. induction fuel as [|fuel IH]; intros i cmd_eth Hc; [done|].
  cbn [cat_args]. case_decide; [|by intros [= <-]].
  destruct (arg argv i) as [a| |]; [|done..]. cbn [mbind res_bind].
  destruct (strncat CMD_ETH_SIZE cmd_eth a CMD_ETH_SIZE) as [c1| |] eqn:H1; [|done..].
  cbn [mbind res_bind]. apply strncat_fits in H1.
  destruct (decide (i < argc - 1)); cbn [mbind res_bind].
  - destruct (strncat CMD_ETH_SIZE c1 " " (sizeof " ")) as [c2| |] eqn:H2; [|done..].
    cbn [mbind res_bind]. apply strncat_fits in H2. case_decide; [|done]. by apply IH.
  - case_decide; [|done]. by apply IH.
Qed.

Section Functions.
Context {D : Type} `{!Platform D}.
Implicit Types (current : udevice) (st : lb_state).

Lemma typed_eth_setup_loopback_test current speed :
  typed (eth_setup_loopback_test current speed) (fun _ => True).
Proof.
  unfold eth_setup_loopback_test, get_current_phydev.
  eapply typed_bind.
  { typed_step as [bus|]; by apply (typed_lift_res _ (fun _ => True)). }
  intros [phydev|] _; [|apply typed_printf].
  do 3 typed_step. apply typed_phy_write.
Qed.

Lemma typed_ethernet_init : typed ethernet_init in_s32.
Proof.
  unfold ethernet_init. do 3 typed_step.
  eapply typed_bind; [apply typed_eth_init|]. intros ret Hret.
  apply typed_if; intros _; [typed_step|]; by apply typed_ret.
Qed.

Lemma typed_lb_transmit current speed delay_test i j :
  typed (lb_transmit current speed delay_test i j) (fun _ => True).
Proof.
  unfold lb_transmit.
  eapply typed_bind;
    [apply (typed_if _ _ _ (fun _ => True)); intros; [eauto with typed|by apply typed_ret]|].
  intros ? _. do 2 typed_step. apply typed_udelay, settle_delay_range.
Qed.

Lemma typed_lb_classify length rx_packet st :
  in_s32 length -> lb_state_wf st ->
  typed (lb_classify (D := D) length rx_packet st) lb_state_wf.
Proof.
  intros Hl [Hret Hs]. unfold lb_classify.
  assert (forall ret, in_s32 ret -> lb_state_wf (LbState (Some ret) (lb_success st))) as Hst.
  { intros ret Hr. split; [by intros ? [= <-]|done]. }
  apply typed_if; intros Hpos;
    [|apply typed_if; intros Hz; typed_step; apply typed_ret, Hst;
      first [exact Hl | by vm_compute]].
  typed_step. do 2 typed_pure.
  apply typed_if; intros Hc; typed_step; [|apply typed_ret, Hst; by vm_compute].
  apply typed_if; intros Hfit; [|by apply typed_lift_res].
  apply typed_ret. split; [by intros ? [= <-]|]. cbn. unfold INT_MAX in *. lia.
Qed.

Lemma typed_lb_release current rx_packet length :
  in_s32 length -> typed (lb_release current rx_packet length) (fun _ => True).
Proof.
  intros Hl. unfold lb_release. apply typed_if; intros; [|by apply typed_ret].
  destruct plat_free_pkt; [|by apply typed_ret].
  apply typed_eth_free_pkt. unfold in_s32 in Hl. lia.
Qed.

Lemma typed_lb_iteration current speed delay_test i j st :
  lb_state_wf st ->
  typed (lb_iteration current speed delay_test i j st)
    (fun x => match x with inl st' => lb_state_wf st' | inr ret => in_s32 ret end).
Proof.
  intros Hst. unfold lb_iteration.
  eapply typed_bind; [apply typed_lb_transmit|]. intros ? _.
  eapply typed_bind; [apply typed_eth_recv|]. intros [length rx_packet] Hl.
  eapply typed_bind; [by apply typed_lb_classify|]. intros st' Hst'.
  eapply typed_bind; [by apply typed_lb_release|]. intros ? _.
  apply typed_if; intros; [|by apply typed_ret].
  typed_step. eapply typed_bind;
    [apply (typed_lift_res _ in_s32)|intros ret Hret; by apply typed_ret].
  intros ret Hret. apply Hst'. by apply of_option_Ok.
Qed.

Lemma typed_lb_row current speed delay_test i st :
  lb_state_wf st ->
  typed (lb_row current speed delay_test i st)
    (fun x => match x with inl st' => lb_state_wf st' | inr ret => in_s32 ret end).
Proof.
  intros Hst. unfold lb_row.
  eapply typed_bind;
    [apply (typed_if _ _ _ (fun _ => True)); intros; [eauto with typed|by apply typed_ret]|].
  intros ? _. eapply typed_bind.
  { apply (typed_for_u32 lb_state_wf in_s32); [|done].
    intros. by apply typed_lb_iteration. }
  intros [st'|ret] Hx; [typed_step|]; by apply typed_ret.
Qed.

Lemma typed_eth_run_loopback_test current speed delay_test :
  typed (eth_run_loopback_test current speed delay_test) in_s32.
Proof.
  unfold eth_run_loopback_test. typed_step as [buf|]; [|by apply typed_ret].
  do 2 typed_step.
  eapply typed_bind; [by apply typed_udelay|]. intros ? _.
  eapply typed_bind.
  { apply (typed_for_u32 lb_state_wf in_s32).
    - intros. by apply typed_lb_row.
    - split; [done|]. by cbn. }
  intros [st|ret] Hx; [|by apply typed_ret].
  apply typed_lift_res. intros ret. case_decide; [by intros [= <-]|].
  intros Hret. apply Hx. by apply of_option_Ok.
Qed.

Lemma typed_eth_loopback_test speed delay_test :
  typed (eth_loopback_test speed delay_test) in_s32.
Proof.
  unfold eth_loopback_test. typed_step as [current|]; [|by apply typed_ret].
  destruct (device_active current); cbn [negb]; [|by apply typed_ret].
  eapply typed_bind; [apply typed_eth_setup_loopback_test|]. intros ? _.
  eapply typed_bind; [apply typed_ethernet_init|]. intros ret Hret.
  apply typed_if; intros; [typed_step; by apply typed_ret|].
  apply typed_eth_run_loopback_test.
Qed.

Lemma typed_do_eth_help : typed (do_eth_help (D := D)) (fun _ => True).
Proof. unfold do_eth_help. do 4 typed_step. apply typed_printf. Qed.

Lemma typed_dhcp_fallback argc argv : typed (dhcp_fallback argc argv) in_s32.
Proof.
  unfold dhcp_fallback.
  eapply typed_bind;
    [apply (typed_lift_res _ (fun s => Z.of_nat (String.length s) < CMD_ETH_SIZE))|].
  { intros s. by apply cat_args_fits. }
  intros cmd_eth Hc. eapply typed_bind; [by apply typed_cli_simple_run_command|].
  intros ret Hret. apply typed_if; intros; [typed_step|]; by apply typed_ret.
Qed.

Lemma typed_board_eth_test argc argv : typed (board_eth_test argc argv) in_s32.
Proof.
  unfold board_eth_test. typed_step as [current|]; [|by apply typed_ret].
  destruct (device_active current); cbn [negb]; [|by apply typed_ret].
  apply typed_if; intros H3; [|apply typed_if; intros H4; [|apply typed_if; intros H5]];
    try apply typed_dhcp_fallback; typed_pure;
    (apply typed_if; intros Hkw; [|try apply typed_dhcp_fallback]).
  - apply typed_eth_loopback_test.
  - apply typed_if; intros Hh; [|apply typed_dhcp_fallback].
    eapply typed_bind; [apply typed_do_eth_help|]. intros ? _. by apply typed_ret.
  - typed_pure. apply typed_eth_loopback_test.
  - do 2 typed_pure. typed_step. by apply typed_ret.
Qed.

(** The loop-carried variables stay within their types: from a
    well-typed world and with [ret] an [int] where assigned and
    [success] within [0, INT_MAX], a pass of the loop body that goes on
    leaves them so, and one that returns, returns an [int]; the world
    stays well typed. *)
Theorem lb_iteration_well_typed current speed delay_test i j st w x w' :
  world_wf w -> lb_state_wf st ->
  lb_iteration current speed delay_test i j st w = Ok (x, w') ->
  world_wf w' /\
  match x with inl st' => lb_state_wf st' | inr ret => in_s32 ret end.
Proof.
  intros Hw Hst Hrun.
  exact (proj1 (typed_triple _ _) (typed_lb_iteration current speed delay_test i j st Hst)
           w x w' Hw Hrun).
Qed.

(** C12. Type safety of the command: from a well-typed world, whatever
    the arguments and the platform, a run of [board_eth_test] that
    returns leaves a well-typed world, where every register value, delay,
    length and result it passed or received fits its C type, every frame
    sent has 1514 bytes and every command run fits [cmd_eth], and it
    returns an [int]. *)
Theorem board_eth_test_well_typed argc argv w ret w' :
  world_wf w -> board_eth_test argc argv w = Ok (ret, w') ->
  world_wf w' /\ in_s32 ret.
Proof.
  intros Hw Hrun.
  exact (proj1 (typed_triple _ _) (typed_board_eth_test argc argv) w ret w' Hw Hrun).
Qed.

End Functions.

(** ** On the simulated board *)

Lemma lb_iteration_well_typed_witness :
  exists x w',
    lb_iteration board_dev 1000 1 0x26 0x28 (LbState None 0) (ready_world board_looped) =
      Ok (x, w') /\
    world_wf w' /\
    match x with inl st' => lb_state_wf st' | inr ret => in_s32 ret end.
Proof.
  eexists _, _. split; [vm_compute; reflexivity|].
  apply (lb_iteration_well_typed board_dev 1000 1 0x26 0x28 (LbState None 0)
           (ready_world board_looped));
    [constructor | by split | vm_compute; reflexivity].
Defined.

Lemma board_eth_test_well_typed_witness :
  world_wf (World (plat_gmac_set_rgmii board_dev 0x10 0x20 board)
              [EvSetRgmii 0x10 0x20] None) /\
  in_s32 0.
Proof.
  apply (board_eth_test_well_typed 5 ["rktest"; "eth"; "delayline"; "0x10"; "0x20"]
           board_world); [constructor | by vm_compute].
Defined.
