(* ===== verification/Session.v ===== *)
(** * One command after another

    [rktest eth] is typed at the prompt again and again, and the hardware
    is not reset in between: a command starts in the world the one
    before it left.  [run_session] runs a list of command lines through
    [board_eth_test] ([src/test/rockchip/test-eth.c], lines 251-309), each
    to its end before the next, and collects the exit codes.

    The theorems of the single command were stated so that what a
    command needs of the world is what it leaves: a well-typed trace, and
    a link between two probes.  Here they are carried over whole
    sessions by induction on the list.  What a test leaves in the
    registers (see [Footprint]) is what the next test reads: two tests
    in a row compose the two register computations, so that a test at 10
    Mbit/s after a test at 100 runs with the MAC at 100 and the PHY at
    10, and a test that is repeated programs what it programmed
    before.

    A command also leaves what the next one needs to be defined: the
    buffers of the network stack, the transmit buffer once it is
    allocated, and the answers of the device and bus look-ups (law
    classes [SteadyBuffers] here and [QuietLookups] of [Footprint]).
    So a session is defined exactly when each of its commands is defined
    in the world the session starts in ([session_defined_iff]). *)

From Stdlib Require Import ZArith Lia Strings.Byte Strings.Ascii Strings.String.
From stdpp Require Import base option list strings.
From S2P Require Import Prelude Cstring Frame Regs Hw Sim Logic Monitor Setup Runner Cli Machine Footprint Protocol Safety Typing.

#[local] Open Scope Z_scope.

(** The buffers of the network stack are never taken away: no call
    breaks [buffers_ok]. *)
Class SteadyBuffers (D : Type) `{!Platform D} : Prop :=
  steady_buffers c : stable (buffers_ok (D := D)) c.

Section Session.
Context {D : Type} `{!Platform D}.
Implicit Types (w : world D) (cmds : list (list string)) (current : udevice).

(** The command lines of a session, in the order they are typed. *)
Fixpoint run_session cmds : M D (list Z) :=
  match cmds with
  | [] => mret []
  | argv :: cmds =>
      ret ← board_eth_test (Z.of_nat (length argv)) argv;
      rets ← run_session cmds;
      mret (ret :: rets)
  end.

(** The registers after two tests in a row, from what they held before
    the first. *)
Definition twice_conf (speed1 speed2 duplex conf : Z) : Z :=
  mac_conf_for speed2 duplex (mac_conf_for speed1 duplex (u32 conf)).

Definition twice_bmcr (speed1 speed2 val : Z) : Z :=
  u16 (bmcr_for speed2 (u16 (bmcr_for speed1 (s32 val)))).

(** ** The register values of two tests *)

Lemma bmcr_speed_u16 val : bmcr_speed (u16 val) = bmcr_speed val.
Proof. unfold bmcr_speed, u16. by rewrite !wrap_testbit. Qed.

Lemma twice_conf_same speed duplex conf :
  twice_conf speed speed duplex conf = mac_conf_for speed duplex (u32 conf).
Proof. apply setup_values_idempotent, 0. Qed.

Lemma twice_bmcr_same speed val :
  twice_bmcr speed speed val = u16 (bmcr_for speed (s32 val)).
Proof.
  unfold twice_bmcr, u16. apply Z.bits_inj'. intros i Hi.
  repeat rewrite ?wrap_testbit, ?bmcr_for_testbit by lia.
  destruct (i <? 16) eqn:Hlt; [|done]. repeat case_decide; subst; try done; lia.
Qed.

Lemma twice_conf_stale duplex conf :
  mac_speed (twice_conf LOOPBACK_SPEED_100 LOOPBACK_SPEED_10 duplex conf) = LOOPBACK_SPEED_100.
Proof.
  unfold twice_conf. rewrite mac_speed_mac_conf_for, mac_conf_for_testbit.
  repeat case_decide; try done. by rewrite bool_decide_eq_true_2, orb_true_r by done.
Qed.

Lemma twice_bmcr_speed speed1 speed2 val :
  known_speed speed2 -> bmcr_speed (twice_bmcr speed1 speed2 val) = Some speed2.
Proof.
  intros Hk. unfold twice_bmcr. by rewrite bmcr_speed_u16, bmcr_speed_bmcr_for, decide_True.
Qed.

(** ** Sessions and monitors *)


(** No session runs out of fuel. *)
Lemma run_session_terminates cmds w : terminates (run_session cmds w).
Proof.
  revert w. induction cmds as [|argv cmds IH]; intros w; [done|]. cbn [run_session].
  apply run_bind_terminates; [apply board_eth_test_halts|]. intros ret w1 _.
  apply run_bind_terminates; [apply IH|]. by intros rets w2 _.
Qed.



(** ** Two tests in a row *)

Section Registers.
Context `{!RegisterFile D} `{!QuietRegisters D}.

(** No call changes the current device or the current bus. *)
Lemma eth_loopback_test_lookups speed delay_test w ret w' :
  eth_loopback_test speed delay_test w = Ok (ret, w') ->
  plat_eth_get_dev (w_dev w') = plat_eth_get_dev (w_dev w) /\
  plat_mdio_get_current_dev (w_dev w') = plat_mdio_get_current_dev (w_dev w).
Proof.
  intros Hrun.
  pose proof (confined_eth_loopback_test (D := D) speed delay_test) as Hm.
  split.
  - apply (confined_keeps _ _ (fun d => plat_eth_get_dev d = plat_eth_get_dev (w_dev w))
             w ret w' Hm); [|done..]. intros c _. apply quiet_eth_get_dev.
  - apply (confined_keeps _ _
             (fun d => plat_mdio_get_current_dev d = plat_mdio_get_current_dev (w_dev w))
             w ret w' Hm); [|done..]. intros c _. apply quiet_mdio_get_current_dev.
Qed.

(** The BMCR is read after the MAC was written, and reads what it held
    before. *)
Lemma setup_bmcr_eq current speed p (d : D) :
  setup_bmcr current speed p d =
    u16 (bmcr_for speed (s32 (plat_phy_read p MDIO_DEVAD_NONE MII_BMCR d))).
Proof. unfold setup_bmcr, setup_bmcr_read, setup_dev_mac. by rewrite phy_read_writel. Qed.

Lemma two_tests_registers speed1 speed2 dt1 dt2 w current bus p r1 w1 r2 w2 :
  plat_eth_get_dev (w_dev w) = Some current -> device_active current = true ->
  plat_mdio_get_current_dev (w_dev w) = Some bus -> bus_wf bus ->
  first_phy (phymap bus) = Some p ->
  eth_loopback_test speed1 dt1 w = Ok (r1, w1) ->
  eth_loopback_test speed2 dt2 w1 = Ok (r2, w2) ->
  plat_readl (pdata_iobase current) (w_dev w2) =
    twice_conf speed1 speed2 (phy_duplex p) (plat_readl (pdata_iobase current) (w_dev w)) /\
  plat_phy_read p MDIO_DEVAD_NONE MII_BMCR (w_dev w2) =
    twice_bmcr speed1 speed2 (plat_phy_read p MDIO_DEVAD_NONE MII_BMCR (w_dev w)).
Proof.
  intros Hd Ha Hbus Hwf Hp Hrun1 Hrun2.
  destruct (eth_loopback_test_lookups _ _ _ _ _ Hrun1) as [Hd1 Hbus1].
  rewrite Hd in Hd1. rewrite Hbus in Hbus1.
  destruct (eth_loopback_test_registers _ _ _ _ _ _ _ _ Hd Ha Hbus Hwf Hp Hrun1)
    as [Hb1 Hm1].
  destruct (eth_loopback_test_registers _ _ _ _ _ _ _ _ Hd1 Ha Hbus1 Hwf Hp Hrun2)
    as [Hb2 Hm2].
  rewrite Hb2, Hm2, setup_bmcr_eq, Hb1, setup_bmcr_eq. unfold setup_conf. rewrite Hm1.
  unfold setup_conf, twice_conf, twice_bmcr. split.
  - by rewrite (u32_small (mac_conf_for _ _ _)) by apply mac_conf_for_range.
  - by rewrite (s32_small (u16 _)) by (unfold in_s32, u16, wrap; wrap_solve).
Qed.

(** C33. The stale speed, on the hardware.  On a platform whose
    registers are plain storage that only register writes change: after
    a test at 100 Mbit/s and then a test at 10 Mbit/s, with anything but
    register writes in between, the MAC configuration register selects
    100 Mbit/s and the BMCR of the PHY 10 Mbit/s.  The second test runs
    on a link whose two ends disagree. *)
Theorem test_at_10_after_100 dt1 dt2 w current bus p r1 w1 r2 w2 :
  plat_eth_get_dev (w_dev w) = Some current -> device_active current = true ->
  plat_mdio_get_current_dev (w_dev w) = Some bus -> bus_wf bus ->
  first_phy (phymap bus) = Some p ->
  eth_loopback_test LOOPBACK_SPEED_100 dt1 w = Ok (r1, w1) ->
  eth_loopback_test LOOPBACK_SPEED_10 dt2 w1 = Ok (r2, w2) ->
  mac_speed (plat_readl (pdata_iobase current) (w_dev w2)) = LOOPBACK_SPEED_100 /\
  bmcr_speed (plat_phy_read p MDIO_DEVAD_NONE MII_BMCR (w_dev w2)) = Some LOOPBACK_SPEED_10.
Proof.
  intros Hd Ha Hbus Hwf Hp Hrun1 Hrun2.
  destruct (two_tests_registers _ _ _ _ _ _ _ _ _ _ _ _ Hd Ha Hbus Hwf Hp Hrun1 Hrun2)
    as [-> ->].
  split; [apply twice_conf_stale|apply twice_bmcr_speed]. by left.
Qed.

(** A test that is repeated programs what it programmed before: on
    such a platform, after two tests at the same speed the MAC
    configuration register and the BMCR hold what they held after the
    first. *)
Theorem repeated_test_same_registers speed dt1 dt2 w current bus p r1 w1 r2 w2 :
  plat_eth_get_dev (w_dev w) = Some current -> device_active current = true ->
  plat_mdio_get_current_dev (w_dev w) = Some bus -> bus_wf bus ->
  first_phy (phymap bus) = Some p ->
  eth_loopback_test speed dt1 w = Ok (r1, w1) ->
  eth_loopback_test speed dt2 w1 = Ok (r2, w2) ->
  plat_readl (pdata_iobase current) (w_dev w2) =
    plat_readl (pdata_iobase current) (w_dev w1) /\
  plat_phy_read p MDIO_DEVAD_NONE MII_BMCR (w_dev w2) =
    plat_phy_read p MDIO_DEVAD_NONE MII_BMCR (w_dev w1).
Proof.
  intros Hd Ha Hbus Hwf Hp Hrun1 Hrun2.
  destruct (two_tests_registers _ _ _ _ _ _ _ _ _ _ _ _ Hd Ha Hbus Hwf Hp Hrun1 Hrun2)
    as [-> ->].
  destruct (eth_loopback_test_registers _ _ _ _ _ _ _ _ Hd Ha Hbus Hwf Hp Hrun1)
    as [-> ->].
  by rewrite twice_conf_same, twice_bmcr_same, setup_bmcr_eq.
Qed.

End Registers.

(** ** Sessions that are defined *)

Section Defined.
Context `{!SteadyBuffers D} `{!QuietLookups D} `{!RxBuffers D}.

#[export] Instance steady_keeps_buffers : KeepsBuffers D.
Proof.
  split; intros.
  - by apply (steady_buffers CWritel).
  - by apply (steady_buffers CPhyWrite).
  - by apply (steady_buffers CNetInit).
  - by apply (steady_buffers CEthHalt).
  - by apply (steady_buffers CEthSetCurrent).
  - by apply (steady_buffers CEthInit).
Qed.

Lemma guards_buffers cs :
  guards (D := D) cs buffers_ok (Z.to_nat LOOPBACK_TEST_FRAME_SIZE).
Proof. split; [intros c _; apply steady_buffers|]. intros d [Hlen _]. lia. Qed.

(** What a command needs of the world, it leaves. *)
Lemma board_eth_test_input_ok argv w ret w' :
  Forall cstring argv -> input_ok w ->
  board_eth_test (Z.of_nat (length argv)) argv w = Ok (ret, w') ->
  input_ok w' /\
  plat_eth_get_dev (w_dev w') = plat_eth_get_dev (w_dev w) /\
  plat_mdio_get_current_dev (w_dev w') = plat_mdio_get_current_dev (w_dev w).
Proof.
  intros Hc (Hd & Htx & Hbus) Hrun. pose proof (board_eth_test_confined argv Hc) as Hm.
  assert (plat_mdio_get_current_dev (w_dev w') = plat_mdio_get_current_dev (w_dev w)) as Hb.
  { apply (confined_keeps _ _
             (fun d => plat_mdio_get_current_dev d = plat_mdio_get_current_dev (w_dev w))
             w ret w' Hm); [|done..]. intros c _. apply quiet_mdio_get_current_dev. }
  split; [split_and!|split; [|done]].
  - apply (confined_keeps _ _ buffers_ok w ret w' Hm); [|done..].
    intros c _. apply steady_buffers.
  - intros buf Hbuf.
    pose proof (confined_tx_holds _ _ _ _ w ret w' Hm (guards_buffers _) Hd) as Hh.
    specialize (Hh ltac:(intros b Hbw; specialize (Htx b Hbw); lia) Hrun buf Hbuf). lia.
  - by rewrite Hb.
  - apply (confined_keeps _ _ (fun d => plat_eth_get_dev d = plat_eth_get_dev (w_dev w))
             w ret w' Hm); [|done..]. intros c _. apply quiet_eth_get_dev.
Qed.

Lemma command_defined_lookups argv w w' :
  plat_eth_get_dev (w_dev w') = plat_eth_get_dev (w_dev w) ->
  plat_mdio_get_current_dev (w_dev w') = plat_mdio_get_current_dev (w_dev w) ->
  command_defined argv w' <-> command_defined argv w.
Proof. intros Hd Hb. unfold command_defined. by rewrite Hd, Hb. Qed.

Lemma run_session_defined cmds w :
  input_ok w -> Forall (Forall cstring) cmds ->
  Forall (fun argv => Z.of_nat (length argv) <= INT_MAX) cmds ->
  (Forall (fun argv => command_defined argv w) cmds -> is_Ok (run_session cmds w)) /\
  (~ Forall (fun argv => command_defined argv w) cmds -> run_session cmds w = UB).
Proof.
  revert w. induction cmds as [|argv cmds IH]; intros w Hw Hc Hmax.
  { split; [by eexists|]. by intros []. }
  apply Forall_cons in Hc as [Hc Hcs]. apply Forall_cons in Hmax as [Hmax Hmaxs].
  destruct (board_eth_test_defined argv w Hw Hc Hmax) as [Hok Hub]. cbn [run_session].
  rewrite run_bind. destruct (decide (command_defined argv w)) as [Hdef|Hdef].
  2:{ rewrite (Hub Hdef). split; [by intros [? _]%Forall_cons|done]. }
  destruct (Hok Hdef) as [[ret w1] Hrun]. rewrite Hrun.
  destruct (board_eth_test_input_ok argv w ret w1 Hc Hw Hrun) as (Hw1 & Hd1 & Hb1).
  destruct (IH w1 Hw1 Hcs Hmaxs) as [IHok IHub]. rewrite run_bind.
  assert (Forall (fun argv => command_defined argv w1) cmds <->
          Forall (fun argv => command_defined argv w) cmds) as Hiff.
  { apply Forall_iff. intros a. by apply command_defined_lookups. }
  split.
  - intros [_ Hrest%Hiff%IHok]%Forall_cons. destruct Hrest as [[rets w2] ->]. by eexists.
  - intros Hn. rewrite IHub; [done|]. rewrite Hiff. intros Hrest. apply Hn. by constructor.
Qed.

(** C23. The undefined behaviour of a session, exactly.  On a platform
    that keeps its buffers and its look-ups and hands out whole receive
    buffers, from a world with those buffers, a session of command lines
    that are C strings returns the exit codes of all its commands when
    each of them is defined in the world the session starts in, and is
    undefined otherwise: a test does not take away what the next command
    needs. *)
Theorem session_defined_iff cmds w :
  input_ok w -> Forall (Forall cstring) cmds ->
  Forall (fun argv => Z.of_nat (length argv) <= INT_MAX) cmds ->
  if decide (Forall (fun argv => command_defined argv w) cmds)
  then is_Ok (run_session cmds w)
  else run_session cmds w = UB.
Proof.
  intros Hw Hc Hmax. destruct (run_session_defined cmds w Hw Hc Hmax) as [Hok Hub].
  case_decide; auto.
Qed.

End Defined.


End Session.

(** ** On the simulated board *)

#[export] Instance sim_steady_buffers : SteadyBuffers sim.
Proof. intros c. sim_stable c. Qed.

Lemma session_defined_iff_witness :
  if decide (Forall (fun argv => command_defined argv board_world)
               [["rktest"; "eth"; "loopback"; "100"]; ["rktest"; "eth"; "help"]])
  then is_Ok (run_session [["rktest"; "eth"; "loopback"; "100"]; ["rktest"; "eth"; "help"]]
                board_world)
  else run_session [["rktest"; "eth"; "loopback"; "100"]; ["rktest"; "eth"; "help"]]
         board_world = UB.
Proof.
  apply (session_defined_iff [["rktest"; "eth"; "loopback"; "100"]; ["rktest"; "eth"; "help"]]
           board_world).
  - split; [by vm_compute|]. split; [done|]. intros bus [= <-]. by vm_compute.
  - by repeat constructor.
  - repeat constructor; by vm_compute.
Defined.

(** Without an MDIO bus the session ends at its first test. *)
Example session_without_bus :
  run_session [["rktest"; "eth"; "help"]; ["rktest"; "eth"; "loopback"; "100"];
               ["rktest"; "eth"; "help"]] (World board_no_bus [] None) = UB.
Proof. vm_compute. reflexivity. Qed.


(** [rktest eth loopback 100] and then [rktest eth loopback 10] on the
    board: the MAC is left at 100 Mbit/s, the PHY at 10. *)
Lemma test_at_10_after_100_witness :
  exists r1 w1 r2 w2,
    eth_loopback_test 100 0 board_world = Ok (r1, w1) /\
    eth_loopback_test 10 0 w1 = Ok (r2, w2) /\
    mac_speed (plat_readl (pdata_iobase board_dev) (w_dev w2)) = 100 /\
    bmcr_speed (plat_phy_read board_phy MDIO_DEVAD_NONE MII_BMCR (w_dev w2)) = Some 10.
Proof.
  eexists _, _, _, _. split; [vm_compute; reflexivity|]. split; [vm_compute; reflexivity|].
  eapply (test_at_10_after_100 0 0 board_world board_dev board_bus board_phy);
    [done|done|done|done|done|vm_compute; reflexivity|vm_compute; reflexivity].
Defined.

Lemma repeated_test_same_registers_witness :
  exists r1 w1 r2 w2,
    eth_loopback_test 1000 0 board_world = Ok (r1, w1) /\
    eth_loopback_test 1000 0 w1 = Ok (r2, w2) /\
    plat_readl (pdata_iobase board_dev) (w_dev w2) =
      plat_readl (pdata_iobase board_dev) (w_dev w1) /\
    plat_phy_read board_phy MDIO_DEVAD_NONE MII_BMCR (w_dev w2) =
      plat_phy_read board_phy MDIO_DEVAD_NONE MII_BMCR (w_dev w1).
Proof.
  eexists _, _, _, _. split; [vm_compute; reflexivity|]. split; [vm_compute; reflexivity|].
  eapply (repeated_test_same_registers 1000 0 0 board_world board_dev board_bus board_phy);
    [done|done|done|done|done|vm_compute; reflexivity|vm_compute; reflexivity].
Defined.

(** The same two tests typed at the prompt. *)
Example session_100_then_10 :
  (fun r => (mac_speed (plat_readl (pdata_iobase board_dev) (w_dev r.2)),
             bmcr_speed (sim_bmcr (w_dev r.2)))) <$>
    run_session [["rktest"; "eth"; "loopback"; "100"];
                 ["rktest"; "eth"; "loopback"; "10"]] board_world =
  Ok (100, Some 10).
Proof. vm_compute. reflexivity. Qed.
