(* ===== verification/Reset.v ===== *)
(** * A driver that resets the MAC

    What the registers hold when a test returns ([Footprint]) is proved
    on a platform whose registers only register writes change
    ([QuietRegisters]).  The code does not check this of its driver:
    [eth_setup_loopback_test] writes the MAC configuration register
    before [ethernet_init] calls [eth_init]
    ([src/test/rockchip/test-eth.c], lines 230-237), and nothing reads
    the register afterwards.  This file gives a second [Instance] of
    [Platform], the simulated board with a driver whose [eth_init] resets
    the MAC.  It is a register file, it keeps its buffers and its
    look-ups ([SteadyBuffers], [QuietLookups]), so that the theorems on
    footprints, definedness and sessions hold of it; its registers are
    not quiet, and on it the test probes with the MAC configuration the
    reset left, not the one the set-up wrote. *)

From Stdlib Require Import ZArith Lia Strings.Byte Strings.Ascii Strings.String.
From stdpp Require Import base option list strings gmap.
From S2P Require Import Prelude Cstring Frame Regs Hw Sim Logic Setup Runner Cli Footprint Safety Session.

#[local] Open Scope Z_scope.

(** The simulated board behind a driver that resets the MAC. *)
Record resetting := Resetting { the_board : sim }.

(** After a reset every MAC register reads 0. *)
Definition reset_mac (d : sim) : sim :=
  Sim (sim_dev d) (sim_bus d) ∅ (sim_phy d) (sim_tx_delay d) (sim_rx_delay d)
    (sim_window d) (sim_rx_ring d) (sim_recv_error d) (sim_init_ret d) (sim_clock d)
    (sim_ethaddr d) (sim_pkt_buf d) (sim_commands d).

#[export] Instance resetting_platform : Platform resetting := {|
  plat_eth_get_dev d := plat_eth_get_dev (the_board d);
  plat_mdio_get_current_dev d := plat_mdio_get_current_dev (the_board d);
  plat_readl a d := plat_readl a (the_board d);
  plat_writel v a d := Resetting (plat_writel v a (the_board d));
  plat_phy_read p devad r d := plat_phy_read p devad r (the_board d);
  plat_phy_write p devad r v d := Resetting (plat_phy_write p devad r v (the_board d));
  plat_gmac_set_rgmii dev tx rx d := Resetting (plat_gmac_set_rgmii dev tx rx (the_board d));
  plat_send pkt d := Resetting (plat_send pkt (the_board d));
  plat_recv dev flags d :=
    let r := plat_recv dev flags (the_board d) in (r.1.1, r.1.2, Resetting r.2);
  plat_free_pkt := Some (fun dev pkt len d => d);
  plat_net_init d := d;
  plat_net_pkt_buf d := plat_net_pkt_buf (the_board d);
  plat_net_ethaddr d := plat_net_ethaddr (the_board d);
  plat_eth_halt d := Resetting (plat_eth_halt (the_board d));
  plat_eth_set_current d := d;
  plat_eth_init d := (sim_init_ret (the_board d), Resetting (reset_mac (the_board d)));
  plat_udelay n d := Resetting (plat_udelay n (the_board d));
  plat_run_command cmd flag d :=
    let r := plat_run_command cmd flag (the_board d) in (r.1, Resetting r.2);
|}.

(** The tuned board behind the resetting driver. *)
Definition reset_world : world resetting := World (Resetting board_tuned) [] None.

(** ** The laws it has *)

#[export] Instance resetting_register_file : RegisterFile resetting.
Proof.
  split; intros; cbn.
  - by rewrite lookup_insert_eq.
  - by rewrite lookup_insert_eq.
  - done.
  - done.
Qed.

#[export] Instance resetting_rx_buffers : RxBuffers resetting.
Proof. split. intros dev flags [d]. apply (recv_buffer (D := sim)). Qed.

#[export] Instance resetting_quiet_lookups : QuietLookups resetting.
Proof. split; intros c; sim_stable c. Qed.

#[export] Instance resetting_steady_buffers : SteadyBuffers resetting.
Proof. intros c. sim_stable c. Qed.

(** ** The law it breaks *)

(** A MAC register that held a value other than 0 reads 0 after
    [eth_init]. *)
Lemma resetting_not_quiet : ~ QuietRegisters resetting.
Proof.
  intros Hq.
  pose proof (quiet_readl CEthInit 0xff540000 0x0000880c ltac:(done) ltac:(done)
                (Resetting board_tuned) ltac:(by vm_compute)) as Hr.
  by vm_compute in Hr.
Qed.

(** ** The test on it *)

(** [rktest eth loopback 1000]: the set-up writes 0x080c to the MAC
    configuration register; the test returns with the register at 0 and
    the BMCR as the set-up wrote it.  The frame was sent and received
    with the MAC the reset left. *)
Example reset_loses_mac_conf :
  setup_conf board_dev 1000 board_phy (Resetting board_tuned) = 0x080c /\
  (fun r => (r.1, plat_readl (pdata_iobase board_dev) (w_dev r.2),
             plat_phy_read board_phy MDIO_DEVAD_NONE MII_BMCR (w_dev r.2))) <$>
    board_eth_test 4 ["rktest"; "eth"; "loopback"; "1000"] reset_world =
  Ok (0, 0, setup_bmcr board_dev 1000 board_phy (Resetting board_tuned)).
Proof. split; vm_compute; reflexivity. Qed.

(** A session on it: two tests and the help, each defined. *)
Example reset_session :
  fst <$> run_session [["rktest"; "eth"; "loopback"; "100"]; ["rktest"; "eth"; "loopback"; "10"];
                       ["rktest"; "eth"; "help"]] reset_world = Ok [0; 0; 0].
Proof. vm_compute. reflexivity. Qed.

(** The footprint of the command does not depend on the driver: on this
    platform too the single shot leaves the delay lines alone. *)
Example reset_keeps_delay_lines :
  (fun r => (sim_tx_delay (the_board (w_dev r.2)), sim_rx_delay (the_board (w_dev r.2)))) <$>
    board_eth_test 4 ["rktest"; "eth"; "loopback"; "1000"] reset_world =
  Ok (sim_tx_delay board_tuned, sim_rx_delay board_tuned).
Proof. vm_compute. reflexivity. Qed.
